(** * NetOptimizer Pro: measurement and scoring core

    A shallow embedding of the Python modules [dns_analyzer], [cdn_tester],
    [global_ping], [network_scanner], [port_scanner],
    [recommendation_engine] and [service_architect], with the properties
    their specification states about them.

    Conventions of the embedding.
    - A Python [float] is an exact rational ([Q]); [int(x)] is truncation
      toward zero and [round] rounds half to even, both on the exact value.
      Numeric fields are compared with [==] ([Qeq]).
    - A network operation is replaced by its outcome, supplied by the
      environment: each probe takes the outcome of its one I/O exchange as
      an argument, and each runner takes an oracle giving the outcome of
      every probe it issues, in the order the loops issue them.
    - A Python exception that escapes a function is a value [Raise e] of
      the result type. *)

From Stdlib Require Import NArith ZArith QArith Qround Qabs Lqa List String Ascii
  Bool Lia
  Permutation DecimalString.
From Stdlib Require Strings.Byte.
From Equations Require Import Equations.
Import ListNotations.

Open Scope Q_scope.

(** ** Python numerics *)

Module Py.

(** [int(x)] on a float: truncation toward zero. *)
Definition int (x : Q) : Z := Z.quot (Qnum x) (Zpos (Qden x)).

(** [round(x)]: nearest integer, ties to the even neighbour. *)
Definition round (x : Q) : Z :=
  let f := Qfloor x in
  match Qcompare (x - inject_Z f) (1 # 2) with
  | Lt => f
  | Gt => (f + 1)%Z
  | Eq => if Z.even f then f else (f + 1)%Z
  end.

(** [round(x, 2)]: [x] to two decimals, as the fraction [k / 100]. *)
Definition round2 (x : Q) : Q := round (x * 100) # 100.

(** [str(n)] on a non-negative integer. *)
Definition str_nat (n : nat) : string :=
  NilEmpty.string_of_uint (Nat.to_uint n).
Definition str_N (n : N) : string :=
  NilEmpty.string_of_uint (N.to_uint n).

(** Exceptions that the modelled code can raise by itself. *)
Inductive exn : Type :=
  | IndexError
  | StructError
  | ZeroDivisionError
  | AttributeError
  | OSError (msg : string).

(** [str(e)]. *)
Definition str_exn (e : exn) : string :=
  match e with
  | IndexError => "index out of range"
  | StructError => "unpack requires a buffer of 2 bytes"
  | ZeroDivisionError => "division by zero"
  | AttributeError => "'NoneType' object has no attribute 'get'"
  | OSError msg => msg
  end%string.

Inductive result (A : Type) : Type :=
  | Ok (a : A)
  | Raise (e : exn).
Arguments Ok {A} a.
Arguments Raise {A} e.

Definition bind {A B} (m : result A) (k : A -> result B) : result B :=
  match m with
  | Ok a => k a
  | Raise e => Raise e
  end.

(** [try: body except Exception as e: handler(e)]. *)
Definition try_except {A} (body : result A) (handler : exn -> A) : A :=
  match body with
  | Ok a => a
  | Raise e => handler e
  end.

(** [float("inf")] next to the finite floats. *)
Inductive xfloat : Type :=
  | Finite (q : Q)
  | Infinity.

(** The two-argument builtins [min(a, b)] and [max(a, b)]: the second
    argument only when it is strictly better. *)
Definition Qltb (a b : Q) : bool := negb (Qle_bool b a).
Definition min2 (a b : Q) : Q := if Qltb b a then b else a.
Definition max2 (a b : Q) : Q := if Qltb a b then b else a.

Definition xmin2 (a : xfloat) (b : Q) : xfloat :=
  match a with
  | Finite q => Finite (min2 q b)
  | Infinity => Finite b
  end.

Definition xround2 (a : xfloat) : xfloat :=
  match a with
  | Finite q => Finite (round2 q)
  | Infinity => Infinity
  end.

(** [x == v] for a possibly infinite [x] and a finite [v]. *)
Definition xeq (a : xfloat) (v : Q) : Prop :=
  match a with
  | Finite q => q == v
  | Infinity => False
  end.

(** [a / b] on floats. *)
Definition div (a b : Q) : result Q :=
  if Qeq_bool b 0 then Raise ZeroDivisionError else Ok (a / b).

(** Values, for the dicts a runner hands back under their string keys. *)
#[warnings="-register-all"]
Inductive value : Type :=
  | VNone
  | VBool (b : bool)
  | VInt (z : Z)
  | VFloat (x : xfloat)
  | VStr (s : string)
  | VList (l : list value)
  | VDict (d : list (string * value)).

Definition VNum (q : Q) : value := VFloat (Finite q).
Definition VOpt {A} (f : A -> value) (o : option A) : value :=
  match o with
  | Some a => f a
  | None => VNone
  end.
Definition VStrs (l : list string) : value := VList (map VStr l).

(** What a dict holds under a key that should lead to another dict: no such
    key, [None], the empty dict, or a dict with entries. *)
Inductive slot (A : Type) : Type :=
  | Missing
  | NoneValue
  | EmptyDict
  | Filled (a : A).
Arguments Missing {A}.
Arguments NoneValue {A}.
Arguments EmptyDict {A}.
Arguments Filled {A} a.

(** [d.get(k, default)] on a field that may be absent. *)
Definition get_or {A} (o : option A) (default : A) : A :=
  match o with
  | Some a => a
  | None => default
  end.

(** [sum(l)], and [min(l)], [max(l)] on the non-empty list [x :: l]. *)
Definition sum (l : list Q) : Q := fold_left Qplus l 0.
Definition min_list (x : Q) (l : list Q) : Q := fold_left min2 l x.
Definition max_list (x : Q) (l : list Q) : Q := fold_left max2 l x.

(** [sum(l) / len(l)]. *)
Definition mean (l : list Q) : Q := sum l / inject_Z (Z.of_nat (List.length l)).

(** [sorted(l, key=...)]: stable; [before x y] says that [x], met first,
    may stay in front of [y]. *)
Fixpoint insert_stable {A} (before : A -> A -> bool) (x : A) (l : list A)
  : list A :=
  match l with
  | [] => [x]
  | y :: rest =>
      if before x y then x :: l else y :: insert_stable before x rest
  end.

Definition sorted {A} (before : A -> A -> bool) (l : list A) : list A :=
  fold_right (insert_stable before) [] l.

End Py.

Notation "x <- m ;; k" := (Py.bind m (fun x => k))
  (at level 61, m at next level, right associativity).

(** ** Dicts with string keys, in insertion order *)

Module Dict.

Definition t (V : Type) : Type := list (string * V).

Section Ops.
Context {V : Type}.

(** [d.get(k)]. *)
Fixpoint get (k : string) (d : t V) : option V :=
  match d with
  | [] => None
  | (k', v) :: rest => if String.eqb k k' then Some v else get k rest
  end.

(** [d[k] = v]: in place for a known key, at the end for a new one. *)
Fixpoint set (k : string) (v : V) (d : t V) : t V :=
  match d with
  | [] => [(k, v)]
  | (k', v') :: rest =>
      if String.eqb k k' then (k, v) :: rest else (k', v') :: set k v rest
  end.

Definition keys (d : t V) : list string := map fst d.

End Ops.

End Dict.

(** ** Step functions of the average latency *)

(** A band table [(threshold, score)] read top-down: the score of the first
    band whose threshold is not exceeded, else the floor score. *)
Fixpoint step_score (bands : list (Q * Z)) (floor_score : Z) (x : Q) : Z :=
  match bands with
  | [] => floor_score
  | (t, s) :: rest => if Qle_bool x t then s else step_score rest floor_score x
  end.

Definition dns_bands : list (Q * Z) :=
  [(10, 100%Z); (25, 90%Z); (50, 75%Z); (100, 60%Z); (200, 40%Z)].
Definition cdn_bands : list (Q * Z) :=
  [(50, 100%Z); (100, 90%Z); (200, 75%Z); (500, 50%Z); (1000, 30%Z)].

Definition dns_time_score : Q -> Z := step_score dns_bands 20.
Definition cdn_time_score : Q -> Z := step_score cdn_bands 10.

(** Scores do not increase down the table and end above the floor. *)
Fixpoint bands_descend (bands : list (Q * Z)) (floor_score : Z) : bool :=
  match bands with
  | [] => true
  | (_, s) :: rest =>
      Z.leb (match rest with [] => floor_score | (_, s') :: _ => s' end) s
      && bands_descend rest floor_score
  end.

(** ** DNS wire format: the response parser *)

Module DNSWire.

Definition bytes := list Byte.byte.

(** [response[pos]]: the byte as an integer, [IndexError] past the end. *)
Definition index (response : bytes) (pos : nat) : Py.result N :=
  match nth_error response pos with
  | Some b => Py.Ok (Byte.to_N b)
  | None => Py.Raise Py.IndexError
  end.

(** [response[lo:hi]]: slicing never raises, it clips. *)
Definition slice (response : bytes) (lo hi : nat) : bytes :=
  firstn (hi - lo) (skipn lo response).

(** [struct.unpack(">H", s)[0]]: exactly two bytes, big endian. *)
Definition unpack_H (s : bytes) : Py.result N :=
  match s with
  | [hi; lo] => Py.Ok (Byte.to_N hi * 256 + Byte.to_N lo)%N
  | _ => Py.Raise Py.StructError
  end.

(** [while response[pos] != 0: pos += 1], on the bytes from [pos] on: the
    position of the first zero byte, [IndexError] when there is none. *)
Fixpoint scan_zero (suffix : bytes) (pos : nat) : Py.result nat :=
  match suffix with
  | [] => Py.Raise Py.IndexError
  | b :: rest =>
      if (Byte.to_N b =? 0)%N then Py.Ok pos else scan_zero rest (S pos)
  end.

Definition skip_to_zero (response : bytes) (pos : nat) : Py.result nat :=
  scan_zero (skipn pos response) pos.

(** [".".join(str(b) for b in s)]. *)
Definition dotted (s : bytes) : string :=
  String.concat "." (map (fun b => Py.str_N (Byte.to_N b)) s).

(** One pass through the body of the answer loop, entered with
    [pos < len(response)]: either the function returns ([inl]) or the loop
    goes on from a later position ([inr]). *)
Definition answer_step (response : bytes) (pos : nat)
  : Py.result (string + nat) :=
  b <- index response pos ;;
  pos1 <- (if (192 <=? b)%N then Py.Ok (pos + 2)%nat
           else z <- skip_to_zero response pos ;; Py.Ok (z + 1)%nat) ;;
  rtype <- unpack_H (slice response pos1 (pos1 + 2)) ;;
  let pos2 := (pos1 + 8)%nat in
  rdlength <- unpack_H (slice response pos2 (pos2 + 2)) ;;
  let pos3 := (pos2 + 2)%nat in
  if ((rtype =? 1) && (rdlength =? 4))%N
  then Py.Ok (inl (dotted (slice response pos3 (pos3 + 4))))
  else Py.Ok (inr (pos3 + N.to_nat rdlength)%nat).

Lemma scan_zero_ge (suffix : bytes) (pos z : nat) :
  scan_zero suffix pos = Py.Ok z -> (pos <= z)%nat.
Proof.
  revert pos; induction suffix as [|b rest IH]; intros pos; simpl.
  - discriminate.
  - destruct (Byte.to_N b =? 0)%N.
    + intros [= <-]; lia.
    + intros H; apply IH in H; lia.
Qed.

Lemma answer_step_advances (response : bytes) (pos pos' : nat) :
  answer_step response pos = Py.Ok (inr pos') -> (pos < pos')%nat.
Proof.
  unfold answer_step, Py.bind.
  destruct (index response pos) as [b|e]; [|discriminate].
  assert (Hp : forall p1 : nat,
    (if (192 <=? b)%N then Py.Ok (pos + 2)%nat
     else match skip_to_zero response pos with
          | Py.Ok z => Py.Ok (z + 1)%nat
          | Py.Raise e => Py.Raise e
          end) = Py.Ok p1 -> (pos < p1)%nat).
  { intros p1. destruct (192 <=? b)%N.
    - intros [= <-]; lia.
    - unfold skip_to_zero.
      destruct (scan_zero (skipn pos response) pos) as [z|e] eqn:Hz;
        [|discriminate].
      apply scan_zero_ge in Hz. intros [= <-]; lia. }
  destruct (if (192 <=? b)%N then _ else _) as [p1|e]; [|discriminate].
  specialize (Hp p1 eq_refl).
  destruct (unpack_H _) as [rtype|e]; [|discriminate].
  destruct (unpack_H _) as [rdlength|e]; [|discriminate].
  destruct ((rtype =? 1) && (rdlength =? 4))%N; [discriminate|].
  intros [= <-]; lia.
Qed.

Definition inspect {A : Type} (x : A) : {y : A | x = y} := exist _ x eq_refl.

(** [while pos < len(response): ...]: the answer loop.  Every pass moves
    [pos] forward, so the walk ends. *)
Equations? walk_answers (response : bytes) (pos : nat) : Py.result string
  by wf (List.length response - pos)%nat lt :=
  walk_answers response pos with le_lt_dec (List.length response) pos := {
    | left _ => Py.Ok EmptyString
    | right Hlt with inspect (answer_step response pos) := {
        | exist _ (Py.Raise e) _ => Py.Raise e
        | exist _ (Py.Ok (inl ip)) _ => Py.Ok ip
        | exist _ (Py.Ok (inr pos')) Heq => walk_answers response pos' } }.
Proof.
  apply answer_step_advances in Heq. lia.
Qed.

(** [DNSAnalyzer._parse_dns_response]. *)
Definition _parse_dns_response (response : bytes) : Py.result string :=
  z <- skip_to_zero response 12 ;;
  walk_answers response (z + 5).

End DNSWire.

(** ** The DNS analyzer: probe and benchmark runner *)

Module DNSAnalyzer.

Import DNSWire.

Record server_info : Type := {
  primary : string;
  secondary : string;
  info_category : string;
  info_privacy : string;
  info_features : list string
}.

Definition DNS_SERVERS : Dict.t server_info := [
  ("Cloudflare", Build_server_info "1.1.1.1" "1.0.0.1" "public" "high"
     ["DoH"; "DoT"; "DNSSEC"]);
  ("Google", Build_server_info "8.8.8.8" "8.8.4.4" "public" "medium"
     ["DoH"; "DoT"; "DNSSEC"]);
  ("Quad9", Build_server_info "9.9.9.9" "149.112.112.112" "security" "high"
     ["DoH"; "DoT"; "DNSSEC"; "Malware Blocking"]);
  ("OpenDNS", Build_server_info "208.67.222.222" "208.67.220.220" "public"
     "medium" ["DNSSEC"; "Content Filtering"]);
  ("Cloudflare Malware", Build_server_info "1.1.1.2" "1.0.0.2" "security"
     "high" ["DoH"; "DoT"; "Malware Blocking"]);
  ("Cloudflare Family", Build_server_info "1.1.1.3" "1.0.0.3" "family" "high"
     ["DoH"; "DoT"; "Adult Content Blocking"]);
  ("AdGuard", Build_server_info "94.140.14.14" "94.140.15.15" "adblock" "high"
     ["DoH"; "DoT"; "Ad Blocking"]);
  ("AdGuard Family", Build_server_info "94.140.14.15" "94.140.15.16" "family"
     "high" ["DoH"; "DoT"; "Ad + Adult Blocking"]);
  ("CleanBrowsing Security", Build_server_info "185.228.168.9"
     "185.228.169.9" "security" "high" ["DoH"; "DoT"; "Malware Blocking"]);
  ("CleanBrowsing Family", Build_server_info "185.228.168.168"
     "185.228.169.168" "family" "high"
     ["DoH"; "DoT"; "Adult + Malware Blocking"]);
  ("NextDNS", Build_server_info "45.90.28.0" "45.90.30.0" "privacy" "high"
     ["DoH"; "DoT"; "Customizable"]);
  ("Control D", Build_server_info "76.76.2.0" "76.76.10.0" "privacy" "high"
     ["DoH"; "DoT"; "Customizable"])
]%string.

(** [DNSAnalyzer._calculate_reliability]. *)
Definition _calculate_reliability (avg_time success_rate : Q) : Z :=
  if Qeq_bool success_rate 0 then 0%Z
  else
    let time_score :=
      if Qle_bool avg_time 10 then 100
      else if Qle_bool avg_time 25 then 90
      else if Qle_bool avg_time 50 then 75
      else if Qle_bool avg_time 100 then 60
      else if Qle_bool avg_time 200 then 40
      else 20 in
    Py.int (success_rate * 0.6 + time_score * 0.4).

Definition TEST_DOMAINS : list string :=
  ["google.com"; "cloudflare.com"; "github.com"; "microsoft.com"; "apple.com";
   "amazon.com"; "facebook.com"; "twitter.com"; "netflix.com"; "youtube.com"
  ]%string.

(** What the UDP exchange of [_resolve_dns] comes to: the datagram read by
    [recvfrom], or the exception raised before one is in hand (packing the
    query, sending, the socket's own timeout). *)
Inductive exchange : Type :=
  | Received (response : bytes)
  | ExchangeFailed (e : Py.exn).

(** The dict returned by [_resolve_dns]; a [None] field is an absent key. *)
Record resolved : Type := {
  res_success : bool;
  res_ip : option string;
  res_error : option string
}.

(** [DNSAnalyzer._resolve_dns]. *)
Definition _resolve_dns (x : exchange) : resolved :=
  Py.try_except
    (response <- match x with
                 | Received response => Py.Ok response
                 | ExchangeFailed e => Py.Raise e
                 end ;;
     ip <- _parse_dns_response response ;;
     Py.Ok {| res_success := true; res_ip := Some ip; res_error := None |})
    (fun e => {| res_success := false; res_ip := None;
                 res_error := Some (Py.str_exn e) |}).

(** What [asyncio.wait_for] around the resolver comes to: it finished after
    [response_time] milliseconds, it ran into the timeout, or something
    else was raised. *)
Inductive awaited : Type :=
  | Finished (x : exchange) (response_time : Q)
  | TimedOut
  | Crashed (e : Py.exn).

Record probe_result : Type := {
  success : bool;
  response_time_ms : Q;
  resolved_ip : string;
  error : option string
}.

(** [DNSAnalyzer.test_dns_server]; [timeout] is in seconds. *)
Definition test_dns_server (o : awaited) (timeout : Q) : probe_result :=
  match o with
  | Finished x response_time =>
      let result := _resolve_dns x in
      {| success := res_success result;
         response_time_ms := Py.round2 response_time;
         resolved_ip := match res_ip result with Some ip => ip | None => EmptyString end;
         error := res_error result |}
  | TimedOut =>
      {| success := false; response_time_ms := timeout * 1000;
         resolved_ip := EmptyString; error := Some "Timeout"%string |}
  | Crashed e =>
      {| success := false; response_time_ms := 0;
         resolved_ip := EmptyString; error := Some (Py.str_exn e) |}
  end.

(** The entry of one server in the report. *)
Record server_results : Type := {
  ip : string;
  tests : list (string * probe_result);
  avg_response_time : Q;
  success_rate : Q;
  min_time : Py.xfloat;
  max_time : Q;
  reliability_score : Z;
  category : option string;
  privacy : option string;
  features : option (list string)
}.

(** The variables of the sampling loops. *)
Record sampling : Type := {
  s_tests : list (string * probe_result);
  s_all_times : list Q;
  s_successful : nat;
  s_min_time : Py.xfloat;
  s_max_time : Q
}.

Definition sampling_start : sampling :=
  {| s_tests := []; s_all_times := []; s_successful := 0%nat;
     s_min_time := Py.Infinity; s_max_time := 0 |}.

(** The body of the inner loop, after the probe has returned [result]. *)
Definition record_sample (domain : string) (result : probe_result)
    (s : sampling) : sampling :=
  let tests' := s_tests s ++ [(domain, result)] in
  if success result then
    let time_ms := response_time_ms result in
    {| s_tests := tests';
       s_all_times := s_all_times s ++ [time_ms];
       s_successful := S (s_successful s);
       s_min_time := Py.xmin2 (s_min_time s) time_ms;
       s_max_time := Py.max2 (s_max_time s) time_ms |}
  else
    {| s_tests := tests';
       s_all_times := s_all_times s;
       s_successful := s_successful s;
       s_min_time := s_min_time s;
       s_max_time := s_max_time s |}.

(** The environment of a benchmark: the outcome of the probe issued for a
    server, at the position of a domain in the list, in an iteration. *)
Definition oracle : Type := string -> nat -> nat -> awaited.

(** [for domain in domains: for _ in range(iterations): ...]; the probe
    runs with its default timeout of 5 seconds. *)
Definition sample_server (probe : oracle) (server_name : string)
    (domains : list string) (iterations : Z) : sampling :=
  fold_left
    (fun s '(d, domain) =>
       fold_left
         (fun s i =>
            record_sample domain
              (test_dns_server (probe server_name d i) 5) s)
         (seq 0 (Z.to_nat iterations)) s)
    (combine (seq 0 (List.length domains)) domains)
    sampling_start.

(** The rest of the loop body of [benchmark] for one server, after the
    sampling loops: rates, rounding, score, catalog tags. *)
Definition summarize (server_name server_ip : string)
    (domains : list string) (iterations : Z) (s : sampling)
  : Py.result server_results :=
  let total_tests := (Z.of_nat (List.length domains) * iterations)%Z in
  if (total_tests =? 0)%Z then Py.Raise Py.ZeroDivisionError
  else
    let success_rate :=
      Py.round2
        (inject_Z (Z.of_nat (s_successful s)) / inject_Z total_tests * 100) in
    let avg_response_time :=
      match s_all_times s with
      | [] => 0
      | _ :: _ => Py.round2 (Py.mean (s_all_times s))
      end in
    let min_time :=
      match s_all_times s with
      | [] => Py.Finite 0
      | _ :: _ => Py.xround2 (s_min_time s)
      end in
    let max_time :=
      match s_all_times s with
      | [] => s_max_time s
      | _ :: _ => Py.round2 (s_max_time s)
      end in
    let info := Dict.get server_name DNS_SERVERS in
    Py.Ok
      {| ip := server_ip;
         tests := s_tests s;
         avg_response_time := avg_response_time;
         success_rate := success_rate;
         min_time := min_time;
         max_time := max_time;
         reliability_score :=
           _calculate_reliability avg_response_time success_rate;
         category := option_map info_category info;
         privacy := option_map info_privacy info;
         features := option_map info_features info |}.

Definition benchmark_server (probe : oracle) (server_name server_ip : string)
    (domains : list string) (iterations : Z) : Py.result server_results :=
  summarize server_name server_ip domains iterations
    (sample_server probe server_name domains iterations).

(** The dict [servers_to_test]: the catalog, then [Custom_1], [Custom_2],
    ... for the caller's servers. *)
Definition servers_to_test (custom_servers : option (list string))
  : Dict.t string :=
  let catalog :=
    fold_left (fun d '(name, info) => Dict.set name (primary info) d)
      DNS_SERVERS [] in
  match custom_servers with
  | None | Some [] => catalog
  | Some l =>
      fold_left
        (fun d '(i, server) =>
           Dict.set ("Custom_" ++ Py.str_nat (i + 1)) server d)
        (combine (seq 0 (List.length l)) l) catalog
  end.

Record report : Type := {
  servers : Dict.t server_results;
  best_server : option (string * option server_results);
  total_tested : nat;
  test_domains : list string;
  iterations : Z
}.

Definition by_reliability (x y : string * server_results) : bool :=
  (reliability_score (snd y) <=? reliability_score (snd x))%Z.

(** [for server_name, server_ip in servers_to_test.items(): ...], filling
    the dict [results]; the first exception ends the run. *)
Definition run_servers (probe : oracle) (domains : list string)
    (iterations : Z) (servers : Dict.t string)
    (results : Py.result (Dict.t server_results))
  : Py.result (Dict.t server_results) :=
  fold_left
    (fun acc '(server_name, server_ip) =>
       results <- acc ;;
       entry <- benchmark_server probe server_name server_ip
                  domains iterations ;;
       Py.Ok (Dict.set server_name entry results))
    servers results.

(** [test_domains or TEST_DOMAINS[:5]]. *)
Definition domains_or_default (test_domains : option (list string))
  : list string :=
  match test_domains with
  | None | Some [] => firstn 5 TEST_DOMAINS
  | Some l => l
  end.

(** [DNSAnalyzer.benchmark]. *)
Definition benchmark (probe : oracle) (custom_servers : option (list string))
    (test_domains : option (list string)) (iterations : Z)
  : Py.result report :=
  let domains := domains_or_default test_domains in
  results <- run_servers probe domains iterations
               (servers_to_test custom_servers) (Py.Ok []) ;;
  let sorted_results := Py.sorted by_reliability results in
  let best_server :=
    match Dict.keys sorted_results with
    | [] => None
    | k :: _ => Some k
    end in
  Py.Ok
    {| servers := sorted_results;
       best_server :=
         match best_server with
         | None => None
         | Some name =>
             if String.eqb name EmptyString then None
             else Some (name, Dict.get name sorted_results)
         end;
       total_tested := List.length sorted_results;
       test_domains := domains;
       iterations := iterations |}.

End DNSAnalyzer.

(** ** The CDN tester: probe and benchmark runner *)

Module CDNTester.

Record provider_info : Type := {
  test_url : string;
  info_description : string;
  info_features : list string
}.

Definition CDN_PROVIDERS : Dict.t provider_info := [
  ("Cloudflare",
   Build_provider_info
     "https://www.cloudflare.com/cdn-cgi/trace"
     "Global CDN with DDoS protection"
     ["DDoS Protection"; "WAF"; "Edge Computing"; "Free Tier"]);
  ("Fastly",
   Build_provider_info
     "https://www.fastly.com"
     "Real-time CDN"
     ["Edge Computing"; "Real-time Logs"; "Image Optimization"]);
  ("Akamai",
   Build_provider_info
     "https://www.akamai.com"
     "Enterprise CDN"
     ["Enterprise Security"; "Media Delivery"; "Edge Platform"]);
  ("Amazon CloudFront",
   Build_provider_info
     "https://d1.awsstatic.com/logos/aws-logo-lockups/poweredbyaws/PB_AWS_logo_RGB_REV_SQ.8c88ac215fe4e441dc42865dd6962ed4f444a90d.png"
     "AWS CDN"
     ["Lambda@Edge"; "AWS Integration"; "Global Network"]);
  ("Google Cloud CDN",
   Build_provider_info
     "https://www.gstatic.com/images/branding/googlelogo/2x/googlelogo_color_272x92dp.png"
     "GCP CDN"
     ["GCP Integration"; "Anycast"; "HTTP/2"]);
  ("Microsoft Azure CDN",
   Build_provider_info
     "https://azure.microsoft.com/favicon.ico"
     "Azure CDN"
     ["Azure Integration"; "Rules Engine"; "Analytics"]);
  ("BunnyCDN",
   Build_provider_info
     "https://bunny.net"
     "Affordable CDN"
     ["Low Cost"; "Storage"; "Stream"]);
  ("KeyCDN",
   Build_provider_info
     "https://www.keycdn.com"
     "Developer-friendly CDN"
     ["HTTP/2"; "Let's Encrypt"; "Real-time Analytics"]);
  ("StackPath",
   Build_provider_info
     "https://www.stackpath.com"
     "Edge computing CDN"
     ["Edge Computing"; "WAF"; "DDoS"]);
  ("Imperva (Incapsula)",
   Build_provider_info
     "https://www.imperva.com"
     "Security-focused CDN"
     ["Bot Management"; "WAF"; "DDoS Protection"]);
  ("jsDelivr",
   Build_provider_info
     "https://cdn.jsdelivr.net/npm/jquery@3.6.0/dist/jquery.min.js"
     "Free CDN for open source"
     ["npm/GitHub Integration"; "Free"; "Fast"]);
  ("cdnjs",
   Build_provider_info
     "https://cdnjs.cloudflare.com/ajax/libs/jquery/3.6.0/jquery.min.js"
     "Free library CDN"
     ["Cloudflare Powered"; "Free"; "Libraries"])
]%string.

(** [CDNTester._calculate_score]. *)
Definition _calculate_score (avg_time success_rate : Q) : Z :=
  if Qeq_bool success_rate 0 then 0%Z
  else
    let time_score :=
      if Qle_bool avg_time 50 then 100
      else if Qle_bool avg_time 100 then 90
      else if Qle_bool avg_time 200 then 75
      else if Qle_bool avg_time 500 then 50
      else if Qle_bool avg_time 1000 then 30
      else 10 in
    Py.int (success_rate * 0.6 + time_score * 0.4).

(** What the HTTP GET of [test_cdn] comes to: a response that was read in
    full (whatever its status), the client's timeout, or another error. *)
Inductive fetched : Type :=
  | Responded (status : Z) (response_time : Q) (body_length : nat)
      (response_headers : Dict.t string)
  | TimedOut
  | Crashed (e : Py.exn).

Record probe_result : Type := {
  success : bool;
  status_code : Z;
  response_time_ms : Q;
  content_length : nat;
  cdn_header : option string;
  headers : Dict.t string;
  error : option string
}.

(** The first of the known CDN headers that the response carries. *)
Definition find_cdn_header (headers : Dict.t string) : option string :=
  match
    find (fun header => match Dict.get header headers with
                        | Some _ => true
                        | None => false
                        end)
      ["cf-ray"; "x-cache"; "x-cdn"; "x-served-by"; "x-amz-cf-id"]%string
  with
  | Some header =>
      match Dict.get header headers with
      | Some v => Some (header ++ ": " ++ v)%string
      | None => None
      end
  | None => None
  end.

(** [CDNTester.test_cdn]; [self_timeout] is the tester's [timeout]. *)
Definition test_cdn (self_timeout : Q) (o : fetched) : probe_result :=
  match o with
  | Responded status response_time body_length response_headers =>
      {| success := true;
         status_code := status;
         response_time_ms := Py.round2 response_time;
         content_length := body_length;
         cdn_header := find_cdn_header response_headers;
         headers := firstn 10 response_headers;
         error := None |}
  | TimedOut =>
      {| success := false; status_code := 0%Z;
         response_time_ms := self_timeout * 1000; content_length := 0%nat;
         cdn_header := None; headers := []; error := Some "Timeout"%string |}
  | Crashed e =>
      {| success := false; status_code := 0%Z;
         response_time_ms := 0; content_length := 0%nat;
         cdn_header := None; headers := []; error := Some (Py.str_exn e) |}
  end.

(** The entry of one provider in the report. *)
Record cdn_results : Type := {
  url : string;
  description : string;
  features : list string;
  tests : list probe_result;
  avg_response_time : Q;
  min_time : Py.xfloat;
  max_time : Q;
  success_rate : Q;
  score : Z
}.

Record sampling : Type := {
  s_tests : list probe_result;
  s_all_times : list Q;
  s_successful : nat;
  s_min_time : Py.xfloat;
  s_max_time : Q
}.

Definition sampling_start : sampling :=
  {| s_tests := []; s_all_times := []; s_successful := 0%nat;
     s_min_time := Py.Infinity; s_max_time := 0 |}.

(** The body of the iteration loop, after the probe has returned. *)
Definition record_sample (result : probe_result) (s : sampling) : sampling :=
  let tests' := s_tests s ++ [result] in
  if success result && (status_code result <? 400)%Z then
    let time_ms := response_time_ms result in
    {| s_tests := tests';
       s_all_times := s_all_times s ++ [time_ms];
       s_successful := S (s_successful s);
       s_min_time := Py.xmin2 (s_min_time s) time_ms;
       s_max_time := Py.max2 (s_max_time s) time_ms |}
  else
    {| s_tests := tests';
       s_all_times := s_all_times s;
       s_successful := s_successful s;
       s_min_time := s_min_time s;
       s_max_time := s_max_time s |}.

(** The outcome of the GET issued for a provider in an iteration. *)
Definition oracle : Type := string -> nat -> fetched.

Definition sample_provider (self_timeout : Q) (probe : oracle)
    (cdn_name : string) (iterations : Z) : sampling :=
  fold_left
    (fun s i => record_sample (test_cdn self_timeout (probe cdn_name i)) s)
    (seq 0 (Z.to_nat iterations)) sampling_start.

Definition summarize (cdn_info : provider_info) (iterations : Z)
    (s : sampling) : Py.result cdn_results :=
  rate <- Py.div (inject_Z (Z.of_nat (s_successful s))) (inject_Z iterations) ;;
  let success_rate := Py.round2 (rate * 100) in
  let avg_response_time :=
    match s_all_times s with
    | [] => 0
    | _ :: _ => Py.round2 (Py.mean (s_all_times s))
    end in
  let min_time :=
    match s_all_times s with
    | [] => Py.Finite 0
    | _ :: _ => Py.xround2 (s_min_time s)
    end in
  let max_time :=
    match s_all_times s with
    | [] => s_max_time s
    | _ :: _ => Py.round2 (s_max_time s)
    end in
  Py.Ok
    {| url := test_url cdn_info;
       description := info_description cdn_info;
       features := info_features cdn_info;
       tests := s_tests s;
       avg_response_time := avg_response_time;
       min_time := min_time;
       max_time := max_time;
       success_rate := success_rate;
       score := _calculate_score avg_response_time success_rate |}.

Definition benchmark_provider (self_timeout : Q) (probe : oracle)
    (cdn_name : string) (cdn_info : provider_info) (iterations : Z)
  : Py.result cdn_results :=
  summarize cdn_info iterations
    (sample_provider self_timeout probe cdn_name iterations).

Record report : Type := {
  providers : Dict.t cdn_results;
  best_cdn : option (string * option cdn_results);
  total_tested : nat;
  iterations : Z
}.

Definition by_score (x y : string * cdn_results) : bool :=
  (score (snd y) <=? score (snd x))%Z.

(** [for cdn_name, cdn_info in CDN_PROVIDERS.items(): ...], filling the
    dict [results]; the first exception ends the run. *)
Definition run_providers (self_timeout : Q) (probe : oracle) (iterations : Z)
    (catalog : Dict.t provider_info)
    (results : Py.result (Dict.t cdn_results))
  : Py.result (Dict.t cdn_results) :=
  fold_left
    (fun acc '(cdn_name, cdn_info) =>
       results <- acc ;;
       entry <- benchmark_provider self_timeout probe cdn_name cdn_info
                  iterations ;;
       Py.Ok (Dict.set cdn_name entry results))
    catalog results.

(** [CDNTester.benchmark]. *)
Definition benchmark (self_timeout : Q) (probe : oracle) (iterations : Z)
  : Py.result report :=
  results <- run_providers self_timeout probe iterations CDN_PROVIDERS
               (Py.Ok []) ;;
  let sorted_results := Py.sorted by_score results in
  let best_cdn :=
    match Dict.keys sorted_results with
    | [] => None
    | k :: _ => Some k
    end in
  Py.Ok
    {| providers := sorted_results;
       best_cdn :=
         match best_cdn with
         | None => None
         | Some name =>
             if String.eqb name EmptyString then None
             else Some (name, Dict.get name sorted_results)
         end;
       total_tested := List.length sorted_results;
       iterations := iterations |}.

(** The dicts as the source builds them, key by key. *)
Definition probe_dict (r : probe_result) : Py.value :=
  Py.VDict [
    ("success", Py.VBool (success r));
    ("status_code", Py.VInt (status_code r));
    ("response_time_ms", Py.VNum (response_time_ms r));
    ("content_length", Py.VInt (Z.of_nat (content_length r)));
    ("cdn_header", Py.VOpt Py.VStr (cdn_header r));
    ("headers", Py.VDict (map (fun '(k, v) => (k, Py.VStr v)) (headers r)));
    ("error", Py.VOpt Py.VStr (error r))
  ]%string.

Definition entry_dict (e : cdn_results) : Dict.t Py.value := [
  ("url", Py.VStr (url e));
  ("description", Py.VStr (description e));
  ("features", Py.VStrs (features e));
  ("tests", Py.VList (map probe_dict (tests e)));
  ("avg_response_time", Py.VNum (avg_response_time e));
  ("min_time", Py.VFloat (min_time e));
  ("max_time", Py.VNum (max_time e));
  ("success_rate", Py.VNum (success_rate e));
  ("score", Py.VInt (score e))
]%string.

End CDNTester.

(** ** The region tester *)

Module GlobalPingTester.

Record endpoint : Type := {
  host : string;
  region : string;
  provider : string;
  location : string
}.

Definition GLOBAL_ENDPOINTS : Dict.t endpoint := [
  ("US East (Virginia)",
   Build_endpoint "ec2.us-east-1.amazonaws.com" "us-east-1"
     "AWS" "Virginia, USA");
  ("US West (Oregon)",
   Build_endpoint "ec2.us-west-2.amazonaws.com" "us-west-2"
     "AWS" "Oregon, USA");
  ("US West (California)",
   Build_endpoint "ec2.us-west-1.amazonaws.com" "us-west-1"
     "AWS" "California, USA");
  ("Europe (Frankfurt)",
   Build_endpoint "ec2.eu-central-1.amazonaws.com" "eu-central-1"
     "AWS" "Frankfurt, Germany");
  ("Europe (Ireland)",
   Build_endpoint "ec2.eu-west-1.amazonaws.com" "eu-west-1"
     "AWS" "Dublin, Ireland");
  ("Europe (London)",
   Build_endpoint "ec2.eu-west-2.amazonaws.com" "eu-west-2"
     "AWS" "London, UK");
  ("Asia Pacific (Singapore)",
   Build_endpoint "ec2.ap-southeast-1.amazonaws.com" "ap-southeast-1"
     "AWS" "Singapore");
  ("Asia Pacific (Tokyo)",
   Build_endpoint "ec2.ap-northeast-1.amazonaws.com" "ap-northeast-1"
     "AWS" "Tokyo, Japan");
  ("Asia Pacific (Sydney)",
   Build_endpoint "ec2.ap-southeast-2.amazonaws.com" "ap-southeast-2"
     "AWS" "Sydney, Australia");
  ("Asia Pacific (Mumbai)",
   Build_endpoint "ec2.ap-south-1.amazonaws.com" "ap-south-1"
     "AWS" "Mumbai, India");
  ("Asia Pacific (Seoul)",
   Build_endpoint "ec2.ap-northeast-2.amazonaws.com" "ap-northeast-2"
     "AWS" "Seoul, South Korea");
  ("South America (São Paulo)",
   Build_endpoint "ec2.sa-east-1.amazonaws.com" "sa-east-1"
     "AWS" "São Paulo, Brazil");
  ("Middle East (Bahrain)",
   Build_endpoint "ec2.me-south-1.amazonaws.com" "me-south-1"
     "AWS" "Bahrain");
  ("Canada (Montreal)",
   Build_endpoint "ec2.ca-central-1.amazonaws.com" "ca-central-1"
     "AWS" "Montreal, Canada");
  ("Cloudflare",
   Build_endpoint "1.1.1.1" "global"
     "Cloudflare" "Global CDN");
  ("Google DNS",
   Build_endpoint "8.8.8.8" "global"
     "Google" "Global Network");
  ("Microsoft Azure",
   Build_endpoint "azure.microsoft.com" "global"
     "Microsoft" "Global Network");
  ("Google Cloud",
   Build_endpoint "cloud.google.com" "global"
     "Google" "Global Network")
]%string.

(** What the TCP connect of [ping_host] comes to; [elapsed] in
    milliseconds. *)
Inductive connected : Type :=
  | Established (ip : string) (elapsed : Q)
  | TimedOut
  | Crashed (e : Py.exn).

Record ping_result : Type := {
  success : bool;
  ping_host_name : string;
  ping_ip : option string;
  latency_ms : Q;
  error : option string
}.

(** [GlobalPingTester.ping_host]: [timeout or self.timeout] seconds. *)
Definition ping_host (self_timeout : Q) (host : string) (timeout : option Q)
    (o : connected) : ping_result :=
  let timeout :=
    match timeout with
    | Some t => if Qeq_bool t 0 then self_timeout else t
    | None => self_timeout
    end in
  match o with
  | Established ip elapsed =>
      {| success := true; ping_host_name := host; ping_ip := Some ip;
         latency_ms := Py.round2 elapsed; error := None |}
  | TimedOut =>
      {| success := false; ping_host_name := host; ping_ip := None;
         latency_ms := timeout * 1000; error := Some "Timeout"%string |}
  | Crashed e =>
      {| success := false; ping_host_name := host; ping_ip := None;
         latency_ms := 0; error := Some (Py.str_exn e) |}
  end.

(** The statistics of a region that is in the catalog. *)
Record region_stats : Type := {
  stats_success : bool;
  stats_region : string;
  stats_host : string;
  stats_provider : string;
  stats_location : string;
  cloud_region : string;
  tests : list ping_result;
  avg_latency_ms : Q;
  min_latency_ms : Q;
  max_latency_ms : Q;
  jitter_ms : Q;
  success_rate : Q
}.

Inductive region_result : Type :=
  | RegionNotFound (region_name : string)
  | RegionTested (stats : region_stats).

(** The outcome of the connect of each iteration. *)
Definition oracle : Type := nat -> connected.

(** [for _ in range(iterations): ...]: the results and the latencies of the
    successful ones, in order. *)
Definition sample_region (self_timeout : Q) (probe : oracle) (host : string)
    (iterations : Z) : list ping_result * list Q :=
  fold_left
    (fun '(results, latencies) i =>
       let result := ping_host self_timeout host None (probe i) in
       (results ++ [result],
        if success result then latencies ++ [latency_ms result]
        else latencies))
    (seq 0 (Z.to_nat iterations)) ([], []).

(** [iterations or self.iterations]. *)
Definition iterations_or_default (self_iterations : Z)
    (iterations : option Z) : Z :=
  match iterations with
  | Some n => if (n =? 0)%Z then self_iterations else n
  | None => self_iterations
  end.

(** [GlobalPingTester.test_region]; [self_iterations] is the tester's
    [iterations]. *)
Definition test_region (self_timeout : Q) (self_iterations : Z)
    (probe : oracle) (region_name : string) (iterations : option Z)
  : Py.result region_result :=
  let iterations := iterations_or_default self_iterations iterations in
  match Dict.get region_name GLOBAL_ENDPOINTS with
  | None => Py.Ok (RegionNotFound region_name)
  | Some endpoint =>
      let host := host endpoint in
      let '(results, latencies) :=
        sample_region self_timeout probe host iterations in
      let '(avg_latency, min_latency, max_latency, jitter) :=
        match latencies with
        | x :: rest =>
            let avg_latency := Py.round2 (Py.mean latencies) in
            let min_latency := Py.round2 (Py.min_list x rest) in
            let max_latency := Py.round2 (Py.max_list x rest) in
            (avg_latency, min_latency, max_latency,
             Py.round2 (max_latency - min_latency))
        | [] => (0, 0, 0, 0)
        end in
      rate <- Py.div (inject_Z (Z.of_nat (List.length latencies)))
                (inject_Z iterations) ;;
      Py.Ok (RegionTested
        {| stats_success := (0 <? List.length latencies)%nat;
           stats_region := region_name;
           stats_host := host;
           stats_provider := provider endpoint;
           stats_location := location endpoint;
           cloud_region := region endpoint;
           tests := results;
           avg_latency_ms := avg_latency;
           min_latency_ms := min_latency;
           max_latency_ms := max_latency;
           jitter_ms := jitter;
           success_rate := Py.round2 (rate * 100) |})
  end.

End GlobalPingTester.

(** ** The network scanner: latency measurement *)

Module NetworkScanner.

(** What one timed connect of [measure_latency] comes to.  A connect that
    succeeded has appended its latency before the connection is closed, so
    an error while closing leaves the sample in place: it is [Connected]
    as well. *)
Inductive attempt : Type :=
  | Connected (latency : Q)
  | TimedOut
  | Crashed (e : Py.exn).

Record latency_stats : Type := {
  min : Q;
  max : Q;
  avg : Q;
  jitter : Q;
  packet_loss : Q
}.

(** [for _ in range(count): ...]: a latency per connect, infinity per
    timeout, nothing for another error. *)
Definition collect (probe : nat -> attempt) (count : Z) : list Py.xfloat :=
  fold_left
    (fun latencies i =>
       match probe i with
       | Connected latency => latencies ++ [Py.Finite latency]
       | TimedOut => latencies ++ [Py.Infinity]
       | Crashed _ => latencies
       end)
    (seq 0 (Z.to_nat count)) [].

(** [[l for l in latencies if l != float("inf")]]. *)
Definition valid (latencies : list Py.xfloat) : list Q :=
  flat_map (fun l => match l with
                     | Py.Finite q => [q]
                     | Py.Infinity => []
                     end) latencies.

(** [[abs(v[i] - v[i - 1]) for i in range(1, len(v))]]. *)
Definition diffs (v : list Q) : list Q :=
  map (fun i => Qabs (nth i v 0 - nth (i - 1) v 0))
    (seq 1 (List.length v - 1)).

(** [NetworkScanner.measure_latency].  The mean is exact here; the float
    mean of the program can differ from it in the last place, and so the
    rounded average by 0.01. *)
Definition measure_latency (probe : nat -> attempt) (count : Z)
  : Py.result latency_stats :=
  let valid_latencies := valid (collect probe count) in
  match valid_latencies with
  | [] =>
      Py.Ok {| min := 0; max := 0; avg := 0; jitter := 0;
               packet_loss := 100 |}
  | x :: rest =>
      let min_lat := Py.min_list x rest in
      let max_lat := Py.max_list x rest in
      let avg_lat := Py.mean valid_latencies in
      let jitter :=
        if (1 <? List.length valid_latencies)%nat
        then Py.mean (diffs valid_latencies)
        else 0 in
      lost <- Py.div
                (inject_Z (count - Z.of_nat (List.length valid_latencies)))
                (inject_Z count) ;;
      let packet_loss := lost * 100 in
      Py.Ok {| min := Py.round2 min_lat;
               max := Py.round2 max_lat;
               avg := Py.round2 avg_lat;
               jitter := Py.round2 jitter;
               packet_loss := Py.round2 packet_loss |}
  end.

End NetworkScanner.

(** ** The port scanner *)

(** Dicts with integer keys, in insertion order. *)
Module PortTable.

Definition t (V : Type) : Type := list (Z * V).

Section Ops.
Context {V : Type}.

Fixpoint get (k : Z) (d : t V) : option V :=
  match d with
  | [] => None
  | (k', v) :: rest => if (k =? k')%Z then Some v else get k rest
  end.

Fixpoint set (k : Z) (v : V) (d : t V) : t V :=
  match d with
  | [] => [(k, v)]
  | (k', v') :: rest =>
      if (k =? k')%Z then (k, v) :: rest else (k', v') :: set k v rest
  end.

(** [{**a, **b}]. *)
Definition merge (a b : t V) : t V :=
  fold_left (fun d '(k, v) => set k v d) b a.

Definition keys (d : t V) : list Z := map fst d.

End Ops.

End PortTable.

Module PortScanner.

Record port_info : Type := {
  info_service : string;
  info_category : string;
  info_protocol : option string
}.

Definition COMMON_PORTS : PortTable.t port_info := [
  (20%Z, Build_port_info "FTP Data" "file_transfer" None);
  (21%Z, Build_port_info "FTP Control" "file_transfer" None);
  (22%Z, Build_port_info "SSH" "remote_access" None);
  (23%Z, Build_port_info "Telnet" "remote_access" None);
  (25%Z, Build_port_info "SMTP" "email" None);
  (53%Z, Build_port_info "DNS" "network" None);
  (80%Z, Build_port_info "HTTP" "web" None);
  (110%Z, Build_port_info "POP3" "email" None);
  (143%Z, Build_port_info "IMAP" "email" None);
  (443%Z, Build_port_info "HTTPS" "web" None);
  (445%Z, Build_port_info "SMB" "file_transfer" None);
  (465%Z, Build_port_info "SMTPS" "email" None);
  (587%Z, Build_port_info "SMTP Submission" "email" None);
  (993%Z, Build_port_info "IMAPS" "email" None);
  (995%Z, Build_port_info "POP3S" "email" None);
  (1433%Z, Build_port_info "MSSQL" "database" None);
  (3306%Z, Build_port_info "MySQL" "database" None);
  (3389%Z, Build_port_info "RDP" "remote_access" None);
  (5432%Z, Build_port_info "PostgreSQL" "database" None);
  (5900%Z, Build_port_info "VNC" "remote_access" None);
  (6379%Z, Build_port_info "Redis" "database" None);
  (8080%Z, Build_port_info "HTTP Proxy" "web" None);
  (8443%Z, Build_port_info "HTTPS Alt" "web" None);
  (27017%Z, Build_port_info "MongoDB" "database" None)
]%string.

Definition VPN_PORTS : PortTable.t port_info := [
  (500%Z, Build_port_info "IKE" "vpn" (Some "IPSec"));
  (1194%Z, Build_port_info "OpenVPN" "vpn" (Some "OpenVPN"));
  (1701%Z, Build_port_info "L2TP" "vpn" (Some "L2TP"));
  (1723%Z, Build_port_info "PPTP" "vpn" (Some "PPTP"));
  (4500%Z, Build_port_info "IPSec NAT-T" "vpn" (Some "IPSec"));
  (51820%Z, Build_port_info "WireGuard" "vpn" (Some "WireGuard"));
  (443%Z, Build_port_info "HTTPS/SSL VPN" "vpn" (Some "SSL VPN"));
  (8443%Z, Build_port_info "AnyConnect" "vpn" (Some "Cisco AnyConnect"));
  (10443%Z, Build_port_info "V2Ray" "vpn" (Some "V2Ray"));
  (2083%Z, Build_port_info "V2Ray/Xray" "vpn" (Some "V2Ray"));
  (2087%Z, Build_port_info "Trojan" "vpn" (Some "Trojan"));
  (8388%Z, Build_port_info "Shadowsocks" "vpn" (Some "Shadowsocks"))
]%string.

(** [self.all_ports]. *)
Definition all_ports : PortTable.t port_info :=
  PortTable.merge COMMON_PORTS VPN_PORTS.

(** What the connection attempt of [scan_port] comes to: opened and closed
    again, timed out, refused, or another error. *)
Inductive attempt : Type :=
  | Connected
  | TimedOut
  | Refused
  | Crashed (e : Py.exn).

(** The dict of one port; only an open port has the key [protocol]. *)
Record port_result : Type := {
  port : Z;
  status : string;
  service : option string;
  category : option string;
  protocol : option (option string);
  error : option string
}.

(** [PortScanner.scan_port]. *)
Definition scan_port (port : Z) (o : attempt) : port_result :=
  match o with
  | Connected =>
      let port_info := PortTable.get port all_ports in
      {| port := port;
         status := "open";
         service := Some (match port_info with
                          | Some i => info_service i
                          | None => "Unknown"
                          end);
         category := Some (match port_info with
                           | Some i => info_category i
                           | None => "unknown"
                           end);
         protocol := Some (match port_info with
                           | Some i => info_protocol i
                           | None => None
                           end);
         error := None |}
  | TimedOut =>
      {| port := port; status := "filtered"; service := None;
         category := None; protocol := None; error := Some "Timeout" |}
  | Refused =>
      {| port := port; status := "closed"; service := None;
         category := None; protocol := None;
         error := Some "Connection refused" |}
  | Crashed e =>
      {| port := port; status := "error"; service := None;
         category := None; protocol := None; error := Some (Py.str_exn e) |}
  end%string.

Record scan_summary : Type := {
  total_scanned : nat;
  open : nat;
  closed : nat;
  filtered : nat;
  open_percentage : Q
}.

Record scan_report : Type := {
  host : string;
  scan_type : string;
  ports_scanned : nat;
  open_ports : list port_result;
  closed_ports : list port_result;
  filtered_ports : list port_result;
  results : list port_result;
  summary : scan_summary
}.

(** The [for result in scan_results] loop: the four lists it fills. *)
Definition classify (scan_results : list port_result)
  : list port_result * list port_result * list port_result
    * list port_result :=
  fold_left
    (fun '(all, opened, closed, filtered) result =>
       let all := all ++ [result] in
       if String.eqb (status result) "open"
       then (all, opened ++ [result], closed, filtered)
       else if String.eqb (status result) "closed"
       then (all, opened, closed ++ [result], filtered)
       else if String.eqb (status result) "filtered"
       then (all, opened, closed, filtered ++ [result])
       else (all, opened, closed, filtered))
    scan_results ([], [], [], []).

(** [PortScanner.scan_ports]; [probe i] is the outcome of the attempt on
    the port at position [i] of the target list ([gather] hands the results
    back in that order). *)
Definition scan_ports (probe : nat -> attempt) (host : string)
    (ports : option (list Z)) (scan_type : string) : Py.result scan_report :=
  let target_ports :=
    match ports with
    | Some (p :: l) => p :: l
    | _ =>
        if String.eqb scan_type "vpn" then PortTable.keys VPN_PORTS
        else if String.eqb scan_type "all" then PortTable.keys all_ports
        else PortTable.keys COMMON_PORTS
    end in
  let scan_results :=
    map (fun '(i, port) => scan_port port (probe i))
      (combine (seq 0 (List.length target_ports)) target_ports) in
  let '(all, opened, closed, filtered) := classify scan_results in
  share <- Py.div (inject_Z (Z.of_nat (List.length opened)))
             (inject_Z (Z.of_nat (List.length target_ports))) ;;
  Py.Ok
    {| host := host;
       scan_type := scan_type;
       ports_scanned := List.length target_ports;
       open_ports := opened;
       closed_ports := closed;
       filtered_ports := filtered;
       results := all;
       summary :=
         {| total_scanned := List.length target_ports;
            open := List.length opened;
            closed := List.length closed;
            filtered := List.length filtered;
            open_percentage := Py.round2 (share * 100) |} |}.

End PortScanner.

(** ** The reports as the recommendation engine and the architect read them *)

(** Both take loosely typed dicts and read a few keys with defaults.  A
    view lists those keys; a field that is [None] stands for an absent key.
    An argument that is [None] or an empty dict is [None] here: the code
    tests both by truth value. *)
Module Views.

Record network_view : Type := {
  latency_ms : option Q;
  mtu : option Q
}.

Record best_server_view : Type := {
  bs_avg_response_time : option Q;
  bs_name : option string;
  bs_ip : option string;
  bs_features : option (list string)
}.

Record server_view : Type := {
  sv_privacy : option string;
  sv_ip : option string
}.

Record dns_view : Type := {
  best_server : Py.slot best_server_view;
  servers : option (Dict.t server_view)
}.

Record best_cdn_view : Type := {
  bc_avg_response_time : option Q;
  bc_name : option string
}.

Record cdn_view : Type := {
  best_cdn : Py.slot best_cdn_view
}.

Record tls_view : Type := { tls_success_rate : option Q }.
Record https_view : Type := { https_avg_time_ms : option Q }.

Record protocol_summary : Type := {
  tls_1_3 : option tls_view;
  https : option https_view
}.

Record protocol_view : Type := {
  summary : option protocol_summary
}.

Record open_port_view : Type := {
  op_port : option Z;
  op_category : option string
}.

Record port_view : Type := {
  open_ports : option (list open_port_view)
}.

Record fastest_region_view : Type := {
  fr_avg_latency_ms : option Q;
  fr_name : option string;
  fr_location : option string;
  fr_provider : option string
}.

Record ping_view : Type := {
  fastest_region : Py.slot fastest_region_view
}.

(** The report of [PortScanner.scan_ports], passed on as [port_data]. *)
Definition of_scan_report (r : PortScanner.scan_report) : option port_view :=
  Some {| open_ports :=
            Some (map (fun p => {| op_port := Some (PortScanner.port p);
                                   op_category := PortScanner.category p |})
                    (PortScanner.open_ports r)) |}.

End Views.

(** ** The recommendation engine *)

Module RecommendationEngine.

Import Views.

Record Recommendation : Type := {
  category : string;
  priority : string;
  title : string;
  description : string;
  action : string;
  impact : string
}.

(** [self.recommendations.append(r)]. *)
Definition append (recommendations : list Recommendation)
    (r : Recommendation) : list Recommendation :=
  recommendations ++ [r].

Section Engine.

(** How an f-string prints a float. *)
Variable fmt : Q -> string.

Local Open Scope string_scope.

(** Each [_analyze_*] method appends to [self.recommendations]: a function
    from the list before to the list after. *)

(** [RecommendationEngine._analyze_network]. *)
Definition _analyze_network (data : network_view)
    (recommendations : list Recommendation) : list Recommendation :=
  let latency := Py.get_or (latency_ms data) 0%Q in
  let recommendations :=
    if Py.Qltb 100 latency then
      append recommendations
        {| category := "network";
           priority := "high";
           title := "High Network Latency";
           description := "Your network latency is " ++ fmt latency
                          ++ "ms which may impact performance.";
           action := "Consider switching to a closer server or using a VPN with better routing.";
           impact := "Reduce latency by up to 50%" |}
    else if Py.Qltb 50 latency then
      append recommendations
        {| category := "network";
           priority := "medium";
           title := "Moderate Network Latency";
           description := "Your network latency is " ++ fmt latency
                          ++ "ms which is acceptable but could be improved.";
           action := "Consider using a CDN or optimizing your connection.";
           impact := "Improve response times by 10-30%" |}
    else recommendations in
  let mtu := Py.get_or (mtu data) 1500%Q in
  if Py.Qltb mtu 1400 then
    append recommendations
      {| category := "network";
         priority := "medium";
         title := "Low MTU Detected";
         description := "Your MTU is " ++ fmt mtu
                        ++ " which may cause fragmentation.";
         action := "Consider adjusting MTU settings or using a VPN that handles fragmentation.";
         impact := "Reduce packet overhead and improve throughput" |}
  else recommendations.

(** The privacy loop of [_analyze_dns]: one recommendation for the first
    server of high privacy, then [break]. *)
Fixpoint first_private (servers : Dict.t server_view)
    (recommendations : list Recommendation) : list Recommendation :=
  match servers with
  | [] => recommendations
  | (name, server_data) :: rest =>
      match sv_privacy server_data with
      | Some privacy =>
          if String.eqb privacy "high" then
            append recommendations
              {| category := "privacy";
                 priority := "low";
                 title := "Consider " ++ name ++ " for Privacy";
                 description := name ++ " offers high privacy protection.";
                 action := "Use " ++ Py.get_or (sv_ip server_data) name
                           ++ " as your DNS server.";
                 impact := "Improve privacy and reduce tracking" |}
          else first_private rest recommendations
      | None => first_private rest recommendations
      end
  end.

(** [RecommendationEngine._analyze_dns]. *)
Definition _analyze_dns (data : dns_view)
    (recommendations : list Recommendation) : list Recommendation :=
  let recommendations :=
    match best_server data with
    | Py.Filled best =>
        let current_time := Py.get_or (bs_avg_response_time best) 0%Q in
        if Py.Qltb 50 current_time then
          append recommendations
            {| category := "dns";
               priority := "high";
               title := "Slow DNS Resolution";
               description := "DNS resolution time is " ++ fmt current_time
                              ++ "ms which is slow.";
               action := "Switch to " ++ Py.get_or (bs_name best) "a faster DNS"
                         ++ " for better performance.";
               impact := "Reduce page load times significantly" |}
        else recommendations
    | _ => recommendations
    end in
  first_private (Py.get_or (servers data) []) recommendations.

(** [RecommendationEngine._analyze_cdn]. *)
Definition _analyze_cdn (data : cdn_view)
    (recommendations : list Recommendation) : list Recommendation :=
  match best_cdn data with
  | Py.Filled best =>
      let time_ms := Py.get_or (bc_avg_response_time best) 0%Q in
      if Py.Qltb time_ms 100 then
        append recommendations
          {| category := "cdn";
             priority := "low";
             title := "Optimal CDN Performance";
             description := Py.get_or (bc_name best) "CDN"
                            ++ " is performing excellently at "
                            ++ fmt time_ms ++ "ms.";
             action := "Continue using current CDN configuration.";
             impact := "Already optimized" |}
      else
        append recommendations
          {| category := "cdn";
             priority := "medium";
             title := "CDN Optimization Possible";
             description := "CDN response time is " ++ fmt time_ms ++ "ms.";
             action := "Consider using "
                       ++ Py.get_or (bc_name best) "a different CDN" ++ ".";
             impact := "Improve content delivery by 20-40%" |}
  | _ => recommendations
  end.

(** [RecommendationEngine._analyze_protocol]. *)
Definition _analyze_protocol (data : protocol_view)
    (recommendations : list Recommendation) : list Recommendation :=
  let summary :=
    Py.get_or (summary data) {| tls_1_3 := None; https := None |} in
  let tls13 := Py.get_or (tls_1_3 summary) {| tls_success_rate := None |} in
  let recommendations :=
    if Py.Qltb (Py.get_or (tls_success_rate tls13) 0%Q) 50 then
      append recommendations
        {| category := "security";
           priority := "high";
           title := "TLS 1.3 Not Available";
           description := "TLS 1.3 is not consistently available on tested endpoints.";
           action := "Ensure your servers support TLS 1.3 for better security and performance.";
           impact := "Improve security and reduce handshake latency" |}
    else recommendations in
  let https := Py.get_or (https summary) {| https_avg_time_ms := None |} in
  if Py.Qltb 500 (Py.get_or (https_avg_time_ms https) 0%Q) then
    append recommendations
      {| category := "performance";
         priority := "medium";
         title := "Slow HTTPS Connections";
         description := "HTTPS connections averaging "
                        ++ fmt (Py.get_or (https_avg_time_ms https) 0%Q)
                        ++ "ms.";
         action := "Consider using HTTP/2 or optimizing TLS settings.";
         impact := "Reduce connection overhead by 30%" |}
  else recommendations.

(** [RecommendationEngine._analyze_ports]. *)
Definition _analyze_ports (data : port_view)
    (recommendations : list Recommendation) : list Recommendation :=
  let open_ports := Py.get_or (open_ports data) [] in
  let risky_ports :=
    filter (fun p => match op_port p with
                     | Some n => existsb (Z.eqb n) [23; 21; 3389]%Z
                     | None => false
                     end) open_ports in
  let recommendations :=
    match risky_ports with
    | _ :: _ =>
        append recommendations
          {| category := "security";
             priority := "high";
             title := "Potentially Risky Ports Open";
             description := "Found " ++ Py.str_nat (List.length risky_ports)
                            ++ " potentially risky ports open.";
             action := "Review and close unnecessary ports, or restrict access via firewall.";
             impact := "Improve security posture significantly" |}
    | [] => recommendations
    end in
  let vpn_ports :=
    filter (fun p => match op_category p with
                     | Some c => String.eqb c "vpn"
                     | None => false
                     end) open_ports in
  match vpn_ports with
  | _ :: _ =>
      append recommendations
        {| category := "vpn";
           priority := "low";
           title := "VPN Ports Available";
           description := Py.str_nat (List.length vpn_ports)
                          ++ " VPN-related ports are open.";
           action := "Consider using these for secure connections.";
           impact := "Enable VPN connectivity" |}
  | [] => recommendations
  end.

(** [RecommendationEngine._analyze_ping]. *)
Definition _analyze_ping (data : ping_view)
    (recommendations : list Recommendation) : list Recommendation :=
  match fastest_region data with
  | Py.Filled fastest =>
      let latency := Py.get_or (fr_avg_latency_ms fastest) 0%Q in
      append recommendations
        {| category := "deployment";
           priority := "medium";
           title := "Optimal Region: " ++ Py.get_or (fr_name fastest) "Unknown";
           description := "Lowest latency region at " ++ fmt latency ++ "ms.";
           action := "Consider deploying to "
                     ++ Py.get_or (fr_location fastest) "this region"
                     ++ " for best performance.";
           impact := "Minimize latency for your users" |}
  | _ => recommendations
  end.

(** [[r for r in recommendations if r.priority == p]]. *)
Definition with_priority (p : string) (recommendations : list Recommendation)
  : list Recommendation :=
  filter (fun r => String.eqb (priority r) p) recommendations.

(** [RecommendationEngine._generate_summary]. *)
Definition _generate_summary (recommendations : list Recommendation)
  : string :=
  let total := List.length recommendations in
  let high := List.length (with_priority "high" recommendations) in
  if (0 <? high)%nat then
    "Found " ++ Py.str_nat total ++ " recommendations with "
    ++ Py.str_nat high ++ " high-priority items requiring attention."
  else if (0 <? total)%nat then
    "Found " ++ Py.str_nat total
    ++ " recommendations. Your network is performing well with room for optimization."
  else "No recommendations at this time. Consider running more tests.".

(** [RecommendationEngine._to_dict]. *)
Definition _to_dict (rec : Recommendation) : Dict.t string := [
  ("category", category rec);
  ("priority", priority rec);
  ("title", title rec);
  ("description", description rec);
  ("action", action rec);
  ("impact", impact rec)
].

Record buckets : Type := {
  high : list (Dict.t string);
  medium : list (Dict.t string);
  low : list (Dict.t string)
}.

Record analysis : Type := {
  total_recommendations : nat;
  high_priority : nat;
  medium_priority : nat;
  low_priority : nat;
  recommendations : buckets;
  summary_text : string
}.

(** [if data: self._analyze_x(data)]. *)
Definition when {A} (data : option A)
    (analyze_x : A -> list Recommendation -> list Recommendation)
    (recommendations : list Recommendation) : list Recommendation :=
  match data with
  | Some d => analyze_x d recommendations
  | None => recommendations
  end.

(** [self.recommendations] once the six domains have been looked at. *)
Definition collected (network_data : option network_view)
    (dns_data : option dns_view) (cdn_data : option cdn_view)
    (protocol_data : option protocol_view) (port_data : option port_view)
    (ping_data : option ping_view) : list Recommendation :=
  let recommendations := [] in
  let recommendations := when network_data _analyze_network recommendations in
  let recommendations := when dns_data _analyze_dns recommendations in
  let recommendations := when cdn_data _analyze_cdn recommendations in
  let recommendations :=
    when protocol_data _analyze_protocol recommendations in
  let recommendations := when port_data _analyze_ports recommendations in
  when ping_data _analyze_ping recommendations.

(** [RecommendationEngine.analyze]. *)
Definition analyze (network_data : option network_view)
    (dns_data : option dns_view) (cdn_data : option cdn_view)
    (protocol_data : option protocol_view) (port_data : option port_view)
    (ping_data : option ping_view) : analysis :=
  let recommendations :=
    collected network_data dns_data cdn_data protocol_data port_data
      ping_data in
  let high_priority := with_priority "high" recommendations in
  let medium_priority := with_priority "medium" recommendations in
  let low_priority := with_priority "low" recommendations in
  {| total_recommendations := List.length recommendations;
     high_priority := List.length high_priority;
     medium_priority := List.length medium_priority;
     low_priority := List.length low_priority;
     recommendations :=
       {| high := map _to_dict high_priority;
          medium := map _to_dict medium_priority;
          low := map _to_dict low_priority |};
     summary_text := _generate_summary recommendations |}.

End Engine.

End RecommendationEngine.

(** ** The service architect *)

Module ServiceArchitect.

Import Views.

(** The [config] dict of a component: its keys depend on the type. *)
Inductive component_config : Type :=
  | DnsConfig (primary : option string) (features : list string)
  | RegionConfig (provider location : option string) (latency_ms : option Q)
  | NetworkConfig (mtu : Q) (latency_target protocol : string).

Record component : Type := {
  type : string;
  name : string;
  config : component_config
}.

Record connection : Type := {
  from : string;
  to : string;
  protocol : string;
  purpose : string
}.

Record advice : Type := {
  adv_category : string;
  adv_title : string;
  adv_description : string;
  adv_priority : string
}.

Record architecture : Type := {
  arch_name : string;
  components : list component;
  connections : list connection;
  recommendations : list advice;
  config_templates : Dict.t (Dict.t Py.value)
}.

(** [d[k].get(...)] on a key known to be there: [None] has no [get]. *)
Definition deref {A} (s : Py.slot A) (empty : A) : Py.result A :=
  match s with
  | Py.Filled a => Py.Ok a
  | Py.EmptyDict => Py.Ok empty
  | Py.NoneValue => Py.Raise Py.AttributeError
  | Py.Missing => Py.Ok empty
  end.

Definition present {A} (s : Py.slot A) : bool :=
  match s with
  | Py.Missing => false
  | _ => true
  end.

Definition no_server : best_server_view :=
  {| bs_avg_response_time := None; bs_name := None; bs_ip := None;
     bs_features := None |}.

Definition no_region : fastest_region_view :=
  {| fr_avg_latency_ms := None; fr_name := None; fr_location := None;
     fr_provider := None |}.

Local Open Scope string_scope.

(** [ServiceArchitect._design_connections]. *)
Definition _design_connections (components : list component)
  : list connection :=
  let connections := [] in
  let dns_component :=
    find (fun c => String.eqb (type c) "dns") components in
  let region_component :=
    find (fun c => String.eqb (type c) "region") components in
  match dns_component, region_component with
  | Some dns_component, Some region_component =>
      let connections :=
        (connections ++ [
          {| from := "client";
             to := name dns_component;
             protocol := "DNS over HTTPS";
             purpose := "Secure name resolution" |}])%list in
      (connections ++ [
        {| from := "client";
           to := name region_component;
           protocol := "HTTPS/TLS 1.3";
           purpose := "Primary application traffic" |}])%list
  | _, _ => connections
  end.

Section Architect.

(** How an f-string prints a float. *)
Variable fmt : Q -> string.

Definition str_opt (o : option string) : string := Py.get_or o "None".

Definition nginx_config : string := "
# Optimized Nginx Configuration
worker_processes auto;
worker_rlimit_nofile 65535;

events {
    worker_connections 65535;
    multi_accept on;
    use epoll;
}

http {
    # SSL Optimization
    ssl_protocols TLSv1.2 TLSv1.3;
    ssl_prefer_server_ciphers off;
    ssl_session_timeout 1d;
    ssl_session_cache shared:SSL:50m;
    ssl_session_tickets off;

    # HTTP/2 and performance
    http2 on;
    keepalive_timeout 65;
    keepalive_requests 1000;

    # Compression
    gzip on;
    gzip_vary on;
    gzip_proxied any;
    gzip_comp_level 6;
    gzip_types text/plain text/css application/json application/javascript;
}
".

(** [ServiceArchitect._generate_configs], on the component list. *)
Definition _generate_configs (components : list component)
  : Dict.t (Dict.t Py.value) :=
  let configs := [] in
  let configs :=
    match find (fun c => String.eqb (type c) "dns") components with
    | Some dns_component =>
        let primary :=
          match config dns_component with
          | DnsConfig primary _ => primary
          | _ => Some "1.1.1.1"
          end in
        Dict.set "dns" [
          ("description", Py.VStr "Recommended DNS configuration");
          ("primary", Py.VOpt Py.VStr primary);
          ("secondary", Py.VStr "1.0.0.1");
          ("doh_endpoint",
           Py.VStr ("https://" ++ str_opt primary ++ "/dns-query"));
          ("dot_endpoint", Py.VStr ("tls://" ++ str_opt primary))
        ] configs
    | None => configs
    end in
  let configs :=
    match find (fun c => String.eqb (type c) "region") components with
    | Some region_component =>
        let '(provider, latency) :=
          match config region_component with
          | RegionConfig provider _ latency_ms =>
              (provider,
               match latency_ms with
               | Some l => fmt l
               | None => "None"
               end)
          | _ => (None, "N/A")
          end in
        Dict.set "deployment" [
          ("description", Py.VStr "Recommended deployment region");
          ("provider", Py.VOpt Py.VStr provider);
          ("region", Py.VStr (name region_component));
          ("expected_latency", Py.VStr (latency ++ "ms"))
        ] configs
    | None => configs
    end in
  Dict.set "nginx" [
    ("description", Py.VStr "Optimized Nginx configuration snippet");
    ("config", Py.VStr nginx_config)
  ] configs.

(** [ServiceArchitect._generate_recommendations]; the [requirements]
    argument is never read. *)
Definition _generate_recommendations (network_data : option network_view)
    (dns_data : option dns_view) (ping_data : option ping_view)
  : Py.result (list advice) :=
  let recommendations := [
    {| adv_category := "general";
       adv_title := "Use TLS 1.3";
       adv_description := "Ensure all connections use TLS 1.3 for best security and performance.";
       adv_priority := "high" |};
    {| adv_category := "general";
       adv_title := "Enable HTTP/2";
       adv_description := "HTTP/2 provides better multiplexing and compression.";
       adv_priority := "high" |}] in
  let recommendations :=
    match dns_data with
    | Some _ =>
        (recommendations ++ [
          {| adv_category := "dns";
             adv_title := "Use DNS over HTTPS";
             adv_description := "DoH provides encrypted DNS queries for better privacy.";
             adv_priority := "medium" |}])%list
    | None => recommendations
    end in
  let recommendations :=
    match network_data with
    | Some d =>
        if Py.Qltb 100 (Py.get_or (Views.latency_ms d) 0%Q) then
          (recommendations ++ [
            {| adv_category := "performance";
               adv_title := "Consider CDN";
               adv_description := "High latency detected. Using a CDN can significantly improve performance.";
               adv_priority := "high" |}])%list
        else recommendations
    | None => recommendations
    end in
  match ping_data with
  | Some d =>
      if present (fastest_region d) then
        fastest <- deref (fastest_region d) no_region ;;
        Py.Ok (recommendations ++ [
          {| adv_category := "deployment";
             adv_title := "Deploy to "
                          ++ Py.get_or (fr_name fastest) "optimal region";
             adv_description :=
               "This region has the lowest latency at "
               ++ match fr_avg_latency_ms fastest with
                  | Some l => fmt l
                  | None => "N/A"
                  end ++ "ms.";
             adv_priority := "medium" |}])%list
      else Py.Ok recommendations
  | None => Py.Ok recommendations
  end.

(** [ServiceArchitect.design]; the [requirements] argument is only passed
    on to [_generate_recommendations]. *)
Definition design (network_data : option network_view)
    (dns_data : option dns_view) (ping_data : option ping_view)
  : Py.result architecture :=
  let components := [] in
  components <-
    match dns_data with
    | Some d =>
        if present (best_server d) then
          best_dns <- deref (best_server d) no_server ;;
          Py.Ok (components ++ [
            {| type := "dns";
               name := Py.get_or (bs_name best_dns) "Recommended DNS";
               config := DnsConfig (bs_ip best_dns)
                           (Py.get_or (bs_features best_dns) []) |}])%list
        else Py.Ok components
    | None => Py.Ok components
    end ;;
  components <-
    match ping_data with
    | Some d =>
        if present (fastest_region d) then
          best_region <- deref (fastest_region d) no_region ;;
          Py.Ok (components ++ [
            {| type := "region";
               name := Py.get_or (fr_name best_region) "Optimal Region";
               config := RegionConfig (fr_provider best_region)
                           (fr_location best_region)
                           (fr_avg_latency_ms best_region) |}])%list
        else Py.Ok components
    | None => Py.Ok components
    end ;;
  let components :=
    match network_data with
    | Some d =>
        (components ++ [
          {| type := "network";
             name := "Network Configuration";
             config := NetworkConfig (Py.get_or (Views.mtu d) 1500%Q)
                         "< 50ms" "TCP/UDP optimized" |}])%list
    | None => components
    end in
  let connections := _design_connections components in
  let config_templates := _generate_configs components in
  recommendations <-
    _generate_recommendations network_data dns_data ping_data ;;
  Py.Ok
    {| arch_name := "Optimized Network Architecture";
       components := components;
       connections := connections;
       recommendations := recommendations;
       config_templates := config_templates |}.

End Architect.

End ServiceArchitect.

(** * Properties *)

(** ** Arithmetic of the Python numerics *)

Lemma int_pos (x : Q) : 1 <= x -> (0 < Py.int x)%Z.
Proof.
  destruct x as [n d]. unfold Py.int, Qle. simpl. intros H.
  apply Z.quot_str_pos. lia.
Qed.

Lemma int_floor (x : Q) : 0 <= x -> Py.int x = Qfloor x.
Proof.
  destruct x as [n d]. unfold Py.int, Qfloor, Qle. simpl. intros H.
  apply Z.quot_div_nonneg; lia.
Qed.

Lemma Qle_bool_false (x y : Q) : Qle_bool x y = false -> y < x.
Proof.
  intros H. apply Qnot_le_lt. intros Hle.
  apply Qle_bool_iff in Hle. congruence.
Qed.

Lemma Qeq_bool_false (x y : Q) : Qeq_bool x y = false -> ~ x == y.
Proof.
  intros H Heq. apply Qeq_bool_iff in Heq. congruence.
Qed.

Lemma inject_Z_ge (k z : Z) : (k <= z)%Z -> inject_Z k <= inject_Z z.
Proof. intros H. rewrite <- Zle_Qle. exact H. Qed.

(** ** The scorers *)

Ltac split_bands :=
  repeat match goal with
         | |- context [Qle_bool ?a ?b] => destruct (Qle_bool a b) eqn:?
         end.

Lemma step_score_le_head (t : Q) (s : Z) (rest : list (Q * Z)) (fl : Z) :
  bands_descend ((t, s) :: rest) fl = true ->
  forall x, (step_score rest fl x <= s)%Z.
Proof.
  revert t s. induction rest as [|[t' s'] rest IH]; intros t s H x; simpl in *.
  - apply andb_true_iff in H as [H _]. apply Z.leb_le in H. exact H.
  - apply andb_true_iff in H as [H1 H2]. apply Z.leb_le in H1.
    destruct (Qle_bool x t').
    + exact H1.
    + specialize (IH t' s' H2 x). lia.
Qed.

(** A table whose scores descend gives a non-increasing step function. *)
Lemma step_score_antitone (bands : list (Q * Z)) (fl : Z) :
  bands_descend bands fl = true ->
  forall a b, a <= b -> (step_score bands fl b <= step_score bands fl a)%Z.
Proof.
  induction bands as [|[t s] rest IH]; intros H a b Hab; simpl.
  - lia.
  - pose proof (step_score_le_head t s rest fl H) as Hhead.
    simpl in H. apply andb_true_iff in H as [_ H].
    destruct (Qle_bool a t) eqn:Ha.
    + destruct (Qle_bool b t); [lia | apply Hhead].
    + destruct (Qle_bool b t) eqn:Hb.
      * apply Qle_bool_false in Ha. apply Qle_bool_iff in Hb. lra.
      * apply IH; assumption.
Qed.

(** The [if] chain of each scorer is the step function of its table. *)
Lemma dns_score_unfold (avg_time success_rate : Q) :
  ~ success_rate == 0 ->
  DNSAnalyzer._calculate_reliability avg_time success_rate =
  Py.int (success_rate * 0.6 + inject_Z (dns_time_score avg_time) * 0.4).
Proof.
  intros H. unfold DNSAnalyzer._calculate_reliability.
  destruct (Qeq_bool success_rate 0) eqn:E.
  - apply Qeq_bool_iff in E. contradiction.
  - unfold dns_time_score, dns_bands, step_score. split_bands; reflexivity.
Qed.

Lemma cdn_score_unfold (avg_time success_rate : Q) :
  ~ success_rate == 0 ->
  CDNTester._calculate_score avg_time success_rate =
  Py.int (success_rate * 0.6 + inject_Z (cdn_time_score avg_time) * 0.4).
Proof.
  intros H. unfold CDNTester._calculate_score.
  destruct (Qeq_bool success_rate 0) eqn:E.
  - apply Qeq_bool_iff in E. contradiction.
  - unfold cdn_time_score, cdn_bands, step_score. split_bands; reflexivity.
Qed.

Lemma dns_score_zero (avg_time success_rate : Q) :
  success_rate == 0 ->
  DNSAnalyzer._calculate_reliability avg_time success_rate = 0%Z.
Proof.
  intros H. unfold DNSAnalyzer._calculate_reliability.
  apply Qeq_bool_iff in H. rewrite H. reflexivity.
Qed.

Lemma cdn_score_zero (avg_time success_rate : Q) :
  success_rate == 0 ->
  CDNTester._calculate_score avg_time success_rate = 0%Z.
Proof.
  intros H. unfold CDNTester._calculate_score.
  apply Qeq_bool_iff in H. rewrite H. reflexivity.
Qed.

Lemma dns_time_score_floor (x : Q) : (20 <= dns_time_score x)%Z.
Proof.
  unfold dns_time_score, dns_bands, step_score. split_bands; lia.
Qed.

Lemma cdn_time_score_floor (x : Q) : (10 <= cdn_time_score x)%Z.
Proof.
  unfold cdn_time_score, cdn_bands, step_score. split_bands; lia.
Qed.

Lemma dns_score_pos (avg_time success_rate : Q) :
  0 < success_rate ->
  (0 < DNSAnalyzer._calculate_reliability avg_time success_rate)%Z.
Proof.
  intros H. rewrite dns_score_unfold by lra. apply int_pos.
  pose proof (inject_Z_ge _ _ (dns_time_score_floor avg_time)) as Hf.
  change (inject_Z 20) with 20 in Hf. lra.
Qed.

Lemma cdn_score_pos (avg_time success_rate : Q) :
  0 < success_rate ->
  (0 < CDNTester._calculate_score avg_time success_rate)%Z.
Proof.
  intros H. rewrite cdn_score_unfold by lra. apply int_pos.
  pose proof (inject_Z_ge _ _ (cdn_time_score_floor avg_time)) as Hf.
  change (inject_Z 10) with 10 in Hf. lra.
Qed.

(** C1.  For a success rate that is a rate (not negative), the DNS
    reliability score and the CDN score are zero exactly when the success
    rate is zero; a positive success rate gives a strictly positive score,
    because the time score never falls below the lowest band (20 for DNS,
    10 for CDN). *)
Theorem score_zero_iff_rate_zero (avg_time success_rate : Q) :
  0 <= success_rate ->
  (success_rate == 0 <->
   DNSAnalyzer._calculate_reliability avg_time success_rate = 0%Z) /\
  (success_rate == 0 <->
   CDNTester._calculate_score avg_time success_rate = 0%Z) /\
  (0 < success_rate ->
   (0 < DNSAnalyzer._calculate_reliability avg_time success_rate)%Z /\
   (0 < CDNTester._calculate_score avg_time success_rate)%Z) /\
  (20 <= dns_time_score avg_time)%Z /\
  (10 <= cdn_time_score avg_time)%Z.
Proof.
  intros Hnn.
  assert (Hcase : success_rate == 0 \/ 0 < success_rate).
  { destruct (Qlt_le_dec 0 success_rate); [right; assumption | left; lra]. }
  repeat split.
  - apply dns_score_zero.
  - intros Hz. destruct Hcase as [|Hpos]; [assumption|].
    pose proof (dns_score_pos avg_time _ Hpos). lia.
  - apply cdn_score_zero.
  - intros Hz. destruct Hcase as [|Hpos]; [assumption|].
    pose proof (cdn_score_pos avg_time _ Hpos). lia.
  - apply dns_score_pos; assumption.
  - apply cdn_score_pos; assumption.
  - apply dns_time_score_floor.
  - apply cdn_time_score_floor.
Qed.

Lemma score_zero_iff_rate_zero_witness :
  0 <= (3333 # 100) /\
  (0 < DNSAnalyzer._calculate_reliability 20 (3333 # 100))%Z /\
  (0 < CDNTester._calculate_score 20 (3333 # 100))%Z.
Proof.
  assert (H : 0 <= (3333 # 100)) by (unfold Qle; simpl; lia).
  split; [exact H|].
  apply (score_zero_iff_rate_zero 20 (3333 # 100) H).
  unfold Qlt; simpl; lia.
Defined.

(** The scorers truncate; they do not round to nearest: at an average of
    5 ms and a success rate of 1 the weighted sum is 40.6, which both scorers
    turn into 40 where rounding gives 41. *)
Lemma score_is_not_rounded :
  DNSAnalyzer._calculate_reliability 5 1 = 40%Z /\
  CDNTester._calculate_score 5 1 = 40%Z /\
  Py.round (1 * 0.6 + inject_Z (dns_time_score 5) * 0.4) = 41%Z /\
  Py.round (1 * 0.6 + inject_Z (cdn_time_score 5) * 0.4) = 41%Z /\
  ~ (forall avg_time success_rate : Q,
       0 < success_rate ->
       DNSAnalyzer._calculate_reliability avg_time success_rate =
       Py.round (success_rate * 0.6
                 + inject_Z (dns_time_score avg_time) * 0.4) /\
       CDNTester._calculate_score avg_time success_rate =
       Py.round (success_rate * 0.6
                 + inject_Z (cdn_time_score avg_time) * 0.4)).
Proof.
  repeat split; try reflexivity.
  intros H. specialize (H 5 1 ltac:(reflexivity)).
  destruct H as [H _]. vm_compute in H. discriminate.
Qed.

(** C2, as the code has it.  For every average latency and every success
    rate above zero, each scorer returns [int(success_rate * 0.6 +
    time_score * 0.4)]: the weighted sum cut down to the integer below it,
    not rounded to the nearest.  [time_score] is the step function of the
    scorer's table, non-increasing in the average latency, and it is 100
    for an average under 10 ms (DNS) and under 50 ms (CDN). *)
Theorem score_is_truncated_weighted_sum (avg_time success_rate : Q) :
  0 < success_rate ->
  let dns_sum := success_rate * 0.6 + inject_Z (dns_time_score avg_time) * 0.4 in
  let cdn_sum := success_rate * 0.6 + inject_Z (cdn_time_score avg_time) * 0.4 in
  DNSAnalyzer._calculate_reliability avg_time success_rate = Py.int dns_sum /\
  Py.int dns_sum = Qfloor dns_sum /\
  CDNTester._calculate_score avg_time success_rate = Py.int cdn_sum /\
  Py.int cdn_sum = Qfloor cdn_sum /\
  (forall a b, a <= b ->
     (dns_time_score b <= dns_time_score a)%Z /\
     (cdn_time_score b <= cdn_time_score a)%Z) /\
  (avg_time < 10 -> dns_time_score avg_time = 100%Z) /\
  (avg_time < 50 -> cdn_time_score avg_time = 100%Z).
Proof.
  intros Hpos dns_sum cdn_sum.
  pose proof (inject_Z_ge _ _ (dns_time_score_floor avg_time)) as Hd.
  pose proof (inject_Z_ge _ _ (cdn_time_score_floor avg_time)) as Hc.
  change (inject_Z 20) with 20 in Hd. change (inject_Z 10) with 10 in Hc.
  repeat split.
  - apply dns_score_unfold. lra.
  - apply int_floor. unfold dns_sum. lra.
  - apply cdn_score_unfold. lra.
  - apply int_floor. unfold cdn_sum. lra.
  - apply step_score_antitone; [reflexivity | assumption].
  - apply step_score_antitone; [reflexivity | assumption].
  - intros H. unfold dns_time_score, dns_bands, step_score.
    destruct (Qle_bool avg_time 10) eqn:E; [reflexivity|].
    apply Qle_bool_false in E. lra.
  - intros H. unfold cdn_time_score, cdn_bands, step_score.
    destruct (Qle_bool avg_time 50) eqn:E; [reflexivity|].
    apply Qle_bool_false in E. lra.
Qed.

Lemma score_is_truncated_weighted_sum_witness :
  0 < (3333 # 100) /\
  DNSAnalyzer._calculate_reliability 5 (3333 # 100) =
  Py.int ((3333 # 100) * 0.6 + inject_Z (dns_time_score 5) * 0.4).
Proof.
  assert (H : 0 < (3333 # 100)) by (unfold Qlt; simpl; lia).
  split; [exact H|].
  apply (score_is_truncated_weighted_sum 5 (3333 # 100) H).
Defined.
(** ** Dicts and sorting *)

Section DictFacts.
Context {V : Type}.
Implicit Types (d : Dict.t V) (k : string) (v : V).

Lemma get_In k v d : Dict.get k d = Some v -> In (k, v) d.
Proof.
  induction d as [|[k' v'] rest IH]; simpl; [discriminate|].
  destruct (String.eqb_spec k k') as [->|Hne].
  - intros [= ->]. left; reflexivity.
  - intros H. right. apply IH, H.
Qed.

Lemma In_get k v d : NoDup (Dict.keys d) -> In (k, v) d -> Dict.get k d = Some v.
Proof.
  induction d as [|[k' v'] rest IH]; simpl; [intros _ []|].
  intros Hnd [Heq|Hin].
  - injection Heq as -> ->. rewrite String.eqb_refl. reflexivity.
  - inversion Hnd as [|? ? Hnotin Hnd']; subst.
    destruct (String.eqb_spec k k') as [->|Hne].
    + exfalso. apply Hnotin. change k' with (fst (k', v)).
      apply in_map, Hin.
    + apply IH; assumption.
Qed.

Lemma get_set_same k v d : Dict.get k (Dict.set k v d) = Some v.
Proof.
  induction d as [|[k' v'] rest IH]; simpl.
  - rewrite String.eqb_refl. reflexivity.
  - destruct (String.eqb_spec k k') as [->|Hne]; simpl.
    + rewrite String.eqb_refl. reflexivity.
    + destruct (String.eqb_spec k k'); [contradiction | exact IH].
Qed.

Lemma get_set_other k k' v d :
  k <> k' -> Dict.get k (Dict.set k' v d) = Dict.get k d.
Proof.
  intros Hne. induction d as [|[k0 v0] rest IH]; simpl.
  - destruct (String.eqb_spec k k'); [contradiction | reflexivity].
  - destruct (String.eqb_spec k' k0) as [->|Hne0]; simpl.
    + destruct (String.eqb_spec k k0); [contradiction | reflexivity].
    + destruct (String.eqb_spec k k0); [reflexivity | exact IH].
Qed.

Lemma keys_set_In k k' v d :
  In k (Dict.keys (Dict.set k' v d)) -> k = k' \/ In k (Dict.keys d).
Proof.
  induction d as [|[k0 v0] rest IH]; simpl.
  - intros [<-|[]]. left; reflexivity.
  - destruct (String.eqb_spec k' k0) as [->|Hne0]; simpl.
    + intros [<-|H]; [left; reflexivity | right; right; exact H].
    + intros [<-|H]; [right; left; reflexivity|].
      destruct (IH H) as [->|H']; [left; reflexivity | right; right; exact H'].
Qed.

Lemma keys_set_NoDup k v d :
  NoDup (Dict.keys d) -> NoDup (Dict.keys (Dict.set k v d)).
Proof.
  induction d as [|[k0 v0] rest IH]; simpl; intros Hnd.
  - constructor; [intros [] | constructor].
  - inversion Hnd as [|? ? Hnotin Hnd']; subst.
    destruct (String.eqb_spec k k0) as [->|Hne]; simpl.
    + constructor; assumption.
    + constructor; [|apply IH, Hnd'].
      intros Hin. apply keys_set_In in Hin as [->|Hin]; [congruence | contradiction].
Qed.

End DictFacts.

Section SortFacts.
Context {A : Type} (before : A -> A -> bool).

Lemma insert_stable_perm (x : A) (l : list A) :
  Permutation (Py.insert_stable before x l) (x :: l).
Proof.
  induction l as [|y rest IH]; simpl; [reflexivity|].
  destruct (before x y); [reflexivity|].
  rewrite IH. apply perm_swap.
Qed.

Lemma sorted_perm (l : list A) : Permutation (Py.sorted before l) l.
Proof.
  induction l as [|x rest IH]; simpl; [reflexivity|].
  rewrite insert_stable_perm. constructor. exact IH.
Qed.

End SortFacts.

(** Sorting a dict by its values keeps what each key leads to. *)
Lemma get_sorted {V : Type} (before : string * V -> string * V -> bool)
    (k : string) (v : V) (d : Dict.t V) :
  NoDup (Dict.keys d) -> Dict.get k d = Some v ->
  Dict.get k (Py.sorted before d) = Some v.
Proof.
  intros Hnd Hget. pose proof (sorted_perm before d) as Hp.
  apply In_get.
  - unfold Dict.keys. eapply Permutation_NoDup; [|exact Hnd].
    apply Permutation_map. symmetry. exact Hp.
  - eapply Permutation_in; [symmetry; exact Hp|]. apply get_In, Hget.
Qed.

Lemma fold_left_invariant {A B : Type} (P : A -> Prop) (step : A -> B -> A)
    (l : list B) (init : A) :
  (forall acc b, P acc -> P (step acc b)) -> P init ->
  P (fold_left step l init).
Proof.
  intros Hstep. revert init.
  induction l as [|b rest IH]; simpl; intros init Hinit; [exact Hinit|].
  apply IH, Hstep, Hinit.
Qed.

(** [round] does not see how a fraction is written. *)
Lemma round_proper (x y : Q) : x == y -> Py.round x = Py.round y.
Proof.
  intros H. unfold Py.round.
  rewrite (Qfloor_comp x y H).
  assert (Hc : Qcompare (x - inject_Z (Qfloor y)) (1 # 2)
               = Qcompare (y - inject_Z (Qfloor y)) (1 # 2)).
  { rewrite H. reflexivity. }
  rewrite Hc. reflexivity.
Qed.

Lemma round2_proper (x y : Q) : x == y -> Py.round2 x = Py.round2 y.
Proof.
  intros H. unfold Py.round2. f_equal. apply round_proper.
  rewrite H. reflexivity.
Qed.

(** ** The DNS benchmark *)

Section DNSBenchmark.

Import DNSAnalyzer.

Variable probe : oracle.

Lemma servers_to_test_NoDup (custom_servers : option (list string)) :
  NoDup (Dict.keys (servers_to_test custom_servers)).
Proof.
  assert (Hcat : NoDup (Dict.keys
    (fold_left (fun d '(name, info) => Dict.set name (primary info) d)
       DNS_SERVERS []))).
  { apply fold_left_invariant with (P := fun d => NoDup (Dict.keys d)).
    - intros acc [name info] H. apply keys_set_NoDup, H.
    - constructor. }
  unfold servers_to_test.
  destruct custom_servers as [[|c l]|]; try exact Hcat.
  apply fold_left_invariant with (P := fun d => NoDup (Dict.keys d)).
  - intros acc [i server] H. apply keys_set_NoDup, H.
  - exact Hcat.
Qed.

Lemma summarize_ok (server_name server_ip : string) (domains : list string)
    (iterations : Z) (s : sampling) :
  domains <> [] -> iterations <> 0%Z ->
  exists entry, summarize server_name server_ip domains iterations s
                = Py.Ok entry.
Proof.
  intros Hd Hi. unfold summarize.
  destruct (Z.eqb_spec (Z.of_nat (List.length domains) * iterations) 0)
    as [Hz|Hz].
  - destruct domains; [contradiction|]. simpl List.length in Hz. lia.
  - eexists. reflexivity.
Qed.

(** The loop over the servers: every server of the dict gets the entry
    that its own probes produce. *)
Lemma results_fold (domains : list string) (iterations : Z) :
  domains <> [] -> iterations <> 0%Z ->
  forall (l : Dict.t string) (acc : Dict.t server_results),
  exists results,
    run_servers probe domains iterations l (Py.Ok acc) = Py.Ok results /\
    (NoDup (Dict.keys acc) -> NoDup (Dict.keys results)) /\
    (forall name, ~ In name (Dict.keys l) ->
       Dict.get name results = Dict.get name acc) /\
    (forall name server_ip, NoDup (Dict.keys l) -> In (name, server_ip) l ->
       exists entry,
         benchmark_server probe name server_ip domains iterations
         = Py.Ok entry /\
         Dict.get name results = Some entry).
Proof.
  intros Hd Hi. induction l as [|[n a] rest IH]; intros acc.
  - exists acc. simpl. repeat split; auto. intros ? ? _ [].
  - destruct (summarize_ok n a domains iterations
                (sample_server probe n domains iterations) Hd Hi)
      as [e He].
    fold (benchmark_server probe n a domains iterations) in He.
    destruct (IH (Dict.set n e acc)) as (results & Hfold & Hnd & Hout & Hin).
    exists results. unfold run_servers in *. cbn [fold_left Py.bind]. rewrite He.
    split; [exact Hfold|]. split; [|split].
    + intros H. apply Hnd, keys_set_NoDup, H.
    + intros name Hnot. simpl in Hnot. rewrite Hout by tauto.
      apply get_set_other. intros ->. apply Hnot. left; reflexivity.
    + intros name server_ip Hnodup [Heq|Hrest].
      * injection Heq as <- <-. exists e. split; [exact He|].
        inversion Hnodup; subst. rewrite Hout by assumption.
        apply get_set_same.
      * inversion Hnodup; subst. apply Hin; assumption.
Qed.

(** A run with at least one iteration returns a report, and the report
    holds, for every server that was to be tested, the entry computed from
    that server's samples. *)
Lemma benchmark_entry (custom_servers test_domains : option (list string))
    (iterations : Z) (server_name server_ip : string) :
  iterations <> 0%Z ->
  Dict.get server_name (servers_to_test custom_servers) = Some server_ip ->
  exists report entry,
    benchmark probe custom_servers test_domains iterations = Py.Ok report /\
    Dict.get server_name (servers report) = Some entry /\
    benchmark_server probe server_name server_ip
      (domains_or_default test_domains) iterations
    = Py.Ok entry.
Proof.
  intros Hi Hget. set (domains := domains_or_default test_domains).
  assert (Hd : domains <> []).
  { unfold domains. destruct test_domains as [[|d l]|]; discriminate. }
  destruct (results_fold domains iterations Hd Hi
              (servers_to_test custom_servers) [])
    as (results & Hfold & Hnd & _ & Hin).
  destruct (Hin server_name server_ip (servers_to_test_NoDup custom_servers)
              (get_In _ _ _ Hget)) as (entry & He & Hres).
  unfold benchmark. cbv zeta. fold domains.
  eexists. exists entry.
  split.
  { match goal with
    | |- context [run_servers ?a ?b ?c ?d ?e] =>
        replace (run_servers a b c d e) with (Py.Ok results)
          by (symmetry; exact Hfold)
    end.
    cbn [Py.bind]. reflexivity. }
  cbn [servers]. split; [|exact He].
  apply get_sorted; [apply Hnd; constructor | exact Hres].
Qed.

End DNSBenchmark.

Section DNSScenarios.

Import DNSAnalyzer.

(** C3.  One test domain, three iterations, and a resolver whose three
    probes succeed after 10 ms, 20 ms and 30 ms: the run returns a report,
    and the resolver's entry in it has an average of 20, a minimum of 10, a
    maximum of 30, a success rate of 100 and a reliability score of 96. *)
Theorem dns_benchmark_three_samples (probe : oracle)
    (custom_servers : option (list string))
    (domain server_name server_ip : string)
    (x0 x1 x2 : exchange) (t0 t1 t2 : Q) :
  Dict.get server_name (servers_to_test custom_servers) = Some server_ip ->
  probe server_name 0%nat 0%nat = Finished x0 t0 ->
  probe server_name 0%nat 1%nat = Finished x1 t1 ->
  probe server_name 0%nat 2%nat = Finished x2 t2 ->
  res_success (_resolve_dns x0) = true ->
  res_success (_resolve_dns x1) = true ->
  res_success (_resolve_dns x2) = true ->
  t0 == 10 -> t1 == 20 -> t2 == 30 ->
  exists report entry,
    benchmark probe custom_servers (Some [domain]) 3 = Py.Ok report /\
    Dict.get server_name (servers report) = Some entry /\
    ip entry = server_ip /\
    List.length (tests entry) = 3%nat /\
    avg_response_time entry == 20 /\
    Py.xeq (min_time entry) 10 /\
    max_time entry == 30 /\
    success_rate entry == 100 /\
    reliability_score entry = 96%Z.
Proof.
  intros Hget H0 H1 H2 S0 S1 S2 E0 E1 E2.
  destruct (benchmark_entry probe custom_servers (Some [domain]) 3
              server_name server_ip ltac:(discriminate) Hget)
    as (report & entry & Hrun & Hentry & Hbench).
  exists report, entry. split; [exact Hrun|]. split; [exact Hentry|].
  unfold benchmark_server, sample_server, domains_or_default in Hbench.
  change (Z.to_nat 3) with 3%nat in Hbench.
  cbn [List.length seq combine fold_left] in Hbench.
  rewrite H0, H1, H2 in Hbench. unfold test_dns_server in Hbench.
  rewrite S0, S1, S2 in Hbench.
  rewrite (round2_proper _ _ E0), (round2_proper _ _ E1),
    (round2_proper _ _ E2) in Hbench.
  unfold record_sample in Hbench. cbn [success] in Hbench.
  injection Hbench as <-.
  repeat split.
Qed.

End DNSScenarios.

(** A rate of zero out of any number of attempts rounds to zero. *)
Lemma round2_zero_rate (total : Q) :
  ~ total == 0 -> Py.round2 (inject_Z 0 / total * 100) = Py.round2 0.
Proof.
  intros H. apply round2_proper. field. exact H.
Qed.

Lemma div_ok (a b : Q) : ~ b == 0 -> Py.div a b = Py.Ok (a / b).
Proof.
  intros H. unfold Py.div. destruct (Qeq_bool b 0) eqn:E; [|reflexivity].
  apply Qeq_bool_iff in E. contradiction.
Qed.

Lemma inject_Z_nonzero (z : Z) : z <> 0%Z -> ~ inject_Z z == 0.
Proof.
  intros H E. apply H. unfold Qeq in E. simpl in E. lia.
Qed.

Section DNSAllFail.

Import DNSAnalyzer.

Variable probe : oracle.

(** Samples that fail leave the loop variables as they started, apart
    from the list of tests. *)
Lemma sample_server_all_fail (server_name : string) (domains : list string)
    (iterations : Z) :
  (forall d i, success (test_dns_server (probe server_name d i) 5) = false) ->
  let s := sample_server probe server_name domains iterations in
  s_all_times s = [] /\ s_successful s = 0%nat /\
  s_min_time s = Py.Infinity /\ s_max_time s = 0.
Proof.
  intros Hfail. unfold sample_server.
  apply fold_left_invariant
    with (P := fun s => s_all_times s = [] /\ s_successful s = 0%nat /\
                        s_min_time s = Py.Infinity /\ s_max_time s = 0).
  - intros acc [d domain] Hacc.
    apply fold_left_invariant
      with (P := fun s => s_all_times s = [] /\ s_successful s = 0%nat /\
                          s_min_time s = Py.Infinity /\ s_max_time s = 0).
    + intros s i Hs. unfold record_sample. rewrite Hfail. exact Hs.
    + exact Hacc.
  - repeat split.
Qed.

Lemma dns_all_fail (custom_servers test_domains : option (list string))
    (iterations : Z) (server_name server_ip : string) :
  iterations <> 0%Z ->
  Dict.get server_name (servers_to_test custom_servers) = Some server_ip ->
  (forall d i, success (test_dns_server (probe server_name d i) 5) = false) ->
  exists report entry,
    benchmark probe custom_servers test_domains iterations = Py.Ok report /\
    Dict.get server_name (servers report) = Some entry /\
    success_rate entry == 0 /\
    avg_response_time entry == 0 /\
    Py.xeq (min_time entry) 0 /\
    max_time entry == 0 /\
    reliability_score entry = 0%Z.
Proof.
  intros Hi Hget Hfail.
  destruct (benchmark_entry probe custom_servers test_domains iterations
              server_name server_ip Hi Hget)
    as (report & entry & Hrun & Hentry & Hbench).
  exists report, entry. split; [exact Hrun|]. split; [exact Hentry|].
  set (domains := domains_or_default test_domains) in *.
  destruct (sample_server_all_fail server_name domains iterations Hfail)
    as (Htimes & Hsucc & Hmin & Hmax).
  unfold benchmark_server, summarize in Hbench.
  destruct (Z.of_nat (List.length domains) * iterations =? 0)%Z eqn:Ez;
    [discriminate|].
  apply Z.eqb_neq in Ez.
  rewrite Htimes, Hsucc, Hmax in Hbench.
  change (Z.of_nat 0) with 0%Z in Hbench.
  rewrite round2_zero_rate in Hbench by (apply inject_Z_nonzero, Ez).
  injection Hbench as <-. cbn.
  repeat split.
Qed.

End DNSAllFail.

(** ** Rounding to two decimals *)

Lemma round_inject_Z (k : Z) : Py.round (inject_Z k) = k.
Proof.
  unfold Py.round. rewrite Qfloor_Z.
  assert (H : Qcompare (inject_Z k - inject_Z k) (1 # 2) = Lt).
  { apply Qlt_alt. setoid_replace (inject_Z k - inject_Z k) with 0 by ring.
    reflexivity. }
  rewrite H. reflexivity.
Qed.

(** A value with two decimals is its own rounding. *)
Lemma round2_cents (k : Z) : Py.round2 (k # 100) = k # 100.
Proof.
  unfold Py.round2. f_equal.
  rewrite (round_proper ((k # 100) * 100) (inject_Z k)).
  - apply round_inject_Z.
  - unfold Qeq. simpl. lia.
Qed.

(** The difference of two rounded values needs no further rounding. *)
Lemma round2_diff (x y : Q) :
  Py.round2 (Py.round2 x - Py.round2 y) == Py.round2 x - Py.round2 y.
Proof.
  unfold Py.round2 at 2 3 4 5.
  set (a := Py.round (x * 100)). set (b := Py.round (y * 100)).
  rewrite (round2_proper ((a # 100) - (b # 100)) ((a - b) # 100)).
  - rewrite round2_cents. unfold Qeq. simpl. lia.
  - unfold Qeq. simpl. lia.
Qed.

(** ** The builtins [min] and [max] *)

Lemma min2_cases (a b : Q) : Py.min2 a b = a \/ Py.min2 a b = b.
Proof. unfold Py.min2. destruct (Py.Qltb b a); auto. Qed.

Lemma max2_cases (a b : Q) : Py.max2 a b = a \/ Py.max2 a b = b.
Proof. unfold Py.max2. destruct (Py.Qltb a b); auto. Qed.

Lemma Qltb_true (a b : Q) : Py.Qltb a b = true -> a < b.
Proof.
  unfold Py.Qltb. intros H. apply negb_true_iff in H.
  apply Qle_bool_false, H.
Qed.

Lemma Qltb_false (a b : Q) : Py.Qltb a b = false -> b <= a.
Proof.
  unfold Py.Qltb. intros H. apply negb_false_iff in H.
  apply Qle_bool_iff, H.
Qed.

Lemma min2_le (a b : Q) : Py.min2 a b <= a /\ Py.min2 a b <= b.
Proof.
  unfold Py.min2. destruct (Py.Qltb b a) eqn:E.
  - apply Qltb_true in E. lra.
  - apply Qltb_false in E. lra.
Qed.

Lemma max2_ge (a b : Q) : a <= Py.max2 a b /\ b <= Py.max2 a b.
Proof.
  unfold Py.max2. destruct (Py.Qltb a b) eqn:E.
  - apply Qltb_true in E. lra.
  - apply Qltb_false in E. lra.
Qed.

Lemma min_list_In (x : Q) (l : list Q) : In (Py.min_list x l) (x :: l).
Proof.
  unfold Py.min_list. revert x.
  induction l as [|y rest IH]; intros x; simpl; [auto|].
  destruct (IH (Py.min2 x y)) as [H|H]; [|auto].
  rewrite <- H. destruct (min2_cases x y) as [-> | ->]; auto.
Qed.

Lemma max_list_In (x : Q) (l : list Q) : In (Py.max_list x l) (x :: l).
Proof.
  unfold Py.max_list. revert x.
  induction l as [|y rest IH]; intros x; simpl; [auto|].
  destruct (IH (Py.max2 x y)) as [H|H]; [|auto].
  rewrite <- H. destruct (max2_cases x y) as [-> | ->]; auto.
Qed.

Lemma min_list_le (x : Q) (l : list Q) :
  forall y, In y (x :: l) -> Py.min_list x l <= y.
Proof.
  unfold Py.min_list. revert x.
  induction l as [|z rest IH]; intros x y; simpl.
  - intros [<-|[]]. lra.
  - pose proof (min2_le x z) as [Hx Hz].
    pose proof (IH (Py.min2 x z) (Py.min2 x z) (or_introl eq_refl)) as Hm.
    simpl in Hm.
    intros [<-|[<-|Hin]]; [lra | lra |].
    apply IH. right. exact Hin.
Qed.

Lemma max_list_ge (x : Q) (l : list Q) :
  forall y, In y (x :: l) -> y <= Py.max_list x l.
Proof.
  unfold Py.max_list. revert x.
  induction l as [|z rest IH]; intros x y; simpl.
  - intros [<-|[]]. lra.
  - pose proof (max2_ge x z) as [Hx Hz].
    pose proof (IH (Py.max2 x z) (Py.max2 x z) (or_introl eq_refl)) as Hm.
    simpl in Hm.
    intros [<-|[<-|Hin]]; [lra | lra |].
    apply IH. right. exact Hin.
Qed.

(** ** The region tester *)

Section RegionTester.

Import GlobalPingTester.

Variables (self_timeout : Q) (self_iterations : Z) (probe : oracle).

(** The results of the [n] pings of a run, in order. *)
Definition pings (host : string) (n : Z) : list ping_result :=
  map (fun i => ping_host self_timeout host None (probe i))
    (seq 0 (Z.to_nat n)).

(** The latencies of the pings that succeeded, in order. *)
Definition good_latencies (results : list ping_result) : list Q :=
  map latency_ms (filter success results).

Lemma sample_region_fold (host : string) (l : list nat)
    (results : list ping_result) (latencies : list Q) :
  fold_left
    (fun '(results, latencies) i =>
       let result := ping_host self_timeout host None (probe i) in
       (results ++ [result],
        if success result then latencies ++ [latency_ms result]
        else latencies))
    l (results, latencies)
  = (results ++ map (fun i => ping_host self_timeout host None (probe i)) l,
     latencies
     ++ good_latencies
          (map (fun i => ping_host self_timeout host None (probe i)) l)).
Proof.
  revert results latencies.
  induction l as [|i rest IH]; intros results latencies; simpl.
  - unfold good_latencies. simpl. rewrite !app_nil_r. reflexivity.
  - rewrite IH. unfold good_latencies. simpl.
    destruct (success (ping_host self_timeout host None (probe i))); simpl;
      rewrite <- !app_assoc; reflexivity.
Qed.

Lemma sample_region_spec (host : string) (iterations : Z) :
  sample_region self_timeout probe host iterations
  = (pings host iterations, good_latencies (pings host iterations)).
Proof.
  unfold sample_region. rewrite sample_region_fold. reflexivity.
Qed.

(** What [test_region] reports for a region of the catalog. *)
Lemma test_region_stats (region_name : string) (iterations : option Z)
    (endpoint : endpoint) :
  Dict.get region_name GLOBAL_ENDPOINTS = Some endpoint ->
  iterations_or_default self_iterations iterations <> 0%Z ->
  let n := iterations_or_default self_iterations iterations in
  let results := pings (host endpoint) n in
  let latencies := good_latencies results in
  exists stats,
    test_region self_timeout self_iterations probe region_name iterations
    = Py.Ok (RegionTested stats) /\
    tests stats = results /\
    stats_success stats = (0 <? List.length latencies)%nat /\
    success_rate stats
    = Py.round2 (inject_Z (Z.of_nat (List.length latencies)) / inject_Z n
                 * 100) /\
    match latencies with
    | [] =>
        avg_latency_ms stats = 0 /\ min_latency_ms stats = 0 /\
        max_latency_ms stats = 0 /\ jitter_ms stats = 0
    | x :: rest =>
        avg_latency_ms stats = Py.round2 (Py.mean latencies) /\
        min_latency_ms stats = Py.round2 (Py.min_list x rest) /\
        max_latency_ms stats = Py.round2 (Py.max_list x rest) /\
        jitter_ms stats
        = Py.round2 (max_latency_ms stats - min_latency_ms stats)
    end.
Proof.
  intros Hget Hn n results latencies.
  unfold test_region. cbv zeta. fold n.
  rewrite Hget, sample_region_spec. fold results. fold latencies.
  rewrite div_ok by (apply inject_Z_nonzero, Hn).
  destruct latencies as [|x rest] eqn:E; cbn [Py.bind];
    eexists; (split; [reflexivity|]); cbn; repeat split.
Qed.

End RegionTester.

Lemma fold_left_over_map {A B C : Type} (step : A -> C -> A) (g : B -> C)
    (l : list B) (init : A) :
  fold_left (fun acc b => step acc (g b)) l init
  = fold_left step (map g l) init.
Proof.
  revert init. induction l as [|b rest IH]; intros init; simpl;
    [reflexivity | apply IH].
Qed.

(** ** The CDN benchmark *)

Section CDNBenchmark.

Import CDNTester.

Variables (self_timeout : Q) (probe : oracle).

(** A sample counts when the request completed with a status below 400. *)
Definition counted (r : probe_result) : bool :=
  success r && (status_code r <? 400)%Z.

(** The results of the [n] requests sent to a provider, in order. *)
Definition fetches (cdn_name : string) (n : Z) : list probe_result :=
  map (fun i => test_cdn self_timeout (probe cdn_name i))
    (seq 0 (Z.to_nat n)).

(** The response times of the samples that count, in order. *)
Definition counted_times (results : list probe_result) : list Q :=
  map response_time_ms (filter counted results).

Lemma xmin2_fold (l : list Q) (q : Q) :
  fold_left Py.xmin2 l (Py.Finite q) = Py.Finite (fold_left Py.min2 l q).
Proof.
  revert q. induction l as [|x rest IH]; intros q; simpl; [reflexivity|].
  apply IH.
Qed.

Lemma record_samples_fold (results : list probe_result) (s : sampling) :
  let s' := fold_left (fun s r => record_sample r s) results s in
  s_tests s' = s_tests s ++ results /\
  s_all_times s' = s_all_times s ++ counted_times results /\
  s_successful s'
  = (s_successful s + List.length (counted_times results))%nat /\
  s_min_time s' = fold_left Py.xmin2 (counted_times results) (s_min_time s) /\
  s_max_time s' = fold_left Py.max2 (counted_times results) (s_max_time s).
Proof.
  revert s. induction results as [|r rest IH]; intros s; cbv zeta; simpl.
  - unfold counted_times. simpl. rewrite !app_nil_r. repeat split. lia.
  - destruct (IH (record_sample r s)) as (H1 & H2 & H3 & H4 & H5).
    rewrite H1, H2, H3, H4, H5. clear.
    assert (Hc : counted_times (r :: rest)
                 = if counted r
                   then response_time_ms r :: counted_times rest
                   else counted_times rest).
    { unfold counted_times. simpl. destruct (counted r); reflexivity. }
    rewrite Hc. unfold record_sample.
    change (success r && (status_code r <? 400)%Z) with (counted r).
    destruct (counted r); simpl; rewrite <- ?app_assoc; simpl;
      repeat split; lia.
Qed.

(** The loop variables after the iterations of one provider. *)
Lemma sample_provider_spec (cdn_name : string) (iterations : Z) :
  let s := sample_provider self_timeout probe cdn_name iterations in
  let times := counted_times (fetches cdn_name iterations) in
  s_tests s = fetches cdn_name iterations /\
  s_all_times s = times /\
  s_successful s = List.length times /\
  s_min_time s = match times with
                 | [] => Py.Infinity
                 | x :: rest => Py.Finite (Py.min_list x rest)
                 end /\
  s_max_time s = Py.max_list 0 times.
Proof.
  intros s times. unfold s, sample_provider.
  rewrite (fold_left_over_map
    (fun s r => record_sample r s)
    (fun i => test_cdn self_timeout (probe cdn_name i))).
  destruct (record_samples_fold (fetches cdn_name iterations) sampling_start)
    as (H1 & H2 & H3 & H4 & H5).
  fold (fetches cdn_name iterations). rewrite H1, H2, H3, H4, H5.
  fold times. simpl. repeat split.
  destruct times as [|x rest]; [reflexivity|]. simpl. apply xmin2_fold.
Qed.

Lemma CDN_PROVIDERS_NoDup : NoDup (Dict.keys CDN_PROVIDERS).
Proof.
  unfold CDN_PROVIDERS, Dict.keys. simpl.
  repeat (constructor; [simpl; intuition discriminate|]). constructor.
Qed.

Lemma benchmark_provider_ok (cdn_name : string) (cdn_info : provider_info)
    (iterations : Z) :
  iterations <> 0%Z ->
  exists entry,
    benchmark_provider self_timeout probe cdn_name cdn_info iterations
    = Py.Ok entry.
Proof.
  intros Hi. unfold benchmark_provider, summarize.
  rewrite div_ok by (apply inject_Z_nonzero, Hi).
  eexists. reflexivity.
Qed.

(** The loop over the providers: every provider of the catalog gets the
    entry that its own requests produce. *)
Lemma providers_fold (iterations : Z) :
  iterations <> 0%Z ->
  forall (l : Dict.t provider_info) (acc : Dict.t cdn_results),
  exists results,
    run_providers self_timeout probe iterations l (Py.Ok acc)
    = Py.Ok results /\
    (NoDup (Dict.keys acc) -> NoDup (Dict.keys results)) /\
    (forall name, ~ In name (Dict.keys l) ->
       Dict.get name results = Dict.get name acc) /\
    (forall name cdn_info, NoDup (Dict.keys l) -> In (name, cdn_info) l ->
       exists entry,
         benchmark_provider self_timeout probe name cdn_info iterations
         = Py.Ok entry /\
         Dict.get name results = Some entry).
Proof.
  intros Hi. induction l as [|[n a] rest IH]; intros acc.
  - exists acc. simpl. repeat split; auto. intros ? ? _ [].
  - destruct (benchmark_provider_ok n a iterations Hi) as [e He].
    destruct (IH (Dict.set n e acc)) as (results & Hfold & Hnd & Hout & Hin).
    exists results. unfold run_providers in *.
    cbn [fold_left Py.bind]. rewrite He.
    split; [exact Hfold|]. split; [|split].
    + intros H. apply Hnd, keys_set_NoDup, H.
    + intros name Hnot. simpl in Hnot. rewrite Hout by tauto.
      apply get_set_other. intros ->. apply Hnot. left; reflexivity.
    + intros name cdn_info Hnodup [Heq|Hrest].
      * injection Heq as <- <-. exists e. split; [exact He|].
        inversion Hnodup; subst. rewrite Hout by assumption.
        apply get_set_same.
      * inversion Hnodup; subst. apply Hin; assumption.
Qed.

(** A run with at least one iteration returns a report that holds, for
    every provider of the catalog, the entry computed from its samples. *)
Lemma cdn_benchmark_entry (iterations : Z) (cdn_name : string)
    (cdn_info : provider_info) :
  iterations <> 0%Z ->
  Dict.get cdn_name CDN_PROVIDERS = Some cdn_info ->
  exists report entry,
    benchmark self_timeout probe iterations = Py.Ok report /\
    Dict.get cdn_name (providers report) = Some entry /\
    benchmark_provider self_timeout probe cdn_name cdn_info iterations
    = Py.Ok entry.
Proof.
  intros Hi Hget.
  destruct (providers_fold iterations Hi CDN_PROVIDERS [])
    as (results & Hfold & Hnd & _ & Hin).
  destruct (Hin cdn_name cdn_info CDN_PROVIDERS_NoDup (get_In _ _ _ Hget))
    as (entry & He & Hres).
  unfold benchmark. eexists. exists entry.
  split.
  { match goal with
    | |- context [run_providers ?a ?b ?c ?d ?e] =>
        replace (run_providers a b c d e) with (Py.Ok results)
          by (symmetry; exact Hfold)
    end.
    cbn [Py.bind]. reflexivity. }
  cbn [providers]. split; [|exact He].
  apply get_sorted; [apply Hnd; constructor | exact Hres].
Qed.

(** What the entry of a provider holds, in terms of the samples that
    count. *)
Lemma benchmark_provider_spec (cdn_name : string) (cdn_info : provider_info)
    (iterations : Z) (entry : cdn_results) :
  benchmark_provider self_timeout probe cdn_name cdn_info iterations
  = Py.Ok entry ->
  let results := fetches cdn_name iterations in
  let times := counted_times results in
  tests entry = results /\
  success_rate entry
  = Py.round2 (inject_Z (Z.of_nat (List.length (filter counted results)))
               / inject_Z iterations * 100) /\
  score entry
  = _calculate_score (avg_response_time entry) (success_rate entry) /\
  match times with
  | [] =>
      avg_response_time entry = 0 /\ min_time entry = Py.Finite 0 /\
      max_time entry = 0
  | x :: rest =>
      avg_response_time entry = Py.round2 (Py.mean times) /\
      min_time entry = Py.Finite (Py.round2 (Py.min_list x rest)) /\
      max_time entry = Py.round2 (Py.max_list 0 times)
  end.
Proof.
  intros Hrun results times.
  unfold benchmark_provider, summarize in Hrun.
  destruct (sample_provider_spec cdn_name iterations)
    as (H1 & H2 & H3 & H4 & H5).
  fold results in H1, H2, H3, H4, H5. fold times in H2, H3, H4, H5.
  rewrite H1, H2, H3, H4, H5 in Hrun.
  assert (Hlen : List.length times = List.length (filter counted results)).
  { unfold times, counted_times. apply length_map. }
  rewrite Hlen in Hrun.
  destruct (Py.div _ _) as [rate|e] eqn:Ediv; [|discriminate].
  unfold Py.div in Ediv.
  destruct (Qeq_bool (inject_Z iterations) 0); [discriminate|].
  injection Ediv as <-. cbn [Py.bind] in Hrun. injection Hrun as <-.
  destruct times as [|x rest]; cbn; repeat split.
Qed.

End CDNBenchmark.

Lemma filter_none {A : Type} (f : A -> bool) (l : list A) :
  (forall x, In x l -> f x = false) -> filter f l = [].
Proof.
  induction l as [|x rest IH]; intros H; simpl; [reflexivity|].
  rewrite (H x (or_introl eq_refl)). apply IH.
  intros y Hy. apply H. right. exact Hy.
Qed.

(** A completed request is a success of the probe, whatever its status;
    it counts in the benchmark only below 400. *)
Lemma counted_iff (self_timeout : Q) (o : CDNTester.fetched) :
  counted (CDNTester.test_cdn self_timeout o) = true <->
  exists status response_time body_length response_headers,
    o = CDNTester.Responded status response_time body_length response_headers
    /\ (status < 400)%Z.
Proof.
  unfold counted. destruct o as [status t len hdrs| |e]; simpl.
  - rewrite Z.ltb_lt. split.
    + intros H. exists status, t, len, hdrs. split; [reflexivity | exact H].
    + intros (s' & t' & l' & h' & Heq & Hlt). injection Heq as -> _ _ _.
      exact Hlt.
  - split; [discriminate|]. intros (? & ? & ? & ? & Heq & _). discriminate.
  - split; [discriminate|]. intros (? & ? & ? & ? & Heq & _). discriminate.
Qed.

(** C10.  In the CDN benchmark a sample counts toward the success rate and
    enters the latency aggregates only if the request completed with a
    status below 400.  A completed request with a status of 400 or more is
    a success of the probe and still a failed sample of the benchmark. *)
Theorem cdn_counts_only_status_below_400 (self_timeout : Q)
    (probe : CDNTester.oracle) (iterations : Z) (cdn_name : string)
    (cdn_info : CDNTester.provider_info) :
  iterations <> 0%Z ->
  Dict.get cdn_name CDNTester.CDN_PROVIDERS = Some cdn_info ->
  (forall status response_time body_length response_headers,
     let r := CDNTester.test_cdn self_timeout
                (CDNTester.Responded status response_time body_length
                   response_headers) in
     CDNTester.success r = true /\
     (counted r = true <-> (status < 400)%Z)) /\
  (forall o, counted (CDNTester.test_cdn self_timeout o) = true <->
     exists status response_time body_length response_headers,
       o = CDNTester.Responded status response_time body_length
             response_headers /\ (status < 400)%Z) /\
  exists report entry,
    CDNTester.benchmark self_timeout probe iterations = Py.Ok report /\
    Dict.get cdn_name (CDNTester.providers report) = Some entry /\
    let results := fetches self_timeout probe cdn_name iterations in
    let times := counted_times results in
    CDNTester.tests entry = results /\
    CDNTester.success_rate entry
    = Py.round2 (inject_Z (Z.of_nat (List.length (filter counted results)))
                 / inject_Z iterations * 100) /\
    match times with
    | [] =>
        CDNTester.avg_response_time entry = 0 /\
        CDNTester.min_time entry = Py.Finite 0 /\
        CDNTester.max_time entry = 0
    | x :: rest =>
        CDNTester.avg_response_time entry = Py.round2 (Py.mean times) /\
        CDNTester.min_time entry
        = Py.Finite (Py.round2 (Py.min_list x rest)) /\
        CDNTester.max_time entry = Py.round2 (Py.max_list 0 times)
    end.
Proof.
  intros Hi Hget. split; [|split].
  - intros status t len hdrs r. split; [reflexivity|].
    unfold counted, r. simpl. apply Z.ltb_lt.
  - apply counted_iff.
  - destruct (cdn_benchmark_entry self_timeout probe iterations cdn_name
                cdn_info Hi Hget) as (report & entry & Hrun & Hentry & Hb).
    exists report, entry. split; [exact Hrun|]. split; [exact Hentry|].
    destruct (benchmark_provider_spec self_timeout probe cdn_name cdn_info
                iterations entry Hb) as (H1 & H2 & _ & H4).
    cbv zeta. auto.
Qed.

(** Three requests to one provider: 200 after 10 ms, 404 after 20 ms, 500
    after 30 ms. *)
Definition mixed_statuses : CDNTester.oracle :=
  fun _ i =>
    match i with
    | 0%nat => CDNTester.Responded 200 10 1%nat []
    | 1%nat => CDNTester.Responded 404 20 1%nat []
    | _ => CDNTester.Responded 500 30 1%nat []
    end.

Lemma cdn_counts_only_status_below_400_witness :
  3%Z <> 0%Z /\
  exists report entry,
    CDNTester.benchmark 10 mixed_statuses 3 = Py.Ok report /\
    Dict.get "Cloudflare" (CDNTester.providers report) = Some entry /\
    map CDNTester.success (CDNTester.tests entry) = [true; true; true] /\
    CDNTester.success_rate entry == 33.33 /\
    CDNTester.avg_response_time entry == 10 /\
    CDNTester.max_time entry == 10.
Proof.
  assert (H3 : 3%Z <> 0%Z) by lia.
  split; [exact H3|].
  destruct (cdn_counts_only_status_below_400 10 mixed_statuses 3
              "Cloudflare" _ H3 eq_refl)
    as (_ & _ & report & entry & Hrun & Hentry & Htests & Hrate & Hagg).
  exists report, entry. split; [exact Hrun|]. split; [exact Hentry|].
  rewrite Htests, Hrate. cbn in Hagg. destruct Hagg as (-> & _ & ->).
  repeat split.
Defined.

(** ** Scenarios of the DNS benchmark *)

Definition octet (n : N) : Byte.byte :=
  match Byte.of_N n with
  | Some b => b
  | None => Byte.x00
  end.

(** A response to a query for [www]: the header, the question, and one
    answer, an A record with the address 1.2.3.4 under a compressed name. *)
Definition answer_1_2_3_4 : DNSWire.bytes :=
  map octet
    [18; 52; 129; 128; 0; 1; 0; 1; 0; 0; 0; 0;
     3; 119; 119; 119; 0; 0; 1; 0; 1;
     192; 12; 0; 1; 0; 1; 0; 0; 0; 9; 0; 4; 1; 2; 3; 4]%N.

Example parse_answer_1_2_3_4 :
  DNSWire._parse_dns_response answer_1_2_3_4 = Py.Ok "1.2.3.4"%string.
Proof. reflexivity. Qed.

(** Every server answers the three probes after 10, 20 and 30 ms. *)
Definition three_good : DNSAnalyzer.oracle :=
  fun _ _ i =>
    DNSAnalyzer.Finished (DNSAnalyzer.Received answer_1_2_3_4)
      match i with
      | 0%nat => 10
      | 1%nat => 20
      | _ => 30
      end.

Lemma dns_benchmark_three_samples_witness :
  Dict.get "Quad9" (DNSAnalyzer.servers_to_test None) = Some "9.9.9.9"%string
  /\
  exists report entry,
    DNSAnalyzer.benchmark three_good None (Some ["example.com"%string]) 3
    = Py.Ok report /\
    Dict.get "Quad9" (DNSAnalyzer.servers report) = Some entry /\
    DNSAnalyzer.ip entry = "9.9.9.9"%string /\
    List.length (DNSAnalyzer.tests entry) = 3%nat /\
    DNSAnalyzer.avg_response_time entry == 20 /\
    Py.xeq (DNSAnalyzer.min_time entry) 10 /\
    DNSAnalyzer.max_time entry == 30 /\
    DNSAnalyzer.success_rate entry == 100 /\
    DNSAnalyzer.reliability_score entry = 96%Z.
Proof.
  split; [reflexivity|].
  apply (dns_benchmark_three_samples three_good None "example.com" "Quad9"
           "9.9.9.9"
           (DNSAnalyzer.Received answer_1_2_3_4)
           (DNSAnalyzer.Received answer_1_2_3_4)
           (DNSAnalyzer.Received answer_1_2_3_4) 10 20 30);
    reflexivity.
Defined.

(** Every probe of every server runs into the timeout. *)
Definition all_time_out : DNSAnalyzer.oracle :=
  fun _ _ _ => DNSAnalyzer.TimedOut.

(** ** Runs in which every sample fails *)

(** C4.  When every sample of a run fails, the aggregate is all zero: in
    the DNS benchmark the entry of the server has success rate, average,
    minimum, maximum and reliability score 0; the region tester reports
    success rate, average, minimum, maximum and jitter 0; the CDN benchmark
    gives success rate, average, minimum, maximum and score 0.  This holds
    for every timeout, although a sample that timed out carries
    [timeout * 1000] ms as its elapsed time. *)
Theorem all_failed_aggregate_is_zero (timeout : Q)
    (iterations self_iterations : Z) (region_iterations : option Z)
    (dns_probe : DNSAnalyzer.oracle)
    (custom_servers test_domains : option (list string))
    (server_name server_ip : string)
    (ping_probe : GlobalPingTester.oracle) (region_name : string)
    (endpoint : GlobalPingTester.endpoint)
    (cdn_probe : CDNTester.oracle) (cdn_name : string)
    (cdn_info : CDNTester.provider_info) :
  iterations <> 0%Z ->
  GlobalPingTester.iterations_or_default self_iterations region_iterations
  <> 0%Z ->
  Dict.get server_name (DNSAnalyzer.servers_to_test custom_servers)
  = Some server_ip ->
  Dict.get region_name GlobalPingTester.GLOBAL_ENDPOINTS = Some endpoint ->
  Dict.get cdn_name CDNTester.CDN_PROVIDERS = Some cdn_info ->
  (forall d i,
     DNSAnalyzer.success
       (DNSAnalyzer.test_dns_server (dns_probe server_name d i) 5) = false) ->
  (forall i,
     GlobalPingTester.success
       (GlobalPingTester.ping_host timeout (GlobalPingTester.host endpoint)
          None (ping_probe i)) = false) ->
  (forall i,
     counted (CDNTester.test_cdn timeout (cdn_probe cdn_name i)) = false) ->
  (exists report entry,
     DNSAnalyzer.benchmark dns_probe custom_servers test_domains iterations
     = Py.Ok report /\
     Dict.get server_name (DNSAnalyzer.servers report) = Some entry /\
     DNSAnalyzer.success_rate entry == 0 /\
     DNSAnalyzer.avg_response_time entry == 0 /\
     Py.xeq (DNSAnalyzer.min_time entry) 0 /\
     DNSAnalyzer.max_time entry == 0 /\
     DNSAnalyzer.reliability_score entry = 0%Z) /\
  (exists stats,
     GlobalPingTester.test_region timeout self_iterations ping_probe
       region_name region_iterations
     = Py.Ok (GlobalPingTester.RegionTested stats) /\
     GlobalPingTester.stats_success stats = false /\
     GlobalPingTester.success_rate stats == 0 /\
     GlobalPingTester.avg_latency_ms stats == 0 /\
     GlobalPingTester.min_latency_ms stats == 0 /\
     GlobalPingTester.max_latency_ms stats == 0 /\
     GlobalPingTester.jitter_ms stats == 0) /\
  (exists report entry,
     CDNTester.benchmark timeout cdn_probe iterations = Py.Ok report /\
     Dict.get cdn_name (CDNTester.providers report) = Some entry /\
     CDNTester.success_rate entry == 0 /\
     CDNTester.avg_response_time entry == 0 /\
     Py.xeq (CDNTester.min_time entry) 0 /\
     CDNTester.max_time entry == 0 /\
     CDNTester.score entry = 0%Z) /\
  (let r := DNSAnalyzer.test_dns_server DNSAnalyzer.TimedOut timeout in
   DNSAnalyzer.success r = false /\
   DNSAnalyzer.response_time_ms r == timeout * 1000) /\
  (forall host,
     let r := GlobalPingTester.ping_host timeout host None
                GlobalPingTester.TimedOut in
     GlobalPingTester.success r = false /\
     GlobalPingTester.latency_ms r == timeout * 1000) /\
  (let r := CDNTester.test_cdn timeout CDNTester.TimedOut in
   counted r = false /\
   CDNTester.response_time_ms r == timeout * 1000).
Proof.
  intros Hi Hri Hdns Hreg Hcdn Fdns Fping Fcdn.
  split; [|split; [|split; [|repeat split; reflexivity]]].
  - apply dns_all_fail with (server_ip := server_ip); assumption.
  - destruct (test_region_stats timeout self_iterations ping_probe
                region_name region_iterations endpoint Hreg Hri)
      as (stats & Hrun & Htests & Hsucc & Hrate & Hagg).
    assert (Hnone : good_latencies
              (pings timeout ping_probe (GlobalPingTester.host endpoint)
                 (GlobalPingTester.iterations_or_default self_iterations
                    region_iterations)) = []).
    { unfold good_latencies. rewrite filter_none; [reflexivity|].
      intros r Hr. unfold pings in Hr. apply in_map_iff in Hr.
      destruct Hr as (i & <- & _). apply Fping. }
    cbv zeta in Hsucc, Hrate, Hagg. rewrite Hnone in Hsucc, Hrate, Hagg.
    destruct Hagg as (Ha & Hmin & Hmax & Hj).
    exists stats. split; [exact Hrun|].
    rewrite Hsucc, Hrate, Ha, Hmin, Hmax, Hj.
    rewrite round2_zero_rate by (apply inject_Z_nonzero, Hri).
    repeat split.
  - destruct (cdn_benchmark_entry timeout cdn_probe iterations cdn_name
                cdn_info Hi Hcdn) as (report & entry & Hrun & Hentry & Hb).
    destruct (benchmark_provider_spec timeout cdn_probe cdn_name cdn_info
                iterations entry Hb) as (_ & Hrate & Hscore & Hagg).
    assert (Hnone : filter counted
                      (fetches timeout cdn_probe cdn_name iterations) = []).
    { apply filter_none. intros r Hr. unfold fetches in Hr.
      apply in_map_iff in Hr. destruct Hr as (i & <- & _). apply Fcdn. }
    unfold counted_times in Hagg. rewrite Hnone in Hrate, Hagg.
    simpl in Hagg. destruct Hagg as (Ha & Hmin & Hmax).
    change (Z.of_nat (List.length (@nil CDNTester.probe_result)))
      with 0%Z in Hrate.
    rewrite round2_zero_rate in Hrate by (apply inject_Z_nonzero, Hi).
    exists report, entry. split; [exact Hrun|]. split; [exact Hentry|].
    rewrite Hscore, Hrate, Ha, Hmin, Hmax. repeat split.
Qed.

Lemma all_failed_aggregate_is_zero_witness :
  4%Z <> 0%Z /\
  (exists report entry,
     DNSAnalyzer.benchmark all_time_out None None 4 = Py.Ok report /\
     Dict.get "Google" (DNSAnalyzer.servers report) = Some entry /\
     DNSAnalyzer.success_rate entry == 0 /\
     DNSAnalyzer.avg_response_time entry == 0 /\
     Py.xeq (DNSAnalyzer.min_time entry) 0 /\
     DNSAnalyzer.max_time entry == 0 /\
     DNSAnalyzer.reliability_score entry = 0%Z) /\
  (exists stats,
     GlobalPingTester.test_region 7 3
       (fun _ => GlobalPingTester.TimedOut) "Cloudflare" None
     = Py.Ok (GlobalPingTester.RegionTested stats) /\
     GlobalPingTester.stats_success stats = false /\
     GlobalPingTester.success_rate stats == 0 /\
     GlobalPingTester.avg_latency_ms stats == 0 /\
     GlobalPingTester.min_latency_ms stats == 0 /\
     GlobalPingTester.max_latency_ms stats == 0 /\
     GlobalPingTester.jitter_ms stats == 0).
Proof.
  assert (H4 : 4%Z <> 0%Z) by lia.
  assert (H3 : GlobalPingTester.iterations_or_default 3 None <> 0%Z)
    by (simpl; lia).
  split; [exact H4|].
  destruct (all_failed_aggregate_is_zero 7 4 3 None
              all_time_out None None "Google" "8.8.8.8"
              (fun _ => GlobalPingTester.TimedOut) "Cloudflare" _
              (fun _ _ => CDNTester.TimedOut) "Fastly" _
              H4 H3 eq_refl eq_refl eq_refl
              (fun _ _ => eq_refl) (fun _ => eq_refl) (fun _ => eq_refl))
    as (Hdns & Hping & _).
  split; [exact Hdns | exact Hping].
Defined.

(** ** Jitter *)

(** The absolute differences of neighbours, along the list. *)
Fixpoint successive_diffs (v : list Q) : list Q :=
  match v with
  | a :: (b :: _) as rest => Qabs (b - a) :: successive_diffs rest
  | _ => []
  end.

(** The latencies of the connects that succeeded, in the order of the
    attempts. *)
Definition connected_latencies (probe : nat -> NetworkScanner.attempt)
    (count : Z) : list Q :=
  flat_map (fun i => match probe i with
                     | NetworkScanner.Connected latency => [latency]
                     | _ => []
                     end) (seq 0 (Z.to_nat count)).

Lemma diffs_successive (v : list Q) :
  NetworkScanner.diffs v = successive_diffs v.
Proof.
  unfold NetworkScanner.diffs.
  induction v as [|a [|b rest] IH]; try reflexivity.
  change (List.length (a :: b :: rest) - 1)%nat with (S (List.length rest)).
  change (successive_diffs (a :: b :: rest))
    with (Qabs (b - a) :: successive_diffs (b :: rest)).
  cbn [seq map]. f_equal.
  rewrite <- IH. cbn [List.length]. rewrite Nat.sub_succ, Nat.sub_0_r.
  rewrite <- seq_shift, map_map. apply map_ext_in.
  intros i Hi. apply in_seq in Hi.
  destruct i as [|i]; [lia|]. simpl. rewrite ?Nat.sub_0_r. reflexivity.
Qed.

Lemma valid_app (a b : list Py.xfloat) :
  NetworkScanner.valid (a ++ b)
  = NetworkScanner.valid a ++ NetworkScanner.valid b.
Proof. unfold NetworkScanner.valid. apply flat_map_app. Qed.

Lemma valid_collect_fold (probe : nat -> NetworkScanner.attempt)
    (l : list nat) (acc : list Py.xfloat) :
  NetworkScanner.valid
    (fold_left
       (fun latencies i =>
          match probe i with
          | NetworkScanner.Connected latency =>
              latencies ++ [Py.Finite latency]
          | NetworkScanner.TimedOut => latencies ++ [Py.Infinity]
          | NetworkScanner.Crashed _ => latencies
          end) l acc)
  = NetworkScanner.valid acc ++
    flat_map (fun i => match probe i with
                       | NetworkScanner.Connected latency => [latency]
                       | _ => []
                       end) l.
Proof.
  revert acc. induction l as [|i rest IH]; intros acc; simpl.
  - rewrite app_nil_r. reflexivity.
  - rewrite IH. destruct (probe i); rewrite ?valid_app; simpl;
      rewrite <- ?app_assoc; reflexivity.
Qed.

Lemma valid_collect (probe : nat -> NetworkScanner.attempt) (count : Z) :
  NetworkScanner.valid (NetworkScanner.collect probe count)
  = connected_latencies probe count.
Proof.
  unfold NetworkScanner.collect. rewrite valid_collect_fold. reflexivity.
Qed.

Lemma connected_latencies_count (probe : nat -> NetworkScanner.attempt)
    (count : Z) :
  connected_latencies probe count <> [] -> count <> 0%Z.
Proof.
  intros H ->. apply H. reflexivity.
Qed.

(** What [measure_latency] reports as jitter. *)
Lemma measure_latency_jitter (probe : nat -> NetworkScanner.attempt)
    (count : Z) :
  let v := connected_latencies probe count in
  exists stats,
    NetworkScanner.measure_latency probe count = Py.Ok stats /\
    NetworkScanner.jitter stats
    == Py.round2 (if (1 <? List.length v)%nat
                  then Py.mean (successive_diffs v) else 0).
Proof.
  intros v. unfold NetworkScanner.measure_latency.
  rewrite valid_collect. fold v.
  destruct v as [|x rest] eqn:E.
  - eexists. split; reflexivity.
  - rewrite div_ok.
    + cbn [Py.bind]. eexists. split; [reflexivity|].
      cbn [NetworkScanner.jitter]. rewrite diffs_successive. reflexivity.
    + apply inject_Z_nonzero. apply (connected_latencies_count probe).
      fold v. rewrite E. discriminate.
Qed.

(** The latency of a ping that succeeded has two decimals. *)
Lemma good_latencies_cents (self_timeout : Q)
    (probe : GlobalPingTester.oracle) (host : string) (n : Z) (y : Q) :
  In y (good_latencies (pings self_timeout probe host n)) ->
  exists k : Z, y = k # 100.
Proof.
  unfold good_latencies, pings. intros H.
  apply in_map_iff in H. destruct H as (r & <- & Hr).
  apply filter_In in Hr. destruct Hr as [Hr Hs].
  apply in_map_iff in Hr. destruct Hr as (i & <- & _).
  destruct (probe i) as [ip elapsed| |e]; simpl in *; try discriminate.
  eexists. reflexivity.
Qed.

(** The region tester: the reported jitter is the reported maximum minus
    the reported minimum, and these are the largest and the smallest
    latency among the pings that succeeded. *)
Lemma region_jitter (self_timeout : Q) (self_iterations : Z)
    (probe : GlobalPingTester.oracle) (region_name : string)
    (iterations : option Z) (endpoint : GlobalPingTester.endpoint) :
  Dict.get region_name GlobalPingTester.GLOBAL_ENDPOINTS = Some endpoint ->
  GlobalPingTester.iterations_or_default self_iterations iterations <> 0%Z ->
  exists stats,
    GlobalPingTester.test_region self_timeout self_iterations probe
      region_name iterations
    = Py.Ok (GlobalPingTester.RegionTested stats) /\
    match
      good_latencies
        (pings self_timeout probe (GlobalPingTester.host endpoint)
           (GlobalPingTester.iterations_or_default self_iterations
              iterations))
    with
    | [] => GlobalPingTester.jitter_ms stats == 0
    | x :: rest =>
        GlobalPingTester.jitter_ms stats
        == GlobalPingTester.max_latency_ms stats
           - GlobalPingTester.min_latency_ms stats /\
        GlobalPingTester.max_latency_ms stats = Py.max_list x rest /\
        GlobalPingTester.min_latency_ms stats = Py.min_list x rest /\
        (forall y, In y (x :: rest) ->
           Py.min_list x rest <= y <= Py.max_list x rest)
    end.
Proof.
  intros Hget Hn.
  destruct (test_region_stats self_timeout self_iterations probe region_name
              iterations endpoint Hget Hn)
    as (stats & Hrun & _ & _ & _ & Hagg).
  exists stats. split; [exact Hrun|]. cbv zeta in Hagg.
  pose proof (good_latencies_cents self_timeout probe
                (GlobalPingTester.host endpoint)
                (GlobalPingTester.iterations_or_default self_iterations
                   iterations)) as Hcents.
  destruct (good_latencies _) as [|x rest].
  - destruct Hagg as (_ & _ & _ & ->). reflexivity.
  - destruct Hagg as (_ & Hmin & Hmax & Hj).
    destruct (Hcents _ (min_list_In x rest)) as [kmin Hkmin].
    destruct (Hcents _ (max_list_In x rest)) as [kmax Hkmax].
    split; [|split; [|split]].
    + rewrite Hj, Hmax, Hmin. apply round2_diff.
    + rewrite Hmax, Hkmax. apply round2_cents.
    + rewrite Hmin, Hkmin. apply round2_cents.
    + intros y Hy. split; [apply min_list_le | apply max_list_ge]; exact Hy.
Qed.

(** Three requests to every provider, answered with status 200 after 10,
    20 and 30 ms. *)
Definition three_ok : CDNTester.oracle :=
  fun _ i =>
    CDNTester.Responded 200
      match i with
      | 0%nat => 10
      | 1%nat => 20
      | _ => 30
      end 1%nat [].

(** The CDN benchmark reports a minimum and a maximum and no jitter: the
    entry of a provider whose samples took 10, 20 and 30 ms has
    [min_time] 10 and [max_time] 30, and no key for a jitter of 20. *)
Lemma cdn_entry_has_no_jitter :
  exists report entry,
    CDNTester.benchmark 10 three_ok 3 = Py.Ok report /\
    Dict.get "Fastly" (CDNTester.providers report) = Some entry /\
    Py.xeq (CDNTester.min_time entry) 10 /\
    CDNTester.max_time entry == 30 /\
    Dict.keys (CDNTester.entry_dict entry)
    = ["url"; "description"; "features"; "tests"; "avg_response_time";
       "min_time"; "max_time"; "success_rate"; "score"]%string /\
    Dict.get "jitter" (CDNTester.entry_dict entry) = None /\
    Dict.get "jitter_ms" (CDNTester.entry_dict entry) = None /\
    ~ (exists j, Dict.get "jitter" (CDNTester.entry_dict entry)
                 = Some (Py.VNum j) /\ j == 30 - 10).
Proof.
  remember (CDNTester.benchmark 10 three_ok 3) as run eqn:E.
  vm_compute in E. subst run.
  eexists. eexists. split; [reflexivity|]. split; [reflexivity|].
  repeat split.
  intros (j & Hj & _). discriminate.
Qed.

(** Connects that take the latencies of a list, one after the other. *)
Definition connects (latencies : list Q) : nat -> NetworkScanner.attempt :=
  fun i =>
    match nth_error latencies i with
    | Some latency => NetworkScanner.Connected latency
    | None => NetworkScanner.TimedOut
    end.

(** C8, as the code has it.  The region tester reports jitter as the
    maximum minus the minimum of the latencies of the pings that succeeded
    (0 when none did).  The CDN benchmark reports no jitter at all: the
    entry of a provider has a minimum and a maximum only.  The network
    scanner reports jitter as the mean of the absolute differences between
    neighbouring connects that succeeded, rounded to two decimals (0 with
    fewer than two of them); this depends on the order of the samples. *)
Theorem jitter_by_runner (self_timeout : Q) (self_iterations : Z)
    (ping_probe : GlobalPingTester.oracle) (region_name : string)
    (iterations : option Z) (endpoint : GlobalPingTester.endpoint)
    (scan_probe : nat -> NetworkScanner.attempt) (count : Z) :
  Dict.get region_name GlobalPingTester.GLOBAL_ENDPOINTS = Some endpoint ->
  GlobalPingTester.iterations_or_default self_iterations iterations <> 0%Z ->
  (exists stats,
     GlobalPingTester.test_region self_timeout self_iterations ping_probe
       region_name iterations
     = Py.Ok (GlobalPingTester.RegionTested stats) /\
     match
       good_latencies
         (pings self_timeout ping_probe (GlobalPingTester.host endpoint)
            (GlobalPingTester.iterations_or_default self_iterations
               iterations))
     with
     | [] => GlobalPingTester.jitter_ms stats == 0
     | x :: rest =>
         GlobalPingTester.jitter_ms stats
         == GlobalPingTester.max_latency_ms stats
            - GlobalPingTester.min_latency_ms stats /\
         GlobalPingTester.max_latency_ms stats = Py.max_list x rest /\
         GlobalPingTester.min_latency_ms stats = Py.min_list x rest /\
         (forall y, In y (x :: rest) ->
            Py.min_list x rest <= y <= Py.max_list x rest)
     end) /\
  (forall entry : CDNTester.cdn_results,
     Dict.keys (CDNTester.entry_dict entry)
     = ["url"; "description"; "features"; "tests"; "avg_response_time";
        "min_time"; "max_time"; "success_rate"; "score"]%string /\
     Dict.get "jitter" (CDNTester.entry_dict entry) = None) /\
  (exists stats,
     NetworkScanner.measure_latency scan_probe count = Py.Ok stats /\
     let v := connected_latencies scan_probe count in
     NetworkScanner.jitter stats
     == Py.round2 (if (1 <? List.length v)%nat
                   then Py.mean (successive_diffs v) else 0) /\
     ((List.length v < 2)%nat -> NetworkScanner.jitter stats == 0)) /\
  (exists there_and_back straight,
     NetworkScanner.measure_latency (connects [10; 30; 20]) 3
     = Py.Ok there_and_back /\
     NetworkScanner.measure_latency (connects [10; 20; 30]) 3
     = Py.Ok straight /\
     NetworkScanner.jitter there_and_back == 15 /\
     NetworkScanner.jitter straight == 10).
Proof.
  intros Hget Hn. split; [|split; [|split]].
  - apply region_jitter; assumption.
  - intros entry. split; reflexivity.
  - destruct (measure_latency_jitter scan_probe count) as (stats & Hrun & Hj).
    exists stats. split; [exact Hrun|]. cbv zeta. split; [exact Hj|].
    intros Hlen. rewrite Hj.
    destruct (1 <? List.length (connected_latencies scan_probe count))%nat
      eqn:E; [|reflexivity].
    apply Nat.ltb_lt in E. lia.
  - eexists. eexists. repeat split.
Qed.

Lemma jitter_by_runner_witness :
  Dict.get "Cloudflare" GlobalPingTester.GLOBAL_ENDPOINTS
  = Some (GlobalPingTester.Build_endpoint "1.1.1.1" "global" "Cloudflare"
            "Global CDN") /\
  exists stats,
    GlobalPingTester.test_region 10 3
      (fun i => GlobalPingTester.Established "1.1.1.1"
                  match i with
                  | 0%nat => 12
                  | 1%nat => 40
                  | _ => 25
                  end)
      "Cloudflare" None
    = Py.Ok (GlobalPingTester.RegionTested stats) /\
    GlobalPingTester.jitter_ms stats == 28 /\
    GlobalPingTester.max_latency_ms stats == 40 /\
    GlobalPingTester.min_latency_ms stats == 12.
Proof.
  split; [reflexivity|].
  assert (H3 : GlobalPingTester.iterations_or_default 3 None <> 0%Z)
    by (simpl; lia).
  destruct (jitter_by_runner 10 3
              (fun i => GlobalPingTester.Established "1.1.1.1"
                          match i with
                          | 0%nat => 12
                          | 1%nat => 40
                          | _ => 25
                          end)
              "Cloudflare" None _ (fun _ => NetworkScanner.TimedOut) 0
              eq_refl H3) as ((stats & Hrun & Hagg) & _).
  exists stats. split; [exact Hrun|].
  cbn in Hagg. destruct Hagg as (Hj & Hmax & Hmin & _).
  rewrite Hj, Hmax, Hmin. repeat split.
Defined.

(** ** The port scan scenario *)

(** The recommendation that [_analyze_ports] appends for [n] risky ports. *)
Definition risky_ports_recommendation (n : nat)
  : RecommendationEngine.Recommendation :=
  {| RecommendationEngine.category := "security";
     RecommendationEngine.priority := "high";
     RecommendationEngine.title := "Potentially Risky Ports Open";
     RecommendationEngine.description :=
       "Found " ++ Py.str_nat n ++ " potentially risky ports open.";
     RecommendationEngine.action :=
       "Review and close unnecessary ports, or restrict access via firewall.";
     RecommendationEngine.impact :=
       "Improve security posture significantly" |}%string.

(** C5.  A scan of the ports 21, 80 and 443 in which the connection to 21
    is established, the one to 80 is refused and the one to 443 times out:
    the statuses are open, closed and filtered; the three lists hold port
    21, port 80 and port 443; the open percentage is 33.33; and the
    recommendation engine, given this report alone, emits the high-priority
    security recommendation about risky ports, and nothing else. *)
Theorem port_scan_scenario (fmt : Q -> string)
    (probe : nat -> PortScanner.attempt) (host scan_type : string) :
  probe 0%nat = PortScanner.Connected ->
  probe 1%nat = PortScanner.Refused ->
  probe 2%nat = PortScanner.TimedOut ->
  exists report,
    PortScanner.scan_ports probe host (Some [21; 80; 443]%Z) scan_type
    = Py.Ok report /\
    map (fun r => (PortScanner.port r, PortScanner.status r))
      (PortScanner.results report)
    = [(21, "open"); (80, "closed"); (443, "filtered")]%Z%string /\
    map PortScanner.port (PortScanner.open_ports report) = [21%Z] /\
    map PortScanner.port (PortScanner.closed_ports report) = [80%Z] /\
    map PortScanner.port (PortScanner.filtered_ports report) = [443%Z] /\
    PortScanner.open_percentage (PortScanner.summary report) == 33.33 /\
    Py.round2 ((1 # 3) * 100) == 33.33 /\
    existsb (Z.eqb 21) [23; 21; 3389]%Z = true /\
    let analysis :=
      RecommendationEngine.analyze fmt None None None None
        (Views.of_scan_report report) None in
    RecommendationEngine.high (RecommendationEngine.recommendations analysis)
    = [RecommendationEngine._to_dict (risky_ports_recommendation 1)] /\
    RecommendationEngine.medium
      (RecommendationEngine.recommendations analysis) = [] /\
    RecommendationEngine.low
      (RecommendationEngine.recommendations analysis) = [] /\
    RecommendationEngine.total_recommendations analysis = 1%nat /\
    RecommendationEngine.high_priority analysis = 1%nat.
Proof.
  intros H0 H1 H2. unfold PortScanner.scan_ports.
  cbn [List.length seq combine map]. rewrite H0, H1, H2.
  eexists. split; [reflexivity|]. repeat split.
Qed.

(** The three attempts of the scenario, in the order of the ports. *)
Definition open_refused_filtered : nat -> PortScanner.attempt :=
  fun i =>
    match i with
    | 0%nat => PortScanner.Connected
    | 1%nat => PortScanner.Refused
    | _ => PortScanner.TimedOut
    end.

Lemma port_scan_scenario_witness :
  open_refused_filtered 0%nat = PortScanner.Connected /\
  exists report,
    PortScanner.scan_ports open_refused_filtered "192.0.2.1"
      (Some [21; 80; 443]%Z) "common"
    = Py.Ok report /\
    map PortScanner.port (PortScanner.open_ports report) = [21%Z] /\
    PortScanner.open_percentage (PortScanner.summary report) == 33.33 /\
    RecommendationEngine.high_priority
      (RecommendationEngine.analyze (fun _ => EmptyString) None None None None
         (Views.of_scan_report report) None) = 1%nat.
Proof.
  split; [reflexivity|].
  destruct (port_scan_scenario (fun _ => EmptyString) open_refused_filtered
              "192.0.2.1" "common" eq_refl eq_refl eq_refl)
    as (report & Hrun & _ & Hopen & _ & _ & Hpct & _ & _ & Hrec).
  exists report. split; [exact Hrun|]. split; [exact Hopen|].
  split; [exact Hpct|]. apply Hrec.
Defined.

(** ** The buckets of the recommendation engine *)

(** [sub] is [l] with some elements left out, the others in order. *)
Inductive Subseq {A : Type} : list A -> list A -> Prop :=
  | Subseq_nil : Subseq [] []
  | Subseq_skip (x : A) (sub l : list A) : Subseq sub l -> Subseq sub (x :: l)
  | Subseq_take (x : A) (sub l : list A) :
      Subseq sub l -> Subseq (x :: sub) (x :: l).

Lemma filter_Subseq {A : Type} (f : A -> bool) (l : list A) :
  Subseq (filter f l) l.
Proof.
  induction l as [|x rest IH]; simpl; [constructor|].
  destruct (f x); constructor; exact IH.
Qed.

Lemma map_Subseq {A B : Type} (g : A -> B) (sub l : list A) :
  Subseq sub l -> Subseq (map g sub) (map g l).
Proof. induction 1; simpl; constructor; assumption. Qed.

Section Buckets.

Import RecommendationEngine.

(** The three priorities that the rules use. *)
Definition known_priority (r : Recommendation) : Prop :=
  priority r = "high"%string \/ priority r = "medium"%string
  \/ priority r = "low"%string.

Lemma append_known (l : list Recommendation) (r : Recommendation) :
  Forall known_priority l -> known_priority r ->
  Forall known_priority (append l r).
Proof.
  intros Hl Hr. unfold append. apply Forall_app. split; [exact Hl|].
  constructor; [exact Hr | constructor].
Qed.

Ltac known :=
  repeat match goal with
         | |- Forall known_priority (append _ _) => apply append_known
         | |- Forall known_priority (if ?c then _ else _) => destruct c
         | |- Forall known_priority (match ?x with _ => _ end) => destruct x
         | |- known_priority _ =>
             unfold known_priority; simpl; auto; fail
         | |- Forall known_priority _ => assumption
         end.

Variable fmt : Q -> string.

Lemma first_private_known (servers : Dict.t Views.server_view)
    (l : list Recommendation) :
  Forall known_priority l -> Forall known_priority (first_private servers l).
Proof.
  intros Hl. induction servers as [|[name server_data] rest IH]; simpl;
    [exact Hl|].
  destruct (Views.sv_privacy server_data) as [privacy|]; [|exact IH].
  destruct (String.eqb privacy "high"); [|exact IH]. known.
Qed.

Lemma collected_known network_data dns_data cdn_data protocol_data port_data
    ping_data :
  Forall known_priority
    (collected fmt network_data dns_data cdn_data protocol_data port_data
       ping_data).
Proof.
  unfold collected.
  assert (H0 : Forall known_priority (@nil Recommendation)) by constructor.
  revert H0. generalize (@nil Recommendation) as l0. intros l0 H0.
  assert (H1 : Forall known_priority (when network_data (_analyze_network fmt) l0)).
  { destruct network_data as [d|]; simpl; [|exact H0].
    unfold _analyze_network. known. }
  revert H1. generalize (when network_data (_analyze_network fmt) l0) as l1.
  intros l1 H1.
  assert (H2 : Forall known_priority (when dns_data (_analyze_dns fmt) l1)).
  { destruct dns_data as [d|]; simpl; [|exact H1].
    unfold _analyze_dns. apply first_private_known. known. }
  revert H2. generalize (when dns_data (_analyze_dns fmt) l1) as l2.
  intros l2 H2.
  assert (H3 : Forall known_priority (when cdn_data (_analyze_cdn fmt) l2)).
  { destruct cdn_data as [d|]; simpl; [|exact H2].
    unfold _analyze_cdn. known. }
  revert H3. generalize (when cdn_data (_analyze_cdn fmt) l2) as l3.
  intros l3 H3.
  assert (H4 : Forall known_priority
                 (when protocol_data (_analyze_protocol fmt) l3)).
  { destruct protocol_data as [d|]; simpl; [|exact H3].
    unfold _analyze_protocol. known. }
  revert H4. generalize (when protocol_data (_analyze_protocol fmt) l3) as l4.
  intros l4 H4.
  assert (H5 : Forall known_priority (when port_data _analyze_ports l4)).
  { destruct port_data as [d|]; simpl; [|exact H4].
    unfold _analyze_ports. known. }
  revert H5. generalize (when port_data _analyze_ports l4) as l5.
  intros l5 H5.
  destruct ping_data as [d|]; simpl; [|exact H5].
  unfold _analyze_ping. known.
Qed.

(** Lists whose elements all have one of the three priorities split into
    the three filters. *)
Lemma with_priority_partition (l : list Recommendation) :
  Forall known_priority l ->
  Permutation l
    (with_priority "high" l ++ with_priority "medium" l
     ++ with_priority "low" l) /\
  (List.length (with_priority "high" l)
   + List.length (with_priority "medium" l)
   + List.length (with_priority "low" l) = List.length l)%nat.
Proof.
  unfold with_priority.
  induction 1 as [|r rest Hr _ [IHp IHl]]; simpl; [split; reflexivity|].
  destruct Hr as [Hp|[Hp|Hp]]; rewrite Hp; simpl.
  - split; [constructor; exact IHp | lia].
  - split; [apply Permutation_cons_app; exact IHp | lia].
  - split; [|lia]. rewrite app_assoc. apply Permutation_cons_app.
    rewrite <- app_assoc. exact IHp.
Qed.

Lemma to_dict_priority (r : Recommendation) :
  Dict.get "priority" (_to_dict r) = Some (priority r).
Proof. reflexivity. Qed.

Lemma bucket_priority (p : string) (l : list Recommendation)
    (d : Dict.t string) :
  In d (map _to_dict (with_priority p l)) ->
  Dict.get "priority" d = Some p.
Proof.
  intros H. apply in_map_iff in H. destruct H as (r & <- & Hr).
  apply filter_In in Hr. destruct Hr as [_ Hr].
  apply String.eqb_eq in Hr. rewrite to_dict_priority, Hr. reflexivity.
Qed.

(** C7.  Whatever reports the engine is given, the three buckets of its
    answer split the recommendations it generated: the three lengths add
    up to [total_recommendations]; the buckets together are the generated
    list, element for element; every dict in a bucket has that bucket's
    priority, so no recommendation is in two buckets; and each bucket
    keeps the order of generation. *)
Theorem recommendations_partitioned
    (network_data : option Views.network_view)
    (dns_data : option Views.dns_view) (cdn_data : option Views.cdn_view)
    (protocol_data : option Views.protocol_view)
    (port_data : option Views.port_view)
    (ping_data : option Views.ping_view) :
  let generated :=
    map _to_dict
      (collected fmt network_data dns_data cdn_data protocol_data port_data
         ping_data) in
  let answer :=
    analyze fmt network_data dns_data cdn_data protocol_data port_data
      ping_data in
  let buckets := recommendations answer in
  total_recommendations answer = List.length generated /\
  (List.length (high buckets) + List.length (medium buckets)
   + List.length (low buckets) = total_recommendations answer)%nat /\
  high_priority answer = List.length (high buckets) /\
  medium_priority answer = List.length (medium buckets) /\
  low_priority answer = List.length (low buckets) /\
  Permutation generated (high buckets ++ medium buckets ++ low buckets) /\
  (forall d, In d generated ->
     In d (high buckets) \/ In d (medium buckets) \/ In d (low buckets)) /\
  (forall d, In d (high buckets) ->
     Dict.get "priority" d = Some "high"%string /\
     ~ In d (medium buckets) /\ ~ In d (low buckets)) /\
  (forall d, In d (medium buckets) ->
     Dict.get "priority" d = Some "medium"%string /\
     ~ In d (high buckets) /\ ~ In d (low buckets)) /\
  (forall d, In d (low buckets) ->
     Dict.get "priority" d = Some "low"%string /\
     ~ In d (high buckets) /\ ~ In d (medium buckets)) /\
  Subseq (high buckets) generated /\
  Subseq (medium buckets) generated /\
  Subseq (low buckets) generated.
Proof.
  intros generated answer buckets.
  set (l := collected fmt network_data dns_data cdn_data protocol_data
              port_data ping_data) in *.
  destruct (with_priority_partition l (collected_known _ _ _ _ _ _))
    as [Hperm Hlen].
  assert (Hdistinct : forall p q d,
            In d (map _to_dict (with_priority p l)) ->
            In d (map _to_dict (with_priority q l)) -> p = q).
  { intros p q d Hp Hq. apply bucket_priority in Hp, Hq. congruence. }
  assert (Hsplit : Permutation generated
                     (high buckets ++ medium buckets ++ low buckets)).
  { unfold generated, buckets, answer, analyze. cbn [recommendations high
      medium low]. rewrite <- !map_app. apply Permutation_map, Hperm. }
  unfold buckets, answer, analyze in *.
  cbn [recommendations high medium low total_recommendations high_priority
       medium_priority low_priority] in *.
  unfold generated. rewrite !length_map.
  repeat split; try reflexivity.
  - exact Hlen.
  - exact Hsplit.
  - intros d Hd. apply (Permutation_in _ Hsplit) in Hd.
    rewrite !in_app_iff in Hd. exact Hd.
  - eapply bucket_priority; eassumption.
  - intros Hm. discriminate (Hdistinct _ _ _ H Hm).
  - intros Hm. discriminate (Hdistinct _ _ _ H Hm).
  - eapply bucket_priority; eassumption.
  - intros Hm. discriminate (Hdistinct _ _ _ H Hm).
  - intros Hm. discriminate (Hdistinct _ _ _ H Hm).
  - eapply bucket_priority; eassumption.
  - intros Hm. discriminate (Hdistinct _ _ _ H Hm).
  - intros Hm. discriminate (Hdistinct _ _ _ H Hm).
  - apply map_Subseq, filter_Subseq.
  - apply map_Subseq, filter_Subseq.
  - apply map_Subseq, filter_Subseq.
Qed.

End Buckets.

(** ** The connections of the architecture *)

Section Connections.

Import ServiceArchitect.

Variable fmt : Q -> string.

Definition of_type (t : string) (c : component) : bool :=
  String.eqb (type c) t.

(** The two connections of the fixed topology. *)
Definition client_to_dns (dns_component : component) : connection :=
  {| from := "client"; to := name dns_component;
     protocol := "DNS over HTTPS"; purpose := "Secure name resolution" |}.

Definition client_to_region (region_component : component) : connection :=
  {| from := "client"; to := name region_component;
     protocol := "HTTPS/TLS 1.3"; purpose := "Primary application traffic" |}.

(** A report whose key for the best candidate holds [None]. *)
Definition none_valued (dns_data : option Views.dns_view)
    (ping_data : option Views.ping_view) : Prop :=
  (exists d, dns_data = Some d /\ Views.best_server d = Py.NoneValue) \/
  (exists d, ping_data = Some d /\ Views.fastest_region d = Py.NoneValue).

Lemma design_connections_spec (components : list component) :
  _design_connections components
  = match find (of_type "dns") components,
          find (of_type "region") components with
    | Some dns_component, Some region_component =>
        [client_to_dns dns_component; client_to_region region_component]
    | _, _ => []
    end.
Proof.
  unfold _design_connections. fold (of_type "dns") (of_type "region").
  destruct (find (of_type "dns") components),
    (find (of_type "region") components); reflexivity.
Qed.

(** C9.  [design] fails only on a report whose best server or fastest
    region is [None]; otherwise it returns an architecture whose
    connections are non-empty exactly when the component list has both a
    DNS and a region component, and then they are the two fixed
    connections, client to DNS and client to region, in this order. *)
Theorem connections_iff_dns_and_region
    (network_data : option Views.network_view)
    (dns_data : option Views.dns_view)
    (ping_data : option Views.ping_view) :
  match design fmt network_data dns_data ping_data with
  | Py.Raise e => e = Py.AttributeError /\ none_valued dns_data ping_data
  | Py.Ok arch =>
      let dns := find (of_type "dns") (components arch) in
      let region := find (of_type "region") (components arch) in
      ~ none_valued dns_data ping_data /\
      (connections arch <> [] <-> dns <> None /\ region <> None) /\
      (forall dns_component region_component,
         dns = Some dns_component -> region = Some region_component ->
         connections arch
         = [client_to_dns dns_component;
            client_to_region region_component]) /\
      (dns <> None <->
       exists d, dns_data = Some d /\ present (Views.best_server d) = true) /\
      (region <> None <->
       exists d, ping_data = Some d /\
                 present (Views.fastest_region d) = true)
  end.
Proof.
  unfold design, _generate_recommendations, none_valued.
  destruct dns_data as [[[| | |bs] servers]|];
    destruct ping_data as [[[| | |fr]]|];
    destruct network_data as [nd|];
    cbn [Views.best_server Views.fastest_region present deref Py.bind
         components connections app];
    rewrite ?design_connections_spec;
    cbn [find of_type type String.eqb Ascii.eqb Bool.eqb app];
    repeat match goal with
           | |- _ /\ _ => split
           | |- _ <-> _ => split
           | |- ~ _ => intros H
           | |- forall _, _ => intro
           | |- _ -> _ => intro
           end;
    try reflexivity; try discriminate; try congruence;
    repeat match goal with
           | H : _ \/ _ |- _ => destruct H
           | H : exists _, _ |- _ => destruct H
           | H : _ /\ _ |- _ => destruct H
           | H : Some _ = Some _ |- _ => injection H as H; subst
           end;
    simpl in *; try discriminate; try congruence;
    eauto 6.
Qed.

End Connections.

(** ** The DNS response parser *)

Section Parser.

Import DNSWire.

(** The answer loop, one pass unfolded. *)
Lemma walk_answers_unfold (response : bytes) (pos : nat) :
  walk_answers response pos
  = if le_lt_dec (List.length response) pos then Py.Ok EmptyString
    else match answer_step response pos with
         | Py.Raise e => Py.Raise e
         | Py.Ok (inl ip) => Py.Ok ip
         | Py.Ok (inr pos') => walk_answers response pos'
         end.
Proof.
  funelim (walk_answers response pos);
    try match goal with
        | H : le_lt_dec _ _ = _ |- _ => rewrite H
        end;
    try match goal with
        | H : answer_step _ _ = _ |- _ => rewrite H
        end;
    reflexivity.
Qed.
(** The parser raises nothing but the two errors of reading past the
    end. *)
Definition past_the_end (e : Py.exn) : Prop :=
  e = Py.IndexError \/ e = Py.StructError.

Lemma index_raises (response : bytes) (pos : nat) (e : Py.exn) :
  index response pos = Py.Raise e -> past_the_end e.
Proof.
  unfold index. destruct (nth_error response pos); [discriminate|].
  intros [= <-]. left; reflexivity.
Qed.

Lemma unpack_H_raises (s : bytes) (e : Py.exn) :
  unpack_H s = Py.Raise e -> past_the_end e.
Proof.
  destruct s as [|a [|b [|c s]]]; simpl; try discriminate;
    intros [= <-]; right; reflexivity.
Qed.

Lemma scan_zero_raises (suffix : bytes) (pos : nat) (e : Py.exn) :
  scan_zero suffix pos = Py.Raise e -> past_the_end e.
Proof.
  revert pos. induction suffix as [|b rest IH]; intros pos; simpl.
  - intros [= <-]. left; reflexivity.
  - destruct (Byte.to_N b =? 0)%N; [discriminate | apply IH].
Qed.

Lemma answer_step_raises (response : bytes) (pos : nat) (e : Py.exn) :
  answer_step response pos = Py.Raise e -> past_the_end e.
Proof.
  unfold answer_step, Py.bind, skip_to_zero.
  destruct (index response pos) as [b|e0] eqn:E0;
    [|intros [= <-]; eapply index_raises; eassumption].
  assert (Hname : forall e1,
    (if (192 <=? b)%N then Py.Ok (pos + 2)%nat
     else match scan_zero (skipn pos response) pos with
          | Py.Ok z => Py.Ok (z + 1)%nat
          | Py.Raise e => Py.Raise e
          end) = Py.Raise e1 -> past_the_end e1).
  { intros e1. destruct (192 <=? b)%N; [discriminate|].
    destruct (scan_zero _ _) eqn:E; [discriminate|].
    intros [= <-]. eapply scan_zero_raises. eassumption. }
  destruct (if (192 <=? b)%N then _ else _) as [pos1|e1];
    [|intros [= <-]; apply Hname; reflexivity].
  destruct (unpack_H (slice response pos1 (pos1 + 2))) as [rtype|e2] eqn:E2;
    [|intros [= <-]; eapply unpack_H_raises; eassumption].
  destruct (unpack_H (slice response (pos1 + 8) (pos1 + 8 + 2)))
    as [rdlength|e3] eqn:E3;
    [|intros [= <-]; eapply unpack_H_raises; eassumption].
  destruct ((rtype =? 1) && (rdlength =? 4))%N; discriminate.
Qed.

Lemma walk_answers_raises (response : bytes) (pos : nat) (e : Py.exn) :
  walk_answers response pos = Py.Raise e -> past_the_end e.
Proof.
  funelim (walk_answers response pos); try discriminate.
  - match goal with IH : forall _, _ -> past_the_end _ |- _ => apply IH end.
  - intros [= <-]. eapply answer_step_raises. eassumption.
Qed.

Lemma parse_raises (response : bytes) (e : Py.exn) :
  _parse_dns_response response = Py.Raise e -> past_the_end e.
Proof.
  unfold _parse_dns_response, Py.bind, skip_to_zero.
  destruct (scan_zero _ _) as [z|e0] eqn:E0.
  - apply walk_answers_raises.
  - intros [= <-]. eapply scan_zero_raises. eassumption.
Qed.

(** *** Well-formed responses *)

(** A resource record of an answer: the owner name as it stands in the
    message, the type, the six bytes of class and TTL, and the data. *)
Record record : Type := {
  r_name : bytes;
  r_type : N;
  r_class_ttl : bytes;
  r_data : bytes
}.

(** A 16-bit number, big endian. *)
Definition u16 (n : N) : bytes := [octet (n / 256); octet (n mod 256)].

Definition encode (r : record) : bytes :=
  r_name r ++ u16 (r_type r) ++ r_class_ttl r
  ++ u16 (N.of_nat (List.length (r_data r))) ++ r_data r.

Definition nonzero (b : Byte.byte) : Prop := Byte.to_N b <> 0%N.

(** The two forms of a name that the parser can step over: a compression
    pointer of two bytes, or bytes other than zero (labels with their
    lengths, the first below 192) closed by a zero byte. *)
Inductive name_ok : bytes -> Prop :=
  | name_pointer (hi lo : Byte.byte) :
      (192 <= Byte.to_N hi)%N -> name_ok [hi; lo]
  | name_labels (labels : bytes) :
      Forall nonzero labels ->
      match labels with
      | [] => True
      | b :: _ => (Byte.to_N b < 192)%N
      end ->
      name_ok (labels ++ [Byte.x00]).

Definition record_ok (r : record) : Prop :=
  name_ok (r_name r) /\ (r_type r < 65536)%N /\
  List.length (r_class_ttl r) = 6%nat /\
  (N.of_nat (List.length (r_data r)) < 65536)%N.

(** An A record with an address of four bytes. *)
Definition is_A (r : record) : bool :=
  ((r_type r =? 1) && (N.of_nat (List.length (r_data r)) =? 4))%N.

(** The address of the first A record, dotted, or the empty string. *)
Definition first_address (records : list record) : string :=
  match find is_A records with
  | Some r => dotted (r_data r)
  | None => EmptyString
  end.

Lemma to_N_octet (n : N) : (n < 256)%N -> Byte.to_N (octet n) = n.
Proof.
  intros H. unfold octet. destruct (Byte.of_N n) as [b|] eqn:E.
  - apply Byte.to_of_N in E. exact E.
  - apply Byte.of_N_None_iff in E. lia.
Qed.

Lemma unpack_u16 (n : N) : (n < 65536)%N -> unpack_H (u16 n) = Py.Ok n.
Proof.
  intros H. unfold unpack_H, u16.
  rewrite !to_N_octet.
  - f_equal. rewrite N.mul_comm. symmetry. apply N.div_mod. lia.
  - apply N.mod_lt. lia.
  - apply N.Div0.div_lt_upper_bound. lia.
Qed.

Lemma index_at (before : bytes) (b : Byte.byte) (after : bytes) :
  index (before ++ b :: after) (List.length before) = Py.Ok (Byte.to_N b).
Proof.
  unfold index. rewrite nth_error_app2 by lia.
  rewrite Nat.sub_diag. reflexivity.
Qed.

Lemma skipn_at (before after : bytes) :
  skipn (List.length before) (before ++ after) = after.
Proof.
  rewrite skipn_app, skipn_all, Nat.sub_diag. reflexivity.
Qed.

Lemma slice_at (before mid after : bytes) :
  slice (before ++ mid ++ after) (List.length before)
    (List.length before + List.length mid) = mid.
Proof.
  unfold slice. rewrite skipn_at.
  replace (List.length before + List.length mid - List.length before)%nat
    with (List.length mid) by lia.
  rewrite firstn_app, firstn_all, Nat.sub_diag. simpl.
  apply app_nil_r.
Qed.

Lemma scan_zero_labels (labels after : bytes) (pos : nat) :
  Forall nonzero labels ->
  scan_zero (labels ++ Byte.x00 :: after) pos
  = Py.Ok (pos + List.length labels)%nat.
Proof.
  intros H. revert pos. induction H as [|b rest Hb _ IH]; intros pos; simpl.
  - f_equal. lia.
  - apply N.eqb_neq in Hb. rewrite Hb, IH. f_equal. lia.
Qed.

(** Stepping over a name. *)
Lemma skip_name (before name after : bytes) :
  name_ok name ->
  (b <- index (before ++ name ++ after) (List.length before) ;;
   if (192 <=? b)%N then Py.Ok (List.length before + 2)%nat
   else z <- skip_to_zero (before ++ name ++ after) (List.length before) ;;
        Py.Ok (z + 1)%nat)
  = Py.Ok (List.length before + List.length name)%nat.
Proof.
  intros [hi lo Hhi | labels Hnz Hfirst].
  - simpl app. rewrite index_at. cbn [Py.bind].
    apply N.leb_le in Hhi. rewrite Hhi. reflexivity.
  - rewrite <- app_assoc. simpl app.
    assert (Hlow : forall b rest,
              labels ++ Byte.x00 :: after = b :: rest ->
              (192 <=? Byte.to_N b)%N = false).
    { intros b rest Heq. apply N.leb_gt.
      destruct labels as [|c labels']; simpl in Heq; injection Heq as <- _.
      - simpl. lia.
      - exact Hfirst. }
    destruct (labels ++ Byte.x00 :: after) as [|b rest] eqn:E.
    { destruct labels; discriminate. }
    rewrite index_at. cbn [Py.bind]. rewrite (Hlow b rest eq_refl).
    unfold skip_to_zero. rewrite skipn_at, <- E.
    rewrite scan_zero_labels by exact Hnz. cbn [Py.bind].
    rewrite length_app. simpl. f_equal. lia.
Qed.

(** One pass of the answer loop over a record that is well formed. *)
Lemma answer_step_record (before : bytes) (r : record) (after : bytes) :
  record_ok r ->
  answer_step (before ++ encode r ++ after) (List.length before)
  = Py.Ok (if is_A r then inl (dotted (r_data r))
           else inr (List.length (before ++ encode r))).
Proof.
  intros (Hname & Htype & Hmeta & Hdata).
  remember (before ++ encode r ++ after) as response eqn:E0.
  set (len := u16 (N.of_nat (List.length (r_data r)))).
  assert (E1 : response
               = before ++ r_name r
                 ++ (u16 (r_type r) ++ r_class_ttl r ++ len ++ r_data r
                     ++ after)).
  { rewrite E0. unfold encode, len. rewrite <- !app_assoc. reflexivity. }
  assert (E2 : response
               = (before ++ r_name r) ++ u16 (r_type r)
                 ++ (r_class_ttl r ++ len ++ r_data r ++ after)).
  { rewrite E1, <- !app_assoc. reflexivity. }
  assert (E3 : response
               = (before ++ r_name r ++ u16 (r_type r) ++ r_class_ttl r)
                 ++ len ++ (r_data r ++ after)).
  { rewrite E1, <- !app_assoc. reflexivity. }
  assert (E4 : response
               = (before ++ r_name r ++ u16 (r_type r) ++ r_class_ttl r
                  ++ len) ++ r_data r ++ after).
  { rewrite E1, <- !app_assoc. reflexivity. }
  pose proof (skip_name before (r_name r)
                (u16 (r_type r) ++ r_class_ttl r ++ len ++ r_data r ++ after)
                Hname) as Hskip.
  rewrite <- E1 in Hskip. clear E0.
  unfold answer_step.
  change (List.length before + 2)%nat with (List.length before + 2)%nat.
  unfold Py.bind at 1 in Hskip. unfold Py.bind at 1.
  destruct (index response (List.length before)) as [b|e]; [|discriminate].
  unfold Py.bind at 1.
  rewrite Hskip.
  set (pos1 := (List.length before + List.length (r_name r))%nat).
  assert (S1 : slice response pos1 (pos1 + 2) = u16 (r_type r)).
  { rewrite E2. unfold pos1. rewrite <- length_app. apply slice_at. }
  assert (S2 : slice response (pos1 + 8) (pos1 + 8 + 2) = len).
  { rewrite E3.
    replace (pos1 + 8)%nat
      with (List.length (before ++ r_name r ++ u16 (r_type r)
                         ++ r_class_ttl r)).
    - apply slice_at.
    - unfold pos1. rewrite !length_app, Hmeta. simpl. lia. }
  rewrite S1, S2. unfold len. rewrite !unpack_u16 by assumption.
  cbn [Py.bind]. fold (is_A r).
  destruct (is_A r) eqn:EA.
  - f_equal. f_equal. f_equal.
    apply andb_true_iff in EA. destruct EA as [_ E4'].
    apply N.eqb_eq in E4'.
    rewrite E4.
    replace (pos1 + 8 + 2)%nat
      with (List.length (before ++ r_name r ++ u16 (r_type r)
                         ++ r_class_ttl r ++ len)).
    + replace 4%nat with (List.length (r_data r)) by lia. apply slice_at.
    + unfold pos1, len. rewrite !length_app, Hmeta. simpl. lia.
  - f_equal. f_equal. unfold pos1, encode.
    rewrite !length_app, Hmeta, Nnat.Nat2N.id. simpl. lia.
Qed.

(** The answer loop over records that are well formed: as many passes as
    it takes to reach the first A record. *)
Lemma walk_answers_records (records : list record) (before : bytes) :
  Forall record_ok records ->
  walk_answers (before ++ flat_map encode records) (List.length before)
  = Py.Ok (first_address records).
Proof.
  intros Hok. revert before.
  induction Hok as [|r rest Hr _ IH]; intros before;
    rewrite walk_answers_unfold.
  - simpl. rewrite app_nil_r.
    destruct (le_lt_dec (List.length before) (List.length before));
      [reflexivity | lia].
  - cbn [flat_map].
    destruct (le_lt_dec _ _) as [Hle|_].
    { exfalso. rewrite !length_app in Hle.
      destruct Hr as (Hname & _). unfold encode in Hle.
      rewrite !length_app in Hle. simpl in Hle. lia. }
    rewrite (answer_step_record before r (flat_map encode rest) Hr).
    unfold first_address. simpl find.
    destruct (is_A r); [reflexivity|].
    rewrite app_assoc. apply IH.
Qed.

(** A response that is well formed: twelve bytes of header, the name of
    the question closed by a zero byte, type and class of the question, and
    the records of the answer. *)
Definition message (header qname qtail : bytes) (records : list record)
  : bytes :=
  header ++ qname ++ [Byte.x00] ++ qtail ++ flat_map encode records.

Lemma parse_message (header qname qtail : bytes) (records : list record) :
  List.length header = 12%nat -> Forall nonzero qname ->
  List.length qtail = 4%nat -> Forall record_ok records ->
  _parse_dns_response (message header qname qtail records)
  = Py.Ok (first_address records).
Proof.
  intros Hh Hq Ht Hr. unfold _parse_dns_response, message, skip_to_zero.
  rewrite <- Hh at 1. rewrite skipn_at. simpl app.
  rewrite scan_zero_labels by exact Hq. cbn [Py.bind].
  replace (12 + List.length qname + 5)%nat
    with (List.length (header ++ qname ++ Byte.x00 :: qtail)).
  - replace (header ++ qname ++ Byte.x00 :: qtail ++ flat_map encode records)
      with ((header ++ qname ++ Byte.x00 :: qtail)
            ++ flat_map encode records).
    + apply walk_answers_records, Hr.
    + rewrite <- !app_assoc. reflexivity.
  - rewrite !length_app. simpl. rewrite Hh, Ht. lia.
Qed.

End Parser.

(** ** The DNS probe on a response that was received *)

(** A response cut off after the header. *)
Definition header_only : DNSWire.bytes :=
  map octet [18; 52; 129; 128; 0; 1; 0; 0; 0; 0; 0; 0]%N.

(** A response cut off inside the first answer: the name and the type of
    the record are there, the rest is missing. *)
Definition truncated_answer : DNSWire.bytes :=
  map octet
    [18; 52; 129; 128; 0; 1; 0; 1; 0; 0; 0; 0;
     3; 119; 119; 119; 0; 0; 1; 0; 1;
     192; 12; 0; 1; 0; 1; 0; 0]%N.

(** A malformed response turns the result into a failure: the parser
    reads past the end of the two responses above, and the probe, which
    has the response in hand within its timeout, reports no success. *)
Lemma malformed_response_fails :
  let r1 := DNSAnalyzer.test_dns_server
              (DNSAnalyzer.Finished (DNSAnalyzer.Received header_only) 12)
              5 in
  let r2 := DNSAnalyzer.test_dns_server
              (DNSAnalyzer.Finished (DNSAnalyzer.Received truncated_answer)
                 12) 5 in
  DNSWire._parse_dns_response header_only = Py.Raise Py.IndexError /\
  DNSAnalyzer.success r1 = false /\
  DNSAnalyzer.resolved_ip r1 = EmptyString /\
  DNSAnalyzer.error r1 = Some "index out of range"%string /\
  DNSWire._parse_dns_response truncated_answer = Py.Raise Py.StructError /\
  DNSAnalyzer.success r2 = false /\
  DNSAnalyzer.resolved_ip r2 = EmptyString /\
  ~ (forall response response_time timeout,
       DNSAnalyzer.success
         (DNSAnalyzer.test_dns_server
            (DNSAnalyzer.Finished (DNSAnalyzer.Received response)
               response_time) timeout) = true).
Proof.
  cbv zeta. repeat split.
  intros H. specialize (H header_only 12 5). discriminate H.
Qed.

(** C6, as the code has it.  For a response received within the timeout,
    the probe reports success exactly when the parser gets through the
    response without reading past its end: then the resolved value is what
    the parser returns, which for a well-formed message is the dotted
    address of the first A record with four bytes of data, and the empty
    string when there is no such record.  A response on which the parser
    reads past the end (an [IndexError] or a [struct.error]) is caught and
    reported as a failure, with the error text and an empty resolved
    value. *)
Theorem dns_probe_on_received_response (response : DNSWire.bytes)
    (response_time timeout : Q) :
  let r := DNSAnalyzer.test_dns_server
             (DNSAnalyzer.Finished (DNSAnalyzer.Received response)
                response_time) timeout in
  match DNSWire._parse_dns_response response with
  | Py.Ok ip =>
      DNSAnalyzer.success r = true /\ DNSAnalyzer.resolved_ip r = ip /\
      DNSAnalyzer.error r = None
  | Py.Raise e =>
      past_the_end e /\
      DNSAnalyzer.success r = false /\
      DNSAnalyzer.resolved_ip r = EmptyString /\
      DNSAnalyzer.error r = Some (Py.str_exn e)
  end /\
  DNSAnalyzer.response_time_ms r = Py.round2 response_time /\
  (forall header qname qtail records,
     response = message header qname qtail records ->
     List.length header = 12%nat -> Forall nonzero qname ->
     List.length qtail = 4%nat -> Forall record_ok records ->
     DNSAnalyzer.success r = true /\
     DNSAnalyzer.resolved_ip r = first_address records /\
     (forall a, find is_A records = Some a ->
        DNSAnalyzer.resolved_ip r = DNSWire.dotted (r_data a) /\
        List.length (r_data a) = 4%nat) /\
     (find is_A records = None -> DNSAnalyzer.resolved_ip r = EmptyString)).
Proof.
  intros r. split; [|split; [reflexivity|]].
  - unfold r, DNSAnalyzer.test_dns_server, DNSAnalyzer._resolve_dns,
      Py.try_except. cbn [Py.bind].
    destruct (DNSWire._parse_dns_response response) as [ip|e] eqn:E;
      cbn [Py.bind DNSAnalyzer.res_success DNSAnalyzer.res_ip
           DNSAnalyzer.res_error DNSAnalyzer.success DNSAnalyzer.resolved_ip
           DNSAnalyzer.error].
    + repeat split.
    + split; [eapply parse_raises; eassumption | repeat split].
  - intros header qname qtail records -> Hh Hq Ht Hr.
    pose proof (parse_message header qname qtail records Hh Hq Ht Hr) as Hp.
    unfold r, DNSAnalyzer.test_dns_server, DNSAnalyzer._resolve_dns,
      Py.try_except. cbn [Py.bind]. rewrite Hp.
    cbn [Py.bind DNSAnalyzer.res_success DNSAnalyzer.res_ip
         DNSAnalyzer.success DNSAnalyzer.resolved_ip].
    unfold first_address.
    split; [reflexivity|]. split; [reflexivity|]. split.
    + intros a Ha. rewrite Ha. split; [reflexivity|].
      apply find_some in Ha. destruct Ha as [_ Ha]. unfold is_A in Ha.
      apply andb_true_iff in Ha. destruct Ha as [_ Ha].
      apply N.eqb_eq in Ha. lia.
    + intros Hn. rewrite Hn. reflexivity.
Qed.

(** A well-formed message with a CNAME record and an A record. *)
Definition cname_then_address : list record :=
  [ {| r_name := map octet [192; 12]%N; r_type := 5;
       r_class_ttl := map octet [0; 1; 0; 0; 0; 9]%N;
       r_data := map octet [192; 12]%N |};
    {| r_name := map octet [3; 119; 119; 119; 0]%N; r_type := 1;
       r_class_ttl := map octet [0; 1; 0; 0; 0; 9]%N;
       r_data := map octet [93; 184; 216; 34]%N |} ].

Lemma dns_probe_on_received_response_witness :
  Forall record_ok cname_then_address /\
  let response :=
    message (map octet [18; 52; 129; 128; 0; 1; 0; 2; 0; 0; 0; 0]%N)
      (map octet [3; 119; 119; 119]%N) (map octet [0; 1; 0; 1]%N)
      cname_then_address in
  let r := DNSAnalyzer.test_dns_server
             (DNSAnalyzer.Finished (DNSAnalyzer.Received response) 12) 5 in
  DNSAnalyzer.success r = true /\
  DNSAnalyzer.resolved_ip r = "93.184.216.34"%string.
Proof.
  assert (Hok : Forall record_ok cname_then_address).
  { repeat constructor; simpl; try lia.
    apply (name_labels (map octet [3; 119; 119; 119]%N)).
    - repeat constructor; discriminate.
    - simpl. lia. }
  split; [exact Hok|]. cbv zeta.
  destruct (dns_probe_on_received_response
              (message (map octet [18; 52; 129; 128; 0; 1; 0; 2; 0; 0; 0; 0]%N)
                 (map octet [3; 119; 119; 119]%N) (map octet [0; 1; 0; 1]%N)
                 cname_then_address) 12 5) as (_ & _ & Hwf).
  destruct (Hwf _ _ _ _ eq_refl eq_refl
              ltac:(repeat constructor; discriminate) eq_refl Hok)
    as (Hs & Hip & _).
  split; [exact Hs | exact Hip].
Defined.

(** ** The success rates that the runners hand to the scorers *)

Lemma round_nonneg (x : Q) : 0 <= x -> (0 <= Py.round x)%Z.
Proof.
  intros H. unfold Py.round.
  pose proof (Qfloor_resp_le 0 x H) as Hf.
  change (Qfloor 0) with 0%Z in Hf.
  destruct (Qcompare _ _); [destruct (Z.even _)| |]; lia.
Qed.

Lemma round2_nonneg (x : Q) : 0 <= x -> 0 <= Py.round2 x.
Proof.
  intros H. assert (Hr : (0 <= Py.round (x * 100))%Z).
  { apply round_nonneg. lra. }
  unfold Py.round2, Qle. simpl. lia.
Qed.

(** A count out of a total of the same sign, as a percentage. *)
Lemma rate_nonneg (count : nat) (total : Z) :
  (0 < total)%Z \/ count = 0%nat ->
  total <> 0%Z ->
  0 <= Py.round2 (inject_Z (Z.of_nat count) / inject_Z total * 100).
Proof.
  intros [Hpos | ->] Hnz.
  - apply round2_nonneg.
    assert (Hc : 0 <= inject_Z (Z.of_nat count)).
    { change 0 with (inject_Z 0). rewrite <- Zle_Qle. lia. }
    assert (Ht : 0 < inject_Z total).
    { change 0 with (inject_Z 0). rewrite <- Zlt_Qlt. exact Hpos. }
    assert (Hq : 0 <= inject_Z (Z.of_nat count) / inject_Z total).
    { apply Qle_shift_div_l; [exact Ht | lra]. }
    lra.
  - change (Z.of_nat 0) with 0%Z.
    rewrite round2_zero_rate by (apply inject_Z_nonzero, Hnz).
    unfold Qle. simpl. lia.
Qed.

Lemma sample_server_no_iterations (probe : DNSAnalyzer.oracle)
    (server_name : string) (domains : list string) (iterations : Z) :
  (iterations <= 0)%Z ->
  DNSAnalyzer.sample_server probe server_name domains iterations
  = DNSAnalyzer.sampling_start.
Proof.
  intros H. unfold DNSAnalyzer.sample_server.
  replace (Z.to_nat iterations) with 0%nat by lia.
  apply fold_left_invariant
    with (P := fun s => s = DNSAnalyzer.sampling_start).
  - intros acc [d domain] ->. reflexivity.
  - reflexivity.
Qed.

(** Every entry of the DNS benchmark: the success rate is not negative,
    and it is zero exactly when the reliability score is. *)
Lemma dns_entry_score_iff (probe : DNSAnalyzer.oracle)
    (server_name server_ip : string) (domains : list string)
    (iterations : Z) (entry : DNSAnalyzer.server_results) :
  DNSAnalyzer.benchmark_server probe server_name server_ip domains iterations
  = Py.Ok entry ->
  0 <= DNSAnalyzer.success_rate entry /\
  (DNSAnalyzer.success_rate entry == 0 <->
   DNSAnalyzer.reliability_score entry = 0%Z).
Proof.
  unfold DNSAnalyzer.benchmark_server, DNSAnalyzer.summarize.
  destruct (Z.eqb_spec (Z.of_nat (List.length domains) * iterations) 0)
    as [|Hnz]; [discriminate|].
  intros [= <-]. cbn [DNSAnalyzer.success_rate DNSAnalyzer.reliability_score].
  match goal with
  | |- 0 <= ?rate /\
       (_ <-> DNSAnalyzer._calculate_reliability ?avg _ = _) =>
      set (r := rate); set (a := avg)
  end.
  assert (Hrate : 0 <= r).
  { apply rate_nonneg; [|exact Hnz].
    destruct (Z.lt_ge_cases 0 iterations) as [Hpos|Hneg].
    - left. nia.
    - right. rewrite sample_server_no_iterations by exact Hneg. reflexivity. }
  split; [exact Hrate|]. split.
  - apply dns_score_zero.
  - intros Hz. destruct (Qlt_le_dec 0 r) as [Hpos|Hle]; [|lra].
    pose proof (dns_score_pos a r Hpos) as Hs. rewrite Hz in Hs. lia.
Qed.

(** Every entry of the CDN benchmark, likewise. *)
Lemma cdn_entry_score_iff (self_timeout : Q) (probe : CDNTester.oracle)
    (cdn_name : string) (cdn_info : CDNTester.provider_info)
    (iterations : Z) (entry : CDNTester.cdn_results) :
  CDNTester.benchmark_provider self_timeout probe cdn_name cdn_info iterations
  = Py.Ok entry ->
  0 <= CDNTester.success_rate entry /\
  (CDNTester.success_rate entry == 0 <-> CDNTester.score entry = 0%Z).
Proof.
  intros Hrun.
  destruct (benchmark_provider_spec self_timeout probe cdn_name cdn_info
              iterations entry Hrun) as (_ & Hrate & Hscore & _).
  assert (Hnz : iterations <> 0%Z).
  { intros ->. unfold CDNTester.benchmark_provider, CDNTester.summarize in Hrun.
    discriminate Hrun. }
  assert (Hnn : 0 <= CDNTester.success_rate entry).
  { rewrite Hrate. apply rate_nonneg; [|exact Hnz].
    destruct (Z.lt_ge_cases 0 iterations) as [Hpos|Hneg]; [left; exact Hpos|].
    right. unfold fetches. replace (Z.to_nat iterations) with 0%nat by lia.
    reflexivity. }
  split; [exact Hnn|]. rewrite Hscore. split.
  - apply cdn_score_zero.
  - intros Hz. destruct (Qlt_le_dec 0 (CDNTester.success_rate entry))
      as [Hpos|Hle]; [|lra].
    pose proof (cdn_score_pos (CDNTester.avg_response_time entry) _ Hpos)
      as Hs. rewrite Hz in Hs. lia.
Qed.

(** ** Examples *)

Example dns_bands_at_the_thresholds :
  map (fun avg => DNSAnalyzer._calculate_reliability avg 100)
    [10; 10.01; 25; 25.01; 50; 50.01; 100; 100.01; 200; 200.01]
  = [100; 96; 96; 90; 90; 84; 84; 76; 76; 68]%Z.
Proof. reflexivity. Qed.

Example cdn_bands_at_the_thresholds :
  map (fun avg => CDNTester._calculate_score avg 100)
    [50; 50.01; 100; 100.01; 200; 200.01; 500; 500.01; 1000; 1000.01]
  = [100; 96; 96; 90; 90; 80; 80; 72; 72; 64]%Z.
Proof. reflexivity. Qed.

Example round_half_to_even :
  map Py.round [5 # 2; 7 # 2; -(5 # 2); 406 # 10]
  = [2; 4; -2; 41]%Z /\
  map Py.int [5 # 2; -(5 # 2); 406 # 10] = [2; -2; 40]%Z.
Proof. split; reflexivity. Qed.

(** Sorting by score, highest first, keeps ties in their first order. *)
Example sorted_is_stable :
  Py.sorted (fun x y : string * Z => (snd y <=? snd x)%Z)
    [("a", 1); ("b", 2); ("c", 1); ("d", 2)]%string%Z
  = [("b", 2); ("d", 2); ("a", 1); ("c", 1)]%string%Z.
Proof. reflexivity. Qed.

(** An open port 443 is listed under the VPN table's entry, which
    overrides the common one in [all_ports]. *)
Example port_443_is_vpn :
  PortScanner.category (PortScanner.scan_port 443 PortScanner.Connected)
  = Some "vpn"%string /\
  PortScanner.service (PortScanner.scan_port 21 PortScanner.Connected)
  = Some "FTP Control"%string.
Proof. split; reflexivity. Qed.

(** * Further operations and their properties *)

(** ** More arithmetic of the Python numerics *)

Lemma round_le_int (x : Q) (k : Z) : x <= inject_Z k -> (Py.round x <= k)%Z.
Proof.
  intros H. unfold Py.round.
  pose proof (Qfloor_resp_le _ _ H) as Hf. rewrite Qfloor_Z in Hf.
  pose proof (Qfloor_le x) as Hlo.
  destruct (Z.eq_dec (Qfloor x) k) as [E|E].
  - assert (Hx : x - inject_Z (Qfloor x) == 0).
    { rewrite E in *. lra. }
    assert (Hc : Qcompare (x - inject_Z (Qfloor x)) (1 # 2) = Lt).
    { apply Qlt_alt. rewrite Hx. reflexivity. }
    rewrite Hc. lia.
  - destruct (Qcompare _ _); [destruct (Z.even _)| |]; lia.
Qed.

Lemma round_ge_int (x : Q) (k : Z) : inject_Z k <= x -> (k <= Py.round x)%Z.
Proof.
  intros H. unfold Py.round.
  pose proof (Qfloor_resp_le _ _ H) as Hf. rewrite Qfloor_Z in Hf.
  destruct (Qcompare _ _); [destruct (Z.even _)| |]; lia.
Qed.

Lemma Qcompare_cases (x y : Q) :
  match Qcompare x y with
  | Eq => x == y
  | Lt => x < y
  | Gt => y < x
  end.
Proof.
  destruct (Qcompare x y) eqn:C;
    [apply Qeq_alt | apply Qlt_alt | apply Qgt_alt]; exact C.
Qed.

(** Rounding keeps the order. *)
Lemma round_mono (x y : Q) : x <= y -> (Py.round x <= Py.round y)%Z.
Proof.
  intros H. pose proof (Qfloor_resp_le _ _ H) as Hf.
  destruct (Z.eq_dec (Qfloor x) (Qfloor y)) as [E|E].
  - unfold Py.round. rewrite E.
    pose proof (Qcompare_cases (x - inject_Z (Qfloor y)) (1 # 2)) as Cx.
    pose proof (Qcompare_cases (y - inject_Z (Qfloor y)) (1 # 2)) as Cy.
    destruct (Qcompare (x - inject_Z (Qfloor y)) (1 # 2));
      destruct (Qcompare (y - inject_Z (Qfloor y)) (1 # 2));
      try (destruct (Z.even (Qfloor y))); try lia; exfalso; lra.
  - transitivity (Qfloor y).
    + apply round_le_int.
      pose proof (Qlt_floor x) as Hx.
      assert (Hz : inject_Z (Qfloor x + 1) <= inject_Z (Qfloor y)).
      { rewrite <- Zle_Qle. lia. }
      lra.
    + apply round_ge_int, Qfloor_le.
Qed.

Lemma round2_mono (x y : Q) : x <= y -> Py.round2 x <= Py.round2 y.
Proof.
  intros H. assert (Hr : (Py.round (x * 100) <= Py.round (y * 100))%Z).
  { apply round_mono. lra. }
  unfold Py.round2, Qle. simpl. lia.
Qed.

Lemma round2_le_int (x : Q) (k : Z) :
  x <= inject_Z k -> Py.round2 x <= inject_Z k.
Proof.
  intros H. assert (Hr : (Py.round (x * 100) <= k * 100)%Z).
  { apply round_le_int. rewrite inject_Z_mult. change (inject_Z 100) with 100.
    lra. }
  unfold Py.round2, Qle. simpl. lia.
Qed.

(** [int] keeps the order. *)
Lemma int_mono (x y : Q) : 0 <= x -> x <= y -> (Py.int x <= Py.int y)%Z.
Proof.
  intros Hx Hxy. rewrite !int_floor by lra. apply Qfloor_resp_le, Hxy.
Qed.

Lemma int_le_int (x : Q) (k : Z) :
  0 <= x -> x <= inject_Z k -> (Py.int x <= k)%Z.
Proof.
  intros Hx H. rewrite int_floor by exact Hx.
  pose proof (Qfloor_resp_le _ _ H) as Hf. rewrite Qfloor_Z in Hf. exact Hf.
Qed.

Lemma inject_Z_S (n : nat) :
  inject_Z (Z.of_nat (S n)) == inject_Z (Z.of_nat n) + 1.
Proof.
  rewrite Nat2Z.inj_succ. unfold Z.succ. rewrite inject_Z_plus. reflexivity.
Qed.

Lemma sum_between (a b : Q) (l : list Q) (acc : Q) :
  (forall y, In y l -> a <= y <= b) ->
  acc + inject_Z (Z.of_nat (List.length l)) * a <= fold_left Qplus l acc /\
  fold_left Qplus l acc <= acc + inject_Z (Z.of_nat (List.length l)) * b.
Proof.
  revert acc. induction l as [|x rest IH]; intros acc H.
  - cbn [fold_left List.length Z.of_nat]. change (inject_Z 0) with 0.
    split; ring_simplify; apply Qle_refl.
  - cbn [fold_left List.length]. rewrite inject_Z_S.
    destruct (IH (acc + x) (fun y Hy => H y (or_intror Hy))) as [Hlo Hhi].
    destruct (H x (or_introl eq_refl)) as [Hax Hxb].
    set (n := inject_Z (Z.of_nat (List.length rest))) in *.
    setoid_replace ((n + 1) * a) with (n * a + a) by ring.
    setoid_replace ((n + 1) * b) with (n * b + b) by ring.
    split; lra.
Qed.

(** The mean of a non-empty list lies between any bounds of its
    elements. *)
Lemma mean_between (a b : Q) (l : list Q) :
  l <> [] -> (forall y, In y l -> a <= y <= b) ->
  a <= Py.mean l <= b.
Proof.
  intros Hne H. unfold Py.mean, Py.sum.
  destruct (sum_between a b l 0 H) as [Hlo Hhi].
  assert (Hn : 0 < inject_Z (Z.of_nat (List.length l))).
  { change 0 with (inject_Z 0). rewrite <- Zlt_Qlt.
    destruct l; [contradiction | simpl; lia]. }
  split.
  - apply Qle_shift_div_l; [exact Hn | lra].
  - apply Qle_shift_div_r; [exact Hn | lra].
Qed.

(** ** Sorting *)

Section SortedFacts.

Context {A : Type} (before : A -> A -> bool).
Hypothesis before_total : forall x y, before x y = true \/ before y x = true.
Hypothesis before_trans :
  forall x y z, before x y = true -> before y z = true -> before x z = true.

(** Each element may stay in front of all that follow it. *)
Fixpoint ordered (l : list A) : Prop :=
  match l with
  | [] => True
  | x :: rest => (forall y, In y rest -> before x y = true) /\ ordered rest
  end.

Lemma insert_stable_In (x y : A) (l : list A) :
  In y (Py.insert_stable before x l) <-> y = x \/ In y l.
Proof.
  induction l as [|z rest IH]; simpl; [intuition|].
  destruct (before x z); simpl; [intuition|].
  rewrite IH. intuition.
Qed.

Lemma insert_stable_ordered (x : A) (l : list A) :
  ordered l -> ordered (Py.insert_stable before x l).
Proof.
  induction l as [|z rest IH]; simpl; [intuition|].
  intros [Hz Hrest]. destruct (before x z) eqn:E; simpl.
  - split; [|split; assumption].
    intros y [<-|Hy]; [exact E|]. eapply before_trans; [exact E | apply Hz, Hy].
  - split; [|apply IH, Hrest].
    intros y Hy. apply insert_stable_In in Hy. destruct Hy as [->|Hy].
    + destruct (before_total x z) as [H|H]; [congruence | exact H].
    + apply Hz, Hy.
Qed.

Lemma sorted_ordered (l : list A) : ordered (Py.sorted before l).
Proof.
  induction l as [|x rest IH]; simpl; [exact I|].
  apply insert_stable_ordered, IH.
Qed.

Lemma sorted_In (y : A) (l : list A) : In y (Py.sorted before l) <-> In y l.
Proof.
  split; apply Permutation_in; [|symmetry]; apply sorted_perm.
Qed.

Lemma sorted_length (l : list A) :
  List.length (Py.sorted before l) = List.length l.
Proof. apply Permutation_length, sorted_perm. Qed.

(** The first element of the sorted list may stand in front of every
    element of the input. *)
Lemma sorted_head (l : list A) (h : A) (rest : list A) :
  Py.sorted before l = h :: rest ->
  forall y, In y l -> before h y = true.
Proof.
  intros E y Hy. apply sorted_In in Hy. rewrite E in Hy.
  pose proof (sorted_ordered l) as Ho. rewrite E in Ho. destruct Ho as [Ho _].
  destruct Hy as [<-|Hy]; [|apply Ho, Hy].
  destruct (before_total h h); assumption.
Qed.

End SortedFacts.

(** ** Printing numbers *)

From Stdlib Require DecimalNat.

Lemma str_nat_inj (n m : nat) : Py.str_nat n = Py.str_nat m -> n = m.
Proof.
  unfold Py.str_nat. intros H.
  apply (f_equal NilEmpty.uint_of_string) in H.
  rewrite !NilEmpty.usu in H. injection H as H.
  apply (f_equal Nat.of_uint) in H.
  rewrite !DecimalNat.Unsigned.of_to in H. exact H.
Qed.

(** ** Entries of the DNS benchmark *)

Lemma fold_left_flat_map {A B C : Type} (f : A -> C -> A) (g : B -> list C)
    (l : list B) (init : A) :
  fold_left f (flat_map g l) init
  = fold_left (fun acc x => fold_left f (g x) acc) l init.
Proof.
  revert init. induction l as [|x rest IH]; intros init; simpl;
    [reflexivity|].
  rewrite fold_left_app. apply IH.
Qed.

Lemma set_Forall {V : Type} (P : string * V -> Prop) (k : string) (v : V)
    (d : Dict.t V) :
  Forall P d -> P (k, v) -> Forall P (Dict.set k v d).
Proof.
  intros Hd Hkv. induction d as [|[k' v'] rest IH]; simpl.
  - constructor; [exact Hkv | constructor].
  - inversion Hd; subst. destruct (String.eqb k k').
    + constructor; assumption.
    + constructor; [assumption | apply IH; assumption].
Qed.

Lemma set_length {V : Type} (k : string) (v : V) (d : Dict.t V) :
  List.length (Dict.set k v d)
  = match Dict.get k d with
    | Some _ => List.length d
    | None => S (List.length d)
    end.
Proof.
  induction d as [|[k' v'] rest IH]; simpl; [reflexivity|].
  destruct (String.eqb k k'); simpl; [reflexivity|].
  rewrite IH. destruct (Dict.get k rest); reflexivity.
Qed.

Lemma set_keys_known {V : Type} (k : string) (v w : V) (d : Dict.t V) :
  Dict.get k d = Some w -> Dict.keys (Dict.set k v d) = Dict.keys d.
Proof.
  induction d as [|[k' v'] rest IH]; simpl; [discriminate|].
  destruct (String.eqb_spec k k') as [->|Hne]; simpl; [reflexivity|].
  intros H. rewrite IH by exact H. reflexivity.
Qed.

Lemma set_keys_new {V : Type} (k : string) (v : V) (d : Dict.t V) :
  Dict.get k d = None -> Dict.keys (Dict.set k v d) = Dict.keys d ++ [k].
Proof.
  induction d as [|[k' v'] rest IH]; simpl; [reflexivity|].
  destruct (String.eqb k k'); simpl; [discriminate|].
  intros H. rewrite IH by exact H. reflexivity.
Qed.

Lemma get_None_keys {V : Type} (k : string) (d : Dict.t V) :
  Dict.get k d = None <-> ~ In k (Dict.keys d).
Proof.
  induction d as [|[k' v'] rest IH]; simpl; [intuition|].
  destruct (String.eqb_spec k k') as [->|Hne].
  - split; [discriminate | intros H; exfalso; apply H; left; reflexivity].
  - rewrite IH. intuition congruence.
Qed.

Section DNSEntries.

Import DNSAnalyzer.

Variable probe : oracle.

(** The samples of one server, in the order of the two loops, each with
    its domain. *)
Definition dns_samples (server_name : string) (domains : list string)
    (iterations : Z) : list (string * probe_result) :=
  flat_map
    (fun '(d, domain) =>
       map (fun i => (domain, test_dns_server (probe server_name d i) 5))
         (seq 0 (Z.to_nat iterations)))
    (combine (seq 0 (List.length domains)) domains).

(** The response times of the samples that succeeded, in order. *)
Definition dns_times (samples : list (string * probe_result)) : list Q :=
  map (fun s => response_time_ms (snd s))
    (filter (fun s => success (snd s)) samples).

Lemma sample_server_as_fold (server_name : string) (domains : list string)
    (iterations : Z) :
  sample_server probe server_name domains iterations
  = fold_left (fun s '(domain, r) => record_sample domain r s)
      (dns_samples server_name domains iterations) sampling_start.
Proof.
  unfold sample_server, dns_samples. rewrite fold_left_flat_map.
  generalize sampling_start as s0.
  generalize (combine (seq 0 (List.length domains)) domains) as l.
  induction l as [|[d domain] rest IH]; intros s0; simpl; [reflexivity|].
  rewrite IH. f_equal.
  rewrite (fold_left_over_map
             (fun s (x : string * probe_result) =>
                let '(domain, r) := x in record_sample domain r s)
             (fun i => (domain, test_dns_server (probe server_name d i) 5))).
  reflexivity.
Qed.

Lemma dns_record_samples (samples : list (string * probe_result))
    (s : sampling) :
  let s' := fold_left (fun s '(domain, r) => record_sample domain r s)
              samples s in
  s_tests s' = s_tests s ++ samples /\
  s_all_times s' = s_all_times s ++ dns_times samples /\
  s_successful s' = (s_successful s + List.length (dns_times samples))%nat /\
  s_min_time s' = fold_left Py.xmin2 (dns_times samples) (s_min_time s) /\
  s_max_time s' = fold_left Py.max2 (dns_times samples) (s_max_time s).
Proof.
  revert s. induction samples as [|[domain r] rest IH]; intros s; cbv zeta;
    simpl.
  - unfold dns_times. simpl. rewrite !app_nil_r. repeat split. lia.
  - destruct (IH (record_sample domain r s)) as (H1 & H2 & H3 & H4 & H5).
    rewrite H1, H2, H3, H4, H5. clear.
    assert (Hc : dns_times ((domain, r) :: rest)
                 = if success r
                   then response_time_ms r :: dns_times rest
                   else dns_times rest).
    { unfold dns_times. simpl. destruct (success r); reflexivity. }
    rewrite Hc. unfold record_sample.
    destruct (success r); simpl; rewrite <- ?app_assoc; simpl;
      repeat split; lia.
Qed.

(** The loop variables after the samples of one server. *)
Lemma sample_server_spec (server_name : string) (domains : list string)
    (iterations : Z) :
  let s := sample_server probe server_name domains iterations in
  let samples := dns_samples server_name domains iterations in
  let times := dns_times samples in
  s_tests s = samples /\
  s_all_times s = times /\
  s_successful s = List.length times /\
  s_min_time s = match times with
                 | [] => Py.Infinity
                 | x :: rest => Py.Finite (Py.min_list x rest)
                 end /\
  s_max_time s = Py.max_list 0 times.
Proof.
  intros s samples times. unfold s. rewrite sample_server_as_fold.
  destruct (dns_record_samples samples sampling_start)
    as (H1 & H2 & H3 & H4 & H5).
  fold samples. rewrite H1, H2, H3, H4, H5. fold times. simpl.
  repeat split.
  destruct times as [|x rest]; [reflexivity|]. simpl. apply xmin2_fold.
Qed.

Lemma dns_samples_length (server_name : string) (domains : list string)
    (iterations : Z) :
  List.length (dns_samples server_name domains iterations)
  = (List.length domains * Z.to_nat iterations)%nat.
Proof.
  unfold dns_samples.
  assert (H : forall l : list (nat * string),
    List.length
      (flat_map
         (fun '(d, domain) =>
            map (fun i => (domain, test_dns_server (probe server_name d i) 5))
              (seq 0 (Z.to_nat iterations))) l)
    = (List.length l * Z.to_nat iterations)%nat).
  { induction l as [|[d domain] rest IH]; simpl; [reflexivity|].
    rewrite length_app, length_map, length_seq, IH. reflexivity. }
  rewrite H, length_combine, length_seq. lia.
Qed.

Lemma dns_times_length (samples : list (string * probe_result)) :
  (List.length (dns_times samples) <= List.length samples)%nat.
Proof.
  unfold dns_times. rewrite length_map. apply filter_length_le.
Qed.

End DNSEntries.

Lemma dns_time_score_ceiling (x : Q) : (dns_time_score x <= 100)%Z.
Proof.
  unfold dns_time_score, dns_bands, step_score. split_bands; lia.
Qed.

Lemma cdn_time_score_ceiling (x : Q) : (cdn_time_score x <= 100)%Z.
Proof.
  unfold cdn_time_score, cdn_bands, step_score. split_bands; lia.
Qed.

Lemma dns_score_range (avg_time success_rate : Q) :
  0 <= success_rate <= 100 ->
  (0 <= DNSAnalyzer._calculate_reliability avg_time success_rate <= 100)%Z.
Proof.
  intros [Hlo Hhi].
  destruct (Qeq_dec success_rate 0) as [Hz|Hnz].
  - rewrite dns_score_zero by exact Hz. lia.
  - rewrite dns_score_unfold by exact Hnz.
    pose proof (inject_Z_ge _ _ (dns_time_score_floor avg_time)) as Hf.
    pose proof (inject_Z_ge _ _ (dns_time_score_ceiling avg_time)) as Hc.
    change (inject_Z 20) with 20 in Hf. change (inject_Z 100) with 100 in Hc.
    split.
    + apply Z.lt_le_incl, int_pos. lra.
    + apply int_le_int; [lra|]. change (inject_Z 100) with 100. lra.
Qed.

Lemma cdn_score_range (avg_time success_rate : Q) :
  0 <= success_rate <= 100 ->
  (0 <= CDNTester._calculate_score avg_time success_rate <= 100)%Z.
Proof.
  intros [Hlo Hhi].
  destruct (Qeq_dec success_rate 0) as [Hz|Hnz].
  - rewrite cdn_score_zero by exact Hz. lia.
  - rewrite cdn_score_unfold by exact Hnz.
    pose proof (inject_Z_ge _ _ (cdn_time_score_floor avg_time)) as Hf.
    pose proof (inject_Z_ge _ _ (cdn_time_score_ceiling avg_time)) as Hc.
    change (inject_Z 10) with 10 in Hf. change (inject_Z 100) with 100 in Hc.
    split.
    + apply Z.lt_le_incl, int_pos. lra.
    + apply int_le_int; [lra|]. change (inject_Z 100) with 100. lra.
Qed.

(** A count that does not exceed the number of attempts, as a percentage:
    between 0 and 100.  A negative total comes with no attempt at all. *)
Lemma rate_range (count attempts : nat) (total : Z) :
  (count <= attempts)%nat ->
  ((0 < total)%Z /\ Z.of_nat attempts = total) \/ attempts = 0%nat ->
  total <> 0%Z ->
  let rate := Py.round2 (inject_Z (Z.of_nat count) / inject_Z total * 100) in
  0 <= rate <= 100.
Proof.
  intros Hle Hcase Hnz rate. split.
  - apply rate_nonneg; [|exact Hnz].
    destruct Hcase as [[Hpos _]|H0]; [left; exact Hpos | right; lia].
  - unfold rate. change 100 with (inject_Z 100) at 2. apply round2_le_int.
    change (inject_Z 100) with 100.
    destruct Hcase as [[Hpos Heq]|H0].
    + assert (Ht : 0 < inject_Z total).
      { change 0 with (inject_Z 0). rewrite <- Zlt_Qlt. exact Hpos. }
      assert (Hc : inject_Z (Z.of_nat count) <= inject_Z total).
      { rewrite <- Zle_Qle. lia. }
      assert (Hq : inject_Z (Z.of_nat count) / inject_Z total <= 1).
      { apply Qle_shift_div_r; [exact Ht | lra]. }
      lra.
    + replace count with 0%nat by lia. change (Z.of_nat 0) with 0%Z.
      setoid_replace (inject_Z 0 / inject_Z total * 100) with 0.
      * lra.
      * field. apply inject_Z_nonzero, Hnz.
Qed.

Section DNSEntryInvariants.

Import DNSAnalyzer.

Variable probe : oracle.

(** What every entry of the DNS benchmark satisfies. *)
Definition dns_entry_ok (entry : server_results) : Prop :=
  0 <= success_rate entry <= 100 /\
  (0 <= reliability_score entry <= 100)%Z /\
  exists m, min_time entry = Py.Finite m /\
            m <= avg_response_time entry <= max_time entry.

Lemma benchmark_server_ok (server_name server_ip : string)
    (domains : list string) (iterations : Z) (entry : server_results) :
  benchmark_server probe server_name server_ip domains iterations
  = Py.Ok entry ->
  dns_entry_ok entry /\
  List.length (tests entry)
  = (List.length domains * Z.to_nat iterations)%nat.
Proof.
  unfold benchmark_server, summarize.
  destruct (Z.eqb_spec (Z.of_nat (List.length domains) * iterations) 0)
    as [|Hnz]; [discriminate|].
  destruct (sample_server_spec probe server_name domains iterations)
    as (H1 & H2 & H3 & H4 & H5).
  cbv zeta in H1, H2, H3, H4, H5. rewrite H1, H2, H3, H4, H5.
  set (samples := dns_samples probe server_name domains iterations).
  set (times := dns_times samples).
  intros [= <-]. unfold dns_entry_ok.
  cbn [success_rate reliability_score min_time max_time avg_response_time
       tests].
  split; [|apply dns_samples_length].
  assert (Hrate : 0 <= Py.round2
            (inject_Z (Z.of_nat (List.length times))
             / inject_Z (Z.of_nat (List.length domains) * iterations) * 100)
            <= 100).
  { apply (rate_range _ (List.length samples)); [apply dns_times_length| |
      exact Hnz].
    unfold samples. rewrite dns_samples_length.
    destruct (Z.lt_ge_cases 0 iterations) as [Hpos|Hneg].
    - left. split; [nia|]. rewrite Nat2Z.inj_mul, Z2Nat.id by lia.
      reflexivity.
    - right. replace (Z.to_nat iterations) with 0%nat by lia. lia. }
  split; [exact Hrate|]. split; [apply dns_score_range, Hrate|].
  destruct times as [|x rest] eqn:E.
  - exists 0. split; [reflexivity|]. simpl. lra.
  - eexists. split; [reflexivity|].
    assert (Hm : Py.min_list x rest <= Py.mean (x :: rest)
                 <= Py.max_list 0 (x :: rest)).
    { apply mean_between; [discriminate|]. intros y Hy. split.
      - apply min_list_le, Hy.
      - apply max_list_ge. right. exact Hy. }
    split; apply round2_mono; apply Hm.
Qed.

Lemma run_servers_Forall (P : server_results -> Prop)
    (domains : list string) (iterations : Z) :
  (forall n a e,
     benchmark_server probe n a domains iterations = Py.Ok e -> P e) ->
  forall (l : Dict.t string) (acc results : Dict.t server_results),
  Forall (fun kv => P (snd kv)) acc ->
  run_servers probe domains iterations l (Py.Ok acc) = Py.Ok results ->
  Forall (fun kv => P (snd kv)) results.
Proof.
  intros HP. unfold run_servers.
  induction l as [|[n a] rest IH]; intros acc results Hacc; simpl.
  - intros [= <-]. exact Hacc.
  - destruct (benchmark_server probe n a domains iterations) as [e|err]
      eqn:E; simpl.
    + apply IH. apply set_Forall; [exact Hacc|]. simpl. eapply HP, E.
    + intros H. exfalso. revert H. clear.
      induction rest as [|[n' a'] rest IH]; simpl; [discriminate | exact IH].
Qed.

End DNSEntryInvariants.

(** ** The report of the DNS benchmark *)

Section DNSReport.

Import DNSAnalyzer.

Variable probe : oracle.

(** The names under which the caller's servers are tested. *)
Definition custom_names (n : nat) : list string :=
  map (fun i => ("Custom_" ++ Py.str_nat (i + 1))%string) (seq 0 n).

Lemma custom_name_fresh (i : nat) :
  ~ In ("Custom_" ++ Py.str_nat (i + 1))%string (Dict.keys DNS_SERVERS).
Proof.
  unfold DNS_SERVERS, Dict.keys. simpl. intuition discriminate.
Qed.

Lemma catalog_keys :
  Dict.keys
    (fold_left (fun d '(name, info) => Dict.set name (primary info) d)
       DNS_SERVERS [])
  = Dict.keys DNS_SERVERS.
Proof. reflexivity. Qed.

Lemma custom_fold_keys (l : list string) (start : nat) (d : Dict.t string) :
  (forall i, (start <= i)%nat ->
     ~ In ("Custom_" ++ Py.str_nat (i + 1))%string (Dict.keys d)) ->
  Dict.keys
    (fold_left
       (fun d '(i, server) =>
          Dict.set ("Custom_" ++ Py.str_nat (i + 1)) server d)
       (combine (seq start (List.length l)) l) d)
  = Dict.keys d
    ++ map (fun i => ("Custom_" ++ Py.str_nat (i + 1))%string)
         (seq start (List.length l)).
Proof.
  revert start d. induction l as [|server rest IH]; intros start d Hfresh.
  - simpl. rewrite app_nil_r. reflexivity.
  - cbn [List.length seq combine fold_left map].
    rewrite IH.
    + rewrite set_keys_new.
      * rewrite <- app_assoc. reflexivity.
      * apply get_None_keys, Hfresh. lia.
    + intros i Hi Hin. rewrite set_keys_new in Hin
        by (apply get_None_keys, Hfresh; lia).
      apply in_app_iff in Hin. destruct Hin as [Hin|[Heq|[]]].
      * apply (Hfresh i); [lia | exact Hin].
      * simpl in Heq. injection Heq as Heq. apply str_nat_inj in Heq. lia.
Qed.

(** The servers that a run tests: the twelve of the catalog, then
    [Custom_1], [Custom_2], ... in the order given. *)
Lemma servers_to_test_keys (custom_servers : option (list string)) :
  Dict.keys (servers_to_test custom_servers)
  = Dict.keys DNS_SERVERS
    ++ custom_names (List.length (Py.get_or custom_servers [])).
Proof.
  unfold servers_to_test, custom_names.
  destruct custom_servers as [[|c l]|]; try reflexivity.
  rewrite custom_fold_keys.
  - rewrite catalog_keys. reflexivity.
  - intros i _. rewrite catalog_keys. apply custom_name_fresh.
Qed.

Lemma run_servers_keys (domains : list string) (iterations : Z)
    (l : Dict.t string) (acc results : Dict.t server_results) :
  NoDup (Dict.keys acc ++ Dict.keys l) ->
  run_servers probe domains iterations l (Py.Ok acc) = Py.Ok results ->
  Dict.keys results = Dict.keys acc ++ Dict.keys l.
Proof.
  unfold run_servers. revert acc.
  induction l as [|[n a] rest IH]; intros acc Hnd; simpl.
  - intros [= <-]. rewrite app_nil_r. reflexivity.
  - destruct (benchmark_server probe n a domains iterations) as [e|err];
      simpl.
    + assert (Hnew : Dict.get n acc = None).
      { apply get_None_keys. intros Hin.
        apply NoDup_remove_2 in Hnd. apply Hnd, in_app_iff. left. exact Hin. }
      intros H. apply IH in H.
      * rewrite H, set_keys_new by exact Hnew.
        rewrite <- app_assoc. reflexivity.
      * rewrite set_keys_new by exact Hnew. rewrite <- app_assoc. exact Hnd.
    + intros H. exfalso. revert H. clear.
      induction rest as [|[n' a'] rest IH]; simpl; [discriminate | exact IH].
Qed.

Lemma by_reliability_total (x y : string * server_results) :
  by_reliability x y = true \/ by_reliability y x = true.
Proof. unfold by_reliability. rewrite !Z.leb_le. lia. Qed.

Lemma by_reliability_trans (x y z : string * server_results) :
  by_reliability x y = true -> by_reliability y z = true ->
  by_reliability x z = true.
Proof. unfold by_reliability. rewrite !Z.leb_le. lia. Qed.

Lemma server_names_nonempty (custom_servers : option (list string))
    (name : string) :
  In name (Dict.keys (servers_to_test custom_servers)) ->
  name <> EmptyString.
Proof.
  rewrite servers_to_test_keys. intros H. apply in_app_iff in H.
  destruct H as [H|H].
  - unfold DNS_SERVERS, Dict.keys in H. simpl in H.
    intuition (subst; discriminate).
  - unfold custom_names in H. apply in_map_iff in H.
    destruct H as (i & <- & _). discriminate.
Qed.

(** What [benchmark] leaves in [results] before sorting. *)
Lemma benchmark_results (custom_servers test_domains : option (list string))
    (iterations : Z) (report : report) :
  benchmark probe custom_servers test_domains iterations = Py.Ok report ->
  exists results,
    run_servers probe (domains_or_default test_domains) iterations
      (servers_to_test custom_servers) (Py.Ok []) = Py.Ok results /\
    servers report = Py.sorted by_reliability results /\
    best_server report
    = match Dict.keys (servers report) with
      | [] => None
      | name :: _ =>
          if String.eqb name EmptyString then None
          else Some (name, Dict.get name (servers report))
      end /\
    total_tested report = List.length (servers report) /\
    DNSAnalyzer.test_domains report = domains_or_default test_domains /\
    DNSAnalyzer.iterations report = iterations.
Proof.
  unfold benchmark. cbv zeta.
  destruct (run_servers probe (domains_or_default test_domains) iterations
              (servers_to_test custom_servers) (Py.Ok [])) as [results|e];
    [|discriminate].
  cbn [Py.bind]. intros [= <-]. exists results.
  cbn [servers best_server total_tested DNSAnalyzer.test_domains
       DNSAnalyzer.iterations].
  split; [reflexivity|]. split; [reflexivity|].
  split; [|repeat split].
  destruct (Dict.keys (Py.sorted by_reliability results)); reflexivity.
Qed.

(** Every report of the DNS benchmark: each entry has a success rate and a
    score between 0 and 100, a minimum not above the average, an average
    not above the maximum, and one test per domain and iteration. *)
Theorem dns_report_entries_in_range
    (custom_servers test_domains : option (list string)) (iterations : Z)
    (report : report) (name : string) (entry : server_results) :
  benchmark probe custom_servers test_domains iterations = Py.Ok report ->
  In (name, entry) (servers report) ->
  0 <= success_rate entry <= 100 /\
  (0 <= reliability_score entry <= 100)%Z /\
  (exists m, min_time entry = Py.Finite m /\
             m <= avg_response_time entry <= max_time entry) /\
  List.length (tests entry)
  = (List.length (domains_or_default test_domains) * Z.to_nat iterations)%nat.
Proof.
  intros Hrun Hin.
  destruct (benchmark_results _ _ _ _ Hrun) as (results & Hres & Hs & _).
  rewrite Hs in Hin. apply sorted_In in Hin.
  pose proof (run_servers_Forall probe
    (fun e => dns_entry_ok e /\
              List.length (tests e)
              = (List.length (domains_or_default test_domains)
                 * Z.to_nat iterations)%nat)
    (domains_or_default test_domains) iterations
    (fun n a e => benchmark_server_ok probe n a _ _ e)
    _ [] results (Forall_nil _) Hres) as Hall.
  rewrite Forall_forall in Hall. specialize (Hall _ Hin).
  destruct Hall as [(Hr & Hsc & Hm) Hl]. auto.
Qed.

(** The statement of [dns_report_is_ranked], as a lemma for the proofs that build on
    it. *)
Lemma dns_ranking_facts
    (custom_servers test_domains : option (list string)) (iterations : Z)
    (report : report) :
  benchmark probe custom_servers test_domains iterations = Py.Ok report ->
  Permutation (Dict.keys (servers report))
    (Dict.keys DNS_SERVERS
     ++ custom_names (List.length (Py.get_or custom_servers []))) /\
  total_tested report
  = (12 + List.length (Py.get_or custom_servers []))%nat /\
  ordered by_reliability (servers report) /\
  exists name entry rest,
    servers report = (name, entry) :: rest /\
    best_server report = Some (name, Some entry) /\
    forall other other_entry,
      In (other, other_entry) (servers report) ->
      (reliability_score other_entry <= reliability_score entry)%Z.
Proof.
  intros Hrun.
  destruct (benchmark_results _ _ _ _ Hrun)
    as (results & Hres & Hs & Hbest & Htotal & _).
  pose proof (run_servers_keys _ _ _ [] results
                (servers_to_test_NoDup custom_servers) Hres) as Hkeys.
  simpl in Hkeys.
  assert (Hperm : Permutation (Dict.keys (servers report))
                    (Dict.keys (servers_to_test custom_servers))).
  { rewrite Hs, <- Hkeys. unfold Dict.keys. apply Permutation_map.
    apply sorted_perm. }
  split; [rewrite <- servers_to_test_keys; exact Hperm|].
  assert (Hlen : List.length (servers report)
                 = (12 + List.length (Py.get_or custom_servers []))%nat).
  { rewrite <- (length_map fst). fold (Dict.keys (servers report)).
    rewrite (Permutation_length Hperm), servers_to_test_keys, length_app.
    unfold custom_names. rewrite length_map, length_seq. reflexivity. }
  split; [rewrite Htotal; exact Hlen|].
  split; [rewrite Hs; apply sorted_ordered;
          [apply by_reliability_total | apply by_reliability_trans]|].
  destruct (servers report) as [|[name entry] rest] eqn:E;
    [simpl in Hlen; lia|].
  exists name, entry, rest. split; [reflexivity|].
  assert (Hname : name <> EmptyString).
  { apply (server_names_nonempty custom_servers).
    apply (Permutation_in _ Hperm). left. reflexivity. }
  split.
  - rewrite Hbest. simpl. rewrite String.eqb_refl.
    apply String.eqb_neq in Hname. rewrite Hname. reflexivity.
  - intros other other_entry Hin.
    assert (Ho : by_reliability (name, entry) (other, other_entry) = true).
    { rewrite Hs in Hin. apply sorted_In in Hin.
      eapply (sorted_head by_reliability by_reliability_total
                by_reliability_trans); [symmetry; exact Hs | exact Hin]. }
    unfold by_reliability in Ho. simpl in Ho. apply Z.leb_le, Ho.
Qed.

(** Every report of the DNS benchmark: the servers are the twelve of the
    catalog and the caller's, in the order of their scores, highest first;
    [best_server] is the first of them and no server has a higher score;
    [total_tested] is their number. *)
Theorem dns_report_is_ranked
    (custom_servers test_domains : option (list string)) (iterations : Z)
    (report : report) :
  benchmark probe custom_servers test_domains iterations = Py.Ok report ->
  Permutation (Dict.keys (servers report))
    (Dict.keys DNS_SERVERS
     ++ custom_names (List.length (Py.get_or custom_servers []))) /\
  total_tested report
  = (12 + List.length (Py.get_or custom_servers []))%nat /\
  ordered by_reliability (servers report) /\
  exists name entry rest,
    servers report = (name, entry) :: rest /\
    best_server report = Some (name, Some entry) /\
    forall other other_entry,
      In (other, other_entry) (servers report) ->
      (reliability_score other_entry <= reliability_score entry)%Z.
Proof. exact (dns_ranking_facts custom_servers test_domains iterations report). Qed.

End DNSReport.

Lemma dns_report_entries_in_range_witness :
  exists report entry,
    DNSAnalyzer.benchmark three_good None (Some ["example.com"%string]) 3
    = Py.Ok report /\
    In ("Quad9"%string, entry) (DNSAnalyzer.servers report) /\
    0 <= DNSAnalyzer.success_rate entry <= 100 /\
    (0 <= DNSAnalyzer.reliability_score entry <= 100)%Z /\
    List.length (DNSAnalyzer.tests entry) = 3%nat.
Proof.
  destruct (benchmark_entry three_good None (Some ["example.com"%string]) 3
              "Quad9" "9.9.9.9" ltac:(discriminate) eq_refl)
    as (report & entry & Hrun & Hget & _).
  apply get_In in Hget.
  exists report, entry. split; [exact Hrun|]. split; [exact Hget|].
  destruct (dns_report_entries_in_range three_good None
              (Some ["example.com"%string]) 3 report "Quad9" entry Hrun Hget)
    as (Hr & Hs & _ & Hl).
  split; [exact Hr|]. split; [exact Hs | exact Hl].
Defined.

Lemma dns_report_is_ranked_witness :
  exists report,
    DNSAnalyzer.benchmark all_time_out (Some ["192.0.2.53"%string]) None 1
    = Py.Ok report /\
    DNSAnalyzer.total_tested report = 13%nat.
Proof.
  destruct (DNSAnalyzer.benchmark all_time_out (Some ["192.0.2.53"%string])
              None 1) as [report|e] eqn:E.
  - exists report. split; [reflexivity|].
    apply (dns_report_is_ranked all_time_out _ _ _ _ E).
  - vm_compute in E. discriminate E.
Defined.

(** ** The report of the CDN benchmark *)

Section CDNReport.

Import CDNTester.

Variables (self_timeout : Q) (probe : oracle).

Lemma by_score_total (x y : string * cdn_results) :
  by_score x y = true \/ by_score y x = true.
Proof. unfold by_score. rewrite !Z.leb_le. lia. Qed.

Lemma by_score_trans (x y z : string * cdn_results) :
  by_score x y = true -> by_score y z = true -> by_score x z = true.
Proof. unfold by_score. rewrite !Z.leb_le. lia. Qed.

Lemma run_providers_raise (iterations : Z) (l : Dict.t provider_info)
    (e : Py.exn) (results : Dict.t cdn_results) :
  run_providers self_timeout probe iterations l (Py.Raise e)
  <> Py.Ok results.
Proof.
  unfold run_providers.
  induction l as [|[n a] rest IH]; simpl; [discriminate | exact IH].
Qed.

Lemma run_providers_Forall (P : string * cdn_results -> Prop)
    (iterations : Z) (l : Dict.t provider_info) :
  (forall n a e,
     In (n, a) l ->
     benchmark_provider self_timeout probe n a iterations = Py.Ok e ->
     P (n, e)) ->
  forall (acc results : Dict.t cdn_results),
  Forall P acc ->
  run_providers self_timeout probe iterations l (Py.Ok acc) = Py.Ok results ->
  Forall P results.
Proof.
  induction l as [|[n a] rest IH]; intros HP acc results Hacc.
  - unfold run_providers. simpl. intros [= <-]. exact Hacc.
  - unfold run_providers. simpl.
    destruct (benchmark_provider self_timeout probe n a iterations)
      as [e|err] eqn:E; simpl.
    + apply IH.
      * intros n' a' e' Hin. apply HP. right. exact Hin.
      * apply set_Forall; [exact Hacc|]. apply (HP n a e); [left|];
          [reflexivity | exact E].
    + intros H. exfalso. eapply run_providers_raise. exact H.
Qed.

Lemma run_providers_keys (iterations : Z) (l : Dict.t provider_info)
    (acc results : Dict.t cdn_results) :
  NoDup (Dict.keys acc ++ Dict.keys l) ->
  run_providers self_timeout probe iterations l (Py.Ok acc) = Py.Ok results ->
  Dict.keys results = Dict.keys acc ++ Dict.keys l.
Proof.
  revert acc. induction l as [|[n a] rest IH]; intros acc Hnd.
  - unfold run_providers. simpl. intros [= <-]. rewrite app_nil_r.
    reflexivity.
  - unfold run_providers. simpl.
    destruct (benchmark_provider self_timeout probe n a iterations)
      as [e|err]; simpl.
    + assert (Hnew : Dict.get n acc = None).
      { apply get_None_keys. intros Hin.
        apply NoDup_remove_2 in Hnd. apply Hnd, in_app_iff. left. exact Hin. }
      intros H. apply IH in H.
      * rewrite H, set_keys_new by exact Hnew.
        rewrite <- app_assoc. reflexivity.
      * rewrite set_keys_new by exact Hnew. rewrite <- app_assoc. exact Hnd.
    + intros H. exfalso. eapply run_providers_raise. exact H.
Qed.

(** What every entry of the CDN benchmark satisfies. *)
Lemma benchmark_provider_range (cdn_name : string) (cdn_info : provider_info)
    (iterations : Z) (entry : cdn_results) :
  benchmark_provider self_timeout probe cdn_name cdn_info iterations
  = Py.Ok entry ->
  0 <= success_rate entry <= 100 /\
  (0 <= score entry <= 100)%Z /\
  (exists m, min_time entry = Py.Finite m /\
             m <= avg_response_time entry <= max_time entry) /\
  List.length (tests entry) = Z.to_nat iterations /\
  url entry = test_url cdn_info.
Proof.
  intros Hrun.
  destruct (benchmark_provider_spec self_timeout probe cdn_name cdn_info
              iterations entry Hrun) as (Htests & Hrate & Hscore & Hagg).
  assert (Hnz : iterations <> 0%Z).
  { intros ->. unfold benchmark_provider, summarize in Hrun.
    discriminate Hrun. }
  assert (Hlen : List.length (fetches self_timeout probe cdn_name iterations)
                 = Z.to_nat iterations).
  { unfold fetches. rewrite length_map, length_seq. reflexivity. }
  assert (Hr : 0 <= success_rate entry <= 100).
  { rewrite Hrate.
    apply (rate_range _ (Z.to_nat iterations)); [| |exact Hnz].
    - rewrite <- Hlen. apply filter_length_le.
    - destruct (Z.lt_ge_cases 0 iterations) as [Hpos|Hneg].
      + left. split; [exact Hpos | lia].
      + right. lia. }
  split; [exact Hr|]. split; [rewrite Hscore; apply cdn_score_range, Hr|].
  split; [|split; [rewrite Htests; exact Hlen|]].
  - cbv zeta in Hagg.
    destruct (counted_times (fetches self_timeout probe cdn_name iterations))
      as [|x rest] eqn:E.
    + destruct Hagg as (-> & -> & ->). exists 0. split; [reflexivity | lra].
    + destruct Hagg as (-> & -> & ->). eexists. split; [reflexivity|].
      assert (Hm : Py.min_list x rest <= Py.mean (x :: rest)
                   <= Py.max_list 0 (x :: rest)).
      { apply mean_between; [discriminate|]. intros y Hy. split.
        - apply min_list_le, Hy.
        - apply max_list_ge. right. exact Hy. }
      split; apply round2_mono; apply Hm.
  - unfold benchmark_provider, summarize in Hrun.
    destruct (Py.div _ _); [|discriminate]. simpl in Hrun.
    injection Hrun as <-. reflexivity.
Qed.

(** Every report of the CDN benchmark: the providers are the twelve of the
    catalog, in the order of their scores, highest first; [best_cdn] is
    the first of them and no provider has a higher score; every entry has
    a success rate and a score between 0 and 100 and a minimum, an average
    and a maximum in this order. *)
Theorem cdn_report_is_ranked (iterations : Z) (report : report) :
  benchmark self_timeout probe iterations = Py.Ok report ->
  Permutation (Dict.keys (providers report)) (Dict.keys CDN_PROVIDERS) /\
  total_tested report = 12%nat /\
  ordered by_score (providers report) /\
  (forall name entry,
     In (name, entry) (providers report) ->
     0 <= success_rate entry <= 100 /\
     (0 <= score entry <= 100)%Z /\
     (exists m, min_time entry = Py.Finite m /\
                m <= avg_response_time entry <= max_time entry) /\
     List.length (tests entry) = Z.to_nat iterations) /\
  exists name entry rest,
    providers report = (name, entry) :: rest /\
    best_cdn report = Some (name, Some entry) /\
    forall other other_entry,
      In (other, other_entry) (providers report) ->
      (score other_entry <= score entry)%Z.
Proof.
  unfold benchmark.
  destruct (run_providers self_timeout probe iterations CDN_PROVIDERS
              (Py.Ok [])) as [results|e] eqn:Hres; [|discriminate].
  cbn [Py.bind]. intros [= <-].
  cbn [providers best_cdn total_tested].
  assert (Hkeys : Dict.keys results = Dict.keys CDN_PROVIDERS)
    by exact (run_providers_keys _ _ [] results CDN_PROVIDERS_NoDup Hres).
  pose proof (sorted_perm by_score results) as Hsp.
  assert (Hperm : Permutation (Dict.keys (Py.sorted by_score results))
                    (Dict.keys CDN_PROVIDERS)).
  { rewrite <- Hkeys. unfold Dict.keys. apply Permutation_map, Hsp. }
  assert (Hlen : List.length (Py.sorted by_score results) = 12%nat).
  { rewrite <- (length_map fst). fold (Dict.keys (Py.sorted by_score results)).
    rewrite (Permutation_length Hperm). reflexivity. }
  split; [exact Hperm|]. split; [exact Hlen|].
  split; [apply sorted_ordered; [apply by_score_total | apply by_score_trans]|].
  split.
  - intros name entry Hin. apply sorted_In in Hin.
    pose proof (run_providers_Forall
      (fun kv => 0 <= success_rate (snd kv) <= 100 /\
                 (0 <= score (snd kv) <= 100)%Z /\
                 (exists m, min_time (snd kv) = Py.Finite m /\
                            m <= avg_response_time (snd kv)
                            <= max_time (snd kv)) /\
                 List.length (tests (snd kv)) = Z.to_nat iterations)
      iterations CDN_PROVIDERS) as Hall.
    assert (HF : Forall
      (fun kv => 0 <= success_rate (snd kv) <= 100 /\
                 (0 <= score (snd kv) <= 100)%Z /\
                 (exists m, min_time (snd kv) = Py.Finite m /\
                            m <= avg_response_time (snd kv)
                            <= max_time (snd kv)) /\
                 List.length (tests (snd kv)) = Z.to_nat iterations)
      results).
    { apply (Hall ltac:(intros n a e _ Hb; simpl;
                        destruct (benchmark_provider_range n a iterations e Hb)
                          as (H1 & H2 & H3 & H4 & _); auto)
               [] results (Forall_nil _) Hres). }
    rewrite Forall_forall in HF. apply (HF _ Hin).
  - destruct (Py.sorted by_score results) as [|[name entry] rest] eqn:E;
      [simpl in Hlen; lia|].
    exists name, entry, rest. split; [reflexivity|].
    assert (Hname : name <> EmptyString).
    { assert (Hin : In name (Dict.keys CDN_PROVIDERS)).
      { apply (Permutation_in _ Hperm). left. reflexivity. }
      unfold CDN_PROVIDERS, Dict.keys in Hin. simpl in Hin.
      intuition (subst; discriminate). }
    split.
    + cbn [Dict.keys map fst Dict.get]. rewrite String.eqb_refl.
      apply String.eqb_neq in Hname. rewrite Hname. reflexivity.
    + intros other other_entry Hin.
      assert (Ho : by_score (name, entry) (other, other_entry) = true).
      { rewrite <- E in Hin. apply sorted_In in Hin.
        eapply (sorted_head by_score by_score_total by_score_trans);
          [exact E | exact Hin]. }
      unfold by_score in Ho. simpl in Ho. apply Z.leb_le, Ho.
Qed.

End CDNReport.

Lemma cdn_report_is_ranked_witness :
  exists report,
    CDNTester.benchmark 10 mixed_statuses 3 = Py.Ok report /\
    CDNTester.total_tested report = 12%nat.
Proof.
  destruct (CDNTester.benchmark 10 mixed_statuses 3) as [report|e] eqn:E.
  - exists report. split; [reflexivity|].
    apply (cdn_report_is_ranked 10 mixed_statuses 3 report E).
  - vm_compute in E. discriminate E.
Defined.

(** ** Runs without iterations *)

Lemma run_servers_raised (probe : DNSAnalyzer.oracle) (domains : list string)
    (iterations : Z) (l : Dict.t string) (e : Py.exn) :
  DNSAnalyzer.run_servers probe domains iterations l (Py.Raise e)
  = Py.Raise e.
Proof.
  unfold DNSAnalyzer.run_servers.
  induction l as [|[n a] rest IH]; simpl; [reflexivity | exact IH].
Qed.

Lemma run_providers_raised (self_timeout : Q) (probe : CDNTester.oracle)
    (iterations : Z) (l : Dict.t CDNTester.provider_info) (e : Py.exn) :
  CDNTester.run_providers self_timeout probe iterations l (Py.Raise e)
  = Py.Raise e.
Proof.
  unfold CDNTester.run_providers.
  induction l as [|[n a] rest IH]; simpl; [reflexivity | exact IH].
Qed.

(** The DNS benchmark divides by the number of tests of a server.  It
    raises exactly when it is asked for zero iterations, and what it
    raises then is [ZeroDivisionError]; with any other number, also a
    negative one, it returns a report, whatever the probes come to and
    whatever the lists of servers and domains. *)
Theorem dns_benchmark_raises_iff_no_iterations (probe : DNSAnalyzer.oracle)
    (custom_servers test_domains : option (list string)) (iterations : Z) :
  match
    DNSAnalyzer.benchmark probe custom_servers test_domains iterations
  with
  | Py.Ok report =>
      iterations <> 0%Z /\ DNSAnalyzer.iterations report = iterations
  | Py.Raise e => e = Py.ZeroDivisionError /\ iterations = 0%Z
  end.
Proof.
  destruct (Z.eq_dec iterations 0) as [->|Hnz].
  - unfold DNSAnalyzer.benchmark. cbv zeta.
    destruct (DNSAnalyzer.servers_to_test custom_servers)
      as [|[name ip] rest] eqn:E.
    + exfalso.
      pose proof (servers_to_test_keys custom_servers) as Hk.
      rewrite E in Hk. discriminate Hk.
    + change (DNSAnalyzer.run_servers probe
                (DNSAnalyzer.domains_or_default test_domains) 0
                ((name, ip) :: rest) (Py.Ok []))
        with (DNSAnalyzer.run_servers probe
                (DNSAnalyzer.domains_or_default test_domains) 0 rest
                (entry <- DNSAnalyzer.benchmark_server probe name ip
                            (DNSAnalyzer.domains_or_default test_domains) 0 ;;
                 Py.Ok (Dict.set name entry []))).
      unfold DNSAnalyzer.benchmark_server, DNSAnalyzer.summarize.
      rewrite Z.mul_0_r. cbn [Z.eqb Py.bind].
      rewrite run_servers_raised. cbn [Py.bind]. split; reflexivity.
  - set (domains := DNSAnalyzer.domains_or_default test_domains).
    assert (Hd : domains <> []).
    { unfold domains. destruct test_domains as [[|d l]|]; discriminate. }
    destruct (results_fold probe domains iterations Hd Hnz
                (DNSAnalyzer.servers_to_test custom_servers) [])
      as (results & Hfold & _).
    unfold DNSAnalyzer.benchmark. cbv zeta. fold domains.
    match goal with
    | |- context [DNSAnalyzer.run_servers ?a ?b ?c ?d ?e] =>
        replace (DNSAnalyzer.run_servers a b c d e) with (Py.Ok results)
          by (symmetry; exact Hfold)
    end.
    cbn [Py.bind DNSAnalyzer.iterations]. split; [exact Hnz | reflexivity].
Qed.

(** The CDN benchmark, likewise: it raises [ZeroDivisionError] exactly
    when it is asked for zero iterations. *)
Theorem cdn_benchmark_raises_iff_no_iterations (self_timeout : Q)
    (probe : CDNTester.oracle) (iterations : Z) :
  match CDNTester.benchmark self_timeout probe iterations with
  | Py.Ok report =>
      iterations <> 0%Z /\ CDNTester.iterations report = iterations
  | Py.Raise e => e = Py.ZeroDivisionError /\ iterations = 0%Z
  end.
Proof.
  destruct (Z.eq_dec iterations 0) as [->|Hnz].
  - unfold CDNTester.benchmark.
    destruct CDNTester.CDN_PROVIDERS as [|[name info] rest] eqn:E;
      [discriminate E|].
    change (CDNTester.run_providers self_timeout probe 0
              ((name, info) :: rest) (Py.Ok []))
      with (CDNTester.run_providers self_timeout probe 0 rest
              (entry <- CDNTester.benchmark_provider self_timeout probe
                          name info 0 ;;
               Py.Ok (Dict.set name entry []))).
    unfold CDNTester.benchmark_provider, CDNTester.summarize.
    change (Py.div _ (inject_Z 0)) with (@Py.Raise Q Py.ZeroDivisionError).
    cbn [Py.bind].
    rewrite run_providers_raised. cbn [Py.bind]. split; reflexivity.
  - unfold CDNTester.benchmark.
    destruct (providers_fold self_timeout probe iterations Hnz
                CDNTester.CDN_PROVIDERS []) as (results & Hfold & _).
    match goal with
    | |- context [CDNTester.run_providers ?a ?b ?c ?d ?e] =>
        replace (CDNTester.run_providers a b c d e) with (Py.Ok results)
          by (symmetry; exact Hfold)
    end.
    cbn [Py.bind CDNTester.iterations]. split; [exact Hnz | reflexivity].
Qed.

(** ** The scorers keep the order *)

(** A server (or a provider) that answers at least as often and at least
    as fast as another one does not get a lower score: both scorers are
    non-decreasing in the success rate and non-increasing in the average
    time. *)
Theorem scores_are_monotone (avg_time avg_time' success_rate success_rate' : Q) :
  0 <= success_rate -> success_rate <= success_rate' ->
  avg_time' <= avg_time ->
  (DNSAnalyzer._calculate_reliability avg_time success_rate
   <= DNSAnalyzer._calculate_reliability avg_time' success_rate')%Z /\
  (CDNTester._calculate_score avg_time success_rate
   <= CDNTester._calculate_score avg_time' success_rate')%Z.
Proof.
  intros Hr Hrr Ha.
  destruct (Qeq_dec success_rate 0) as [Hz|Hnz].
  - rewrite dns_score_zero, cdn_score_zero by exact Hz.
    destruct (Qeq_dec success_rate' 0) as [Hz'|Hnz'].
    + rewrite dns_score_zero, cdn_score_zero by exact Hz'. lia.
    + pose proof (dns_score_pos avg_time' success_rate' ltac:(lra)).
      pose proof (cdn_score_pos avg_time' success_rate' ltac:(lra)). lia.
  - assert (Hnz' : ~ success_rate' == 0) by lra.
    rewrite !dns_score_unfold, !cdn_score_unfold by assumption.
    pose proof (inject_Z_ge _ _ (dns_time_score_floor avg_time)) as Hd.
    pose proof (inject_Z_ge _ _ (cdn_time_score_floor avg_time)) as Hc.
    change (inject_Z 20) with 20 in Hd. change (inject_Z 10) with 10 in Hc.
    pose proof (inject_Z_ge _ _
      (step_score_antitone dns_bands 20 eq_refl avg_time' avg_time Ha)) as Hd'.
    pose proof (inject_Z_ge _ _
      (step_score_antitone cdn_bands 10 eq_refl avg_time' avg_time Ha)) as Hc'.
    fold dns_time_score in Hd'. fold cdn_time_score in Hc'.
    split; apply int_mono; lra.
Qed.

Lemma scores_are_monotone_witness :
  (DNSAnalyzer._calculate_reliability 120 50
   <= DNSAnalyzer._calculate_reliability 30 (200 # 3))%Z /\
  (CDNTester._calculate_score 120 50
   <= CDNTester._calculate_score 30 (200 # 3))%Z.
Proof.
  apply (scores_are_monotone 120 30 50 (200 # 3)).
  - unfold Qle. simpl. lia.
  - unfold Qle. simpl. lia.
  - unfold Qle. simpl. lia.
Defined.

(** ** The latency statistics of the network scanner *)

Lemma connected_latencies_length (probe : nat -> NetworkScanner.attempt)
    (count : Z) :
  (List.length (connected_latencies probe count) <= Z.to_nat count)%nat.
Proof.
  unfold connected_latencies.
  assert (H : forall l : list nat,
             (List.length
                (flat_map (fun i => match probe i with
                                    | NetworkScanner.Connected latency =>
                                        [latency]
                                    | _ => []
                                    end) l) <= List.length l)%nat).
  { induction l as [|i rest IH]; simpl; [lia|].
    rewrite length_app. destruct (probe i); simpl; lia. }
  specialize (H (seq 0 (Z.to_nat count))). rewrite length_seq in H. exact H.
Qed.

Lemma successive_diffs_nonneg (v : list Q) (y : Q) :
  In y (successive_diffs v) -> 0 <= y.
Proof.
  revert y. induction v as [|a rest IH]; intros y; [simpl; tauto|].
  destruct rest as [|b rest']; [simpl; tauto|].
  change (successive_diffs (a :: b :: rest'))
    with (Qabs (b - a) :: successive_diffs (b :: rest')).
  intros [<-|H]; [apply Qabs_nonneg | apply IH, H].
Qed.

Lemma successive_diffs_nonempty (a b : Q) (rest : list Q) :
  successive_diffs (a :: b :: rest) <> [].
Proof. discriminate. Qed.

(** The statement of [measure_latency_invariants], as a lemma for the proofs that build on
    it. *)
Lemma measure_latency_facts (probe : nat -> NetworkScanner.attempt)
    (count : Z) :
  exists stats,
    NetworkScanner.measure_latency probe count = Py.Ok stats /\
    NetworkScanner.min stats <= NetworkScanner.max stats /\
    0 <= NetworkScanner.jitter stats /\
    0 <= NetworkScanner.packet_loss stats <= 100 /\
    (connected_latencies probe count = [] ->
     stats = {| NetworkScanner.min := 0; NetworkScanner.max := 0;
                NetworkScanner.avg := 0; NetworkScanner.jitter := 0;
                NetworkScanner.packet_loss := 100 |}).
Proof.
  unfold NetworkScanner.measure_latency. rewrite valid_collect.
  pose proof (connected_latencies_length probe count) as Hlen.
  destruct (connected_latencies probe count) as [|x rest] eqn:E.
  - eexists. split; [reflexivity|]. cbn.
    repeat split; try lra.
  - assert (Hpos : (0 < count)%Z) by (simpl in Hlen; lia).
    rewrite div_ok by (apply inject_Z_nonzero; lia).
    cbn [Py.bind]. eexists. split; [reflexivity|].
    cbn [NetworkScanner.min NetworkScanner.max NetworkScanner.avg
         NetworkScanner.jitter NetworkScanner.packet_loss].
    assert (Hm : Py.min_list x rest <= Py.mean (x :: rest)
                 <= Py.max_list x rest).
    { apply mean_between; [discriminate|]. intros y Hy. split.
      - apply min_list_le, Hy.
      - apply max_list_ge, Hy. }
    split; [apply round2_mono; destruct Hm as [Hlo Hhi]; lra|].
    split; [|split; [|discriminate]].
    + apply round2_nonneg. rewrite diffs_successive.
      destruct rest as [|b rest']; [cbn; lra|].
      change (1 <? List.length (x :: b :: rest'))%nat with true. cbv iota.
      assert (Hb : 0 <= Py.mean (successive_diffs (x :: b :: rest'))
                   <= Py.max_list 0 (successive_diffs (x :: b :: rest'))).
      { apply mean_between; [discriminate|]. intros y Hy. split.
        - apply (successive_diffs_nonneg _ _ Hy).
        - apply max_list_ge. right. exact Hy. }
      apply Hb.
    + set (n := List.length (x :: rest)) in *.
      assert (Hc : 0 < inject_Z count).
      { change 0 with (inject_Z 0). rewrite <- Zlt_Qlt. exact Hpos. }
      assert (Hl : 0 <= inject_Z (count - Z.of_nat n) <= inject_Z count).
      { change 0 with (inject_Z 0). rewrite <- !Zle_Qle. lia. }
      assert (Hq : 0 <= inject_Z (count - Z.of_nat n) / inject_Z count <= 1).
      { split.
        - apply Qle_shift_div_l; [exact Hc | lra].
        - apply Qle_shift_div_r; [exact Hc | lra]. }
      split.
      * apply round2_nonneg. lra.
      * change 100 with (inject_Z 100) at 2. apply round2_le_int.
        change (inject_Z 100) with 100. lra.
Qed.

(** [measure_latency] returns for every count and whatever the connects
    come to; it does not divide by a count of zero, because without a
    connect that succeeded it returns before the division.  In what it
    returns, the minimum is not above the maximum, the jitter is not
    negative, and the packet loss lies between 0 and 100; it is 100, with
    all other numbers 0, when no connect succeeded.  Nothing is said of
    the place of the average: the program rounds the mean of the raw
    latencies on its own, and in floating point the rounded mean can
    come to lie 0.01 outside the rounded minimum and maximum. *)
Theorem measure_latency_invariants (probe : nat -> NetworkScanner.attempt)
    (count : Z) :
  exists stats,
    NetworkScanner.measure_latency probe count = Py.Ok stats /\
    NetworkScanner.min stats <= NetworkScanner.max stats /\
    0 <= NetworkScanner.jitter stats /\
    0 <= NetworkScanner.packet_loss stats <= 100 /\
    (connected_latencies probe count = [] ->
     stats = {| NetworkScanner.min := 0; NetworkScanner.max := 0;
                NetworkScanner.avg := 0; NetworkScanner.jitter := 0;
                NetworkScanner.packet_loss := 100 |}).
Proof. exact (measure_latency_facts probe count). Qed.

(** * The full scan of the network scanner *)

Module FullScan.

(** [NetworkScanner._calculate_score]. *)
Definition _calculate_score (latency download upload : Q) : Z :=
  let latency_score : Q :=
    if Qle_bool latency 20 then 100
    else if Qle_bool latency 50 then 80
    else if Qle_bool latency 100 then 60
    else if Qle_bool latency 200 then 40
    else 20 in
  let download_score : Q :=
    if Qle_bool 100 download then 100
    else if Qle_bool 50 download then 80
    else if Qle_bool 25 download then 60
    else if Qle_bool 10 download then 40
    else 20 in
  let upload_score : Q :=
    if Qle_bool 50 upload then 100
    else if Qle_bool 25 upload then 80
    else if Qle_bool 10 upload then 60
    else if Qle_bool 5 upload then 40
    else 20 in
  Py.int (latency_score * 0.4 + download_score * 0.4 + upload_score * 0.2).

(** [NetworkScanner._get_grade]. *)
Definition _get_grade (score : Z) : string :=
  if (90 <=? score)%Z then "A+"
  else if (80 <=? score)%Z then "A"
  else if (70 <=? score)%Z then "B"
  else if (60 <=? score)%Z then "C"
  else if (50 <=? score)%Z then "D"
  else "F".

Definition LATENCY_ENDPOINTS : list string :=
  ["1.1.1.1"; "8.8.8.8"; "208.67.222.222"; "9.9.9.9"]%string.

(** [NetworkScanner.detect_mtu]: the first size of the list whose ping
    exits with code 0.  [ping mtu] is whether the ping of that size did so,
    or the exception of [subprocess.run]; the bare [except] turns an
    exception into the answer 1500. *)
Fixpoint first_mtu (ping : Z -> Py.result bool) (sizes : list Z) : Z :=
  match sizes with
  | [] => 1500%Z
  | mtu :: rest =>
      match ping mtu with
      | Py.Ok true => mtu
      | Py.Ok false => first_mtu ping rest
      | Py.Raise _ => 1500%Z
      end
  end.

Definition detect_mtu (ping : Z -> Py.result bool) : Z :=
  first_mtu ping [1500; 1492; 1480; 1400; 1300; 1200]%Z.

(** The dict of [get_network_info]: twelve keys, with values from the
    host and from the IP service. *)
Record network_info : Type := {
  hostname : Py.value;
  local_ip : Py.value;
  public_ip : Py.value;
  gateway : Py.value;
  dns_servers : Py.value;
  country : Py.value;
  city : Py.value;
  isp : Py.value;
  asn : Py.value;
  org : Py.value;
  timezone : Py.value;
  lat : Py.value;
  lon : Py.value
}.

Definition info_dict (i : network_info) : Dict.t Py.value := [
  ("hostname", hostname i);
  ("local_ip", local_ip i);
  ("public_ip", public_ip i);
  ("gateway", gateway i);
  ("dns_servers", dns_servers i);
  ("country", country i);
  ("city", city i);
  ("isp", isp i);
  ("asn", asn i);
  ("org", org i);
  ("timezone", timezone i);
  ("coordinates", Py.VDict [("lat", lat i); ("lon", lon i)])
]%string.

(** What a full scan meets: the network information, the outcome of each
    connect to each latency endpoint, the two measured speeds, the pings
    of the MTU detection and the NAT type. *)
Record surroundings : Type := {
  info : network_info;
  connects : string -> nat -> NetworkScanner.attempt;
  download_speed : Q;
  upload_speed : Q;
  mtu_ping : Z -> Py.result bool;
  nat_type : string
}.

Record scan_result : Type := {
  r_info : network_info;
  latency : Q;
  latency_details : Dict.t NetworkScanner.latency_stats;
  download_mbps : Q;
  upload_mbps : Q;
  mtu : Z;
  r_nat_type : string;
  overall_score : Z;
  grade : string
}.

(** [for endpoint in self.LATENCY_ENDPOINTS: latency_results[endpoint] =
    await self.measure_latency(endpoint, count=5)]. *)
Definition measure_endpoints (env : surroundings) (endpoints : list string)
    (latency_results : Py.result (Dict.t NetworkScanner.latency_stats))
  : Py.result (Dict.t NetworkScanner.latency_stats) :=
  fold_left
    (fun acc endpoint =>
       latency_results <- acc ;;
       stats <- NetworkScanner.measure_latency (connects env endpoint) 5 ;;
       Py.Ok (Dict.set endpoint stats latency_results))
    endpoints latency_results.

(** [[r["avg"] for r in latency_results.values() if r["avg"] > 0]]. *)
Definition positive_averages
    (latency_results : Dict.t NetworkScanner.latency_stats) : list Q :=
  map NetworkScanner.avg
    (filter (fun r => Py.Qltb 0 (NetworkScanner.avg r))
       (map snd latency_results)).

(** [NetworkScanner.full_scan]. *)
Definition full_scan (env : surroundings) : Py.result scan_result :=
  let network_info := info env in
  latency_results <- measure_endpoints env LATENCY_ENDPOINTS (Py.Ok []) ;;
  let avg_latencies := positive_averages latency_results in
  let overall_latency :=
    match avg_latencies with
    | [] => 0
    | _ :: _ => Py.mean avg_latencies
    end in
  let download_speed := download_speed env in
  let upload_speed := upload_speed env in
  let mtu := detect_mtu (mtu_ping env) in
  let nat_type := nat_type env in
  let score := _calculate_score overall_latency download_speed upload_speed in
  Py.Ok
    {| r_info := network_info;
       latency := Py.round2 overall_latency;
       latency_details := latency_results;
       download_mbps := download_speed;
       upload_mbps := upload_speed;
       mtu := mtu;
       r_nat_type := nat_type;
       overall_score := score;
       grade := _get_grade score |}.

Definition stats_dict (s : NetworkScanner.latency_stats) : Py.value :=
  Py.VDict [
    ("min", Py.VNum (NetworkScanner.min s));
    ("max", Py.VNum (NetworkScanner.max s));
    ("avg", Py.VNum (NetworkScanner.avg s));
    ("jitter", Py.VNum (NetworkScanner.jitter s));
    ("packet_loss", Py.VNum (NetworkScanner.packet_loss s))
  ]%string.

(** The dict that [full_scan] returns: [{**network_info, "latency": ...}],
    key by key. *)
Definition result_dict (r : scan_result) : Dict.t Py.value :=
  fold_left (fun d '(k, v) => Dict.set k v d)
    [ ("latency", Py.VNum (latency r));
      ("latency_details",
       Py.VDict (map (fun '(k, s) => (k, stats_dict s)) (latency_details r)));
      ("download_mbps", Py.VNum (download_mbps r));
      ("upload_mbps", Py.VNum (upload_mbps r));
      ("mtu", Py.VInt (mtu r));
      ("nat_type", Py.VStr (r_nat_type r));
      ("overall_score", Py.VInt (overall_score r));
      ("grade", Py.VStr (grade r)) ]%string
    (info_dict (r_info r)).

(** A number read from a dict: [d.get(k)] where the value under [k], if
    there is one, is an int or a finite float. *)
Definition get_number (k : string) (d : Dict.t Py.value) : option Q :=
  match Dict.get k d with
  | Some (Py.VInt z) => Some (inject_Z z)
  | Some (Py.VFloat (Py.Finite q)) => Some q
  | _ => None
  end.

(** The report of a full scan, read as the [network_data] of the
    recommendation engine and of the architect: the two keys that they
    look up. *)
Definition as_network_data (r : scan_result) : option Views.network_view :=
  let d := result_dict r in
  Some {| Views.latency_ms := get_number "latency_ms" d;
          Views.mtu := get_number "mtu" d |}.

End FullScan.

(** ** The score and the grade of a scan *)

Section NetworkScore.

Import FullScan.

(** The three partial scores as step functions. *)
Definition latency_points (latency : Q) : Z :=
  step_score [(20, 100%Z); (50, 80%Z); (100, 60%Z); (200, 40%Z)] 20 latency.

Fixpoint rising_score (bands : list (Q * Z)) (floor_score : Z) (x : Q) : Z :=
  match bands with
  | [] => floor_score
  | (t, s) :: rest =>
      if Qle_bool t x then s else rising_score rest floor_score x
  end.

Definition download_points : Q -> Z :=
  rising_score [(100, 100%Z); (50, 80%Z); (25, 60%Z); (10, 40%Z)] 20.
Definition upload_points : Q -> Z :=
  rising_score [(50, 100%Z); (25, 80%Z); (10, 60%Z); (5, 40%Z)] 20.

(** A fifth of the points, counted twice for latency and download. *)
Definition fifth (points : Z) : Z := (points / 20 * 4)%Z.

Lemma network_score_unfold (latency download upload : Q) :
  _calculate_score latency download upload
  = (2 * fifth (latency_points latency) + 2 * fifth (download_points download)
     + fifth (upload_points upload))%Z.
Proof.
  unfold _calculate_score, latency_points, download_points, upload_points,
    step_score, rising_score.
  split_bands; reflexivity.
Qed.

Lemma latency_points_range (x : Q) :
  In (latency_points x) [100; 80; 60; 40; 20]%Z.
Proof.
  unfold latency_points, step_score. split_bands; simpl; tauto.
Qed.

Lemma download_points_range (x : Q) :
  In (download_points x) [100; 80; 60; 40; 20]%Z.
Proof.
  unfold download_points, rising_score. split_bands; simpl; tauto.
Qed.

Lemma upload_points_range (x : Q) :
  In (upload_points x) [100; 80; 60; 40; 20]%Z.
Proof.
  unfold upload_points, rising_score. split_bands; simpl; tauto.
Qed.

Lemma rising_score_le_head (t : Q) (s : Z) (rest : list (Q * Z)) (fl : Z) :
  bands_descend ((t, s) :: rest) fl = true ->
  forall x, (rising_score rest fl x <= s)%Z.
Proof.
  revert t s. induction rest as [|[t' s'] rest IH]; intros t s H x; simpl in *.
  - apply andb_true_iff in H as [H _]. apply Z.leb_le in H. exact H.
  - apply andb_true_iff in H as [H1 H2]. apply Z.leb_le in H1.
    destruct (Qle_bool t' x).
    + exact H1.
    + specialize (IH t' s' H2 x). lia.
Qed.

Lemma rising_score_monotone (bands : list (Q * Z)) (fl : Z) :
  bands_descend bands fl = true ->
  forall a b, a <= b ->
  (rising_score bands fl a <= rising_score bands fl b)%Z.
Proof.
  induction bands as [|[t s] rest IH]; intros H a b Hab; simpl.
  - lia.
  - pose proof (rising_score_le_head t s rest fl H) as Hhead.
    simpl in H. apply andb_true_iff in H as [_ H].
    destruct (Qle_bool t b) eqn:Hb.
    + destruct (Qle_bool t a); [lia | apply Hhead].
    + destruct (Qle_bool t a) eqn:Ha.
      * apply Qle_bool_false in Hb. apply Qle_bool_iff in Ha. lra.
      * apply IH; assumption.
Qed.

Lemma fifth_monotone (a b : Z) : (a <= b)%Z -> (fifth a <= fifth b)%Z.
Proof.
  intros H. unfold fifth.
  pose proof (Z.div_le_mono a b 20 ltac:(lia) H). lia.
Qed.

(** The score of a scan lies between 20 and 100 and is a multiple of 4, so
    that [int] cuts nothing off; a scan with a lower latency and higher
    speeds does not get a lower score. *)
Theorem network_score_is_monotone
    (latency latency' download download' upload upload' : Q) :
  latency' <= latency -> download <= download' -> upload <= upload' ->
  (20 <= _calculate_score latency download upload)%Z /\
  (_calculate_score latency download upload
   <= _calculate_score latency' download' upload')%Z /\
  (_calculate_score latency' download' upload' <= 100)%Z /\
  (_calculate_score latency download upload mod 4 = 0)%Z.
Proof.
  intros Hl Hd Hu. rewrite !network_score_unfold.
  pose proof (step_score_antitone
                [(20, 100%Z); (50, 80%Z); (100, 60%Z); (200, 40%Z)] 20
                eq_refl latency' latency Hl) as Hl'.
  pose proof (rising_score_monotone
                [(100, 100%Z); (50, 80%Z); (25, 60%Z); (10, 40%Z)] 20
                eq_refl download download' Hd) as Hd'.
  pose proof (rising_score_monotone
                [(50, 100%Z); (25, 80%Z); (10, 60%Z); (5, 40%Z)] 20
                eq_refl upload upload' Hu) as Hu'.
  fold (latency_points latency) (latency_points latency') in Hl'.
  fold (download_points download) (download_points download') in Hd'.
  fold (upload_points upload) (upload_points upload') in Hu'.
  apply fifth_monotone in Hl', Hd', Hu'.
  assert (Hrange : forall p, In p [100; 80; 60; 40; 20]%Z ->
                     (4 <= fifth p <= 20)%Z /\ (fifth p mod 4 = 0)%Z).
  { intros p Hp. simpl in Hp.
    destruct Hp as [<-|[<-|[<-|[<-|[<-|[]]]]]]; vm_compute; intuition congruence. }
  pose proof (Hrange _ (latency_points_range latency)) as [H1 M1].
  pose proof (Hrange _ (download_points_range download)) as [H2 M2].
  pose proof (Hrange _ (upload_points_range upload)) as [H3 M3].
  pose proof (Hrange _ (latency_points_range latency')) as [H4 _].
  pose proof (Hrange _ (download_points_range download')) as [H5 _].
  pose proof (Hrange _ (upload_points_range upload')) as [H6 _].
  repeat split; try lia.
  apply Z.mod_divide in M1; [|lia]. apply Z.mod_divide in M2; [|lia].
  apply Z.mod_divide in M3; [|lia].
  destruct M1 as [k1 E1], M2 as [k2 E2], M3 as [k3 E3].
  rewrite E1, E2, E3.
  replace (2 * (k1 * 4) + 2 * (k2 * 4) + k3 * 4)%Z
    with ((2 * k1 + 2 * k2 + k3) * 4)%Z by lia.
  apply Z.mod_mul. lia.
Qed.

Lemma network_score_is_monotone_witness :
  (20 <= _calculate_score 120 30 4)%Z /\
  (_calculate_score 120 30 4 <= _calculate_score 15 300 40)%Z /\
  (_calculate_score 15 300 40 <= 100)%Z /\
  (_calculate_score 120 30 4 mod 4 = 0)%Z.
Proof.
  apply (network_score_is_monotone 120 15 30 300 4 40).
  - unfold Qle. simpl. lia.
  - unfold Qle. simpl. lia.
  - unfold Qle. simpl. lia.
Defined.

End NetworkScore.

(** ** What a full scan reports *)

Section FullScanFacts.

Import FullScan.

Lemma measure_endpoints_Forall (P : NetworkScanner.latency_stats -> Prop)
    (env : surroundings) (endpoints : list string) :
  (forall e stats,
     In e endpoints ->
     NetworkScanner.measure_latency (connects env e) 5 = Py.Ok stats ->
     P stats) ->
  forall acc : Dict.t NetworkScanner.latency_stats,
  Forall (fun kv => P (snd kv)) acc ->
  exists results,
    measure_endpoints env endpoints (Py.Ok acc) = Py.Ok results /\
    Forall (fun kv => P (snd kv)) results.
Proof.
  induction endpoints as [|e rest IH]; intros HP acc Hacc.
  - exists acc. split; [reflexivity | exact Hacc].
  - destruct (measure_latency_facts (connects env e) 5)
      as (stats & Hrun & _).
    destruct (IH (fun e' s Hin => HP e' s (or_intror Hin))
                (Dict.set e stats acc)) as (results & Hfold & Hall).
    + apply set_Forall; [exact Hacc|].
      apply (HP e stats (or_introl eq_refl) Hrun).
    + exists results. split; [|exact Hall].
      unfold measure_endpoints in *. cbn [fold_left Py.bind].
      rewrite Hrun. cbn [Py.bind]. exact Hfold.
Qed.

Lemma no_connect_no_latency (probe : nat -> NetworkScanner.attempt) :
  (forall i, (i < 5)%nat -> forall l, probe i <> NetworkScanner.Connected l) ->
  connected_latencies probe 5 = [].
Proof.
  intros H. unfold connected_latencies.
  change (Z.to_nat 5) with 5%nat. cbn [seq flat_map].
  repeat match goal with
         | |- context [probe ?i] =>
             let E := fresh "E" in
             destruct (probe i) eqn:E;
             [exfalso; eapply (H i); [lia | exact E] | |]
         end; reflexivity.
Qed.

Lemma grade_F (score : Z) : _get_grade score = "F"%string <-> (score < 50)%Z.
Proof.
  unfold _get_grade.
  repeat match goal with
         | |- context [(?a <=? ?b)%Z] => destruct (Z.leb_spec a b)
         end; split; intros HF; try discriminate; try lia; reflexivity.
Qed.

(** A full scan always returns.  When none of the connects to the four
    latency endpoints succeeds, every endpoint is reported with a packet
    loss of 100, the overall latency is reported as 0, and the score is
    computed from that 0: the latency part gets its full 40 points, so
    the score is at least 52 and the grade is never F, whatever the
    speeds. *)
Theorem full_scan_without_connect (env : surroundings) :
  (forall endpoint i l,
     In endpoint LATENCY_ENDPOINTS -> (i < 5)%nat ->
     connects env endpoint i <> NetworkScanner.Connected l) ->
  exists r,
    full_scan env = Py.Ok r /\
    latency r == 0 /\
    (forall endpoint stats,
       In (endpoint, stats) (latency_details r) ->
       NetworkScanner.packet_loss stats = 100 /\
       NetworkScanner.avg stats = 0) /\
    overall_score r
    = _calculate_score 0 (download_speed env) (upload_speed env) /\
    (52 <= overall_score r)%Z /\
    grade r <> "F"%string.
Proof.
  intros Hdead.
  destruct (measure_endpoints_Forall
              (fun s => NetworkScanner.packet_loss s = 100 /\
                        NetworkScanner.avg s = 0)
              env LATENCY_ENDPOINTS) with (acc := @nil (string * NetworkScanner.latency_stats))
    as (results & Hfold & Hall).
  - intros e stats Hin Hrun.
    destruct (measure_latency_facts (connects env e) 5)
      as (stats' & Hrun' & _ & _ & _ & Hnone).
    rewrite Hrun in Hrun'. injection Hrun' as <-.
    rewrite Hnone; [split; reflexivity|].
    apply no_connect_no_latency. intros i Hi l. apply Hdead; assumption.
  - constructor.
  - unfold full_scan.
    match goal with
    | |- context [measure_endpoints ?a ?b ?c] =>
        replace (measure_endpoints a b c) with (Py.Ok results)
          by (symmetry; exact Hfold)
    end.
    cbn [Py.bind].
    assert (Hpos : positive_averages results = []).
    { unfold positive_averages. clear Hfold.
      induction Hall as [|[k s] rest [_ Hs] _ IH]; [reflexivity|].
      simpl in *. rewrite Hs. exact IH. }
    rewrite Hpos. eexists. split; [reflexivity|].
    cbn [latency latency_details overall_score grade].
    split; [reflexivity|]. split.
    + intros endpoint stats Hin. rewrite Forall_forall in Hall.
      apply (Hall _ Hin).
    + split; [reflexivity|].
      assert (Hs : (52 <= _calculate_score 0 (download_speed env)
                            (upload_speed env))%Z).
      { rewrite network_score_unfold.
        pose proof (download_points_range (download_speed env)) as Hd.
        pose proof (upload_points_range (upload_speed env)) as Hu.
        simpl in Hd, Hu.
        destruct Hd as [<-|[<-|[<-|[<-|[<-|[]]]]]];
          destruct Hu as [<-|[<-|[<-|[<-|[<-|[]]]]]]; vm_compute;
          discriminate. }
      split; [exact Hs|]. intros HF. apply grade_F in HF. lia.
Qed.

End FullScanFacts.

(** No connect ever succeeds; nothing is downloaded or uploaded. *)
Definition dead_network : FullScan.surroundings :=
  {| FullScan.info :=
       FullScan.Build_network_info (Py.VStr "host") (Py.VStr "127.0.0.1")
         (Py.VStr "Unknown") (Py.VStr "Unknown") (Py.VStrs ["Unknown"%string])
         (Py.VStr "Unknown") (Py.VStr "Unknown") (Py.VStr "Unknown")
         (Py.VStr "Unknown") (Py.VStr "Unknown") (Py.VStr "Unknown")
         (Py.VInt 0) (Py.VInt 0);
     FullScan.connects := fun _ _ => NetworkScanner.TimedOut;
     FullScan.download_speed := 0;
     FullScan.upload_speed := 0;
     FullScan.mtu_ping := fun _ => Py.Ok false;
     FullScan.nat_type := "Unknown" |}.

Lemma full_scan_without_connect_witness :
  exists r,
    FullScan.full_scan dead_network = Py.Ok r /\
    FullScan.overall_score r = 52%Z /\
    FullScan.grade r = "D"%string.
Proof.
  destruct (full_scan_without_connect dead_network) as (r & Hrun & _ & _ & Hs & _).
  - intros endpoint i l _ _. discriminate.
  - exists r. split; [exact Hrun|]. split.
    + rewrite Hs. reflexivity.
    + unfold FullScan.full_scan in Hrun. vm_compute in Hrun.
      injection Hrun as <-. reflexivity.
Defined.

(** ** A full scan as the engine's network data *)

Lemma Qltb_inject_Z (a b : Z) :
  Py.Qltb (inject_Z a) (inject_Z b) = (a <? b)%Z.
Proof.
  unfold Py.Qltb.
  destruct (Qle_bool (inject_Z b) (inject_Z a)) eqn:E.
  - apply Qle_bool_iff in E. rewrite <- Zle_Qle in E.
    symmetry. apply Z.ltb_ge. exact E.
  - apply Qle_bool_false in E. rewrite <- Zlt_Qlt in E.
    symmetry. apply Z.ltb_lt. exact E.
Qed.

(** The recommendation that [_analyze_network] appends for a low MTU. *)
Definition low_mtu_recommendation (fmt : Q -> string) (mtu : Q)
  : RecommendationEngine.Recommendation :=
  {| RecommendationEngine.category := "network";
     RecommendationEngine.priority := "medium";
     RecommendationEngine.title := "Low MTU Detected";
     RecommendationEngine.description :=
       "Your MTU is " ++ fmt mtu ++ " which may cause fragmentation.";
     RecommendationEngine.action :=
       "Consider adjusting MTU settings or using a VPN that handles fragmentation.";
     RecommendationEngine.impact :=
       "Reduce packet overhead and improve throughput" |}%string.

Lemma full_scan_keys (r : FullScan.scan_result) :
  FullScan.as_network_data r
  = Some {| Views.latency_ms := None;
            Views.mtu := Some (inject_Z (FullScan.mtu r)) |}.
Proof. reflexivity. Qed.

Lemma detect_mtu_low (ping : Z -> Py.result bool) :
  In (FullScan.detect_mtu ping) [1500; 1492; 1480; 1400; 1300; 1200]%Z /\
  ((FullScan.detect_mtu ping < 1400)%Z <->
   ping 1500%Z = Py.Ok false /\ ping 1492%Z = Py.Ok false /\
   ping 1480%Z = Py.Ok false /\ ping 1400%Z = Py.Ok false /\
   (ping 1300%Z = Py.Ok true \/
    (ping 1300%Z = Py.Ok false /\ ping 1200%Z = Py.Ok true))).
Proof.
  unfold FullScan.detect_mtu, FullScan.first_mtu.
  repeat match goal with
         | |- context [match ping ?m with _ => _ end] =>
             destruct (ping m) as [[|]|] eqn:?
         end;
    (split; [simpl; tauto|]);
    (split; [intros; try lia; intuition congruence
            | intros; try lia; intuition congruence]).
Qed.

(** The report of a full scan keeps the latency under the key [latency],
    while the recommendation engine looks for [latency_ms].  So the
    engine, given the report as its network data, never emits a latency
    recommendation, whatever was measured.  The only recommendation it can
    emit is the one about a low MTU, and it does so exactly when the MTU
    detection has seen the pings of 1500, 1492, 1480 and 1400 bytes fail
    and the one of 1300 or of 1200 bytes get through; when every ping
    fails, or one raises, the MTU is reported as 1500. *)
Theorem full_scan_report_in_engine (fmt : Q -> string)
    (env : FullScan.surroundings) :
  exists r,
    FullScan.full_scan env = Py.Ok r /\
    In (FullScan.mtu r) [1500; 1492; 1480; 1400; 1300; 1200]%Z /\
    RecommendationEngine.collected fmt (FullScan.as_network_data r)
      None None None None None
    = (if (FullScan.mtu r <? 1400)%Z
       then [low_mtu_recommendation fmt (inject_Z (FullScan.mtu r))]
       else []) /\
    ((FullScan.mtu r < 1400)%Z <->
     FullScan.mtu_ping env 1500%Z = Py.Ok false /\
     FullScan.mtu_ping env 1492%Z = Py.Ok false /\
     FullScan.mtu_ping env 1480%Z = Py.Ok false /\
     FullScan.mtu_ping env 1400%Z = Py.Ok false /\
     (FullScan.mtu_ping env 1300%Z = Py.Ok true \/
      (FullScan.mtu_ping env 1300%Z = Py.Ok false /\
       FullScan.mtu_ping env 1200%Z = Py.Ok true))).
Proof.
  destruct (measure_endpoints_Forall (fun _ => True) env
              FullScan.LATENCY_ENDPOINTS (fun _ _ _ _ => I) []
              (Forall_nil _)) as (results & Hfold & _).
  unfold FullScan.full_scan.
  match goal with
  | |- context [FullScan.measure_endpoints ?a ?b ?c] =>
      replace (FullScan.measure_endpoints a b c) with (Py.Ok results)
        by (symmetry; exact Hfold)
  end.
  cbn [Py.bind]. eexists. split; [reflexivity|].
  rewrite full_scan_keys. cbn [FullScan.mtu].
  destruct (detect_mtu_low (FullScan.mtu_ping env)) as [Hin Hlow].
  split; [exact Hin|]. split; [|exact Hlow].
  unfold RecommendationEngine.collected, RecommendationEngine.when,
    RecommendationEngine._analyze_network.
  cbn [Views.latency_ms Views.mtu Py.get_or].
  change (Py.Qltb 100 0) with false. change (Py.Qltb 50 0) with false.
  cbv iota.
  change 1400 with (inject_Z 1400). rewrite Qltb_inject_Z.
  destruct (FullScan.detect_mtu (FullScan.mtu_ping env) <? 1400)%Z;
    reflexivity.
Qed.

(** * The other runs of the global ping tester *)

Module GlobalPingRuns.

Import GlobalPingTester.

(** What [test_custom_endpoint] hands back: with and without a ping that
    succeeded. *)
Record custom_stats : Type := {
  c_host : string;
  c_tests : list ping_result;
  c_avg_latency_ms : Q;
  c_min_latency_ms : Q;
  c_max_latency_ms : Q;
  c_success_rate : Q
}.

Inductive custom_result : Type :=
  | AllFailed (host : string) (tests : list ping_result) (error : string)
  | Measured (stats : custom_stats).

(** [GlobalPingTester.test_custom_endpoint]. *)
Definition test_custom_endpoint (self_timeout : Q) (probe : oracle)
    (host : string) (iterations : Z) : Py.result custom_result :=
  let '(results, latencies) :=
    sample_region self_timeout probe host iterations in
  match latencies with
  | x :: rest =>
      rate <- Py.div (inject_Z (Z.of_nat (List.length latencies)))
                (inject_Z iterations) ;;
      Py.Ok (Measured
        {| c_host := host;
           c_tests := results;
           c_avg_latency_ms := Py.round2 (Py.mean latencies);
           c_min_latency_ms := Py.round2 (Py.min_list x rest);
           c_max_latency_ms := Py.round2 (Py.max_list x rest);
           c_success_rate := Py.round2 (rate * 100) |})
  | [] => Py.Ok (AllFailed host results "All tests failed")
  end.

(** The ways in which a run over all regions can end early: a dict
    without the key that is read, or an exception of a region test. *)
Inductive failure : Type :=
  | KeyError (key : string)
  | Raised (e : Py.exn).

Definition outcome (A : Type) : Type := (failure + A)%type.

(** [for region_name in GLOBAL_ENDPOINTS.keys(): results[region_name] =
    await self.test_region(region_name, iterations)]; [probes] gives the
    connects of each region. *)
Definition run_regions (self_timeout : Q) (self_iterations : Z)
    (probes : string -> oracle) (iterations : Z) (names : list string)
    (results : outcome (Dict.t region_result))
  : outcome (Dict.t region_result) :=
  fold_left
    (fun acc region_name =>
       match acc with
       | inl f => inl f
       | inr results =>
           match
             test_region self_timeout self_iterations (probes region_name)
               region_name (Some iterations)
           with
           | Py.Ok result => inr (Dict.set region_name result results)
           | Py.Raise e => inl (Raised e)
           end
       end)
    names results.

(** [x["avg_latency_ms"]]. *)
Definition avg_of (r : region_result) : outcome Q :=
  match r with
  | RegionTested stats => inr (avg_latency_ms stats)
  | RegionNotFound _ => inl (KeyError "avg_latency_ms")
  end.

(** The sort key: [avg if avg > 0 else float("inf")]. *)
Definition speed_key (avg : Q) : Py.xfloat :=
  if Py.Qltb 0 avg then Py.Finite avg else Py.Infinity.

Definition xle (a b : Py.xfloat) : bool :=
  match a, b with
  | Py.Finite x, Py.Finite y => Qle_bool x y
  | _, Py.Infinity => true
  | Py.Infinity, Py.Finite _ => false
  end.

(** [sorted] computes the key of every item before it compares any. *)
Fixpoint decorate (items : list (string * region_result))
  : outcome (list (Py.xfloat * (string * region_result))) :=
  match items with
  | [] => inr []
  | (name, r) :: rest =>
      match avg_of r with
      | inl f => inl f
      | inr avg =>
          match decorate rest with
          | inl f => inl f
          | inr keyed => inr ((speed_key avg, (name, r)) :: keyed)
          end
      end
  end.

Definition by_speed (x y : Py.xfloat * (string * region_result)) : bool :=
  xle (fst x) (fst y).

Record report : Type := {
  regions : Dict.t region_result;
  fastest_region : option (string * option region_result);
  total_tested : nat;
  iterations : Z
}.

(** [GlobalPingTester.test_all_regions]. *)
Definition test_all_regions (self_timeout : Q) (self_iterations : Z)
    (probes : string -> oracle) (iterations : option Z) : outcome report :=
  let iterations := iterations_or_default self_iterations iterations in
  match
    run_regions self_timeout self_iterations probes iterations
      (Dict.keys GLOBAL_ENDPOINTS) (inr [])
  with
  | inl f => inl f
  | inr results =>
      match decorate results with
      | inl f => inl f
      | inr keyed =>
          let sorted_results := map snd (Py.sorted by_speed keyed) in
          let fastest :=
            match Dict.keys sorted_results with
            | [] => None
            | k :: _ => Some k
            end in
          inr {| regions := sorted_results;
                 fastest_region :=
                   match fastest with
                   | None => None
                   | Some name =>
                       if String.eqb name EmptyString then None
                       else Some (name, Dict.get name sorted_results)
                   end;
                 total_tested := List.length sorted_results;
                 iterations := iterations |}
      end
  end.

(** The report, read as the [ping_data] of the recommendation engine and
    of the architect: [fastest_region] is [{"name": fastest, **stats}], so
    the keys of the statistics are there when the region was tested. *)
Definition as_ping_data (r : report) : option Views.ping_view :=
  Some {| Views.fastest_region :=
            match fastest_region r with
            | None => Py.NoneValue
            | Some (name, Some (RegionTested stats)) =>
                Py.Filled
                  {| Views.fr_avg_latency_ms := Some (avg_latency_ms stats);
                     Views.fr_name := Some name;
                     Views.fr_location := Some (stats_location stats);
                     Views.fr_provider := Some (stats_provider stats) |}
            | Some (name, _) =>
                Py.Filled
                  {| Views.fr_avg_latency_ms := None;
                     Views.fr_name := Some name;
                     Views.fr_location := None;
                     Views.fr_provider := None |}
            end |}.

End GlobalPingRuns.

(** ** What the region tests keep *)

Section RegionInvariants.

Import GlobalPingTester.

Variables (self_timeout : Q) (self_iterations : Z).

Lemma pings_length (probe : oracle) (host : string) (n : Z) :
  List.length (pings self_timeout probe host n) = Z.to_nat n.
Proof. unfold pings. rewrite length_map, length_seq. reflexivity. Qed.

Lemma good_latencies_length (results : list ping_result) :
  (List.length (good_latencies results) <= List.length results)%nat.
Proof.
  unfold good_latencies. rewrite length_map. apply filter_length_le.
Qed.

Lemma latencies_in_order (x : Q) (rest : list Q) :
  Py.round2 (Py.min_list x rest) <= Py.round2 (Py.mean (x :: rest)) /\
  Py.round2 (Py.mean (x :: rest)) <= Py.round2 (Py.max_list x rest).
Proof.
  assert (Hm : Py.min_list x rest <= Py.mean (x :: rest)
               <= Py.max_list x rest).
  { apply mean_between; [discriminate|]. intros y Hy. split.
    - apply min_list_le, Hy.
    - apply max_list_ge, Hy. }
  split; apply round2_mono; apply Hm.
Qed.

Lemma iterations_or_default_nonzero (iterations : option Z) :
  self_iterations <> 0%Z ->
  iterations_or_default self_iterations iterations <> 0%Z.
Proof.
  intros H. unfold iterations_or_default.
  destruct iterations as [n|]; [|exact H].
  destruct (Z.eqb_spec n 0); assumption.
Qed.

(** What the statistics of a tested region satisfy. *)
Definition region_ok (n : Z) (stats : region_stats) : Prop :=
  min_latency_ms stats <= avg_latency_ms stats <= max_latency_ms stats /\
  0 <= jitter_ms stats /\
  0 <= success_rate stats <= 100 /\
  List.length (tests stats) = Z.to_nat n /\
  (stats_success stats = false ->
   avg_latency_ms stats = 0 /\ min_latency_ms stats = 0 /\
   max_latency_ms stats = 0 /\ jitter_ms stats = 0 /\
   success_rate stats == 0).

Lemma test_region_ok (probe : oracle) (region_name : string)
    (iterations : option Z) (r : region_result) :
  self_iterations <> 0%Z ->
  test_region self_timeout self_iterations probe region_name iterations
  = Py.Ok r ->
  match r with
  | RegionNotFound name =>
      name = region_name /\ Dict.get region_name GLOBAL_ENDPOINTS = None
  | RegionTested stats =>
      (exists endpoint,
         Dict.get region_name GLOBAL_ENDPOINTS = Some endpoint /\
         stats_host stats = host endpoint /\
         stats_provider stats = provider endpoint /\
         stats_location stats = location endpoint) /\
      stats_region stats = region_name /\
      region_ok (iterations_or_default self_iterations iterations) stats
  end.
Proof.
  intros Hself Hrun.
  pose proof (iterations_or_default_nonzero iterations Hself) as Hn.
  destruct (Dict.get region_name GLOBAL_ENDPOINTS) as [endpoint|] eqn:Hget.
  - destruct (test_region_stats self_timeout self_iterations probe
                region_name iterations endpoint Hget Hn)
      as (stats & Hrun' & Htests & Hsucc & Hrate & Hagg).
    rewrite Hrun in Hrun'. injection Hrun' as ->.
    split.
    { exists endpoint. split; [reflexivity|].
      unfold test_region in Hrun. rewrite Hget in Hrun.
      destruct (sample_region _ _ _ _) as [results latencies].
      destruct latencies; rewrite div_ok in Hrun
        by (apply inject_Z_nonzero, Hn);
        cbn [Py.bind] in Hrun; injection Hrun as <-; repeat split. }
    split.
    { unfold test_region in Hrun. rewrite Hget in Hrun.
      destruct (sample_region _ _ _ _) as [results latencies].
      destruct latencies; rewrite div_ok in Hrun
        by (apply inject_Z_nonzero, Hn);
        cbn [Py.bind] in Hrun; injection Hrun as <-; reflexivity. }
    cbv zeta in Htests, Hsucc, Hrate, Hagg.
    set (n := iterations_or_default self_iterations iterations) in *.
    pose proof (pings_length probe (host endpoint) n) as Hlen.
    pose proof (good_latencies_length
                  (pings self_timeout probe (host endpoint) n)) as Hgood.
    assert (Hr : 0 <= success_rate stats <= 100).
    { rewrite Hrate.
      apply (rate_range _ (Z.to_nat n)); [lia| |exact Hn].
      destruct (Z.lt_ge_cases 0 n) as [Hpos|Hneg].
      - left. split; [exact Hpos | lia].
      - right. lia. }
    unfold region_ok. rewrite Htests.
    destruct (good_latencies (pings self_timeout probe (host endpoint) n))
      as [|x rest] eqn:E.
    + destruct Hagg as (-> & -> & -> & ->).
      repeat split; try lra; try apply Hr; try exact Hlen.
      rewrite Hrate. simpl List.length. change (Z.of_nat 0) with 0%Z.
      rewrite round2_zero_rate by (apply inject_Z_nonzero, Hn).
      reflexivity.
    + destruct Hagg as (Havg & Hmin & Hmax & Hj).
      pose proof (latencies_in_order x rest) as [Hlo Hhi].
      rewrite <- Havg, <- Hmin in Hlo. rewrite <- Havg, <- Hmax in Hhi.
      repeat split; try assumption; try apply Hr.
      * rewrite Hj. apply round2_nonneg. lra.
      * rewrite Hsucc in H. simpl in H. discriminate H.
      * rewrite Hsucc in H. simpl in H. discriminate H.
      * rewrite Hsucc in H. simpl in H. discriminate H.
      * rewrite Hsucc in H. simpl in H. discriminate H.
      * rewrite Hsucc in H. simpl in H. discriminate H.
  - unfold test_region in Hrun. rewrite Hget in Hrun.
    injection Hrun as <-. split; reflexivity.
Qed.

(** The statement of [test_region_invariants], as a lemma for the proofs that build on
    it. *)
Lemma test_region_facts (probe : oracle) (region_name : string)
    (iterations : option Z) :
  self_iterations <> 0%Z ->
  exists r,
    test_region self_timeout self_iterations probe region_name iterations
    = Py.Ok r /\
    match r with
    | RegionNotFound name =>
        name = region_name /\ Dict.get region_name GLOBAL_ENDPOINTS = None
    | RegionTested stats =>
        Dict.get region_name GLOBAL_ENDPOINTS <> None /\
        stats_region stats = region_name /\
        region_ok (iterations_or_default self_iterations iterations) stats
    end.
Proof.
  intros Hself.
  pose proof (iterations_or_default_nonzero iterations Hself) as Hn.
  assert (Hex : exists r,
             test_region self_timeout self_iterations probe region_name
               iterations = Py.Ok r).
  { destruct (Dict.get region_name GLOBAL_ENDPOINTS) as [endpoint|] eqn:Hget.
    - destruct (test_region_stats self_timeout self_iterations probe
                  region_name iterations endpoint Hget Hn)
        as (stats & Hrun & _).
      eexists. exact Hrun.
    - unfold test_region. rewrite Hget. eexists. reflexivity. }
  destruct Hex as [r Hrun]. exists r. split; [exact Hrun|].
  pose proof (test_region_ok probe region_name iterations r Hself Hrun) as H.
  destruct r as [name|stats]; [exact H|].
  destruct H as ((endpoint & Hget & _) & Hname & Hok).
  split; [rewrite Hget; discriminate|]. split; assumption.
Qed.

(** [test_region] returns whenever the tester's own number of iterations
    is not zero (it is 3): for a name that is not in the catalog it says
    so, and for a region of the catalog the statistics have the minimum,
    the average and the maximum in this order, a jitter that is not
    negative, a success rate between 0 and 100 and one test per
    iteration; without a ping that succeeded all the numbers are 0. *)
Theorem test_region_invariants (probe : oracle) (region_name : string)
    (iterations : option Z) :
  self_iterations <> 0%Z ->
  exists r,
    test_region self_timeout self_iterations probe region_name iterations
    = Py.Ok r /\
    match r with
    | RegionNotFound name =>
        name = region_name /\ Dict.get region_name GLOBAL_ENDPOINTS = None
    | RegionTested stats =>
        Dict.get region_name GLOBAL_ENDPOINTS <> None /\
        stats_region stats = region_name /\
        region_ok (iterations_or_default self_iterations iterations) stats
    end.
Proof. exact (test_region_facts probe region_name iterations). Qed.

End RegionInvariants.

Lemma test_region_invariants_witness :
  exists stats,
    GlobalPingTester.test_region 10 3
      (fun i => match i with
                | 0%nat => GlobalPingTester.Established "1.1.1.1" 12
                | 1%nat => GlobalPingTester.TimedOut
                | _ => GlobalPingTester.Established "1.1.1.1" 30
                end)
      "Cloudflare" None
    = Py.Ok (GlobalPingTester.RegionTested stats) /\
    region_ok 3 stats.
Proof.
  destruct (test_region_invariants 10 3
              (fun i => match i with
                        | 0%nat => GlobalPingTester.Established "1.1.1.1" 12
                        | 1%nat => GlobalPingTester.TimedOut
                        | _ => GlobalPingTester.Established "1.1.1.1" 30
                        end)
              "Cloudflare" None) as (r & Hrun & H).
  - discriminate.
  - destruct r as [name|stats].
    + exfalso. destruct H as [_ H]. discriminate H.
    + exists stats. split; [exact Hrun|]. apply H.
Defined.

(** ** A custom endpoint *)

(** [test_custom_endpoint] never raises, also not for zero or a negative
    number of iterations: it divides by the number of iterations only
    after a ping has succeeded.  It reports a failure exactly when no ping
    succeeded; otherwise the minimum, the average and the maximum are in
    this order and the success rate lies between 0 and 100. *)
Theorem custom_endpoint_never_raises (self_timeout : Q)
    (probe : GlobalPingTester.oracle) (host : string) (iterations : Z) :
  match
    GlobalPingRuns.test_custom_endpoint self_timeout probe host iterations
  with
  | Py.Ok (GlobalPingRuns.AllFailed h tests error) =>
      h = host /\ error = "All tests failed"%string /\
      tests = pings self_timeout probe host iterations /\
      Forall (fun t => GlobalPingTester.success t = false) tests
  | Py.Ok (GlobalPingRuns.Measured stats) =>
      (0 < iterations)%Z /\
      GlobalPingRuns.c_tests stats = pings self_timeout probe host iterations /\
      Exists (fun t => GlobalPingTester.success t = true)
        (GlobalPingRuns.c_tests stats) /\
      GlobalPingRuns.c_min_latency_ms stats
        <= GlobalPingRuns.c_avg_latency_ms stats
        <= GlobalPingRuns.c_max_latency_ms stats /\
      0 <= GlobalPingRuns.c_success_rate stats <= 100
  | Py.Raise _ => False
  end.
Proof.
  unfold GlobalPingRuns.test_custom_endpoint.
  rewrite sample_region_spec.
  pose proof (pings_length self_timeout probe host iterations) as Hlen.
  pose proof (good_latencies_length
                (pings self_timeout probe host iterations)) as Hgood.
  destruct (good_latencies (pings self_timeout probe host iterations))
    as [|x rest] eqn:E.
  - repeat split. unfold good_latencies in E.
    apply map_eq_nil in E. clear Hlen Hgood.
    induction (pings self_timeout probe host iterations) as [|t l IH];
      [constructor|].
    simpl in E. destruct (GlobalPingTester.success t) eqn:Hs;
      [discriminate E|].
    constructor; [exact Hs | apply IH, E].
  - assert (Hpos : (0 < iterations)%Z) by (simpl in Hgood; lia).
    rewrite div_ok by (apply inject_Z_nonzero; lia).
    cbn [Py.bind GlobalPingRuns.c_tests GlobalPingRuns.c_min_latency_ms
         GlobalPingRuns.c_avg_latency_ms GlobalPingRuns.c_max_latency_ms
         GlobalPingRuns.c_success_rate].
    split; [exact Hpos|]. split; [reflexivity|]. split; [|split].
    + unfold good_latencies in E.
      assert (Hin : In x (map GlobalPingTester.latency_ms
                            (filter GlobalPingTester.success
                               (pings self_timeout probe host iterations)))).
      { rewrite E. left. reflexivity. }
      apply in_map_iff in Hin. destruct Hin as (t & _ & Ht).
      apply filter_In in Ht. apply Exists_exists. exists t. exact Ht.
    + apply latencies_in_order.
    + apply (rate_range _ (Z.to_nat iterations)); [lia| |lia].
      left. split; [exact Hpos | lia].
Qed.

(** ** The ranking of the regions *)

Lemma sorted_of_ordered {A : Type} (before : A -> A -> bool) (l : list A) :
  ordered before l -> Py.sorted before l = l.
Proof.
  induction l as [|x rest IH]; [reflexivity|].
  intros [Hx Hrest]. unfold Py.sorted in *. cbn [fold_right].
  rewrite (IH Hrest). destruct rest as [|y rest']; [reflexivity|].
  simpl. rewrite (Hx y (or_introl eq_refl)). reflexivity.
Qed.

Lemma keys_get_Some {V : Type} (k : string) (d : Dict.t V) :
  In k (Dict.keys d) -> Dict.get k d <> None.
Proof.
  induction d as [|[k' v] rest IH]; simpl; [tauto|].
  intros [<-|Hin].
  - rewrite String.eqb_refl. discriminate.
  - destruct (String.eqb k k'); [discriminate | apply IH, Hin].
Qed.

Section RegionRanking.

Import GlobalPingTester GlobalPingRuns.

Variables (self_timeout : Q) (self_iterations : Z)
  (probes : string -> oracle).

Hypothesis self_iterations_nonzero : self_iterations <> 0%Z.

Lemma run_regions_failed (iterations : Z) (names : list string)
    (f : failure) :
  run_regions self_timeout self_iterations probes iterations names (inl f)
  = inl f.
Proof.
  unfold run_regions. induction names as [|n rest IH]; simpl;
    [reflexivity | exact IH].
Qed.

Lemma run_regions_spec (P : string * region_result -> Prop)
    (iterations : Z) (names : list string) :
  (forall n r,
     In n names ->
     test_region self_timeout self_iterations (probes n) n (Some iterations)
     = Py.Ok r ->
     P (n, r)) ->
  forall acc : Dict.t region_result,
  NoDup (Dict.keys acc ++ names) ->
  Forall P acc ->
  exists results,
    run_regions self_timeout self_iterations probes iterations names
      (inr acc) = inr results /\
    Dict.keys results = Dict.keys acc ++ names /\
    Forall P results.
Proof.
  induction names as [|n rest IH]; intros HP acc Hnd Hacc.
  - exists acc. rewrite app_nil_r. repeat split. exact Hacc.
  - destruct (test_region_facts self_timeout self_iterations
                (probes n) n (Some iterations) self_iterations_nonzero)
      as (r & Hrun & _).
    assert (Hnew : Dict.get n acc = None).
    { apply get_None_keys. intros Hin.
      apply NoDup_remove_2 in Hnd. apply Hnd, in_app_iff. left. exact Hin. }
    destruct (IH (fun n' r' Hin => HP n' r' (or_intror Hin))
                (Dict.set n r acc)) as (results & Hfold & Hkeys & Hall).
    + rewrite set_keys_new by exact Hnew. rewrite <- app_assoc. exact Hnd.
    + apply set_Forall; [exact Hacc|].
      apply (HP n r (or_introl eq_refl) Hrun).
    + exists results. split; [|split; [|exact Hall]].
      * unfold run_regions in *. cbn [fold_left]. rewrite Hrun. exact Hfold.
      * rewrite Hkeys, set_keys_new by exact Hnew.
        rewrite <- app_assoc. reflexivity.
Qed.

(** An item of the list that is sorted, with its key. *)
Definition keyed_region (item : string * region_result)
  : Py.xfloat * (string * region_result) :=
  (match snd item with
   | RegionTested stats => speed_key (avg_latency_ms stats)
   | RegionNotFound _ => Py.Infinity
   end, item).

Definition tested (item : string * region_result) : Prop :=
  exists stats, snd item = RegionTested stats.

Lemma decorate_tested (items : list (string * region_result)) :
  Forall tested items -> decorate items = inr (map keyed_region items).
Proof.
  induction 1 as [|[n r] rest [stats Hs] _ IH]; [reflexivity|].
  simpl in Hs. subst r. cbn [decorate avg_of]. rewrite IH. reflexivity.
Qed.

Lemma map_snd_keyed (items : list (string * region_result)) :
  map snd (map keyed_region items) = items.
Proof.
  rewrite map_map. unfold keyed_region. simpl. apply map_id.
Qed.

Lemma xle_total (a b : Py.xfloat) : xle a b = true \/ xle b a = true.
Proof.
  destruct a as [x|], b as [y|]; simpl; auto.
  destruct (Qle_bool x y) eqn:E; [left; reflexivity|].
  right. apply Qle_bool_false in E. apply Qle_bool_iff. lra.
Qed.

Lemma xle_trans (a b c : Py.xfloat) :
  xle a b = true -> xle b c = true -> xle a c = true.
Proof.
  destruct a as [x|], b as [y|], c as [z|]; simpl; try discriminate; auto.
  rewrite !Qle_bool_iff. intros. lra.
Qed.

Lemma by_speed_total (x y : Py.xfloat * (string * region_result)) :
  by_speed x y = true \/ by_speed y x = true.
Proof. apply xle_total. Qed.

Lemma by_speed_trans (x y z : Py.xfloat * (string * region_result)) :
  by_speed x y = true -> by_speed y z = true -> by_speed x z = true.
Proof. apply xle_trans. Qed.

Lemma ENDPOINTS_NoDup : NoDup (Dict.keys GLOBAL_ENDPOINTS).
Proof.
  unfold GLOBAL_ENDPOINTS, Dict.keys. cbn [map fst].
  repeat (constructor; [simpl; intuition discriminate|]). constructor.
Qed.

(** What an entry of the report is: the statistics of the region of that
    name. *)
Definition region_entry (n : Z) (item : string * region_result) : Prop :=
  exists stats endpoint,
    snd item = RegionTested stats /\
    Dict.get (fst item) GLOBAL_ENDPOINTS = Some endpoint /\
    stats_region stats = fst item /\
    stats_location stats = location endpoint /\
    stats_provider stats = provider endpoint /\
    region_ok n stats.

Lemma region_entry_tested (n : Z) (item : string * region_result) :
  region_entry n item -> tested item.
Proof. intros (stats & _ & H & _). exists stats. exact H. Qed.

Lemma region_entry_run (iterations : Z) (n : string) (r : region_result) :
  iterations <> 0%Z ->
  In n (Dict.keys GLOBAL_ENDPOINTS) ->
  test_region self_timeout self_iterations (probes n) n (Some iterations)
  = Py.Ok r ->
  region_entry iterations (n, r).
Proof.
  intros Hnz Hin Hrun.
  pose proof (test_region_ok self_timeout self_iterations (probes n) n
                (Some iterations) r self_iterations_nonzero Hrun) as H.
  assert (Hit : iterations_or_default self_iterations (Some iterations)
                = iterations).
  { unfold iterations_or_default.
    destruct (Z.eqb_spec iterations 0); [contradiction | reflexivity]. }
  rewrite Hit in H.
  destruct r as [name|stats].
  - exfalso. destruct H as [_ H]. apply (keys_get_Some _ _ Hin).
    exact H.
  - destruct H as ((endpoint & Hget & _ & Hp & Hl) & Hname & Hok).
    exists stats, endpoint. split; [reflexivity|]. split; [exact Hget|].
    split; [exact Hname|]. split; [exact Hl|]. split; [exact Hp | exact Hok].
Qed.

(** The statement of [all_regions_are_ranked], as a lemma for the proofs that build on
    it. *)
Lemma region_ranking_facts (iterations : option Z) :
  exists report,
    test_all_regions self_timeout self_iterations probes iterations
    = inr report /\
    GlobalPingRuns.iterations report
    = iterations_or_default self_iterations iterations /\
    Permutation (Dict.keys (regions report)) (Dict.keys GLOBAL_ENDPOINTS) /\
    total_tested report = 18%nat /\
    Forall (region_entry (GlobalPingRuns.iterations report))
      (regions report) /\
    ordered by_speed (map keyed_region (regions report)) /\
    exists name stats rest,
      regions report = (name, RegionTested stats) :: rest /\
      fastest_region report = Some (name, Some (RegionTested stats)) /\
      forall other other_stats,
        In (other, RegionTested other_stats) (regions report) ->
        0 < avg_latency_ms other_stats ->
        0 < avg_latency_ms stats <= avg_latency_ms other_stats.
Proof.
  pose proof (iterations_or_default_nonzero self_iterations iterations
                self_iterations_nonzero) as Hn.
  unfold test_all_regions. cbv zeta.
  set (n := iterations_or_default self_iterations iterations) in *.
  destruct (run_regions_spec (region_entry n) n (Dict.keys GLOBAL_ENDPOINTS))
    with (acc := @nil (string * region_result))
    as (results & Hfold & Hkeys & Hall).
  - intros name r Hin Hrun. apply region_entry_run; assumption.
  - exact ENDPOINTS_NoDup.
  - constructor.
  - match goal with
    | |- context [run_regions ?a ?b ?c ?d ?e ?f] =>
        replace (run_regions a b c d e f) with
          (@inr failure _ results) by (symmetry; exact Hfold)
    end.
    assert (Htested : Forall tested results).
    { eapply Forall_impl; [|exact Hall]. apply region_entry_tested. }
    rewrite (decorate_tested results Htested).
    set (ranked := Py.sorted by_speed (map keyed_region results)).
    assert (Hperm : Permutation (map snd ranked) results).
    { pose proof (Permutation_map snd
                    (sorted_perm by_speed (map keyed_region results))) as Hp.
      rewrite map_snd_keyed in Hp. exact Hp. }
    assert (Hord : ordered by_speed ranked).
    { apply sorted_ordered; [apply by_speed_total | apply by_speed_trans]. }
    assert (Hranked : ranked = map keyed_region (map snd ranked)).
    { assert (Hin : forall x, In x ranked -> x = keyed_region (snd x)).
      { intros x Hx. apply sorted_In in Hx. apply in_map_iff in Hx.
        destruct Hx as (item & <- & _). reflexivity. }
      clear -Hin. induction ranked as [|x l IH]; [reflexivity|].
      simpl. rewrite <- (Hin x (or_introl eq_refl)). f_equal.
      apply IH. intros y Hy. apply Hin. right. exact Hy. }
    eexists. split; [reflexivity|].
    cbn [GlobalPingRuns.iterations regions total_tested fastest_region].
    split; [reflexivity|].
    assert (Hkperm : Permutation (Dict.keys (map snd ranked))
                       (Dict.keys GLOBAL_ENDPOINTS)).
    { change (Dict.keys GLOBAL_ENDPOINTS)
        with ([] ++ Dict.keys GLOBAL_ENDPOINTS)%list.
      change (@nil string) with (Dict.keys (@nil (string * region_result))).
      rewrite <- Hkeys. unfold Dict.keys. apply Permutation_map, Hperm. }
    split; [exact Hkperm|].
    assert (Hlen : List.length (map snd ranked) = 18%nat).
    { rewrite <- (length_map fst). fold (Dict.keys (map snd ranked)).
      rewrite (Permutation_length Hkperm). reflexivity. }
    split; [exact Hlen|].
    assert (Hall' : Forall (region_entry n) (map snd ranked)).
    { rewrite Forall_forall in *. intros x Hx. apply Hall.
      eapply Permutation_in; [exact Hperm | exact Hx]. }
    split; [exact Hall'|].
    split; [rewrite <- Hranked; exact Hord|].
    destruct (map snd ranked) as [|[name r] rest] eqn:E;
      [simpl in Hlen; lia|].
    pose proof (Forall_inv Hall') as (stats & endpoint & Hs & Hget & _).
    simpl in Hs, Hget. subst r.
    exists name, stats, rest. split; [reflexivity|].
    assert (Hname : name <> EmptyString).
    { intros ->. vm_compute in Hget. discriminate Hget. }
    split.
    + cbn [Dict.keys map fst Dict.get]. rewrite String.eqb_refl.
      apply String.eqb_neq in Hname. rewrite Hname. reflexivity.
    + intros other other_stats Hin Hpos.
      rewrite Hranked in Hord. cbn [map] in Hord.
      destruct Hord as [Hhead _].
      destruct Hin as [Heq|Hin].
      { injection Heq as _ <-. split; [exact Hpos | lra]. }
      specialize (Hhead (keyed_region (other, RegionTested other_stats))
                    (in_map keyed_region _ _ Hin)).
      unfold by_speed, keyed_region, speed_key in Hhead. simpl in Hhead.
      assert (Hq : Py.Qltb 0 (avg_latency_ms other_stats) = true).
      { unfold Py.Qltb. apply negb_true_iff.
        destruct (Qle_bool (avg_latency_ms other_stats) 0) eqn:E';
          [|reflexivity].
        apply Qle_bool_iff in E'. lra. }
      rewrite Hq in Hhead.
      destruct (Py.Qltb 0 (avg_latency_ms stats)) eqn:Hq';
        [|discriminate Hhead].
      apply Qltb_true in Hq'. simpl in Hhead. apply Qle_bool_iff in Hhead.
      split; assumption.
Qed.

(** The run over all regions returns; the report holds the eighteen
    regions of the catalog, each with the statistics of its own test, in
    the order of their average latency, where an average of 0 counts as
    infinite; [fastest_region] is the first of them.  So a region with a
    positive average is never behind one without, and if any region has a
    positive average, the fastest region has the smallest one. *)
Theorem all_regions_are_ranked (iterations : option Z) :
  exists report,
    test_all_regions self_timeout self_iterations probes iterations
    = inr report /\
    GlobalPingRuns.iterations report
    = iterations_or_default self_iterations iterations /\
    Permutation (Dict.keys (regions report)) (Dict.keys GLOBAL_ENDPOINTS) /\
    total_tested report = 18%nat /\
    Forall (region_entry (GlobalPingRuns.iterations report))
      (regions report) /\
    ordered by_speed (map keyed_region (regions report)) /\
    exists name stats rest,
      regions report = (name, RegionTested stats) :: rest /\
      fastest_region report = Some (name, Some (RegionTested stats)) /\
      forall other other_stats,
        In (other, RegionTested other_stats) (regions report) ->
        0 < avg_latency_ms other_stats ->
        0 < avg_latency_ms stats <= avg_latency_ms other_stats.
Proof. exact (region_ranking_facts iterations). Qed.

End RegionRanking.

(** Every region answers after 20 ms, except that Tokyo answers after 5. *)
Definition tokyo_is_near : string -> GlobalPingTester.oracle :=
  fun region_name _ =>
    if String.eqb region_name "Asia Pacific (Tokyo)"
    then GlobalPingTester.Established "192.0.2.1" 5
    else GlobalPingTester.Established "192.0.2.2" 20.

Lemma all_regions_are_ranked_witness :
  exists report,
    GlobalPingRuns.test_all_regions 10 3 tokyo_is_near None = inr report /\
    GlobalPingRuns.total_tested report = 18%nat /\
    GlobalPingRuns.iterations report = 3%Z.
Proof.
  destruct (all_regions_are_ranked 10 3 tokyo_is_near ltac:(discriminate) None)
    as (report & Hrun & Hit & _ & Htotal & _).
  exists report. split; [exact Hrun|]. split; [exact Htotal | exact Hit].
Defined.

(** ** Regions that cannot be reached *)

(** The recommendation that [_analyze_ping] appends. *)
Definition optimal_region_recommendation (fmt : Q -> string)
    (name : string) (latency : Q) (location : string)
  : RecommendationEngine.Recommendation :=
  {| RecommendationEngine.category := "deployment";
     RecommendationEngine.priority := "medium";
     RecommendationEngine.title := "Optimal Region: " ++ name;
     RecommendationEngine.description :=
       "Lowest latency region at " ++ fmt latency ++ "ms.";
     RecommendationEngine.action :=
       "Consider deploying to " ++ location ++ " for best performance.";
     RecommendationEngine.impact := "Minimize latency for your users" |}%string.

Section UnreachableRegions.

Import GlobalPingTester GlobalPingRuns.

Variables (self_timeout : Q) (self_iterations : Z)
  (probes : string -> oracle).

Hypothesis self_iterations_nonzero : self_iterations <> 0%Z.
Hypothesis no_connect :
  forall region_name i ip elapsed,
    probes region_name i <> Established ip elapsed.

Lemma no_good_latency (region_name host : string) (n : Z) :
  good_latencies (pings self_timeout (probes region_name) host n) = [].
Proof.
  unfold good_latencies. rewrite filter_none; [reflexivity|].
  intros r Hr. unfold pings in Hr. apply in_map_iff in Hr.
  destruct Hr as (i & <- & _).
  destruct (probes region_name i) as [ip elapsed| |e] eqn:E;
    [exfalso; apply (no_connect _ _ _ _ E) | reflexivity | reflexivity].
Qed.

(** What an entry of the report is when nothing can be reached. *)
Definition failed_entry (item : string * region_result) : Prop :=
  exists stats endpoint,
    snd item = RegionTested stats /\
    Dict.get (fst item) GLOBAL_ENDPOINTS = Some endpoint /\
    stats_location stats = location endpoint /\
    stats_success stats = false /\
    avg_latency_ms stats = 0 /\
    success_rate stats == 0.

Lemma failed_entry_run (iterations : Z) (n : string) (r : region_result) :
  iterations <> 0%Z ->
  In n (Dict.keys GLOBAL_ENDPOINTS) ->
  test_region self_timeout self_iterations (probes n) n (Some iterations)
  = Py.Ok r ->
  failed_entry (n, r).
Proof.
  intros Hnz Hin Hrun.
  destruct (region_entry_run self_timeout self_iterations probes
              self_iterations_nonzero iterations n r Hnz Hin Hrun)
    as (stats & endpoint & Hs & Hget & _ & Hl & _ & Hok).
  simpl in Hs, Hget. subst r.
  assert (Hit : iterations_or_default self_iterations (Some iterations)
                <> 0%Z).
  { apply iterations_or_default_nonzero, self_iterations_nonzero. }
  destruct (test_region_stats self_timeout self_iterations (probes n) n
              (Some iterations) endpoint Hget Hit)
    as (stats' & Hrun' & _ & Hsucc & _).
  rewrite Hrun in Hrun'. injection Hrun' as <-.
  cbv zeta in Hsucc. rewrite no_good_latency in Hsucc. simpl in Hsucc.
  destruct Hok as (_ & _ & _ & _ & Hzero).
  destruct (Hzero Hsucc) as (Havg & _ & _ & _ & Hrate).
  exists stats, endpoint. repeat split; assumption.
Qed.

(** When no ping gets through anywhere, the run over all regions still
    returns a ranking: every region has failed, the order is the order of
    the catalog, and the fastest region is the first region of the
    catalog, with an average latency of 0.  The recommendation engine,
    given this report, recommends to deploy to that region. *)
Theorem unreachable_regions_still_rank (fmt : Q -> string)
    (iterations : option Z) :
  exists report stats,
    test_all_regions self_timeout self_iterations probes iterations
    = inr report /\
    Dict.keys (regions report) = Dict.keys GLOBAL_ENDPOINTS /\
    Forall failed_entry (regions report) /\
    fastest_region report
    = Some ("US East (Virginia)"%string, Some (RegionTested stats)) /\
    stats_success stats = false /\
    RecommendationEngine.collected fmt None None None None None
      (as_ping_data report)
    = [optimal_region_recommendation fmt "US East (Virginia)" 0
         "Virginia, USA"].
Proof.
  pose proof (iterations_or_default_nonzero self_iterations iterations
                self_iterations_nonzero) as Hn.
  unfold test_all_regions. cbv zeta.
  set (n := iterations_or_default self_iterations iterations) in *.
  destruct (run_regions_spec self_timeout self_iterations probes
              self_iterations_nonzero failed_entry n
              (Dict.keys GLOBAL_ENDPOINTS))
    with (acc := @nil (string * region_result))
    as (results & Hfold & Hkeys & Hall).
  - intros name r Hin Hrun. apply (failed_entry_run n); assumption.
  - exact ENDPOINTS_NoDup.
  - constructor.
  - match goal with
    | |- context [run_regions ?a ?b ?c ?d ?e ?f] =>
        replace (run_regions a b c d e f) with
          (@inr failure _ results) by (symmetry; exact Hfold)
    end.
    assert (Htested : Forall tested results).
    { eapply Forall_impl; [|exact Hall].
      intros item (stats & _ & H & _). exists stats. exact H. }
    rewrite (decorate_tested results Htested).
    assert (Hord : ordered by_speed (map keyed_region results)).
    { assert (Hinf : forall x, In x (map keyed_region results) ->
                       fst x = Py.Infinity).
      { intros x Hx. apply in_map_iff in Hx. destruct Hx as (item & <- & Hi).
        rewrite Forall_forall in Hall.
        destruct (Hall item Hi) as (stats & _ & Hs & _ & _ & _ & Havg & _).
        unfold keyed_region. rewrite Hs. simpl. rewrite Havg. reflexivity. }
      clear -Hinf. induction (map keyed_region results) as [|x l IH];
        [exact I|].
      split.
      - intros y Hy. unfold by_speed.
        rewrite (Hinf y (or_intror Hy)).
        destruct (fst x); reflexivity.
      - apply IH. intros y Hy. apply Hinf. right. exact Hy. }
    rewrite (sorted_of_ordered by_speed _ Hord), map_snd_keyed.
    simpl app in Hkeys.
    destruct results as [|[name r] rest]; [discriminate Hkeys|].
    pose proof (Forall_inv Hall)
      as (stats & endpoint & Hs & Hget & Hloc & Hsucc & Havg & _).
    simpl in Hs, Hget. subst r.
    assert (Hname : name = "US East (Virginia)"%string).
    { injection Hkeys as Hk _. exact Hk. }
    subst name. vm_compute in Hget. injection Hget as <-.
    simpl in Hloc.
    eexists. exists stats. split; [reflexivity|].
    cbn [regions fastest_region].
    split; [exact Hkeys|]. split; [exact Hall|].
    split; [reflexivity|]. split; [exact Hsucc|].
    unfold as_ping_data. cbn [fastest_region Dict.keys map fst Dict.get].
    cbn [String.eqb Ascii.eqb Bool.eqb andb].
    unfold RecommendationEngine.collected, RecommendationEngine.when,
      RecommendationEngine._analyze_ping, RecommendationEngine.append,
      optimal_region_recommendation.
    cbn [Views.fastest_region Views.fr_avg_latency_ms Views.fr_name
         Views.fr_location Py.get_or app].
    rewrite Havg, Hloc. reflexivity.
Qed.

End UnreachableRegions.

Lemma unreachable_regions_still_rank_witness :
  exists report,
    GlobalPingRuns.test_all_regions 10 3
      (fun _ _ => GlobalPingTester.TimedOut) None = inr report /\
    RecommendationEngine.collected (fun _ => "0"%string)
      None None None None None (GlobalPingRuns.as_ping_data report)
    = [optimal_region_recommendation (fun _ => "0"%string)
         "US East (Virginia)" 0 "Virginia, USA"].
Proof.
  destruct (unreachable_regions_still_rank 10 3
              (fun _ _ => GlobalPingTester.TimedOut)
              ltac:(discriminate) ltac:(discriminate)
              (fun _ => "0"%string) None)
    as (report & stats & Hrun & _ & _ & _ & _ & Hrec).
  exists report. split; [exact Hrun | exact Hrec].
Defined.

(** * The other scans of the port scanner *)

Module PortScans.

Import PortScanner.

(** [PortScanner.get_port_info]: the two tables and [len(self.all_ports)]. *)
Definition get_port_info
  : PortTable.t port_info * PortTable.t port_info * nat :=
  (COMMON_PORTS, VPN_PORTS, List.length all_ports).

(** [PortScanner.scan_common] and [PortScanner.scan_vpn]. *)
Definition scan_common (probe : nat -> attempt) (host : string)
  : Py.result scan_report :=
  scan_ports probe host None "common".

Definition scan_vpn (probe : nat -> attempt) (host : string)
  : Py.result scan_report :=
  scan_ports probe host None "vpn".

(** [list(range(start, stop))]. *)
Definition range (start stop : Z) : list Z :=
  map (fun i => (start + Z.of_nat i)%Z) (seq 0 (Z.to_nat (stop - start))).

(** [PortScanner.scan_range]. *)
Definition scan_range (probe : nat -> attempt) (host : string)
    (start_port end_port : Z) : Py.result scan_report :=
  let ports := range start_port (end_port + 1) in
  scan_ports probe host (Some ports) "common".

(** [PortScanner.quick_scan]. *)
Definition quick_scan (probe : nat -> attempt) (host : string)
  : Py.result scan_report :=
  let important_ports :=
    [21; 22; 23; 25; 53; 80; 110; 143; 443; 445; 3306; 3389; 5432; 8080]%Z in
  scan_ports probe host (Some important_ports) "common".

Record services : Type := {
  s_host : string;
  open_services : list port_result;
  by_category : Dict.t (list port_result);
  total_open : nat
}.

(** The grouping loop of [get_open_services]. *)
Definition group (open_ports : list port_result)
  : Dict.t (list port_result) :=
  fold_left
    (fun open_by_category port_result =>
       let category := Py.get_or (category port_result) "unknown"%string in
       let open_by_category :=
         match Dict.get category open_by_category with
         | None => Dict.set category [] open_by_category
         | Some _ => open_by_category
         end in
       Dict.set category
         (Py.get_or (Dict.get category open_by_category) [] ++ [port_result])
         open_by_category)
    open_ports [].

(** [PortScanner.get_open_services]. *)
Definition get_open_services (probe : nat -> attempt) (host : string)
  : Py.result services :=
  results <- scan_ports probe host None "all" ;;
  Py.Ok {| s_host := host;
           open_services := open_ports results;
           by_category := group (open_ports results);
           total_open := List.length (open_ports results) |}.

Record vpn_entry : Type := {
  v_port : Z;
  v_status : string;
  available : bool
}.

Record vpn_report : Type := {
  v_host : string;
  vpn_protocols : Dict.t vpn_entry;
  available_protocols : list string;
  total_available : nat
}.

(** The loop of [check_vpn_connectivity] over the results of the scan:
    one entry per protocol, written again by every port of the
    protocol. *)
Definition vpn_status_of (results : list port_result) : Dict.t vpn_entry :=
  fold_left
    (fun vpn_status port_result =>
       match PortTable.get (port port_result) VPN_PORTS with
       | Some info =>
           let protocol := Py.get_or (info_protocol info) "Unknown"%string in
           Dict.set protocol
             {| v_port := port port_result;
                v_status := status port_result;
                available := String.eqb (status port_result) "open" |}
             vpn_status
       | None => vpn_status
       end)
    results [].

(** [PortScanner.check_vpn_connectivity]. *)
Definition check_vpn_connectivity (probe : nat -> attempt) (host : string)
  : Py.result vpn_report :=
  results <- scan_vpn probe host ;;
  let vpn_status := vpn_status_of (PortScanner.results results) in
  let available_protocols :=
    map fst (filter (fun '(p, v) => available v) vpn_status) in
  Py.Ok {| v_host := host;
           vpn_protocols := vpn_status;
           available_protocols := available_protocols;
           total_available := List.length available_protocols |}.

End PortScans.

(** ** What every port scan keeps *)

Section PortScanFacts.

Import PortScanner.

(** The ports that a scan goes through. *)
Definition target_ports (ports : option (list Z)) (scan_type : string)
  : list Z :=
  match ports with
  | Some (p :: l) => p :: l
  | _ =>
      if String.eqb scan_type "vpn" then PortTable.keys VPN_PORTS
      else if String.eqb scan_type "all" then PortTable.keys all_ports
      else PortTable.keys COMMON_PORTS
  end.

(** The results of the tasks, in the order of the targets. *)
Definition scanned (probe : nat -> attempt) (targets : list Z)
  : list port_result :=
  map (fun '(i, port) => scan_port port (probe i))
    (combine (seq 0 (List.length targets)) targets).

Definition has_status (s : string) (r : port_result) : bool :=
  String.eqb (status r) s.

Lemma has_status_cases (r : port_result) :
  (has_status "open" r = true /\ has_status "closed" r = false /\
   has_status "filtered" r = false) \/
  (has_status "open" r = false /\ has_status "closed" r = true /\
   has_status "filtered" r = false) \/
  (has_status "open" r = false /\ has_status "closed" r = false).
Proof.
  unfold has_status.
  destruct (String.eqb_spec (status r) "open") as [->|_]; [left; auto|].
  destruct (String.eqb_spec (status r) "closed") as [->|_]; [|right; auto].
  right. left. auto.
Qed.

Lemma classify_fold (l all opened closed filtered : list port_result) :
  fold_left
    (fun '(all, opened, closed, filtered) result =>
       let all := all ++ [result] in
       if String.eqb (status result) "open"
       then (all, opened ++ [result], closed, filtered)
       else if String.eqb (status result) "closed"
       then (all, opened, closed ++ [result], filtered)
       else if String.eqb (status result) "filtered"
       then (all, opened, closed, filtered ++ [result])
       else (all, opened, closed, filtered))
    l (all, opened, closed, filtered)
  = (all ++ l,
     opened ++ filter (has_status "open") l,
     closed ++ filter (has_status "closed") l,
     filtered ++ filter (has_status "filtered") l).
Proof.
  revert all opened closed filtered.
  induction l as [|r rest IH]; intros all opened closed filtered.
  - simpl. rewrite !app_nil_r. reflexivity.
  - cbn [fold_left filter].
    change (String.eqb (status r) "open") with (has_status "open" r).
    change (String.eqb (status r) "closed") with (has_status "closed" r).
    change (String.eqb (status r) "filtered") with (has_status "filtered" r).
    destruct (has_status_cases r) as [(-> & -> & ->)|[(-> & -> & ->)|(-> & ->)]].
    + rewrite IH, <- !app_assoc. reflexivity.
    + rewrite IH, <- !app_assoc. reflexivity.
    + destruct (has_status "filtered" r); rewrite IH, <- !app_assoc;
        reflexivity.
Qed.

Lemma classify_spec (l : list port_result) :
  classify l
  = (l, filter (has_status "open") l, filter (has_status "closed") l,
     filter (has_status "filtered") l).
Proof. unfold classify. rewrite classify_fold. reflexivity. Qed.

Lemma target_ports_nonempty (ports : option (list Z)) (scan_type : string) :
  target_ports ports scan_type <> [].
Proof.
  unfold target_ports. destruct ports as [[|p l]|]; try discriminate;
    destruct (String.eqb scan_type "vpn");
    try destruct (String.eqb scan_type "all"); discriminate.
Qed.

Lemma scanned_ports (probe : nat -> attempt) (targets : list Z) :
  map port (scanned probe targets) = targets.
Proof.
  unfold scanned. generalize 0%nat.
  induction targets as [|p rest IH]; intros start; [reflexivity|].
  cbn [List.length seq combine map]. rewrite IH. f_equal.
  destruct (probe start); reflexivity.
Qed.

Lemma scanned_status (probe : nat -> attempt) (targets : list Z)
    (r : port_result) :
  In r (scanned probe targets) ->
  In (status r) ["open"; "closed"; "filtered"; "error"]%string.
Proof.
  unfold scanned. intros H. apply in_map_iff in H.
  destruct H as ([i p] & <- & _). destruct (probe i); simpl; tauto.
Qed.

Lemma count_by_status (l : list port_result) :
  (forall r, In r l ->
     In (status r) ["open"; "closed"; "filtered"; "error"]%string) ->
  (List.length (filter (has_status "open") l)
   + List.length (filter (has_status "closed") l)
   + List.length (filter (has_status "filtered") l)
   + List.length (filter (has_status "error") l))%nat
  = List.length l.
Proof.
  induction l as [|r rest IH]; intros H; [reflexivity|].
  specialize (IH (fun r' Hr' => H r' (or_intror Hr'))).
  pose proof (H r (or_introl eq_refl)) as Hs. simpl in Hs.
  unfold has_status in *. cbn [filter].
  destruct Hs as [<-|[<-|[<-|[<-|[]]]]]; simpl; lia.
Qed.

(** What [scan_ports] returns. *)
Lemma scan_ports_spec (probe : nat -> attempt) (host : string)
    (ports : option (list Z)) (scan_type : string) :
  let targets := target_ports ports scan_type in
  let l := scanned probe targets in
  scan_ports probe host ports scan_type
  = Py.Ok
      {| host := host;
         scan_type := scan_type;
         ports_scanned := List.length targets;
         open_ports := filter (has_status "open") l;
         closed_ports := filter (has_status "closed") l;
         filtered_ports := filter (has_status "filtered") l;
         results := l;
         summary :=
           {| total_scanned := List.length targets;
              open := List.length (filter (has_status "open") l);
              closed := List.length (filter (has_status "closed") l);
              filtered := List.length (filter (has_status "filtered") l);
              open_percentage :=
                Py.round2
                  (inject_Z
                     (Z.of_nat (List.length (filter (has_status "open") l)))
                   / inject_Z (Z.of_nat (List.length targets)) * 100) |} |}.
Proof.
  intros targets l. unfold scan_ports. cbv zeta.
  fold (target_ports ports scan_type). fold targets.
  fold (scanned probe targets). fold l.
  rewrite classify_spec.
  rewrite div_ok; [reflexivity|].
  apply inject_Z_nonzero.
  pose proof (target_ports_nonempty ports scan_type) as Hne.
  fold targets in Hne. destruct targets; [contradiction | simpl; lia].
Qed.

(** The statement of [port_scan_partitions], as a lemma for the proofs that build on
    it. *)
Lemma port_scan_facts (probe : nat -> attempt) (host : string)
    (ports : option (list Z)) (scan_type : string) :
  exists report,
    scan_ports probe host ports scan_type = Py.Ok report /\
    map port (results report) = target_ports ports scan_type /\
    ports_scanned report = List.length (results report) /\
    ports_scanned report <> 0%nat /\
    open_ports report = filter (has_status "open") (results report) /\
    closed_ports report = filter (has_status "closed") (results report) /\
    filtered_ports report
    = filter (has_status "filtered") (results report) /\
    (open (summary report) + closed (summary report)
     + filtered (summary report)
     + List.length (filter (has_status "error") (results report)))%nat
    = total_scanned (summary report) /\
    0 <= open_percentage (summary report) <= 100.
Proof.
  pose proof (scan_ports_spec probe host ports scan_type) as H.
  cbv zeta in H. eexists. split; [exact H|].
  cbn [results ports_scanned open_ports closed_ports filtered_ports summary
       open closed filtered total_scanned open_percentage].
  pose proof (scanned_ports probe (target_ports ports scan_type)) as Hp.
  assert (Hlen : List.length (scanned probe (target_ports ports scan_type))
                 = List.length (target_ports ports scan_type)).
  { rewrite <- Hp at 2. rewrite length_map. reflexivity. }
  pose proof (target_ports_nonempty ports scan_type) as Hne.
  split; [exact Hp|]. split; [symmetry; exact Hlen|].
  split; [destruct (target_ports ports scan_type);
          [contradiction | discriminate]|].
  split; [reflexivity|]. split; [reflexivity|]. split; [reflexivity|].
  split.
  - rewrite <- Hlen. apply count_by_status. apply scanned_status.
  - apply (rate_range _ (List.length (target_ports ports scan_type))).
    + rewrite <- Hlen. apply filter_length_le.
    + left. split; [|reflexivity].
      destruct (target_ports ports scan_type); [contradiction | simpl; lia].
    + destruct (target_ports ports scan_type); [contradiction | simpl; lia].
Qed.

(** Every port scan returns: the list of targets is never empty, because
    an empty list of ports counts like none and the tables are not empty.
    The results are those of the targets, in their order; the lists of
    open, closed and filtered ports are the results with that status, in
    order; together with the results of status [error], which are in no
    list, they add up to the number of ports scanned; the open percentage
    lies between 0 and 100. *)
Theorem port_scan_partitions (probe : nat -> attempt) (host : string)
    (ports : option (list Z)) (scan_type : string) :
  exists report,
    scan_ports probe host ports scan_type = Py.Ok report /\
    map port (results report) = target_ports ports scan_type /\
    ports_scanned report = List.length (results report) /\
    ports_scanned report <> 0%nat /\
    open_ports report = filter (has_status "open") (results report) /\
    closed_ports report = filter (has_status "closed") (results report) /\
    filtered_ports report
    = filter (has_status "filtered") (results report) /\
    (open (summary report) + closed (summary report)
     + filtered (summary report)
     + List.length (filter (has_status "error") (results report)))%nat
    = total_scanned (summary report) /\
    0 <= open_percentage (summary report) <= 100.
Proof. exact (port_scan_facts probe host ports scan_type). Qed.

End PortScanFacts.

(** ** A range of ports *)

Lemma range_empty (start stop : Z) :
  (stop <= start)%Z -> PortScans.range start stop = [].
Proof.
  intros H. unfold PortScans.range.
  replace (Z.to_nat (stop - start)) with 0%nat by lia. reflexivity.
Qed.

Lemma range_cons (start stop : Z) :
  (start < stop)%Z ->
  PortScans.range start stop = start :: PortScans.range (start + 1) stop.
Proof.
  intros H. unfold PortScans.range.
  replace (Z.to_nat (stop - start)) with (S (Z.to_nat (stop - (start + 1))))
    by lia.
  cbn [seq map]. f_equal; [lia|].
  rewrite <- seq_shift, map_map. apply map_ext. intros i. lia.
Qed.

(** [scan_range] scans the ports from the first to the last one, in
    order.  When the last port lies below the first one, the range is
    empty, an empty list of ports counts like no list at all, and the scan
    goes through the 24 common ports instead. *)
Theorem scan_range_targets (probe : nat -> PortScanner.attempt)
    (host : string) (start_port end_port : Z) :
  exists report,
    PortScans.scan_range probe host start_port end_port = Py.Ok report /\
    (if (end_port <? start_port)%Z
     then PortScans.scan_range probe host start_port end_port
          = PortScans.scan_common probe host /\
          PortScanner.ports_scanned report = 24%nat
     else map PortScanner.port (PortScanner.results report)
          = PortScans.range start_port (end_port + 1) /\
          PortScanner.ports_scanned report
          = Z.to_nat (end_port - start_port + 1)).
Proof.
  destruct (port_scan_facts probe host
              (Some (PortScans.range start_port (end_port + 1))) "common")
    as (report & Hrun & Hports & Hn & _).
  exists report. split; [exact Hrun|].
  destruct (Z.ltb_spec end_port start_port) as [Hlt|Hge].
  - unfold PortScans.scan_range, PortScans.scan_common in *.
    rewrite range_empty in * by lia. split; [reflexivity|].
    rewrite Hn, <- (length_map PortScanner.port), Hports. reflexivity.
  - rewrite range_cons in Hports by lia. cbn [target_ports] in Hports.
    rewrite <- range_cons in Hports by lia. split; [exact Hports|].
    rewrite Hn, <- (length_map PortScanner.port), Hports.
    unfold PortScans.range. rewrite length_map, length_seq. f_equal. lia.
Qed.

(** ** The availability of VPN protocols *)

Lemma port_scan_port (p : Z) (o : PortScanner.attempt) :
  PortScanner.port (PortScanner.scan_port p o) = p.
Proof. destruct o; reflexivity. Qed.

Lemma status_open_iff (p : Z) (o : PortScanner.attempt) :
  String.eqb (PortScanner.status (PortScanner.scan_port p o)) "open" = true
  <-> o = PortScanner.Connected.
Proof. destruct o; simpl; split; intros H; congruence. Qed.

Lemma available_names (d : Dict.t PortScans.vpn_entry) (k : string) :
  In k (map fst (filter (fun '(p, v) => PortScans.available v) d)) <->
  exists v, In (k, v) d /\ PortScans.available v = true.
Proof.
  rewrite in_map_iff. split.
  - intros ([k' v] & <- & H). apply filter_In in H. exists v. exact H.
  - intros (v & Hin & Ha). exists (k, v). split; [reflexivity|].
    apply filter_In. split; assumption.
Qed.

(** [check_vpn_connectivity] files the result of each port under the
    protocol of the port, so of two ports with the same protocol the one
    scanned later decides: there are ten protocols for the twelve ports,
    IPSec is reported with port 4500 and V2Ray with port 2083, and each
    counts as available exactly when the connect to that port succeeded,
    whatever the connect to port 500 or to port 10443 came to. *)
Theorem vpn_status_by_last_port (probe : nat -> PortScanner.attempt)
    (host : string) :
  exists report,
    PortScans.check_vpn_connectivity probe host = Py.Ok report /\
    Dict.keys (PortScans.vpn_protocols report)
    = ["IPSec"; "OpenVPN"; "L2TP"; "PPTP"; "WireGuard"; "SSL VPN";
       "Cisco AnyConnect"; "V2Ray"; "Trojan"; "Shadowsocks"]%string /\
    (exists v, Dict.get "IPSec" (PortScans.vpn_protocols report) = Some v /\
               PortScans.v_port v = 4500%Z) /\
    (exists v, Dict.get "V2Ray" (PortScans.vpn_protocols report) = Some v /\
               PortScans.v_port v = 2083%Z) /\
    (In "IPSec"%string (PortScans.available_protocols report)
     <-> probe 4%nat = PortScanner.Connected) /\
    (In "V2Ray"%string (PortScans.available_protocols report)
     <-> probe 9%nat = PortScanner.Connected) /\
    (PortScans.total_available report <= 10)%nat.
Proof.
  unfold PortScans.check_vpn_connectivity, PortScans.scan_vpn.
  pose proof (scan_ports_spec probe host None "vpn") as Hrun.
  cbv zeta in Hrun. rewrite Hrun. clear Hrun.
  cbn [Py.bind PortScanner.results]. eexists. split; [reflexivity|].
  cbn [PortScans.vpn_protocols PortScans.available_protocols
       PortScans.total_available].
  set (d := PortScans.vpn_status_of _).
  assert (Hd : d =
    [("IPSec"%string,
      {| PortScans.v_port := 4500;
         PortScans.v_status :=
           PortScanner.status (PortScanner.scan_port 4500 (probe 4%nat));
         PortScans.available :=
           String.eqb
             (PortScanner.status (PortScanner.scan_port 4500 (probe 4%nat)))
             "open" |});
     ("OpenVPN"%string,
      {| PortScans.v_port := 1194;
         PortScans.v_status :=
           PortScanner.status (PortScanner.scan_port 1194 (probe 1%nat));
         PortScans.available :=
           String.eqb
             (PortScanner.status (PortScanner.scan_port 1194 (probe 1%nat)))
             "open" |});
     ("L2TP"%string,
      {| PortScans.v_port := 1701;
         PortScans.v_status :=
           PortScanner.status (PortScanner.scan_port 1701 (probe 2%nat));
         PortScans.available :=
           String.eqb
             (PortScanner.status (PortScanner.scan_port 1701 (probe 2%nat)))
             "open" |});
     ("PPTP"%string,
      {| PortScans.v_port := 1723;
         PortScans.v_status :=
           PortScanner.status (PortScanner.scan_port 1723 (probe 3%nat));
         PortScans.available :=
           String.eqb
             (PortScanner.status (PortScanner.scan_port 1723 (probe 3%nat)))
             "open" |});
     ("WireGuard"%string,
      {| PortScans.v_port := 51820;
         PortScans.v_status :=
           PortScanner.status (PortScanner.scan_port 51820 (probe 5%nat));
         PortScans.available :=
           String.eqb
             (PortScanner.status (PortScanner.scan_port 51820 (probe 5%nat)))
             "open" |});
     ("SSL VPN"%string,
      {| PortScans.v_port := 443;
         PortScans.v_status :=
           PortScanner.status (PortScanner.scan_port 443 (probe 6%nat));
         PortScans.available :=
           String.eqb
             (PortScanner.status (PortScanner.scan_port 443 (probe 6%nat)))
             "open" |});
     ("Cisco AnyConnect"%string,
      {| PortScans.v_port := 8443;
         PortScans.v_status :=
           PortScanner.status (PortScanner.scan_port 8443 (probe 7%nat));
         PortScans.available :=
           String.eqb
             (PortScanner.status (PortScanner.scan_port 8443 (probe 7%nat)))
             "open" |});
     ("V2Ray"%string,
      {| PortScans.v_port := 2083;
         PortScans.v_status :=
           PortScanner.status (PortScanner.scan_port 2083 (probe 9%nat));
         PortScans.available :=
           String.eqb
             (PortScanner.status (PortScanner.scan_port 2083 (probe 9%nat)))
             "open" |});
     ("Trojan"%string,
      {| PortScans.v_port := 2087;
         PortScans.v_status :=
           PortScanner.status (PortScanner.scan_port 2087 (probe 10%nat));
         PortScans.available :=
           String.eqb
             (PortScanner.status (PortScanner.scan_port 2087 (probe 10%nat)))
             "open" |});
     ("Shadowsocks"%string,
      {| PortScans.v_port := 8388;
         PortScans.v_status :=
           PortScanner.status (PortScanner.scan_port 8388 (probe 11%nat));
         PortScans.available :=
           String.eqb
             (PortScanner.status (PortScanner.scan_port 8388 (probe 11%nat)))
             "open" |})]).
  { unfold d, PortScans.vpn_status_of, scanned, target_ports.
    cbn [String.eqb Ascii.eqb Bool.eqb PortTable.keys PortScanner.VPN_PORTS
         map fst List.length seq combine fold_left].
    rewrite !port_scan_port. reflexivity. }
  rewrite Hd. split; [reflexivity|].
  match goal with
  | |- context [Dict.get _ ?l] => assert (Hnd : NoDup (Dict.keys l))
  end.
  { unfold Dict.keys. cbn [map fst].
    repeat (constructor; [simpl; intuition discriminate|]). constructor. }
  split; [eexists; split; reflexivity|].
  split; [eexists; split; reflexivity|].
  split; [|split].
  - rewrite available_names, <- (status_open_iff 4500). split.
    + intros (v & Hin & Ha). apply In_get in Hin; [|exact Hnd].
      cbn in Hin. injection Hin as <-. exact Ha.
    + intros Ha. eexists. split; [left; reflexivity | exact Ha].
  - rewrite available_names, <- (status_open_iff 2083). split.
    + intros (v & Hin & Ha). apply In_get in Hin; [|exact Hnd].
      cbn in Hin. injection Hin as <-. exact Ha.
    + intros Ha. eexists.
      split; [do 7 right; left; reflexivity | exact Ha].
  - rewrite length_map.
    match goal with
    | |- (List.length (filter ?f ?l) <= _)%nat =>
        pose proof (filter_length_le f l) as Hle
    end.
    simpl List.length in Hle at 2. exact Hle.
Qed.

(** ** HTTPS and the VPN recommendation *)

(** The recommendation that [_analyze_ports] appends for [n] open ports of
    the category [vpn]. *)
Definition vpn_ports_recommendation (n : nat)
  : RecommendationEngine.Recommendation :=
  {| RecommendationEngine.category := "vpn";
     RecommendationEngine.priority := "low";
     RecommendationEngine.title := "VPN Ports Available";
     RecommendationEngine.description :=
       Py.str_nat n ++ " VPN-related ports are open.";
     RecommendationEngine.action :=
       "Consider using these for secure connections.";
     RecommendationEngine.impact := "Enable VPN connectivity" |}%string.

Definition is_vpn (p : Views.open_port_view) : bool :=
  match Views.op_category p with
  | Some c => String.eqb c "vpn"
  | None => false
  end.

Definition port_view_of (p : PortScanner.port_result)
  : Views.open_port_view :=
  {| Views.op_port := Some (PortScanner.port p);
     Views.op_category := PortScanner.category p |}.

Lemma scanned_In (probe : nat -> PortScanner.attempt) (targets : list Z)
    (r : PortScanner.port_result) :
  In r (scanned probe targets) <->
  exists i p, In (i, p) (combine (seq 0 (List.length targets)) targets) /\
              r = PortScanner.scan_port p (probe i).
Proof.
  unfold scanned. rewrite in_map_iff. split.
  - intros ([i p] & <- & Hin). exists i, p. split; [exact Hin | reflexivity].
  - intros (i & p & Hin & ->). exists (i, p). split; [reflexivity | exact Hin].
Qed.

(** The table of the scanner lists 443 and 8443 twice, as web ports and as
    VPN ports, and the merged table keeps the VPN entries.  So a scan of
    the common ports reports an open HTTPS port with the category [vpn],
    and the recommendation engine, given the report, tells that VPN ports
    are available exactly when port 443 or port 8443 is open. *)
Theorem open_https_is_reported_as_vpn (fmt : Q -> string)
    (probe : nat -> PortScanner.attempt) (host : string) :
  exists report,
    PortScans.scan_common probe host = Py.Ok report /\
    ((exists n, (0 < n)%nat /\
        In (vpn_ports_recommendation n)
          (RecommendationEngine.collected fmt None None None None
             (Views.of_scan_report report) None))
     <-> probe 9%nat = PortScanner.Connected
         \/ probe 22%nat = PortScanner.Connected).
Proof.
  unfold PortScans.scan_common.
  pose proof (scan_ports_spec probe host None "common") as Hrun.
  cbv zeta in Hrun. eexists. split; [exact Hrun|]. clear Hrun.
  unfold Views.of_scan_report. cbn [PortScanner.open_ports].
  unfold RecommendationEngine.collected, RecommendationEngine.when,
    RecommendationEngine._analyze_ports.
  cbn [Views.open_ports Py.get_or].
  fold port_view_of. fold is_vpn.
  set (L := filter (has_status "open")
              (scanned probe (target_ports None "common"))).
  set (vpn_ports := filter is_vpn (map port_view_of L)).
  match goal with
  | |- context [match ?risky with [] => [] | _ :: _ => ?a end] =>
      set (before := match risky with [] => [] | _ :: _ => a end)
  end.
  assert (Hbefore : forall n, ~ In (vpn_ports_recommendation n) before).
  { intros n. unfold before.
    match goal with
    | |- context [match ?risky with [] => _ | _ :: _ => _ end] =>
        destruct risky
    end; [intros []|].
    unfold RecommendationEngine.append. simpl. intros [H|[]].
    discriminate H. }
  assert (Hvpn : vpn_ports <> [] <->
                 probe 9%nat = PortScanner.Connected
                 \/ probe 22%nat = PortScanner.Connected).
  { split.
    - intros Hne. destruct vpn_ports as [|v vs] eqn:E; [contradiction|].
      assert (Hin : In v vpn_ports) by (rewrite E; left; reflexivity).
      unfold vpn_ports in Hin. apply filter_In in Hin.
      destruct Hin as [Hin Hv]. apply in_map_iff in Hin.
      destruct Hin as (r & <- & Hr). unfold L in Hr.
      apply filter_In in Hr. destruct Hr as [Hr Hopen].
      apply scanned_In in Hr. destruct Hr as (i & p & Hip & ->).
      unfold has_status in Hopen. apply status_open_iff in Hopen.
      unfold is_vpn, port_view_of in Hv. cbn [Views.op_category] in Hv.
      rewrite Hopen in Hv.
      unfold target_ports in Hip.
      cbn [String.eqb Ascii.eqb Bool.eqb PortTable.keys
           PortScanner.COMMON_PORTS map fst List.length seq combine] in Hip.
      simpl In in Hip.
      repeat (destruct Hip as [Hip|Hip];
              [injection Hip as <- <-;
               first [left; exact Hopen | right; exact Hopen
                     | discriminate Hv]|]).
      destruct Hip.
    - intros Hopen. unfold vpn_ports. 
      assert (H443 : probe 9%nat = PortScanner.Connected ->
                     In (port_view_of
                           (PortScanner.scan_port 443 PortScanner.Connected))
                       (map port_view_of L)).
      { intros H9. apply in_map. unfold L. apply filter_In. split.
        - apply scanned_In. exists 9%nat, 443%Z. split.
          + unfold target_ports.
            cbn [String.eqb Ascii.eqb Bool.eqb PortTable.keys
                 PortScanner.COMMON_PORTS map fst List.length seq combine].
            do 9 right. left. reflexivity.
          + rewrite H9. reflexivity.
        - reflexivity. }
      assert (H8443 : probe 22%nat = PortScanner.Connected ->
                      In (port_view_of
                            (PortScanner.scan_port 8443 PortScanner.Connected))
                        (map port_view_of L)).
      { intros H22. apply in_map. unfold L. apply filter_In. split.
        - apply scanned_In. exists 22%nat, 8443%Z. split.
          + unfold target_ports.
            cbn [String.eqb Ascii.eqb Bool.eqb PortTable.keys
                 PortScanner.COMMON_PORTS map fst List.length seq combine].
            do 22 right. left. reflexivity.
          + rewrite H22. reflexivity.
        - reflexivity. }
      intros Hnil.
      destruct Hopen as [H|H]; [apply H443 in H | apply H8443 in H];
        (assert (Hin : In _ (filter is_vpn (map port_view_of L)))
           by (apply filter_In; split; [exact H | reflexivity]));
        rewrite Hnil in Hin; destruct Hin. }
  rewrite <- Hvpn. split.
  - intros (n & _ & Hin) Hnil. rewrite Hnil in Hin.
    apply (Hbefore n Hin).
  - intros Hne. destruct vpn_ports as [|v vs]; [contradiction|].
    exists (List.length (v :: vs)). split; [simpl; lia|].
    unfold RecommendationEngine.append. apply in_or_app. right.
    left. reflexivity.
Qed.

(** ** Open services by category *)

Definition category_of (r : PortScanner.port_result) : string :=
  Py.get_or (PortScanner.category r) "unknown"%string.

Definition in_category (c : string) (r : PortScanner.port_result) : bool :=
  String.eqb (category_of r) c.

(** The group of a category, if the category has a member. *)
Definition members (c : string) (l : list PortScanner.port_result)
  : option (list PortScanner.port_result) :=
  match filter (in_category c) l with
  | [] => None
  | rs => Some rs
  end.

Lemma group_fold (l seen : list PortScanner.port_result)
    (d : Dict.t (list PortScanner.port_result)) :
  (forall c, Dict.get c d = members c seen) ->
  forall c,
    Dict.get c
      (fold_left
         (fun open_by_category port_result =>
            let category :=
              Py.get_or (PortScanner.category port_result) "unknown"%string in
            let open_by_category :=
              match Dict.get category open_by_category with
              | None => Dict.set category [] open_by_category
              | Some _ => open_by_category
              end in
            Dict.set category
              (Py.get_or (Dict.get category open_by_category) []
               ++ [port_result])
              open_by_category)
         l d)
    = members c (seen ++ l).
Proof.
  revert seen d. induction l as [|r rest IH]; intros seen d Hd c.
  - rewrite app_nil_r. apply Hd.
  - cbn [fold_left].
    replace (seen ++ r :: rest) with ((seen ++ [r]) ++ rest)
      by (rewrite <- app_assoc; reflexivity).
    apply IH. clear c. intros c. cbv zeta.
    fold (category_of r). set (c0 := category_of r).
    assert (Hc0 : Py.get_or
                    (Dict.get c0
                       match Dict.get c0 d with
                       | Some _ => d
                       | None => Dict.set c0 [] d
                       end) []
                  = filter (in_category c0) seen).
    { pose proof (Hd c0) as H0. unfold members in H0.
      destruct (Dict.get c0 d) as [rs|] eqn:E.
      - rewrite E. simpl.
        destruct (filter (in_category c0) seen); [discriminate H0|].
        injection H0 as ->. reflexivity.
      - rewrite get_set_same. simpl.
        destruct (filter (in_category c0) seen); [reflexivity|].
        discriminate H0. }
    rewrite Hc0. unfold members. rewrite filter_app. cbn [filter].
    destruct (String.eqb_spec c0 c) as [<-|Hne].
    + assert (Hself : in_category c0 r = true)
        by (unfold in_category, c0; apply String.eqb_refl).
      rewrite Hself, get_set_same.
      destruct (filter (in_category c0) seen); reflexivity.
    + assert (Hother : in_category c r = false)
        by (unfold in_category; fold c0; apply String.eqb_neq; exact Hne).
      rewrite Hother, app_nil_r.
      rewrite get_set_other by (intros Heq; apply Hne; symmetry; exact Heq).
      destruct (Dict.get c0 d) eqn:E.
      * apply Hd.
      * rewrite get_set_other
          by (intros Heq; apply Hne; symmetry; exact Heq).
        apply Hd.
Qed.

Lemma group_spec (l : list PortScanner.port_result) (c : string) :
  Dict.get c (PortScans.group l) = members c l.
Proof.
  unfold PortScans.group. apply (group_fold l [] []). reflexivity.
Qed.

Lemma port_table_get {V : Type} (p : Z) (d : PortTable.t V) :
  In p (PortTable.keys d) -> exists v, PortTable.get p d = Some v /\
                                       exists q, In (q, v) d.
Proof.
  induction d as [|[k v] rest IH]; simpl; [tauto|].
  intros [<-|Hin].
  - rewrite Z.eqb_refl. exists v. split; [reflexivity|].
    exists k. left. reflexivity.
  - destruct (p =? k)%Z.
    + exists v. split; [reflexivity|]. exists k. left. reflexivity.
    + destruct (IH Hin) as (w & Hw & q & Hq). exists w.
      split; [exact Hw|]. exists q. right. exact Hq.
Qed.

Lemma all_ports_categories :
  Forall (fun kv => PortScanner.info_category (snd kv) <> "unknown"%string)
    PortScanner.all_ports.
Proof.
  unfold PortScanner.all_ports.
  cbv [PortTable.merge PortScanner.COMMON_PORTS PortScanner.VPN_PORTS
       fold_left PortTable.set Z.eqb Pos.eqb].
  repeat (constructor; [discriminate|]). constructor.
Qed.

(** [get_open_services] scans the ports of the merged table and groups
    the open ones by category: the group of a category holds exactly the
    open ports of that category, in the order of the scan, and a category
    without an open port has no group.  Every open port has the category
    of its entry in the merged table, so no group is called [unknown],
    and an open port 443 is in the group [vpn], not in [web]. *)
Theorem open_services_are_grouped (probe : nat -> PortScanner.attempt)
    (host : string) :
  exists s,
    PortScans.get_open_services probe host = Py.Ok s /\
    PortScans.total_open s = List.length (PortScans.open_services s) /\
    (forall c, Dict.get c (PortScans.by_category s)
               = members c (PortScans.open_services s)) /\
    (forall r, In r (PortScans.open_services s) ->
       exists info,
         PortTable.get (PortScanner.port r) PortScanner.all_ports
         = Some info /\
         PortScanner.category r = Some (PortScanner.info_category info)) /\
    Dict.get "unknown" (PortScans.by_category s) = None /\
    (forall r, In r (PortScans.open_services s) ->
       PortScanner.port r = 443%Z ->
       Dict.get "web" (PortScans.by_category s)
       = members "web" (filter (fun r' => negb (PortScanner.port r' =? 443)%Z)
                          (PortScans.open_services s)) /\
       exists rs, Dict.get "vpn" (PortScans.by_category s) = Some rs /\
                  In r rs).
Proof.
  unfold PortScans.get_open_services.
  pose proof (scan_ports_spec probe host None "all") as Hrun.
  cbv zeta in Hrun. rewrite Hrun. clear Hrun. cbn [Py.bind].
  eexists. split; [reflexivity|].
  cbn [PortScans.total_open PortScans.open_services PortScans.by_category
       PortScanner.open_ports].
  set (L := filter (has_status "open")
              (scanned probe (target_ports None "all"))).
  assert (Hopen : forall r, In r L ->
            exists info,
              PortTable.get (PortScanner.port r) PortScanner.all_ports
              = Some info /\
              PortScanner.category r
              = Some (PortScanner.info_category info) /\
              PortScanner.info_category info <> "unknown"%string).
  { intros r Hr. unfold L in Hr. apply filter_In in Hr.
    destruct Hr as [Hr Hs]. apply scanned_In in Hr.
    destruct Hr as (i & p & Hip & ->).
    unfold has_status in Hs. apply status_open_iff in Hs. rewrite Hs.
    apply in_combine_r in Hip.
    change (target_ports None "all")
      with (PortTable.keys PortScanner.all_ports) in Hip.
    destruct (port_table_get p _ Hip) as (info & Hget & q & Hq).
    exists info. cbn [PortScanner.scan_port PortScanner.port
                      PortScanner.category].
    rewrite Hget. split; [reflexivity|]. split; [reflexivity|].
    pose proof all_ports_categories as Hall. rewrite Forall_forall in Hall.
    apply (Hall _ Hq). }
  split; [reflexivity|]. split; [apply group_spec|].
  split.
  { intros r Hr. destruct (Hopen r Hr) as (info & Hget & Hcat & _).
    exists info. split; assumption. }
  split.
  { rewrite group_spec. unfold members.
    rewrite filter_none; [reflexivity|].
    intros r Hr. destruct (Hopen r Hr) as (info & _ & Hcat & Hne).
    unfold in_category, category_of. rewrite Hcat. simpl.
    apply String.eqb_neq. exact Hne. }
  intros r Hr H443.
  destruct (Hopen r Hr) as (info & Hget & Hcat & _).
  rewrite H443 in Hget. vm_compute in Hget. injection Hget as <-.
  simpl in Hcat. split.
  - rewrite group_spec. unfold members.
    enough (Hf : filter (in_category "web") L
                 = filter (in_category "web")
                     (filter (fun r' => negb (PortScanner.port r' =? 443)%Z)
                        L)) by (rewrite <- Hf; reflexivity).
    clear -Hopen. induction L as [|x l IH]; [reflexivity|].
    cbn [filter].
    assert (IH' : filter (in_category "web") l
                  = filter (in_category "web")
                      (filter (fun r' => negb (PortScanner.port r' =? 443)%Z)
                         l)).
    { apply IH. intros y Hy. apply Hopen. right. exact Hy. }
    destruct (Z.eqb_spec (PortScanner.port x) 443) as [Hx|Hx].
    + destruct (Hopen x (or_introl eq_refl)) as (info & Hget & Hcat & _).
      rewrite Hx in Hget. vm_compute in Hget. injection Hget as <-.
      unfold in_category at 1, category_of. rewrite Hcat. simpl.
      exact IH'.
    + simpl. destruct (in_category "web" x); [f_equal|]; exact IH'.
  - rewrite group_spec. unfold members.
    assert (Hin : In r (filter (in_category "vpn") L)).
    { apply filter_In. split; [exact Hr|].
      unfold in_category, category_of. rewrite Hcat. reflexivity. }
    destruct (filter (in_category "vpn") L) as [|y ys]; [destruct Hin|].
    eexists. split; [reflexivity | exact Hin].
Qed.

(** * The protocol benchmark *)

Module ProtocolBenchmark.

(** What a GET of [test_http] or [test_https] comes to: a response with
    its status after [elapsed] milliseconds, or an exception (a timeout
    is one of them here). *)
Inductive fetched : Type :=
  | Responded (status : Z) (elapsed : Q)
  | Failed (e : Py.exn).

(** The dict of an HTTP or HTTPS test; only a response of [test_http] has
    the key [redirected]. *)
Record http_result : Type := {
  h_success : bool;
  h_protocol : string;
  h_response_time_ms : Q;
  h_status_code : Z;
  h_redirected : option bool;
  h_error : option string
}.

(** [ProtocolBenchmark.test_http]. *)
Definition test_http (o : fetched) : http_result :=
  match o with
  | Responded status elapsed =>
      {| h_success := true;
         h_protocol := "HTTP/1.1";
         h_response_time_ms := Py.round2 elapsed;
         h_status_code := status;
         h_redirected := Some (existsb (Z.eqb status) [301; 302; 307; 308]%Z);
         h_error := None |}
  | Failed e =>
      {| h_success := false;
         h_protocol := "HTTP/1.1";
         h_response_time_ms := 0;
         h_status_code := 0%Z;
         h_redirected := None;
         h_error := Some (Py.str_exn e) |}
  end.

(** [ProtocolBenchmark.test_https]. *)
Definition test_https (o : fetched) : http_result :=
  match o with
  | Responded status elapsed =>
      {| h_success := true;
         h_protocol := "HTTPS";
         h_response_time_ms := Py.round2 elapsed;
         h_status_code := status;
         h_redirected := None;
         h_error := None |}
  | Failed e =>
      {| h_success := false;
         h_protocol := "HTTPS";
         h_response_time_ms := 0;
         h_status_code := 0%Z;
         h_redirected := None;
         h_error := Some (Py.str_exn e) |}
  end.

(** What the handshake of [_sync_tls_test] comes to. *)
Inductive handshake : Type :=
  | Agreed (version : option string) (cipher : option (string * Z))
  | SSLError (msg : string)
  | Broken (e : Py.exn).

(** The dict of a TLS test; [t_response_time_ms] is there only after
    [test_tls_version] has put it in, [t_cipher_bits] only after a
    handshake. *)
Record tls_result : Type := {
  t_success : bool;
  t_tls_version : option string;
  t_cipher : option string;
  t_cipher_bits : option (option Z);
  t_error : option string;
  t_response_time_ms : option Q
}.

(** [ProtocolBenchmark._sync_tls_test]. *)
Definition _sync_tls_test (tls_version : string) (o : handshake)
  : tls_result :=
  match o with
  | Agreed version cipher =>
      {| t_success := true;
         t_tls_version := version;
         t_cipher := option_map fst cipher;
         t_cipher_bits := Some (option_map snd cipher);
         t_error := None;
         t_response_time_ms := None |}
  | SSLError msg =>
      {| t_success := false;
         t_tls_version := Some tls_version;
         t_cipher := None;
         t_cipher_bits := None;
         t_error := Some ("SSL Error: " ++ msg)%string;
         t_response_time_ms := None |}
  | Broken e =>
      {| t_success := false;
         t_tls_version := Some tls_version;
         t_cipher := None;
         t_cipher_bits := None;
         t_error := Some (Py.str_exn e);
         t_response_time_ms := None |}
  end.

(** [ProtocolBenchmark.test_tls_version]; [elapsed] is the time that the
    executor took, in milliseconds. *)
Definition test_tls_version (tls_version : string) (o : handshake)
    (elapsed : Q) : tls_result :=
  let result := _sync_tls_test tls_version o in
  if t_success result then
    {| t_success := t_success result;
       t_tls_version := t_tls_version result;
       t_cipher := t_cipher result;
       t_cipher_bits := t_cipher_bits result;
       t_error := t_error result;
       t_response_time_ms := Some (Py.round2 elapsed) |}
  else result.

Inductive connected : Type :=
  | Established (elapsed : Q)
  | TimedOut
  | Refused (e : Py.exn).

Record tcp_result : Type := {
  c_success : bool;
  c_host : string;
  c_port : Z;
  c_connection_time_ms : Q;
  c_error : option string
}.

(** [ProtocolBenchmark.test_tcp_connection]. *)
Definition test_tcp_connection (self_timeout : Q) (host : string) (port : Z)
    (o : connected) : tcp_result :=
  match o with
  | Established elapsed =>
      {| c_success := true; c_host := host; c_port := port;
         c_connection_time_ms := Py.round2 elapsed; c_error := None |}
  | TimedOut =>
      {| c_success := false; c_host := host; c_port := port;
         c_connection_time_ms := self_timeout * 1000;
         c_error := Some "Timeout"%string |}
  | Refused e =>
      {| c_success := false; c_host := host; c_port := port;
         c_connection_time_ms := 0; c_error := Some (Py.str_exn e) |}
  end.

(** What [_calculate_summary] reads of a test, whatever its kind:
    [success], [response_time_ms] and [connection_time_ms]. *)
Record timed : Type := {
  success : option bool;
  response_time_ms : option Q;
  connection_time_ms : option Q
}.

Definition of_http (r : string * http_result) : timed :=
  {| success := Some (h_success (snd r));
     response_time_ms := Some (h_response_time_ms (snd r));
     connection_time_ms := None |}.

Definition of_tls (r : string * tls_result) : timed :=
  {| success := Some (t_success (snd r));
     response_time_ms := t_response_time_ms (snd r);
     connection_time_ms := None |}.

Definition of_tcp (r : tcp_result) : timed :=
  {| success := Some (c_success r);
     response_time_ms := None;
     connection_time_ms := Some (c_connection_time_ms r) |}.

(** The entry of a protocol in the summary; the minimum and the maximum
    are there only when a test succeeded. *)
Record entry : Type := {
  avg_time_ms : Q;
  min_time_ms : option Q;
  max_time_ms : option Q;
  success_rate : Q;
  tests_passed : nat;
  tests_total : nat
}.

(** [[t for t in tests if t.get("success")]]. *)
Definition successful (tests : list timed) : list timed :=
  filter (fun t => Py.get_or (success t) false) tests.

(** [t.get("response_time_ms", t.get("connection_time_ms", 0))]. *)
Definition time_of (t : timed) : Q :=
  Py.get_or (response_time_ms t) (Py.get_or (connection_time_ms t) 0).

(** The body of the loop of [_calculate_summary] for a protocol with
    tests. *)
Definition summarize (tests : list timed) : Py.result entry :=
  let successful := successful tests in
  match map time_of successful with
  | x :: rest =>
      let times := x :: rest in
      rate <- Py.div (inject_Z (Z.of_nat (List.length successful)))
                (inject_Z (Z.of_nat (List.length tests))) ;;
      Py.Ok {| avg_time_ms := Py.round2 (Py.mean times);
               min_time_ms := Some (Py.round2 (Py.min_list x rest));
               max_time_ms := Some (Py.round2 (Py.max_list x rest));
               success_rate := Py.round2 (rate * 100);
               tests_passed := List.length successful;
               tests_total := List.length tests |}
  | [] =>
      Py.Ok {| avg_time_ms := 0;
               min_time_ms := None;
               max_time_ms := None;
               success_rate := 0;
               tests_passed := 0;
               tests_total := List.length tests |}
  end.

(** [ProtocolBenchmark._calculate_summary]: the lists of the results by
    protocol, in the order of the dict; the key [summary] and protocols
    without tests are passed over. *)
Definition _calculate_summary (results : Dict.t (list timed))
  : Py.result (Dict.t entry) :=
  fold_left
    (fun acc '(protocol, tests) =>
       summary <- acc ;;
       if String.eqb protocol "summary" || (List.length tests =? 0)%nat
       then Py.Ok summary
       else
         e <- summarize tests ;;
         Py.Ok (Dict.set protocol e summary))
    results (Py.Ok []).

(** What the five tests of a host come to. *)
Record host_outcome : Type := {
  http_get : fetched;
  https_get : fetched;
  tls12 : handshake;
  tls12_elapsed : Q;
  tls13 : handshake;
  tls13_elapsed : Q;
  tcp_connect : connected
}.

Record report : Type := {
  http : list (string * http_result);
  https : list (string * http_result);
  tls_1_2 : list (string * tls_result);
  tls_1_3 : list (string * tls_result);
  tcp : list tcp_result;
  summary : Dict.t entry
}.

Definition test_targets : list string :=
  ["www.google.com"; "www.cloudflare.com"; "www.github.com";
   "www.microsoft.com"]%string.

(** [targets or self.test_targets]. *)
Definition hosts_or_default (targets : option (list string)) : list string :=
  match targets with
  | None | Some [] => test_targets
  | Some l => l
  end.

(** [ProtocolBenchmark.benchmark]; [probes i] is what the tests of the
    host at position [i] come to.  A result with its host stands for the
    result dict after [result["host"] = host]. *)
Definition benchmark (self_timeout : Q) (probes : nat -> host_outcome)
    (targets : option (list string)) : Py.result report :=
  let hosts := hosts_or_default targets in
  let numbered := combine (seq 0 (List.length hosts)) hosts in
  let http :=
    map (fun '(i, host) => (host, test_http (http_get (probes i))))
      numbered in
  let https :=
    map (fun '(i, host) => (host, test_https (https_get (probes i))))
      numbered in
  let tls_1_2 :=
    map (fun '(i, host) =>
           (host, test_tls_version "TLS 1.2" (tls12 (probes i))
                    (tls12_elapsed (probes i)))) numbered in
  let tls_1_3 :=
    map (fun '(i, host) =>
           (host, test_tls_version "TLS 1.3" (tls13 (probes i))
                    (tls13_elapsed (probes i)))) numbered in
  let tcp :=
    map (fun '(i, host) =>
           test_tcp_connection self_timeout host 443
             (tcp_connect (probes i))) numbered in
  summary <- _calculate_summary
               [("http", map of_http http);
                ("https", map of_http https);
                ("tls_1_2", map of_tls tls_1_2);
                ("tls_1_3", map of_tls tls_1_3);
                ("tcp", map of_tcp tcp);
                ("summary", [])]%string ;;
  Py.Ok {| http := http; https := https; tls_1_2 := tls_1_2;
           tls_1_3 := tls_1_3; tcp := tcp; summary := summary |}.

(** The report, read as the [protocol_data] of the recommendation
    engine: the two entries of the summary that it looks up, and in them
    the keys [success_rate] and [avg_time_ms], which every entry has. *)
Definition as_protocol_data (r : report) : option Views.protocol_view :=
  Some {| Views.summary :=
            Some {| Views.tls_1_3 :=
                      option_map
                        (fun e => {| Views.tls_success_rate :=
                                       Some (success_rate e) |})
                        (Dict.get "tls_1_3" (summary r));
                    Views.https :=
                      option_map
                        (fun e => {| Views.https_avg_time_ms :=
                                       Some (avg_time_ms e) |})
                        (Dict.get "https" (summary r)) |} |}.

End ProtocolBenchmark.

(** ** The summary of the protocol benchmark *)

Section ProtocolSummary.

Import ProtocolBenchmark.

(** What an entry of the summary satisfies, for [n] tests. *)
Definition entry_ok (n : nat) (e : entry) : Prop :=
  tests_total e = n /\ (tests_passed e <= n)%nat /\
  0 <= success_rate e <= 100 /\
  match tests_passed e with
  | O =>
      avg_time_ms e = 0 /\ success_rate e = 0 /\
      min_time_ms e = None /\ max_time_ms e = None
  | S _ =>
      exists lo hi,
        min_time_ms e = Some lo /\ max_time_ms e = Some hi /\
        lo <= avg_time_ms e <= hi
  end.

Lemma summarize_spec (tests : list timed) :
  tests <> [] ->
  exists e,
    summarize tests = Py.Ok e /\
    tests_passed e = List.length (successful tests) /\
    success_rate e
    == Py.round2 (inject_Z (Z.of_nat (List.length (successful tests)))
                  / inject_Z (Z.of_nat (List.length tests)) * 100) /\
    entry_ok (List.length tests) e.
Proof.
  intros Hne. unfold summarize.
  assert (Hn : Z.of_nat (List.length tests) <> 0%Z)
    by (destruct tests; [contradiction | simpl; lia]).
  assert (Hle : (List.length (successful tests) <= List.length tests)%nat)
    by apply filter_length_le.
  destruct (successful tests) as [|t ts] eqn:E.
  - cbn [map]. eexists. split; [reflexivity|].
    cbn [tests_passed success_rate List.length].
    split; [reflexivity|]. split.
    + change (Z.of_nat 0) with 0%Z.
      rewrite round2_zero_rate by (apply inject_Z_nonzero, Hn). reflexivity.
    + unfold entry_ok. cbn. repeat split; try lia; lra.
  - cbn [map]. rewrite div_ok by (apply inject_Z_nonzero, Hn).
    cbn [Py.bind]. eexists. split; [reflexivity|].
    cbn [tests_passed success_rate]. split; [reflexivity|].
    split; [reflexivity|].
    unfold entry_ok.
    cbn [tests_total tests_passed success_rate avg_time_ms min_time_ms
         max_time_ms].
    split; [reflexivity|]. split; [exact Hle|]. split.
    + apply (rate_range _ (List.length tests)); [exact Hle| |exact Hn].
      left. split; [lia | reflexivity].
    + cbn [List.length]. eexists. eexists.
      split; [reflexivity|]. split; [reflexivity|].
      apply (latencies_in_order (time_of t) (map time_of ts)).
Qed.

(** The five lists of results of a benchmark, as the summary reads
    them. *)
Definition lists_of (r : report) : Dict.t (list timed) :=
  [("http", map of_http (http r));
   ("https", map of_http (https r));
   ("tls_1_2", map of_tls (tls_1_2 r));
   ("tls_1_3", map of_tls (tls_1_3 r));
   ("tcp", map of_tcp (tcp r))]%string.

Lemma hosts_nonempty (targets : option (list string)) :
  hosts_or_default targets <> [].
Proof. destruct targets as [[|h l]|]; discriminate. Qed.

(** What a benchmark returns: the summary has an entry for each of the
    five protocols, computed from the results of that protocol. *)
Lemma benchmark_spec (self_timeout : Q) (probes : nat -> host_outcome)
    (targets : option (list string)) :
  exists r,
    benchmark self_timeout probes targets = Py.Ok r /\
    Dict.keys (summary r) = Dict.keys (lists_of r) /\
    (forall protocol tests,
       In (protocol, tests) (lists_of r) ->
       List.length tests = List.length (hosts_or_default targets) /\
       exists e,
         Dict.get protocol (summary r) = Some e /\
         summarize tests = Py.Ok e) /\
    tls_1_3 r
    = map (fun '(i, host) =>
             (host, test_tls_version "TLS 1.3" (tls13 (probes i))
                      (tls13_elapsed (probes i))))
        (combine (seq 0 (List.length (hosts_or_default targets)))
           (hosts_or_default targets)).
Proof.
  unfold benchmark. cbv zeta.
  pose proof (hosts_nonempty targets) as Hne.
  set (hosts := hosts_or_default targets) in *.
  set (numbered := combine (seq 0 (List.length hosts)) hosts).
  assert (Hlen : List.length numbered = List.length hosts).
  { unfold numbered. rewrite length_combine, length_seq. lia. }
  assert (Hnum : forall {A B} (f : nat * string -> A) (g : A -> B),
             map g (map f numbered) <> []).
  { intros A B f g H. apply (f_equal (@List.length B)) in H.
    rewrite !length_map, Hlen in H. destruct hosts; [contradiction|].
    discriminate H. }
  set (l1 := map _ (map _ numbered)).
  set (l2 := map _ (map _ numbered)).
  set (l3 := map _ (map _ numbered)).
  set (l4 := map _ (map _ numbered)).
  set (l5 := map _ (map _ numbered)).
  destruct (summarize_spec l1 (Hnum _ _ _ _)) as (e1 & H1 & _).
  destruct (summarize_spec l2 (Hnum _ _ _ _)) as (e2 & H2 & _).
  destruct (summarize_spec l3 (Hnum _ _ _ _)) as (e3 & H3 & _).
  destruct (summarize_spec l4 (Hnum _ _ _ _)) as (e4 & H4 & _).
  destruct (summarize_spec l5 (Hnum _ _ _ _)) as (e5 & H5 & _).
  assert (Hz : forall l : list timed,
             List.length l = List.length hosts ->
             (List.length l =? 0)%nat = false).
  { intros l Hl. rewrite Hl. apply Nat.eqb_neq.
    destruct hosts; [contradiction | discriminate]. }
  assert (Hl1 : List.length l1 = List.length hosts)
    by (unfold l1; rewrite !length_map; exact Hlen).
  assert (Hl2 : List.length l2 = List.length hosts)
    by (unfold l2; rewrite !length_map; exact Hlen).
  assert (Hl3 : List.length l3 = List.length hosts)
    by (unfold l3; rewrite !length_map; exact Hlen).
  assert (Hl4 : List.length l4 = List.length hosts)
    by (unfold l4; rewrite !length_map; exact Hlen).
  assert (Hl5 : List.length l5 = List.length hosts)
    by (unfold l5; rewrite !length_map; exact Hlen).
  unfold _calculate_summary. cbn [fold_left Py.bind].
  cbn [String.eqb Ascii.eqb Bool.eqb orb].
  rewrite (Hz l1 Hl1), H1. cbn [Py.bind].
  rewrite (Hz l2 Hl2), H2. cbn [Py.bind].
  rewrite (Hz l3 Hl3), H3. cbn [Py.bind].
  rewrite (Hz l4 Hl4), H4. cbn [Py.bind].
  rewrite (Hz l5 Hl5), H5. cbn [Py.bind].
  eexists. split; [reflexivity|].
  cbn [summary lists_of http https tls_1_2 tls_1_3 tcp].
  fold l1 l2 l3 l4 l5.
  split; [reflexivity|]. split; [|reflexivity].
  intros protocol tests Hin. simpl in Hin.
  destruct Hin as [Hin|[Hin|[Hin|[Hin|[Hin|[]]]]]];
    injection Hin as <- <-; (split; [assumption|]);
    eexists; (split; [reflexivity | assumption]).
Qed.

(** The benchmark returns for every list of targets, an empty one
    included (it then takes the four hosts of the tester).  The summary
    has an entry for each of the five protocols; an entry counts the
    tests of the protocol and those that succeeded, its success rate lies
    between 0 and 100, and the minimum, the average and the maximum of
    the times are in this order.  When no test of a protocol succeeded,
    the average and the success rate are 0 and the entry has no minimum
    and no maximum. *)
Theorem protocol_summary_invariants (self_timeout : Q)
    (probes : nat -> host_outcome) (targets : option (list string)) :
  exists r,
    benchmark self_timeout probes targets = Py.Ok r /\
    Dict.keys (summary r)
    = ["http"; "https"; "tls_1_2"; "tls_1_3"; "tcp"]%string /\
    List.length (http r) = List.length (hosts_or_default targets) /\
    List.length (tcp r) = List.length (hosts_or_default targets) /\
    forall protocol e,
      Dict.get protocol (summary r) = Some e ->
      entry_ok (List.length (hosts_or_default targets)) e /\
      exists tests,
        In (protocol, tests) (lists_of r) /\
        tests_passed e = List.length (successful tests).
Proof.
  destruct (benchmark_spec self_timeout probes targets)
    as (r & Hrun & Hkeys & Hall & _).
  exists r. split; [exact Hrun|]. split; [exact Hkeys|].
  assert (Hlen : forall protocol tests,
             In (protocol, tests) (lists_of r) ->
             List.length tests = List.length (hosts_or_default targets)).
  { intros p t Hin. apply (Hall p t Hin). }
  split.
  { rewrite <- (Hlen "http"%string (map of_http (http r)))
      by (left; reflexivity).
    rewrite length_map. reflexivity. }
  split.
  { rewrite <- (Hlen "tcp"%string (map of_tcp (tcp r)))
      by (do 4 right; left; reflexivity).
    rewrite length_map. reflexivity. }
  intros protocol e Hget.
  assert (Hin : In protocol (Dict.keys (lists_of r))).
  { rewrite <- Hkeys. apply get_In in Hget.
    apply (in_map fst) in Hget. exact Hget. }
  unfold Dict.keys in Hin. apply in_map_iff in Hin.
  destruct Hin as ([p tests] & Hp & Hin). simpl in Hp. subst p.
  destruct (Hall protocol tests Hin) as (Hl & e' & Hget' & Hsum).
  rewrite Hget in Hget'. injection Hget' as <-.
  assert (Hne : tests <> []).
  { intros ->. pose proof (hosts_nonempty targets) as H.
    destruct (hosts_or_default targets); [contradiction | discriminate Hl]. }
  destruct (summarize_spec tests Hne) as (e'' & Hsum' & Hpassed & _ & Hok).
  rewrite Hsum in Hsum'. injection Hsum' as <-.
  rewrite Hl in Hok. split; [exact Hok|].
  exists tests. split; assumption.
Qed.

End ProtocolSummary.

(** ** TLS 1.3 in the benchmark and in the engine *)

(** The recommendation that [_analyze_protocol] appends when TLS 1.3
    succeeds in less than half of the tests. *)
Definition tls13_recommendation : RecommendationEngine.Recommendation :=
  {| RecommendationEngine.category := "security";
     RecommendationEngine.priority := "high";
     RecommendationEngine.title := "TLS 1.3 Not Available";
     RecommendationEngine.description :=
       "TLS 1.3 is not consistently available on tested endpoints.";
     RecommendationEngine.action :=
       "Ensure your servers support TLS 1.3 for better security and performance.";
     RecommendationEngine.impact :=
       "Improve security and reduce handshake latency" |}%string.

(** The hosts on which the TLS 1.3 handshake succeeded. *)
Definition tls13_agreed (probes : nat -> ProtocolBenchmark.host_outcome)
    (hosts : list string) : list (nat * string) :=
  filter (fun '(i, _) =>
            match ProtocolBenchmark.tls13 (probes i) with
            | ProtocolBenchmark.Agreed _ _ => true
            | _ => false
            end)
    (combine (seq 0 (List.length hosts)) hosts).

Lemma tls13_passed (probes : nat -> ProtocolBenchmark.host_outcome)
    (hosts : list string) :
  List.length
    (ProtocolBenchmark.successful
       (map ProtocolBenchmark.of_tls
          (map (fun '(i, host) =>
                  (host,
                   ProtocolBenchmark.test_tls_version "TLS 1.3"
                     (ProtocolBenchmark.tls13 (probes i))
                     (ProtocolBenchmark.tls13_elapsed (probes i))))
             (combine (seq 0 (List.length hosts)) hosts))))
  = List.length (tls13_agreed probes hosts).
Proof.
  unfold tls13_agreed, ProtocolBenchmark.successful.
  induction (combine (seq 0 (List.length hosts)) hosts) as [|[i h] l IH];
    [reflexivity|].
  cbn [map filter]. unfold ProtocolBenchmark.of_tls at 1.
  cbn [ProtocolBenchmark.success Py.get_or snd].
  unfold ProtocolBenchmark.test_tls_version at 1.
  destruct (ProtocolBenchmark.tls13 (probes i)); cbn [List.length];
    cbn -[filter] in *; rewrite <- IH; reflexivity.
Qed.

Lemma round2_50 : Py.round2 50 = 5000 # 100.
Proof. reflexivity. Qed.

(** The engine, given the report of a protocol benchmark, says that TLS
    1.3 is not available exactly when the success rate of the TLS 1.3
    tests in the summary is below 50.  It does so when no handshake
    succeeded, and it does not when the handshake succeeded on at least
    half of the hosts. *)
Theorem tls13_recommendation_by_success_rate (fmt : Q -> string)
    (self_timeout : Q) (probes : nat -> ProtocolBenchmark.host_outcome)
    (targets : option (list string)) :
  let hosts := ProtocolBenchmark.hosts_or_default targets in
  let passed := List.length (tls13_agreed probes hosts) in
  exists r e,
    ProtocolBenchmark.benchmark self_timeout probes targets = Py.Ok r /\
    Dict.get "tls_1_3" (ProtocolBenchmark.summary r) = Some e /\
    ProtocolBenchmark.tests_passed e = passed /\
    ProtocolBenchmark.tests_total e = List.length hosts /\
    let recs :=
      RecommendationEngine.collected fmt None None None
        (ProtocolBenchmark.as_protocol_data r) None None in
    (In tls13_recommendation recs
     <-> ProtocolBenchmark.success_rate e < 50) /\
    (passed = 0%nat -> In tls13_recommendation recs) /\
    ((List.length hosts <= 2 * passed)%nat ->
     ~ In tls13_recommendation recs).
Proof.
  intros hosts passed.
  destruct (benchmark_spec self_timeout probes targets)
    as (r & Hrun & _ & Hall & Htls).
  fold hosts in Hall, Htls.
  destruct (Hall "tls_1_3"%string
              (map ProtocolBenchmark.of_tls (ProtocolBenchmark.tls_1_3 r))
              ltac:(do 3 right; left; reflexivity))
    as (Hlen & e & Hget & Hsum).
  assert (Hne : map ProtocolBenchmark.of_tls (ProtocolBenchmark.tls_1_3 r)
                <> []).
  { intros H. rewrite H in Hlen.
    pose proof (hosts_nonempty targets) as Hh. fold hosts in Hh.
    destruct hosts; [contradiction | discriminate Hlen]. }
  destruct (summarize_spec _ Hne) as (e' & Hsum' & Hpassed & Hrate & Hok).
  rewrite Hsum in Hsum'. injection Hsum' as <-.
  assert (Hcount : List.length
                     (ProtocolBenchmark.successful
                        (map ProtocolBenchmark.of_tls
                           (ProtocolBenchmark.tls_1_3 r)))
                   = passed).
  { rewrite Htls. apply tls13_passed. }
  rewrite Hcount in Hpassed, Hrate. rewrite Hlen in Hok, Hrate.
  destruct Hok as (Htotal & Hle & Hrange & _).
  exists r, e. split; [exact Hrun|]. split; [exact Hget|].
  split; [exact Hpassed|]. split; [exact Htotal|].
  cbv zeta.
  assert (Hrecs : In tls13_recommendation
             (RecommendationEngine.collected fmt None None None
                (ProtocolBenchmark.as_protocol_data r) None None)
           <-> ProtocolBenchmark.success_rate e < 50).
  { unfold ProtocolBenchmark.as_protocol_data,
      RecommendationEngine.collected, RecommendationEngine.when,
      RecommendationEngine._analyze_protocol.
    rewrite Hget.
    cbn [Views.summary Views.tls_1_3 Views.https Views.tls_success_rate
         Py.get_or option_map].
    fold tls13_recommendation.
    set (tail_test := Py.Qltb 500 _).
    unfold RecommendationEngine.append.
    destruct (Py.Qltb (ProtocolBenchmark.success_rate e) 50) eqn:E.
    - apply Qltb_true in E. split; [intros _; exact E|]. intros _.
      destruct tail_test; [apply in_or_app; left|]; left; reflexivity.
    - apply Qltb_false in E. split; [|intros H; lra].
      destruct tail_test; simpl; [|tauto].
      intros [H|[]]. discriminate H. }
  split; [exact Hrecs|]. split.
  - intros H0. apply Hrecs. rewrite Hrate, H0.
    change (Z.of_nat 0) with 0%Z.
    rewrite round2_zero_rate; [reflexivity|].
    apply inject_Z_nonzero.
    pose proof (hosts_nonempty targets) as Hh. fold hosts in Hh.
    destruct hosts; [contradiction | simpl; lia].
  - intros Hhalf Hin. apply Hrecs in Hin. rewrite Hrate in Hin.
    assert (Hpos : 0 < inject_Z (Z.of_nat (List.length hosts))).
    { change 0 with (inject_Z 0). rewrite <- Zlt_Qlt.
      pose proof (hosts_nonempty targets) as Hh. fold hosts in Hh.
      destruct hosts; [contradiction | simpl; lia]. }
    assert (Hq : 1 # 2 <= inject_Z (Z.of_nat passed)
                          / inject_Z (Z.of_nat (List.length hosts))).
    { apply Qle_shift_div_l; [exact Hpos|].
      assert (H2 : inject_Z (Z.of_nat (List.length hosts))
                   <= inject_Z (2 * Z.of_nat passed)).
      { rewrite <- Zle_Qle. lia. }
      rewrite inject_Z_mult in H2. change (inject_Z 2) with 2 in H2. lra. }
    pose proof (round2_mono 50
                  (inject_Z (Z.of_nat passed)
                   / inject_Z (Z.of_nat (List.length hosts)) * 100)
                  ltac:(lra)) as Hm.
    rewrite round2_50 in Hm.
    assert (H50 : (5000 # 100) == 50) by reflexivity.
    lra.
Qed.

(** * Quick wins *)

Module QuickWins.

Import RecommendationEngine.

(** [r.priority in ["high", "medium"] and r.category in ["dns", "cdn"]]. *)
Definition quick (r : Recommendation) : bool :=
  existsb (String.eqb (priority r)) ["high"; "medium"]%string
  && existsb (String.eqb (category r)) ["dns"; "cdn"]%string.

(** [RecommendationEngine.get_quick_wins], on the recommendations that the
    last call of [analyze] has left in [self.recommendations]. *)
Definition get_quick_wins (recommendations : list Recommendation)
  : list (Dict.t string) :=
  let quick_wins := filter quick recommendations in
  map _to_dict (firstn 5 quick_wins).

End QuickWins.

Section QuickWinFacts.

Import RecommendationEngine.

Variable fmt : Q -> string.

Ltac appended :=
  unfold append;
  repeat match goal with
         | |- context [if ?c then _ else _] => destruct c
         | |- context [match ?x with _ => _ end] => destruct x
         end;
  cbn [app]; rewrite ?app_nil_r, <- ?app_assoc; reflexivity.

(** Every rule only appends to the list. *)
Lemma analyze_network_appends data recs :
  _analyze_network fmt data recs = recs ++ _analyze_network fmt data [].
Proof. unfold _analyze_network. appended. Qed.

Lemma first_private_appends servers recs :
  first_private servers recs = recs ++ first_private servers [].
Proof.
  induction servers as [|[name data] rest IH]; simpl.
  - rewrite app_nil_r. reflexivity.
  - destruct (Views.sv_privacy data) as [p|]; [|exact IH].
    destruct (String.eqb p "high"); [reflexivity | exact IH].
Qed.

Lemma analyze_dns_appends data recs :
  _analyze_dns fmt data recs = recs ++ _analyze_dns fmt data [].
Proof.
  unfold _analyze_dns. cbv zeta.
  rewrite first_private_appends.
  rewrite (first_private_appends _ (match Views.best_server data with
                                    | Py.Filled _ => _
                                    | _ => []
                                    end)).
  rewrite app_assoc. f_equal. appended.
Qed.

Lemma analyze_cdn_appends data recs :
  _analyze_cdn fmt data recs = recs ++ _analyze_cdn fmt data [].
Proof. unfold _analyze_cdn. appended. Qed.

Lemma analyze_protocol_appends data recs :
  _analyze_protocol fmt data recs = recs ++ _analyze_protocol fmt data [].
Proof. unfold _analyze_protocol. cbv zeta. appended. Qed.

Lemma analyze_ports_appends data recs :
  _analyze_ports data recs = recs ++ _analyze_ports data [].
Proof.
  unfold _analyze_ports. cbv zeta. unfold append.
  destruct (filter _ (Py.get_or (Views.open_ports data) []));
    destruct (filter _ (Py.get_or (Views.open_ports data) []));
    cbn [app]; rewrite ?app_nil_r, <- ?app_assoc; reflexivity.
Qed.

Lemma analyze_ping_appends data recs :
  _analyze_ping fmt data recs = recs ++ _analyze_ping fmt data [].
Proof. unfold _analyze_ping. appended. Qed.

Lemma when_appends {A} (data : option A)
    (analyze_x : A -> list Recommendation -> list Recommendation) recs :
  (forall d l, analyze_x d l = l ++ analyze_x d []) ->
  when data analyze_x recs = recs ++ when data analyze_x [].
Proof.
  intros H. unfold when. destruct data; [apply H|].
  rewrite app_nil_r. reflexivity.
Qed.

(** The recommendations of a run, domain by domain. *)
Lemma collected_by_domain network_data dns_data cdn_data protocol_data
    port_data ping_data :
  collected fmt network_data dns_data cdn_data protocol_data port_data
    ping_data
  = when network_data (_analyze_network fmt) []
    ++ when dns_data (_analyze_dns fmt) []
    ++ when cdn_data (_analyze_cdn fmt) []
    ++ when protocol_data (_analyze_protocol fmt) []
    ++ when port_data _analyze_ports []
    ++ when ping_data (_analyze_ping fmt) [].
Proof.
  unfold collected. cbv zeta.
  rewrite (when_appends ping_data) by apply analyze_ping_appends.
  rewrite (when_appends port_data) by apply analyze_ports_appends.
  rewrite (when_appends protocol_data) by apply analyze_protocol_appends.
  rewrite (when_appends cdn_data) by apply analyze_cdn_appends.
  rewrite (when_appends dns_data) by apply analyze_dns_appends.
  rewrite <- !app_assoc. reflexivity.
Qed.

Lemma first_private_not_quick servers :
  filter QuickWins.quick (first_private servers []) = [].
Proof.
  induction servers as [|[name data] rest IH]; simpl; [reflexivity|].
  destruct (Views.sv_privacy data) as [p|]; [|exact IH].
  destruct (String.eqb p "high"); [reflexivity | exact IH].
Qed.

Ltac no_quick :=
  unfold when;
  match goal with
  | |- context [match ?data with Some _ => _ | None => _ end] =>
      destruct data; [|reflexivity]
  end.

(** The quick wins after a run of [analyze]: there are at most two of
    them, the recommendation about slow DNS resolution and the one about
    a possible CDN optimization, in this order; the cut after five
    entries never removes anything. *)
Theorem quick_wins_at_most_two network_data dns_data cdn_data protocol_data
    port_data ping_data :
  let recs :=
    collected fmt network_data dns_data cdn_data protocol_data port_data
      ping_data in
  QuickWins.get_quick_wins recs = map _to_dict (filter QuickWins.quick recs) /\
  (List.length (QuickWins.get_quick_wins recs) <= 2)%nat /\
  filter QuickWins.quick recs
  = filter (fun r => String.eqb (title r) "Slow DNS Resolution") recs
    ++ filter (fun r => String.eqb (title r) "CDN Optimization Possible")
         recs.
Proof.
  intros recs.
  assert (Hnet : forall (P : Recommendation -> bool),
             (P = QuickWins.quick
              \/ P = (fun r => String.eqb (title r) "Slow DNS Resolution")
              \/ P = (fun r => String.eqb (title r)
                                 "CDN Optimization Possible")) ->
             filter P (when network_data (_analyze_network fmt) []) = []
             /\ filter P (when protocol_data (_analyze_protocol fmt) []) = []
             /\ filter P (when port_data _analyze_ports []) = []
             /\ filter P (when ping_data (_analyze_ping fmt) []) = []).
  { intros P HP. repeat split.
    - no_quick. unfold _analyze_network, append. cbv zeta.
      destruct HP as [ -> | [ -> | -> ] ];
        repeat match goal with
               | |- context [if ?c then _ else _] => destruct c
               end; reflexivity.
    - no_quick. unfold _analyze_protocol, append. cbv zeta.
      destruct HP as [ -> | [ -> | -> ] ];
        repeat match goal with
               | |- context [if ?c then _ else _] => destruct c
               end; reflexivity.
    - no_quick. unfold _analyze_ports, append. cbv zeta.
      destruct HP as [ -> | [ -> | -> ] ];
        destruct (filter _ (Py.get_or (Views.open_ports p) []));
        destruct (filter _ (Py.get_or (Views.open_ports p) []));
        reflexivity.
    - no_quick. unfold _analyze_ping, append.
      destruct HP as [ -> | [ -> | -> ] ];
        destruct (Views.fastest_region p); reflexivity. }
  assert (Hdns :
    exists l, (l = [] \/ exists r, l = [r]) /\
      filter QuickWins.quick (when dns_data (_analyze_dns fmt) []) = l /\
      filter (fun r => String.eqb (title r) "Slow DNS Resolution")
        (when dns_data (_analyze_dns fmt) []) = l /\
      filter (fun r => String.eqb (title r) "CDN Optimization Possible")
        (when dns_data (_analyze_dns fmt) []) = []).
  { unfold when. destruct dns_data as [data|];
      [|exists []; repeat split; left; reflexivity].
    unfold _analyze_dns. cbv zeta.
    rewrite first_private_appends, !filter_app, first_private_not_quick.
    assert (Hp : forall t,
               (forall name, ("Consider " ++ name ++ " for Privacy")%string
                             <> t) ->
               filter (fun r => String.eqb (title r) t)
                 (first_private (Py.get_or (Views.servers data) []) []) = []).
    { intros t Ht.
      induction (Py.get_or (Views.servers data) []) as [|[name d] rest IH];
        cbn [first_private]; [reflexivity|].
      destruct (Views.sv_privacy d) as [p|]; [|exact IH].
      destruct (String.eqb p "high"); [|exact IH].
      unfold append. cbn [app filter title].
      destruct (String.eqb_spec ("Consider " ++ name ++ " for Privacy") t)
        as [Heq|_]; [|reflexivity].
      exfalso. apply (Ht name). exact Heq. }
    rewrite !Hp by (intros name H; discriminate H).
    rewrite !app_nil_r. cbn [app filter].
    destruct (Views.best_server data) as [| | |best];
      try (exists []; repeat split; left; reflexivity).
    unfold append. cbn [app].
    destruct (Py.Qltb 50 _);
      [eexists; split; [right; eexists; reflexivity|]; repeat split
      |exists []; repeat split; left; reflexivity]. }
  assert (Hcdn :
    exists l, (l = [] \/ exists r, l = [r]) /\
      filter QuickWins.quick (when cdn_data (_analyze_cdn fmt) []) = l /\
      filter (fun r => String.eqb (title r) "CDN Optimization Possible")
        (when cdn_data (_analyze_cdn fmt) []) = l /\
      filter (fun r => String.eqb (title r) "Slow DNS Resolution")
        (when cdn_data (_analyze_cdn fmt) []) = []).
  { unfold when. destruct cdn_data as [data|];
      [|exists []; repeat split; left; reflexivity].
    unfold _analyze_cdn, append.
    destruct (Views.best_cdn data) as [| | |best];
      try (exists []; repeat split; left; reflexivity).
    cbn [app].
    destruct (Py.Qltb _ 100);
      [exists []; repeat split; left; reflexivity
      |eexists; split; [right; eexists; reflexivity|]; repeat split]. }
  destruct (Hnet QuickWins.quick (or_introl eq_refl)) as (Q1 & Q2 & Q3 & Q4).
  destruct (Hnet _ (or_intror (or_introl eq_refl))) as (D1 & D2 & D3 & D4).
  destruct (Hnet _ (or_intror (or_intror eq_refl))) as (C1 & C2 & C3 & C4).
  destruct Hdns as (ld & Hld & Dq & Dd & Dc).
  destruct Hcdn as (lc & Hlc & Cq & Cc & Cd).
  assert (Hquick : filter QuickWins.quick recs = ld ++ lc).
  { unfold recs. rewrite collected_by_domain, !filter_app.
    rewrite Q1, Q2, Q3, Q4, Dq, Cq. rewrite !app_nil_r. reflexivity. }
  assert (Hlen : (List.length (ld ++ lc) <= 2)%nat).
  { rewrite length_app.
    destruct Hld as [->|[r ->]], Hlc as [->|[r' ->]]; simpl; lia. }
  split; [|split].
  - unfold QuickWins.get_quick_wins. cbv zeta. rewrite Hquick.
    rewrite firstn_all2 by lia. reflexivity.
  - unfold QuickWins.get_quick_wins. cbv zeta. rewrite Hquick.
    rewrite length_map, length_firstn. lia.
  - rewrite Hquick. unfold recs. rewrite collected_by_domain, !filter_app.
    rewrite D1, D2, D3, D4, Dd, Cd, C1, C2, C3, C4, Dc, Cc.
    rewrite !app_nil_r. reflexivity.
Qed.

End QuickWinFacts.

(** * The benchmark reports in the recommendation engine *)

Module ReportViews.

(** The report of [DNSAnalyzer.benchmark], read as the [dns_data] of the
    engine: [best_server] is [{"name": best, **entry}], and every entry
    has the keys [ip] and [avg_response_time]; [privacy] and [features]
    are there for the servers of the catalog. *)
Definition as_dns_data (r : DNSAnalyzer.report) : option Views.dns_view :=
  Some {| Views.best_server :=
            match DNSAnalyzer.best_server r with
            | None => Py.NoneValue
            | Some (name, Some entry) =>
                Py.Filled
                  {| Views.bs_avg_response_time :=
                       Some (DNSAnalyzer.avg_response_time entry);
                     Views.bs_name := Some name;
                     Views.bs_ip := Some (DNSAnalyzer.ip entry);
                     Views.bs_features := DNSAnalyzer.features entry |}
            | Some (name, None) =>
                Py.Filled
                  {| Views.bs_avg_response_time := None;
                     Views.bs_name := Some name;
                     Views.bs_ip := None;
                     Views.bs_features := None |}
            end;
          Views.servers :=
            Some (map (fun '(name, entry) =>
                         (name,
                          {| Views.sv_privacy := DNSAnalyzer.privacy entry;
                             Views.sv_ip := Some (DNSAnalyzer.ip entry) |}))
                    (DNSAnalyzer.servers r)) |}.

(** The report of [CDNTester.benchmark], read as the [cdn_data] of the
    engine. *)
Definition as_cdn_data (r : CDNTester.report) : option Views.cdn_view :=
  Some {| Views.best_cdn :=
            match CDNTester.best_cdn r with
            | None => Py.NoneValue
            | Some (name, Some entry) =>
                Py.Filled
                  {| Views.bc_avg_response_time :=
                       Some (CDNTester.avg_response_time entry);
                     Views.bc_name := Some name |}
            | Some (name, None) =>
                Py.Filled
                  {| Views.bc_avg_response_time := None;
                     Views.bc_name := Some name |}
            end |}.

End ReportViews.

(** ** Providers that cannot be reached *)

(** The recommendation that [_analyze_cdn] appends for a best provider
    below 100 ms. *)
Definition optimal_cdn_recommendation (fmt : Q -> string) (name : string)
    (time_ms : Q) : RecommendationEngine.Recommendation :=
  {| RecommendationEngine.category := "cdn";
     RecommendationEngine.priority := "low";
     RecommendationEngine.title := "Optimal CDN Performance";
     RecommendationEngine.description :=
       name ++ " is performing excellently at " ++ fmt time_ms ++ "ms.";
     RecommendationEngine.action :=
       "Continue using current CDN configuration.";
     RecommendationEngine.impact := "Already optimized" |}%string.

Lemma ordered_when_all_before {A : Type} (before : A -> A -> bool)
    (l : list A) :
  (forall x y, In x l -> In y l -> before x y = true) ->
  ordered before l.
Proof.
  induction l as [|x rest IH]; intros H; [exact I|]. split.
  - intros y Hy. apply H; [left; reflexivity | right; exact Hy].
  - apply IH. intros a b Ha Hb. apply H; right; assumption.
Qed.

Section UnreachableProviders.

Import CDNTester.

Variables (self_timeout : Q) (probe : oracle) (iterations : Z).

Hypothesis iterations_nonzero : iterations <> 0%Z.
Hypothesis nothing_counts :
  forall cdn_name i, counted (test_cdn self_timeout (probe cdn_name i)) = false.

Lemma failed_provider (cdn_name : string) (cdn_info : provider_info)
    (entry : cdn_results) :
  benchmark_provider self_timeout probe cdn_name cdn_info iterations
  = Py.Ok entry ->
  score entry = 0%Z /\ avg_response_time entry = 0 /\
  success_rate entry == 0.
Proof.
  intros Hrun.
  destruct (benchmark_provider_spec self_timeout probe cdn_name cdn_info
              iterations entry Hrun) as (_ & Hrate & Hscore & Hagg).
  cbv zeta in Hagg, Hrate.
  assert (Hnone : filter counted (fetches self_timeout probe cdn_name
                                    iterations) = []).
  { apply filter_none. intros r Hr. unfold fetches in Hr.
    apply in_map_iff in Hr. destruct Hr as (i & <- & _).
    apply nothing_counts. }
  unfold counted_times in Hagg. rewrite Hnone in Hagg, Hrate.
  cbn [map List.length] in Hagg, Hrate.
  destruct Hagg as (Havg & _ & _).
  change (Z.of_nat 0) with 0%Z in Hrate.
  rewrite round2_zero_rate in Hrate
    by (apply inject_Z_nonzero, iterations_nonzero).
  rewrite Hscore, Havg, Hrate. repeat split.
Qed.

(** When no request to any provider counts as a success, the CDN
    benchmark still names a best provider: all scores are 0, the order of
    the catalog is kept, and the best one is Cloudflare, the first of the
    catalog, with an average response time of 0.  The recommendation
    engine, given this report, reads the 0 as a time below 100 ms and
    tells that Cloudflare performs excellently. *)
Theorem failing_cdns_look_optimal (fmt : Q -> string) :
  exists report entry,
    benchmark self_timeout probe iterations = Py.Ok report /\
    Dict.keys (providers report) = Dict.keys CDN_PROVIDERS /\
    Forall (fun kv => score (snd kv) = 0%Z) (providers report) /\
    best_cdn report = Some ("Cloudflare"%string, Some entry) /\
    avg_response_time entry = 0 /\
    RecommendationEngine.collected fmt None None
      (ReportViews.as_cdn_data report) None None None
    = [optimal_cdn_recommendation fmt "Cloudflare" 0].
Proof.
  destruct (providers_fold self_timeout probe iterations iterations_nonzero
              CDN_PROVIDERS []) as (results & Hfold & _).
  pose proof (run_providers_keys self_timeout probe iterations CDN_PROVIDERS
                [] results CDN_PROVIDERS_NoDup Hfold) as Hkeys.
  pose proof (run_providers_Forall self_timeout probe
                (fun kv => score (snd kv) = 0%Z /\
                           avg_response_time (snd kv) = 0)
                iterations CDN_PROVIDERS
                ltac:(intros n a e _ Hb; simpl;
                      destruct (failed_provider n a e Hb) as (H1 & H2 & _);
                      split; assumption)
                [] results (Forall_nil _) Hfold) as Hall.
  unfold benchmark.
  match goal with
  | |- context [run_providers ?a ?b ?c ?d ?e] =>
      replace (run_providers a b c d e) with (Py.Ok results)
        by (symmetry; exact Hfold)
  end.
  cbn [Py.bind].
  assert (Hord : ordered by_score results).
  { apply ordered_when_all_before. intros x y Hx Hy.
    rewrite Forall_forall in Hall.
    destruct (Hall x Hx) as [Sx _]. destruct (Hall y Hy) as [Sy _].
    unfold by_score. rewrite Sx, Sy. reflexivity. }
  rewrite (sorted_of_ordered by_score results Hord).
  simpl app in Hkeys.
  destruct results as [|[name entry] rest]; [discriminate Hkeys|].
  assert (Hname : name = "Cloudflare"%string)
    by (injection Hkeys as Hk _; exact Hk).
  subst name.
  pose proof (Forall_inv Hall) as [_ Havg]. simpl in Havg.
  eexists. exists entry. split; [reflexivity|].
  cbn [providers best_cdn Dict.keys map fst Dict.get].
  cbn [String.eqb Ascii.eqb Bool.eqb].
  split; [exact Hkeys|]. split.
  { eapply Forall_impl; [|exact Hall]. intros kv [H _]. exact H. }
  split; [reflexivity|]. split; [exact Havg|].
  unfold ReportViews.as_cdn_data. cbn [best_cdn].
  unfold RecommendationEngine.collected, RecommendationEngine.when,
    RecommendationEngine._analyze_cdn, RecommendationEngine.append,
    optimal_cdn_recommendation.
  cbn [Views.best_cdn Views.bc_avg_response_time Views.bc_name Py.get_or app].
  rewrite Havg. reflexivity.
Qed.

End UnreachableProviders.

Lemma failing_cdns_look_optimal_witness :
  exists report,
    CDNTester.benchmark 10 (fun _ _ => CDNTester.TimedOut) 3 = Py.Ok report /\
    RecommendationEngine.collected (fun _ => "0"%string) None None
      (ReportViews.as_cdn_data report) None None None
    = [optimal_cdn_recommendation (fun _ => "0"%string) "Cloudflare" 0].
Proof.
  destruct (failing_cdns_look_optimal 10 (fun _ _ => CDNTester.TimedOut) 3
              ltac:(discriminate) ltac:(reflexivity) (fun _ => "0"%string))
    as (report & entry & Hrun & _ & _ & _ & _ & Hrec).
  exists report. split; [exact Hrun | exact Hrec].
Defined.

(** ** DNS servers that cannot be reached *)

(** The recommendation that [_analyze_dns] appends for the first server
    of high privacy. *)
Definition privacy_recommendation (name ip : string)
  : RecommendationEngine.Recommendation :=
  {| RecommendationEngine.category := "privacy";
     RecommendationEngine.priority := "low";
     RecommendationEngine.title := "Consider " ++ name ++ " for Privacy";
     RecommendationEngine.description :=
       name ++ " offers high privacy protection.";
     RecommendationEngine.action := "Use " ++ ip ++ " as your DNS server.";
     RecommendationEngine.impact :=
       "Improve privacy and reduce tracking" |}%string.

Lemma set_keeps_head {V : Type} (k k0 : string) (v v0 : V)
    (rest : Dict.t V) :
  k <> k0 ->
  Dict.set k v ((k0, v0) :: rest) = (k0, v0) :: Dict.set k v rest.
Proof.
  intros H. simpl. apply String.eqb_neq in H. rewrite H. reflexivity.
Qed.

Lemma servers_to_test_head (custom_servers : option (list string)) :
  exists rest,
    DNSAnalyzer.servers_to_test custom_servers
    = ("Cloudflare"%string, "1.1.1.1"%string) :: rest.
Proof.
  unfold DNSAnalyzer.servers_to_test. cbv zeta.
  destruct custom_servers as [[|c l]|];
    try (eexists; reflexivity).
  apply fold_left_invariant
    with (P := fun d : Dict.t string =>
                 exists rest,
                   d = ("Cloudflare"%string, "1.1.1.1"%string) :: rest).
  - intros acc [i server] [rest ->].
    rewrite set_keeps_head by discriminate. eexists. reflexivity.
  - eexists. reflexivity.
Qed.

Section UnreachableServers.

Import DNSAnalyzer.

Variables (probe : oracle) (iterations : Z).

Hypothesis iterations_nonzero : iterations <> 0%Z.
Hypothesis nothing_resolves :
  forall server_name d i,
    success (test_dns_server (probe server_name d i) 5) = false.

Lemma failed_server (server_name server_ip : string)
    (domains : list string) (entry : server_results) :
  benchmark_server probe server_name server_ip domains iterations
  = Py.Ok entry ->
  reliability_score entry = 0%Z /\ avg_response_time entry = 0 /\
  ip entry = server_ip /\
  privacy entry = option_map info_privacy (Dict.get server_name DNS_SERVERS).
Proof.
  unfold benchmark_server, summarize.
  destruct (Z.eqb_spec (Z.of_nat (List.length domains) * iterations) 0)
    as [|Hnz]; [discriminate|].
  destruct (sample_server_all_fail probe server_name domains iterations
              (nothing_resolves server_name)) as (H1 & H2 & H3 & H4).
  cbv zeta in H1, H2, H3, H4. rewrite H1, H2.
  intros [= <-].
  cbn [reliability_score avg_response_time ip privacy].
  split; [|repeat split].
  apply dns_score_zero. change (Z.of_nat 0) with 0%Z.
  rewrite round2_zero_rate by (apply inject_Z_nonzero, Hnz). reflexivity.
Qed.

(** When no probe of any server succeeds, the DNS benchmark still names a
    best server: all scores are 0, the order of the servers is kept, and
    the best one is Cloudflare, the first of the catalog, with an average
    response time of 0.  The recommendation engine, given this report
    alone, finds nothing slow: its only recommendation is the low-priority
    one to consider Cloudflare for privacy, and its summary says that the
    network is performing well. *)
Theorem failing_dns_servers_look_fine (fmt : Q -> string)
    (custom_servers test_domains : option (list string)) :
  exists report entry,
    benchmark probe custom_servers test_domains iterations = Py.Ok report /\
    Dict.keys (servers report)
    = Dict.keys (servers_to_test custom_servers) /\
    Forall (fun kv => reliability_score (snd kv) = 0%Z) (servers report) /\
    best_server report = Some ("Cloudflare"%string, Some entry) /\
    avg_response_time entry = 0 /\
    let a :=
      RecommendationEngine.analyze fmt None (ReportViews.as_dns_data report)
        None None None None in
    RecommendationEngine.collected fmt None (ReportViews.as_dns_data report)
      None None None None
    = [privacy_recommendation "Cloudflare" "1.1.1.1"] /\
    RecommendationEngine.total_recommendations a = 1%nat /\
    RecommendationEngine.high_priority a = 0%nat /\
    RecommendationEngine.summary_text a
    = "Found 1 recommendations. Your network is performing well with room for optimization."%string.
Proof.
  set (domains := domains_or_default test_domains).
  assert (Hd : domains <> []).
  { unfold domains. destruct test_domains as [[|d l]|]; discriminate. }
  destruct (results_fold probe domains iterations Hd iterations_nonzero
              (servers_to_test custom_servers) [])
    as (results & Hfold & _ & _ & Hin).
  pose proof (run_servers_keys probe domains iterations
                (servers_to_test custom_servers) [] results
                (servers_to_test_NoDup custom_servers) Hfold) as Hkeys.
  pose proof (run_servers_Forall probe
                (fun e => reliability_score e = 0%Z /\
                          avg_response_time e = 0)
                domains iterations
                ltac:(intros n a e Hb;
                      destruct (failed_server n a domains e Hb)
                        as (H1 & H2 & _); split; assumption)
                (servers_to_test custom_servers) [] results
                (Forall_nil _) Hfold) as Hall.
  destruct (servers_to_test_head custom_servers) as [others Hhead].
  destruct (Hin "Cloudflare"%string "1.1.1.1"%string
              (servers_to_test_NoDup custom_servers)
              ltac:(rewrite Hhead; left; reflexivity))
    as (entry & Hentry & Hget).
  destruct (failed_server _ _ _ _ Hentry) as (_ & Havg & Hip & Hprivacy).
  unfold benchmark. cbv zeta. fold domains.
  match goal with
  | |- context [run_servers ?a ?b ?c ?d ?e] =>
      replace (run_servers a b c d e) with (Py.Ok results)
        by (symmetry; exact Hfold)
  end.
  cbn [Py.bind].
  assert (Hord : ordered by_reliability results).
  { apply ordered_when_all_before. intros x y Hx Hy.
    rewrite Forall_forall in Hall.
    destruct (Hall x Hx) as [Sx _]. destruct (Hall y Hy) as [Sy _].
    unfold by_reliability. rewrite Sx, Sy. reflexivity. }
  rewrite (sorted_of_ordered by_reliability results Hord).
  simpl app in Hkeys. rewrite Hhead in Hkeys.
  destruct results as [|[name e0] rest]; [discriminate Hkeys|].
  assert (Hname : name = "Cloudflare"%string)
    by (injection Hkeys as Hk _; exact Hk).
  subst name. simpl in Hget. injection Hget as ->.
  eexists. exists entry. split; [reflexivity|].
  cbn [servers best_server Dict.keys map fst Dict.get].
  cbn [String.eqb Ascii.eqb Bool.eqb].
  split; [rewrite Hhead; exact Hkeys|]. split.
  { eapply Forall_impl; [|exact Hall]. intros kv [H _]. exact H. }
  split; [reflexivity|]. split; [exact Havg|].
  cbv zeta.
  assert (Hrecs :
    RecommendationEngine.collected fmt None
      (ReportViews.as_dns_data
         {| servers := ("Cloudflare"%string, entry) :: rest;
            best_server := Some ("Cloudflare"%string, Some entry);
            total_tested := List.length (("Cloudflare"%string, entry) :: rest);
            DNSAnalyzer.test_domains := domains;
            DNSAnalyzer.iterations := iterations |})
      None None None None
    = [privacy_recommendation "Cloudflare" "1.1.1.1"]).
  { unfold ReportViews.as_dns_data. cbn [best_server servers map].
    unfold RecommendationEngine.collected, RecommendationEngine.when,
      RecommendationEngine._analyze_dns.
    cbn [Views.best_server Views.servers Views.bs_avg_response_time
         Py.get_or RecommendationEngine.first_private Views.sv_privacy
         Views.sv_ip].
    rewrite Havg, Hprivacy, Hip. reflexivity. }
  split; [exact Hrecs|].
  unfold RecommendationEngine.analyze. cbv zeta. rewrite Hrecs.
  repeat split.
Qed.

End UnreachableServers.

Lemma failing_dns_servers_look_fine_witness :
  exists report,
    DNSAnalyzer.benchmark all_time_out None None 3 = Py.Ok report /\
    RecommendationEngine.collected (fun _ => "0"%string) None
      (ReportViews.as_dns_data report) None None None None
    = [privacy_recommendation "Cloudflare" "1.1.1.1"].
Proof.
  destruct (failing_dns_servers_look_fine all_time_out 3
              ltac:(discriminate) ltac:(reflexivity)
              (fun _ => "0"%string) None None)
    as (report & entry & Hrun & _ & _ & _ & _ & Hrec & _).
  exists report. split; [exact Hrun | exact Hrec].
Defined.

(** * The architecture designed from the benchmark reports *)

(** From the report of a DNS benchmark and the report of a run over all
    regions, the architect designs: a DNS component named after the best
    server and a region component named after the fastest region; the two
    connections from the client to them; the templates [dns],
    [deployment] and [nginx], in this order; and four recommendations.
    The DNS template takes its primary address from the best server,
    while its secondary address is always 1.0.0.1. *)
Theorem architecture_from_benchmarks (fmt : Q -> string)
    (dns_probe : DNSAnalyzer.oracle)
    (custom_servers test_domains : option (list string)) (iterations : Z)
    (dns_report : DNSAnalyzer.report)
    (self_timeout : Q) (self_iterations : Z)
    (ping_probes : string -> GlobalPingTester.oracle)
    (ping_iterations : option Z) (ping_report : GlobalPingRuns.report) :
  DNSAnalyzer.benchmark dns_probe custom_servers test_domains iterations
  = Py.Ok dns_report ->
  self_iterations <> 0%Z ->
  GlobalPingRuns.test_all_regions self_timeout self_iterations ping_probes
    ping_iterations = inr ping_report ->
  exists server entry region stats arch,
    DNSAnalyzer.best_server dns_report = Some (server, Some entry) /\
    GlobalPingRuns.fastest_region ping_report
    = Some (region, Some (GlobalPingTester.RegionTested stats)) /\
    ServiceArchitect.design fmt None (ReportViews.as_dns_data dns_report)
      (GlobalPingRuns.as_ping_data ping_report) = Py.Ok arch /\
    map (fun c => (ServiceArchitect.type c, ServiceArchitect.name c))
      (ServiceArchitect.components arch)
    = [("dns", server); ("region", region)]%string /\
    map (fun c => (ServiceArchitect.from c, ServiceArchitect.to c))
      (ServiceArchitect.connections arch)
    = [("client", server); ("client", region)]%string /\
    Dict.keys (ServiceArchitect.config_templates arch)
    = ["dns"; "deployment"; "nginx"]%string /\
    Dict.get "dns" (ServiceArchitect.config_templates arch)
    = Some [("description", Py.VStr "Recommended DNS configuration");
            ("primary", Py.VStr (DNSAnalyzer.ip entry));
            ("secondary", Py.VStr "1.0.0.1");
            ("doh_endpoint",
             Py.VStr ("https://" ++ DNSAnalyzer.ip entry ++ "/dns-query"));
            ("dot_endpoint", Py.VStr ("tls://" ++ DNSAnalyzer.ip entry))]%string /\
    map ServiceArchitect.adv_title (ServiceArchitect.recommendations arch)
    = ["Use TLS 1.3"; "Enable HTTP/2"; "Use DNS over HTTPS";
       "Deploy to " ++ region]%string.
Proof.
  intros Hdns Hself Hping.
  destruct (dns_ranking_facts dns_probe custom_servers test_domains
              iterations dns_report Hdns)
    as (_ & _ & _ & server & entry & rest & _ & Hbest & _).
  destruct (region_ranking_facts self_timeout self_iterations ping_probes
              Hself ping_iterations)
    as (ping_report' & Hping' & _ & _ & _ & _ & _ & region & stats & rest'
        & _ & Hfast & _).
  rewrite Hping in Hping'. injection Hping' as <-.
  exists server, entry, region, stats.
  unfold ServiceArchitect.design, ReportViews.as_dns_data,
    GlobalPingRuns.as_ping_data.
  rewrite Hbest, Hfast.
  cbn [Views.best_server Views.fastest_region ServiceArchitect.present
       ServiceArchitect.deref Py.bind app Views.bs_name Views.bs_ip
       Views.bs_features Views.fr_name Views.fr_provider Views.fr_location
       Views.fr_avg_latency_ms Py.get_or].
  unfold ServiceArchitect._generate_recommendations.
  cbn [Views.fastest_region ServiceArchitect.present ServiceArchitect.deref
       Py.bind app Views.fr_name Views.fr_avg_latency_ms Py.get_or].
  eexists. split; [reflexivity|]. split; [reflexivity|].
  split; [reflexivity|].
  cbn [ServiceArchitect.components ServiceArchitect.connections
       ServiceArchitect.config_templates ServiceArchitect.recommendations
       map ServiceArchitect.type ServiceArchitect.name].
  split; [reflexivity|].
  rewrite design_connections_spec.
  cbn [find of_type ServiceArchitect.type String.eqb Ascii.eqb Bool.eqb
       map client_to_dns client_to_region ServiceArchitect.from
       ServiceArchitect.to ServiceArchitect.name].
  split; [reflexivity|].
  unfold ServiceArchitect._generate_configs.
  cbn [find ServiceArchitect.type String.eqb Ascii.eqb Bool.eqb
       ServiceArchitect.config ServiceArchitect.name Dict.set Dict.keys
       map fst Dict.get ServiceArchitect.str_opt Py.get_or Py.VOpt
       ServiceArchitect.adv_title].
  repeat split.
Qed.

Lemma architecture_from_benchmarks_witness :
  exists arch,
    (exists dns_report ping_report,
       DNSAnalyzer.benchmark three_good None (Some ["example.com"%string]) 3
       = Py.Ok dns_report /\
       GlobalPingRuns.test_all_regions 10 3 tokyo_is_near None
       = inr ping_report /\
       ServiceArchitect.design (fun _ => "5.0"%string) None
         (ReportViews.as_dns_data dns_report)
         (GlobalPingRuns.as_ping_data ping_report) = Py.Ok arch) /\
    Dict.keys (ServiceArchitect.config_templates arch)
    = ["dns"; "deployment"; "nginx"]%string.
Proof.
  destruct (DNSAnalyzer.benchmark three_good None
              (Some ["example.com"%string]) 3) as [dns_report|e] eqn:Hdns;
    [|vm_compute in Hdns; discriminate Hdns].
  destruct (GlobalPingRuns.test_all_regions 10 3 tokyo_is_near None)
    as [f|ping_report] eqn:Hping;
    [exfalso;
     destruct (region_ranking_facts 10 3 tokyo_is_near
                 ltac:(discriminate) None) as (r & Hr & _);
     rewrite Hping in Hr; discriminate Hr|].
  destruct (architecture_from_benchmarks (fun _ => "5.0"%string)
              three_good None (Some ["example.com"%string]) 3 dns_report
              10 3 tokyo_is_near None ping_report Hdns
              ltac:(discriminate) Hping)
    as (server & entry & region & stats & arch & _ & _ & Hrun & _ & _
        & Hkeys & _).
  exists arch. split; [|exact Hkeys].
  exists dns_report, ping_report. repeat split. exact Hrun.
Defined.

(** * The scan pipeline of the application *)

Module Main.

(** The fields of a [ScanRequest] that [execute_full_scan] reads. *)
Record ScanRequest : Type := {
  full_scan : bool;
  modules : list string
}.

(** The reports that a scan files under [results["modules"]]. *)
Inductive module_report : Type :=
  | NetworkReport (r : FullScan.scan_result)
  | DNSReport (r : DNSAnalyzer.report)
  | CDNReport (r : CDNTester.report)
  | PingReport (r : GlobalPingRuns.report).

(** What the runners of a scan meet. *)
Record surroundings : Type := {
  network_env : FullScan.surroundings;
  dns_probe : DNSAnalyzer.oracle;
  cdn_probe : CDNTester.oracle;
  ping_probes : string -> GlobalPingTester.oracle
}.

Definition failure : Type := GlobalPingRuns.failure.

Definition lift {A B} (m : Py.result A) (k : A -> B) : failure + B :=
  match m with
  | Py.Ok a => inr (k a)
  | Py.Raise e => inl (GlobalPingRuns.Raised e)
  end.

(** The body of the loop of [execute_full_scan] for one module name.  The
    runners are the module instances of the application, with the
    timeouts and iteration counts of their constructors and the default
    arguments of the methods called.  [ProtocolBenchmark] has no method
    [benchmark_all] and [PortScanner] has no method [scan_common_ports],
    so these two calls raise [AttributeError]; other names are passed
    over. *)
Definition run_module (env : surroundings) (module : string)
    (reports : Dict.t module_report) : failure + Dict.t module_report :=
  if String.eqb module "network" then
    lift (FullScan.full_scan (network_env env))
      (fun r => Dict.set "network" (NetworkReport r) reports)
  else if String.eqb module "dns" then
    lift (DNSAnalyzer.benchmark (dns_probe env) None None 3)
      (fun r => Dict.set "dns" (DNSReport r) reports)
  else if String.eqb module "cdn" then
    lift (CDNTester.benchmark 10 (cdn_probe env) 3)
      (fun r => Dict.set "cdn" (CDNReport r) reports)
  else if String.eqb module "protocol" then
    inl (GlobalPingRuns.Raised Py.AttributeError)
  else if String.eqb module "ports" then
    inl (GlobalPingRuns.Raised Py.AttributeError)
  else if String.eqb module "global_ping" then
    match GlobalPingRuns.test_all_regions 10 3 (ping_probes env) None with
    | inr r => inr (Dict.set "global_ping" (PingReport r) reports)
    | inl f => inl f
    end
  else inr reports.

Definition run_modules (env : surroundings) (modules_to_run : list string)
    (reports : failure + Dict.t module_report)
  : failure + Dict.t module_report :=
  fold_left
    (fun acc module =>
       match acc with
       | inl f => inl f
       | inr reports => run_module env module reports
       end)
    modules_to_run reports.

(** [results["modules"]], read as the [network_data] of the engine and of
    the architect: an empty dict counts like none; the values are
    reports, so a number is found under neither of the two keys. *)
Definition a_number (v : module_report) : option Q := None.

Definition as_network_data (reports : Dict.t module_report)
  : option Views.network_view :=
  match reports with
  | [] => None
  | _ :: _ =>
      Some {| Views.latency_ms :=
                match Dict.get "latency_ms" reports with
                | Some v => a_number v
                | None => None
                end;
              Views.mtu :=
                match Dict.get "mtu" reports with
                | Some v => a_number v
                | None => None
                end |}
  end.

Record results : Type := {
  r_modules : Dict.t module_report;
  r_recommendations : RecommendationEngine.analysis;
  r_architecture : ServiceArchitect.architecture
}.

Definition modules_to_run (request : ScanRequest) : list string :=
  if negb (full_scan request) then modules request
  else ["network"; "dns"; "cdn"; "protocol"; "ports"; "global_ping"]%string.

(** [execute_full_scan]: the results that it stores in [scan_results], or
    the exception that ends it before it stores any. *)
Definition execute_full_scan (fmt : Q -> string) (env : surroundings)
    (request : ScanRequest) : failure + results :=
  match run_modules env (modules_to_run request) (inr []) with
  | inl f => inl f
  | inr reports =>
      let recommendations :=
        RecommendationEngine.analyze fmt (as_network_data reports)
          None None None None None in
      match
        ServiceArchitect.design fmt (as_network_data reports) None None
      with
      | Py.Raise e => inl (GlobalPingRuns.Raised e)
      | Py.Ok architecture =>
          inr {| r_modules := reports;
                 r_recommendations := recommendations;
                 r_architecture := architecture |}
      end
  end.

(** The dict of a test of the DNS benchmark, [{"domain": domain,
    **result}], and of an entry, key by key. *)
Definition dns_test_dict (t : string * DNSAnalyzer.probe_result) : Py.value :=
  Py.VDict [
    ("domain", Py.VStr (fst t));
    ("success", Py.VBool (DNSAnalyzer.success (snd t)));
    ("response_time_ms", Py.VNum (DNSAnalyzer.response_time_ms (snd t)));
    ("resolved_ip", Py.VStr (DNSAnalyzer.resolved_ip (snd t)));
    ("error", Py.VOpt Py.VStr (DNSAnalyzer.error (snd t)))
  ]%string.

Definition optional_key (k : string) (v : option Py.value)
  : Dict.t Py.value :=
  match v with
  | Some x => [(k, x)]
  | None => []
  end.

Definition dns_entry_dict (e : DNSAnalyzer.server_results)
  : Dict.t Py.value :=
  List.app
    [("ip", Py.VStr (DNSAnalyzer.ip e));
     ("tests", Py.VList (map dns_test_dict (DNSAnalyzer.tests e)));
     ("avg_response_time", Py.VNum (DNSAnalyzer.avg_response_time e));
     ("success_rate", Py.VNum (DNSAnalyzer.success_rate e));
     ("min_time", Py.VFloat (DNSAnalyzer.min_time e));
     ("max_time", Py.VNum (DNSAnalyzer.max_time e));
     ("reliability_score", Py.VInt (DNSAnalyzer.reliability_score e))]%string
    (List.app
       (optional_key "category"
          (option_map Py.VStr (DNSAnalyzer.category e)))
       (List.app
          (optional_key "privacy"
             (option_map Py.VStr (DNSAnalyzer.privacy e)))
          (optional_key "features"
             (option_map Py.VStrs (DNSAnalyzer.features e))))).

(** [{"name": best_server, **sorted_results.get(best_server, {})}]. *)
Definition best_server_dict (b : string * option DNSAnalyzer.server_results)
  : Dict.t Py.value :=
  ("name"%string, Py.VStr (fst b))
  :: match snd b with
     | Some e => dns_entry_dict e
     | None => []
     end.

(** [calculate_overall_score], on [results["modules"]].  Only the report
    of the network scanner has the key [latency], and only the report of
    the DNS benchmark has the key [best_server]. *)
Definition calculate_overall_score (reports : Dict.t module_report) : Z :=
  let scores := [] in
  let scores :=
    match Dict.get "network" reports with
    | Some (NetworkReport net) =>
        match FullScan.get_number "latency" (FullScan.result_dict net) with
        | Some latency =>
            if Qeq_bool latency 0 then scores
            else List.app scores [Py.max2 0 (100 - latency)]
        | None => scores
        end
    | _ => scores
    end in
  let scores :=
    match Dict.get "dns" reports with
    | Some (DNSReport dns) =>
        match DNSAnalyzer.best_server dns with
        | Some best =>
            List.app scores
              [Py.get_or
                 (FullScan.get_number "score" (best_server_dict best)) 50]
        | None => scores
        end
    | _ => scores
    end in
  match scores with
  | [] => 50%Z
  | _ :: _ => Py.int (Py.mean scores)
  end.

(** The dict that [RecommendationEngine.analyze] returns, key by key. *)
Definition analysis_dict (a : RecommendationEngine.analysis)
  : Dict.t Py.value :=
  let dicts l :=
    Py.VList
      (map (fun d => Py.VDict (map (fun '(k, v) => (k, Py.VStr v)) d)) l) in
  [("total_recommendations",
    Py.VInt (Z.of_nat (RecommendationEngine.total_recommendations a)));
   ("high_priority",
    Py.VInt (Z.of_nat (RecommendationEngine.high_priority a)));
   ("medium_priority",
    Py.VInt (Z.of_nat (RecommendationEngine.medium_priority a)));
   ("low_priority",
    Py.VInt (Z.of_nat (RecommendationEngine.low_priority a)));
   ("recommendations",
    Py.VDict
      [("high",
        dicts (RecommendationEngine.high
                 (RecommendationEngine.recommendations a)));
       ("medium",
        dicts (RecommendationEngine.medium
                 (RecommendationEngine.recommendations a)));
       ("low",
        dicts (RecommendationEngine.low
                 (RecommendationEngine.recommendations a)))]);
   ("summary", Py.VStr (RecommendationEngine.summary_text a))]%string.

(** [get_top_recommendations], on stored results. *)
Definition get_top_recommendations (r : results) : Py.value :=
  let recs := analysis_dict (r_recommendations r) in
  Py.get_or (Dict.get "top_5" recs) (Py.VList []).

End Main.

(** ** What a scan stores *)

Lemma full_scan_report_keys_exist (e : FullScan.surroundings) :
  exists r, FullScan.full_scan e = Py.Ok r.
Proof.
  destruct (measure_endpoints_Forall (fun _ => True) e
              FullScan.LATENCY_ENDPOINTS (fun _ _ _ _ => I) []
              (Forall_nil _)) as (results & Hfold & _).
  unfold FullScan.full_scan.
  match goal with
  | |- context [FullScan.measure_endpoints ?a ?b ?c] =>
      replace (FullScan.measure_endpoints a b c) with (Py.Ok results)
        by (symmetry; exact Hfold)
  end.
  cbn [Py.bind]. eexists. reflexivity.
Qed.

Lemma dns_benchmark_runs (probe : DNSAnalyzer.oracle) :
  exists r, DNSAnalyzer.benchmark probe None None 3 = Py.Ok r.
Proof.
  destruct (benchmark_entry probe None None 3 "Cloudflare" "1.1.1.1"
              ltac:(discriminate) eq_refl) as (r & _ & Hr & _).
  exists r. exact Hr.
Qed.

Lemma cdn_benchmark_runs (probe : CDNTester.oracle) :
  exists r, CDNTester.benchmark 10 probe 3 = Py.Ok r.
Proof.
  destruct (cdn_benchmark_entry 10 probe 3 "Cloudflare" _
              ltac:(discriminate) eq_refl) as (r & _ & Hr & _).
  exists r. exact Hr.
Qed.

Section ScanPipeline.

Import Main.

Variables (fmt : Q -> string) (env : surroundings).

(** The reports that the loop has filed: under the four names whose
    runners exist, each the report of its runner. *)
Definition filed (item : string * module_report) : Prop :=
  In (fst item) ["network"; "dns"; "cdn"; "global_ping"]%string /\
  (fst item = "network"%string ->
   exists r, snd item = NetworkReport r /\
             FullScan.full_scan (network_env env) = Py.Ok r) /\
  (fst item = "dns"%string ->
   exists r, snd item = DNSReport r /\
             DNSAnalyzer.benchmark (dns_probe env) None None 3 = Py.Ok r).

Lemma full_scan_returns (e : FullScan.surroundings) :
  exists r, FullScan.full_scan e = Py.Ok r.
Proof.
  destruct (full_scan_report_keys_exist e) as [r H]. exists r. exact H.
Qed.

Lemma run_module_spec (module : string) (reports : Dict.t module_report) :
  Forall filed reports ->
  match run_module env module reports with
  | inl f =>
      f = GlobalPingRuns.Raised Py.AttributeError /\
      (module = "protocol"%string \/ module = "ports"%string)
  | inr reports' =>
      module <> "protocol"%string /\ module <> "ports"%string /\
      Forall filed reports'
  end.
Proof.
  intros Hall. unfold run_module.
  destruct (String.eqb_spec module "network") as [->|_].
  { destruct (full_scan_returns (network_env env)) as [r Hr].
    rewrite Hr. cbn [lift].
    split; [discriminate|]. split; [discriminate|].
    apply set_Forall; [exact Hall|]. split; [left; reflexivity|].
    split; [intros _; exists r; split; [reflexivity | exact Hr]|].
    intros H. discriminate H. }
  destruct (String.eqb_spec module "dns") as [->|_].
  { pose proof (dns_benchmark_runs (dns_probe env)) as [r Hr].
    rewrite Hr. cbn [lift].
    split; [discriminate|]. split; [discriminate|].
    apply set_Forall; [exact Hall|].
    split; [right; left; reflexivity|].
    split; [intros H; discriminate H|].
    intros _. exists r. split; [reflexivity | exact Hr]. }
  destruct (String.eqb_spec module "cdn") as [->|_].
  { pose proof (cdn_benchmark_runs (cdn_probe env)) as [r Hr].
    rewrite Hr. cbn [lift].
    split; [discriminate|]. split; [discriminate|].
    apply set_Forall; [exact Hall|].
    split; [do 2 right; left; reflexivity|].
    split; intros H; discriminate H. }
  destruct (String.eqb_spec module "protocol") as [->|Hp].
  { split; [reflexivity | left; reflexivity]. }
  destruct (String.eqb_spec module "ports") as [->|Hq].
  { split; [reflexivity | right; reflexivity]. }
  destruct (String.eqb_spec module "global_ping") as [->|_].
  { destruct (region_ranking_facts 10 3 (ping_probes env)
                ltac:(discriminate) None) as (r & Hr & _).
    rewrite Hr.
    split; [discriminate|]. split; [discriminate|].
    apply set_Forall; [exact Hall|].
    split; [do 3 right; left; reflexivity|].
    split; intros H; discriminate H. }
  split; [exact Hp|]. split; [exact Hq | exact Hall].
Qed.

Lemma run_modules_failed (l : list string) (f : failure) :
  run_modules env l (inl f) = inl f.
Proof.
  unfold run_modules. induction l as [|m rest IH]; simpl;
    [reflexivity | exact IH].
Qed.

Lemma run_modules_spec (l : list string) (reports : Dict.t module_report) :
  Forall filed reports ->
  match run_modules env l (inr reports) with
  | inl f =>
      f = GlobalPingRuns.Raised Py.AttributeError /\
      (In "protocol"%string l \/ In "ports"%string l)
  | inr reports' =>
      ~ In "protocol"%string l /\ ~ In "ports"%string l /\
      Forall filed reports'
  end.
Proof.
  revert reports. induction l as [|m rest IH]; intros reports Hall.
  - simpl. repeat split; auto.
  - unfold run_modules in *. cbn [fold_left].
    pose proof (run_module_spec m reports Hall) as Hm.
    destruct (run_module env m reports) as [f|reports'].
    + fold (run_modules env rest (inl f)). rewrite run_modules_failed.
      destruct Hm as [-> [-> | ->]]; (split; [reflexivity|]);
        [left | right]; left; reflexivity.
    + destruct Hm as (Hp & Hq & Hall').
      specialize (IH reports' Hall').
      destruct (fold_left _ rest (inr reports')) as [f|final].
      * destruct IH as [-> [H|H]]; (split; [reflexivity|]);
          [left | right]; right; exact H.
      * destruct IH as (Hp' & Hq' & Hfinal).
        split; [intros [H|H]; [apply Hp; exact H | exact (Hp' H)]|].
        split; [intros [H|H]; [apply Hq; exact H | exact (Hq' H)]|].
        exact Hfinal.
Qed.

Lemma filed_no_numbers (reports : Dict.t module_report) :
  Forall filed reports ->
  Dict.get "latency_ms" reports = None /\ Dict.get "mtu" reports = None.
Proof.
  intros Hall.
  split; apply get_None_keys; intros Hin; unfold Dict.keys in Hin;
    apply in_map_iff in Hin; destruct Hin as (item & Hk & Hitem);
    rewrite Forall_forall in Hall; destruct (Hall item Hitem) as [Hname _];
    rewrite Hk in Hname; simpl in Hname; intuition discriminate.
Qed.

(** What [execute_full_scan] comes to. *)
Lemma execute_full_scan_spec (request : ScanRequest) :
  match execute_full_scan fmt env request with
  | inl f =>
      f = GlobalPingRuns.Raised Py.AttributeError /\
      (In "protocol"%string (modules_to_run request)
       \/ In "ports"%string (modules_to_run request))
  | inr results =>
      ~ In "protocol"%string (modules_to_run request) /\
      ~ In "ports"%string (modules_to_run request) /\
      Forall filed (r_modules results) /\
      as_network_data (r_modules results)
      = match r_modules results with
        | [] => None
        | _ :: _ => Some {| Views.latency_ms := None; Views.mtu := None |}
        end /\
      r_recommendations results
      = RecommendationEngine.analyze fmt (as_network_data (r_modules results))
          None None None None None /\
      ServiceArchitect.design fmt (as_network_data (r_modules results))
        None None
      = Py.Ok (r_architecture results)
  end.
Proof.
  unfold execute_full_scan.
  pose proof (run_modules_spec (modules_to_run request) [] (Forall_nil _))
    as H.
  match goal with
  | |- context [run_modules ?a ?b ?c] => set (run := run_modules a b c)
  end.
  change (run_modules env (modules_to_run request) (inr [])) with run in H.
  destruct run as [f|reports]; [exact H|].
  destruct H as (Hp & Hq & Hall).
  destruct (filed_no_numbers reports Hall) as [Hl Hm].
  assert (Hview : as_network_data reports
                  = match reports with
                    | [] => None
                    | _ :: _ =>
                        Some {| Views.latency_ms := None;
                                Views.mtu := None |}
                    end).
  { unfold as_network_data. rewrite Hl, Hm. reflexivity. }
  assert (Hd : exists arch,
             ServiceArchitect.design fmt (as_network_data reports) None None
             = Py.Ok arch).
  { rewrite Hview. destruct reports as [|item rest];
      unfold ServiceArchitect.design,
        ServiceArchitect._generate_recommendations;
      cbn [Py.bind app Views.latency_ms Py.get_or];
      change (Py.Qltb 100 0) with false; cbv iota; cbn [Py.bind];
      eexists; reflexivity. }
  destruct Hd as [arch Hd]. rewrite Hd.
  cbn [r_modules r_recommendations r_architecture].
  split; [exact Hp|]. split; [exact Hq|]. split; [exact Hall|].
  split; [exact Hview|]. split; [reflexivity | exact Hd].
Qed.

(** A scan that asks for the protocol or the port module, as every full
    scan does, ends with an [AttributeError] and stores nothing, because
    the methods that it calls on these two runners do not exist.  Any
    other scan stores its results, and these never hold a
    recommendation: the engine and the architect are handed the dict of
    the reports as network data, in which they find neither [latency_ms]
    nor [mtu].  The engine reports 0 recommendations, and the
    architecture has no connection, the two general recommendations and
    the nginx template only. *)
Theorem scan_pipeline_never_recommends (request : ScanRequest) :
  match execute_full_scan fmt env request with
  | inl f =>
      f = GlobalPingRuns.Raised Py.AttributeError /\
      (full_scan request = true
       \/ In "protocol"%string (modules request)
       \/ In "ports"%string (modules request))
  | inr results =>
      full_scan request = false /\
      ~ In "protocol"%string (modules request) /\
      ~ In "ports"%string (modules request) /\
      Dict.get "latency_ms" (r_modules results) = None /\
      Dict.get "mtu" (r_modules results) = None /\
      RecommendationEngine.total_recommendations (r_recommendations results)
      = 0%nat /\
      RecommendationEngine.summary_text (r_recommendations results)
      = "No recommendations at this time. Consider running more tests."%string /\
      get_top_recommendations results = Py.VList [] /\
      ServiceArchitect.connections (r_architecture results) = [] /\
      map ServiceArchitect.adv_title
        (ServiceArchitect.recommendations (r_architecture results))
      = ["Use TLS 1.3"; "Enable HTTP/2"]%string /\
      Dict.keys (ServiceArchitect.config_templates (r_architecture results))
      = ["nginx"%string]
  end.
Proof.
  pose proof (execute_full_scan_spec request) as H.
  destruct (execute_full_scan fmt env request) as [f|results].
  - destruct H as [-> H]. split; [reflexivity|].
    unfold modules_to_run in H.
    destruct (full_scan request); [left; reflexivity|].
    right. exact H.
  - destruct H as (Hp & Hq & Hall & Hview & Hrec & Harch).
    unfold modules_to_run in Hp, Hq.
    destruct (full_scan request);
      [exfalso; apply Hp; simpl; tauto|].
    cbn [negb] in Hp, Hq.
    split; [reflexivity|]. split; [exact Hp|]. split; [exact Hq|].
    destruct (filed_no_numbers _ Hall) as [Hl Hm].
    split; [exact Hl|]. split; [exact Hm|].
    unfold get_top_recommendations.
    rewrite Hrec, Hview. rewrite Hview in Harch.
    destruct (r_modules results) as [|item rest].
    + cbn in Harch. injection Harch as <-. repeat split.
    + cbn in Harch. injection Harch as <-. repeat split.
Qed.

End ScanPipeline.

(** ** The overall score of a stored scan *)

Lemma int_ge_int (x : Q) (k : Z) :
  (0 <= k)%Z -> inject_Z k <= x -> (k <= Py.int x)%Z.
Proof.
  intros Hk H.
  assert (Hx : 0 <= x).
  { assert (H0 : 0 <= inject_Z k)
      by (change 0 with (inject_Z 0); rewrite <- Zle_Qle; exact Hk).
    lra. }
  rewrite int_floor by exact Hx.
  pose proof (Qfloor_resp_le _ _ H) as Hf. rewrite Qfloor_Z in Hf. exact Hf.
Qed.

Lemma positive_averages_positive
    (latency_results : Dict.t NetworkScanner.latency_stats) (y : Q) :
  In y (FullScan.positive_averages latency_results) -> 0 < y.
Proof.
  unfold FullScan.positive_averages. intros H. apply in_map_iff in H.
  destruct H as (s & <- & Hs). apply filter_In in Hs.
  destruct Hs as [_ Hs]. apply Qltb_true, Hs.
Qed.

Lemma full_scan_latency_nonneg (e : FullScan.surroundings)
    (r : FullScan.scan_result) :
  FullScan.full_scan e = Py.Ok r -> 0 <= FullScan.latency r.
Proof.
  unfold FullScan.full_scan.
  destruct (FullScan.measure_endpoints _ _ _) as [results|err];
    [|discriminate].
  cbn [Py.bind]. intros [= <-]. cbn [FullScan.latency].
  apply round2_nonneg.
  pose proof (positive_averages_positive results) as Hpos.
  destruct (FullScan.positive_averages results) as [|x rest]; [lra|].
  assert (Hm : 0 <= Py.mean (x :: rest)
               <= Py.max_list 0 (x :: rest)).
  { apply mean_between; [discriminate|]. intros y Hy. split.
    - apply Qlt_le_weak, Hpos, Hy.
    - apply max_list_ge. right. exact Hy. }
  apply Hm.
Qed.

Lemma best_server_has_no_score
    (best : string * option DNSAnalyzer.server_results) :
  FullScan.get_number "score" (Main.best_server_dict best) = None.
Proof.
  destruct best as [name [e|]]; [|reflexivity].
  unfold Main.best_server_dict, Main.dns_entry_dict, FullScan.get_number.
  cbn [fst snd].
  destruct (DNSAnalyzer.category e), (DNSAnalyzer.privacy e),
    (DNSAnalyzer.features e); reflexivity.
Qed.

Lemma mean_one (x : Q) : Py.mean [x] == x.
Proof. unfold Py.mean, Py.sum. simpl. field. Qed.

Lemma mean_two (x y : Q) : Py.mean [x; y] == (x + y) * (1 # 2).
Proof. unfold Py.mean, Py.sum. simpl. field. Qed.

Lemma int_proper (x y : Q) : 0 <= x -> x == y -> Py.int x = Py.int y.
Proof.
  intros Hx H. rewrite !int_floor by lra. apply Qfloor_comp, H.
Qed.

Section OverallScore.

Import Main.

Variables (fmt : Q -> string) (env : surroundings).

(** The overall score of a stored scan lies between 0 and 100.  The DNS
    benchmark never changes what it adds: the best server has no key
    [score], so the DNS part is the default of 50, and a scan with the DNS
    module scores between 25 and 75, whatever the servers did.  Without
    the network module, or when its latency is 0, the score is 50. *)
Theorem overall_score_ignores_dns (request : ScanRequest)
    (results : results) :
  execute_full_scan fmt env request = inr results ->
  let score := calculate_overall_score (r_modules results) in
  (0 <= score <= 100)%Z /\
  (In "dns"%string (Dict.keys (r_modules results)) ->
   (25 <= score <= 75)%Z) /\
  (~ In "network"%string (Dict.keys (r_modules results)) ->
   score = 50%Z) /\
  (forall net,
     Dict.get "network" (r_modules results) = Some (NetworkReport net) ->
     FullScan.latency net == 0 -> score = 50%Z).
Proof.
  intros Hrun.
  pose proof (execute_full_scan_spec fmt env request) as H.
  rewrite Hrun in H. destruct H as (_ & _ & Hall & _).
  set (reports := r_modules results) in *.
  assert (Hnet : Dict.get "network" reports = None \/
                 exists net,
                   Dict.get "network" reports = Some (NetworkReport net) /\
                   0 <= FullScan.latency net).
  { destruct (Dict.get "network" reports) as [v|] eqn:E; [right | left;
      reflexivity].
    apply get_In in E. rewrite Forall_forall in Hall.
    destruct (Hall _ E) as (_ & Hn & _).
    destruct (Hn eq_refl) as (net & Hv & Hscan). simpl in Hv. subst v.
    exists net. split; [reflexivity|].
    apply (full_scan_latency_nonneg _ _ Hscan). }
  assert (Hdns : Dict.get "dns" reports = None \/
                 exists dns best,
                   Dict.get "dns" reports = Some (DNSReport dns) /\
                   DNSAnalyzer.best_server dns = Some best).
  { destruct (Dict.get "dns" reports) as [v|] eqn:E; [right | left;
      reflexivity].
    apply get_In in E. rewrite Forall_forall in Hall.
    destruct (Hall _ E) as (_ & _ & Hd).
    destruct (Hd eq_refl) as (dns & Hv & Hbench). simpl in Hv. subst v.
    destruct (dns_ranking_facts _ _ _ _ _ Hbench)
      as (_ & _ & _ & name & entry & rest & _ & Hbest & _).
    exists dns. eexists. split; [reflexivity | exact Hbest]. }
  assert (Hlat : forall net,
             FullScan.get_number "latency" (FullScan.result_dict net)
             = Some (FullScan.latency net)) by reflexivity.
  assert (Hscore : forall x,
             0 <= x ->
             let a := Py.int (Py.mean [Py.max2 0 (100 - x)]) in
             let b := Py.int (Py.mean [Py.max2 0 (100 - x); 50]) in
             (0 <= a <= 100)%Z /\ (25 <= b <= 75)%Z).
  { intros x Hx. cbv zeta.
    assert (Hm : 0 <= Py.max2 0 (100 - x) <= 100).
    { pose proof (max2_ge 0 (100 - x)) as [H0 _].
      destruct (max2_cases 0 (100 - x)) as [E|E]; rewrite E in *;
        split; lra. }
    destruct Hm as [Hm0 Hm1].
    split.
    - rewrite (int_proper _ (Py.max2 0 (100 - x)));
        [|rewrite mean_one; exact Hm0 | apply mean_one].
      split.
      + apply (int_ge_int _ 0); [lia|]. exact Hm0.
      + apply int_le_int; [exact Hm0|]. exact Hm1.
    - rewrite (int_proper _ ((Py.max2 0 (100 - x) + 50) * (1 # 2)));
        [|rewrite mean_two; lra | apply mean_two].
      split.
      + apply (int_ge_int _ 25); [lia|].
        change (inject_Z 25) with 25. lra.
      + apply int_le_int; [lra|]. change (inject_Z 75) with 75. lra. }
  assert (H50 : Py.int (Py.mean [50]) = 50%Z) by reflexivity.
  cbv zeta. unfold calculate_overall_score. cbv zeta.
  destruct Hnet as [Hn|(net & Hn & Hpos)];
    destruct Hdns as [Hd|(dns & best & Hd & Hbest)];
    rewrite Hn, Hd; try rewrite Hbest; try rewrite Hlat;
    try rewrite best_server_has_no_score; cbn [app Py.get_or].
  - repeat split; intros; lia.
  - rewrite H50. repeat split; intros; lia.
  - destruct (Qeq_bool (FullScan.latency net) 0) eqn:E.
    + repeat split; intros; lia.
    + destruct (Hscore _ Hpos) as [H1 _]. cbv zeta in H1.
      split; [exact H1|]. split; [|split].
      * intros H. exfalso. apply (keys_get_Some _ _ H). exact Hd.
      * intros H. exfalso. apply H. apply get_In in Hn.
        apply (in_map fst) in Hn. exact Hn.
      * intros net' H Hz. exfalso. injection H as <-.
        apply Qeq_bool_false in E. contradiction.
  - destruct (Qeq_bool (FullScan.latency net) 0) eqn:E; cbn [app].
    + rewrite H50. repeat split; intros; lia.
    + destruct (Hscore _ Hpos) as [_ H2]. cbv zeta in H2.
      split; [lia|]. split; [intros _; exact H2|]. split.
      * intros H. exfalso. apply H. apply get_In in Hn.
        apply (in_map fst) in Hn. exact Hn.
      * intros net' H Hz. exfalso. injection H as <-.
        apply Qeq_bool_false in E. contradiction.
Qed.

End OverallScore.

(** A scan of the default modules of a request, on a network where
    nothing connects. *)
Definition quiet_surroundings : Main.surroundings :=
  {| Main.network_env := dead_network;
     Main.dns_probe := all_time_out;
     Main.cdn_probe := fun _ _ => CDNTester.TimedOut;
     Main.ping_probes := fun _ _ => GlobalPingTester.TimedOut |}.

Definition default_request : Main.ScanRequest :=
  {| Main.full_scan := false;
     Main.modules := ["network"; "dns"; "ping"]%string |}.

Lemma overall_score_ignores_dns_witness :
  exists results,
    Main.execute_full_scan (fun _ => "0"%string) quiet_surroundings
      default_request = inr results /\
    (0 <= Main.calculate_overall_score (Main.r_modules results) <= 100)%Z.
Proof.
  destruct (Main.execute_full_scan (fun _ => "0"%string) quiet_surroundings
              default_request) as [f|results] eqn:E.
  - exfalso.
    pose proof (execute_full_scan_spec (fun _ => "0"%string)
                  quiet_surroundings default_request) as H.
    rewrite E in H. destruct H as [_ [H|H]]; simpl in H;
      intuition discriminate.
  - exists results. split; [reflexivity|].
    apply (overall_score_ignores_dns (fun _ => "0"%string)
             quiet_surroundings default_request results E).
Defined.

(** * The DNS query *)

Module DNSQuery.

Import DNSWire.

(** [domain.split(".")]: the parts between the dots, at least one. *)
Fixpoint split_dots (s : string) : list string :=
  match s with
  | EmptyString => [EmptyString]
  | String c rest =>
      if Ascii.eqb c "." then EmptyString :: split_dots rest
      else
        match split_dots rest with
        | part :: parts => String c part :: parts
        | [] => [String c EmptyString]
        end
  end.

(** [part.encode()]: UTF-8, for the code points up to 255 that a
    character of a [string] stands for. *)
Definition utf8 (c : ascii) : bytes :=
  let n := N_of_ascii c in
  if (n <? 128)%N then [octet n]
  else [octet (192 + n / 64); octet (128 + n mod 64)].

Definition encode_str (s : string) : bytes :=
  flat_map utf8 (list_ascii_of_string s).

(** [bytes([len(part)]) + part.encode()]; [bytes] refuses a length above
    255 with a [ValueError], which is [None] here. *)
Definition label (part : string) : option bytes :=
  let n := N.of_nat (String.length part) in
  if (n <? 256)%N then Some (octet n :: encode_str part) else None.

(** The loop over the parts. *)
Fixpoint labels (parts : list string) : option bytes :=
  match parts with
  | [] => Some []
  | part :: rest =>
      match label part, labels rest with
      | Some l, Some ls => Some (l ++ ls)
      | _, _ => None
      end
  end.

(** The question of [_resolve_dns]: the labels, the closing zero, type A
    and class IN. *)
Definition question (domain : string) : option bytes :=
  match labels (split_dots domain) with
  | Some question => Some (question ++ [Byte.x00] ++ u16 1 ++ u16 1)
  | None => None
  end.

(** [struct.pack(">HHHHHH", transaction_id, 0x0100, 1, 0, 0, 0)]. *)
Definition header (transaction_id : N) : bytes :=
  u16 transaction_id ++ u16 256 ++ u16 1 ++ u16 0 ++ u16 0 ++ u16 0.

(** The query that [_resolve_dns] sends. *)
Definition query (transaction_id : N) (domain : string) : option bytes :=
  match question domain with
  | Some question => Some (header transaction_id ++ question)
  | None => None
  end.

End DNSQuery.

(** ** The parser on the echo of a query *)

Section QueryEcho.

Import DNSWire DNSQuery.

(** A part of a domain that makes a label: not empty, at most 255
    characters, none of them NUL. *)
Definition label_ok (part : string) : Prop :=
  part <> EmptyString /\ (String.length part <= 255)%nat /\
  Forall (fun c => c <> Ascii.zero) (list_ascii_of_string part).

Lemma utf8_nonzero (c : ascii) : c <> Ascii.zero -> Forall nonzero (utf8 c).
Proof.
  intros Hc. unfold utf8, nonzero.
  pose proof (N_ascii_bounded c) as Hb.
  assert (Hn : N_of_ascii c <> 0%N).
  { intros H. apply Hc. rewrite <- (ascii_N_embedding c), H. reflexivity. }
  destruct (N.ltb_spec (N_of_ascii c) 128).
  - constructor; [|constructor]. rewrite to_N_octet by lia. exact Hn.
  - assert (Hq : (N_of_ascii c / 64 < 4)%N)
      by (apply N.Div0.div_lt_upper_bound; lia).
    pose proof (N.mod_lt (N_of_ascii c) 64 ltac:(lia)) as Hm.
    set (q := (N_of_ascii c / 64)%N) in *.
    set (m := (N_of_ascii c mod 64)%N) in *.
    apply Forall_cons; [|apply Forall_cons; [|apply Forall_nil]].
    + rewrite to_N_octet; lia.
    + rewrite to_N_octet; lia.
Qed.

Lemma encode_str_nonzero (part : string) :
  Forall (fun c => c <> Ascii.zero) (list_ascii_of_string part) ->
  Forall nonzero (encode_str part).
Proof.
  unfold encode_str. induction 1 as [|c l Hc _ IH]; [constructor|].
  simpl. apply Forall_app. split; [apply utf8_nonzero, Hc | exact IH].
Qed.

Lemma labels_nonzero (parts : list string) :
  Forall label_ok parts ->
  exists l, labels parts = Some l /\ Forall nonzero l.
Proof.
  induction 1 as [|part rest (Hne & Hlen & Hchars) _ (ls & Hls & Hnz)].
  - exists []. split; [reflexivity | constructor].
  - cbn [labels]. unfold label.
    destruct (N.ltb_spec (N.of_nat (String.length part)) 256) as [_|H];
      [|lia].
    rewrite Hls. eexists. split; [reflexivity|].
    cbn [app]. constructor.
    + unfold nonzero. rewrite to_N_octet by lia.
      destruct part; [contradiction | simpl; lia].
    + apply Forall_app. split; [apply encode_str_nonzero, Hchars|exact Hnz].
Qed.

Lemma header_length (transaction_id : N) :
  List.length (header transaction_id) = 12%nat.
Proof. reflexivity. Qed.

(** For a domain whose parts between the dots each have 1 to 255
    characters, none of them NUL, [_resolve_dns] builds a query of twelve
    bytes of header and a question that the parser of the responses gets
    across (an empty part or a NUL character would put a zero byte into
    the name, where the parser stops): on every response that repeats the
    header
    and the question of the query and goes on with well-formed answer
    records, the parser returns the address of the first A record, or
    the empty string when there is none. *)
Theorem query_echo_is_parsed (transaction_id : N) (domain : string)
    (records : list record) :
  Forall label_ok (split_dots domain) ->
  Forall record_ok records ->
  exists q,
    query transaction_id domain = Some q /\
    List.length q
    = (12 + 5
       + List.length
           (flat_map (fun part => Byte.x00 :: encode_str part)
              (split_dots domain)))%nat /\
    _parse_dns_response (q ++ flat_map encode records)
    = Py.Ok (first_address records).
Proof.
  intros Hdomain Hrecords.
  destruct (labels_nonzero _ Hdomain) as (l & Hl & Hnz).
  unfold query, question. rewrite Hl. eexists. split; [reflexivity|].
  split.
  - rewrite !length_app, header_length. cbn [List.length u16].
    assert (Hlen : forall parts ls,
               labels parts = Some ls ->
               List.length ls
               = List.length
                   (flat_map (fun part => Byte.x00 :: encode_str part)
                      parts)).
    { induction parts as [|p ps IH]; intros ls H.
      - injection H as <-. reflexivity.
      - cbn [labels] in H. unfold label in H.
        destruct (N.of_nat (String.length p) <? 256)%N; [|discriminate].
        destruct (labels ps) as [ls'|]; [|discriminate].
        injection H as <-. cbn [flat_map app List.length].
        rewrite !length_app, (IH ls' eq_refl). reflexivity. }
    rewrite (Hlen _ _ Hl). lia.
  - replace ((header transaction_id ++ l ++ [Byte.x00] ++ u16 1 ++ u16 1)
             ++ flat_map encode records)
      with (message (header transaction_id) l (u16 1 ++ u16 1) records).
    + apply parse_message; [apply header_length | exact Hnz | reflexivity
                           | exact Hrecords].
    + unfold message. rewrite <- !app_assoc. reflexivity.
Qed.

End QueryEcho.

Lemma query_echo_is_parsed_witness :
  exists q,
    DNSQuery.query 4660 "www.example.com" = Some q /\
    DNSWire._parse_dns_response (q ++ flat_map encode cname_then_address)
    = Py.Ok "93.184.216.34"%string.
Proof.
  destruct (query_echo_is_parsed 4660 "www.example.com" cname_then_address)
    as (q & Hq & _ & Hparse).
  - repeat constructor; simpl; try discriminate; lia.
  - repeat constructor; simpl; try lia.
    apply (name_labels (map octet [3; 119; 119; 119]%N)).
    + repeat constructor; discriminate.
    + simpl. lia.
  - exists q. split; [exact Hq | exact Hparse].
Defined.

(** * The recommendations of the DNS analyzer *)

Module DNSAdvice.

Import DNSAnalyzer.

(** [sorted(..., key=lambda x: x[1]["avg_response_time"] if
    x[1]["avg_response_time"] > 0 else float("inf"))]. *)
Definition by_speed (x y : string * server_results) : bool :=
  GlobalPingRuns.xle
    (GlobalPingRuns.speed_key (avg_response_time (snd x)))
    (GlobalPingRuns.speed_key (avg_response_time (snd y))).

Definition is_value (o : option string) (v : string) : bool :=
  match o with
  | Some s => String.eqb s v
  | None => false
  end.

(** [{"name": name, **data}] for the first of a list, if there is one. *)
Definition first_of (l : list (string * server_results)) : option (string * server_results) :=
  match l with
  | [] => None
  | x :: _ => Some x
  end.

(** The best of the servers that pass a test: [None] when there is none,
    else the first after sorting them by reliability. *)
Definition best_of (test : string * server_results -> bool) (servers : list (string * server_results))
  : option (string * server_results) :=
  match filter test servers with
  | [] => None
  | chosen => first_of (Py.sorted by_reliability chosen)
  end.

Record recommendations : Type := {
  best_overall : option (string * server_results);
  best_for_speed : option (string * server_results);
  best_for_privacy : option (string * server_results);
  best_for_security : option (string * server_results);
  best_for_family : option (string * server_results);
  top_5 : list (string * server_results)
}.

(** [DNSAnalyzer.get_recommendations]. *)
Definition get_recommendations (probe : oracle)
  : Py.result recommendations :=
  results <- benchmark probe None None 2 ;;
  let servers := servers results in
  let by_speed := Py.sorted by_speed servers in
  let by_reliability := Py.sorted by_reliability servers in
  Py.Ok
    {| best_overall := first_of by_reliability;
       best_for_speed := first_of by_speed;
       best_for_privacy :=
         best_of (fun x => is_value (privacy (snd x)) "high") servers;
       best_for_security :=
         best_of (fun x => is_value (category (snd x)) "security") servers;
       best_for_family :=
         best_of (fun x => is_value (category (snd x)) "family") servers;
       top_5 := firstn 5 by_reliability |}.

End DNSAdvice.

(** ** The recommendations follow the ranking *)

Lemma find_filter {A : Type} (test : A -> bool) (l : list A) :
  find test l
  = match filter test l with
    | [] => None
    | x :: _ => Some x
    end.
Proof.
  induction l as [|x rest IH]; [reflexivity|].
  simpl. destruct (test x); [reflexivity | exact IH].
Qed.

Lemma ordered_filter {A : Type} (before : A -> A -> bool) (test : A -> bool)
    (l : list A) :
  ordered before l -> ordered before (filter test l).
Proof.
  induction l as [|x rest IH]; intros H; [exact I|].
  destruct H as [Hx Hrest]. simpl. destruct (test x).
  - split; [|apply IH, Hrest].
    intros y Hy. apply filter_In in Hy. apply Hx, Hy.
  - apply IH, Hrest.
Qed.

Lemma dns_benchmark_runs_twice (probe : DNSAnalyzer.oracle) :
  exists r, DNSAnalyzer.benchmark probe None None 2 = Py.Ok r.
Proof.
  destruct (benchmark_entry probe None None 2 "Cloudflare" "1.1.1.1"
              ltac:(discriminate) eq_refl) as (r & _ & Hr & _).
  exists r. exact Hr.
Qed.

Section DNSAdviceFacts.

Import DNSAnalyzer DNSAdvice.

Variable probe : oracle.

(** The best of a kind, in a ranking: the first server of the kind, which
    no server of the kind outscores. *)
Definition leads (test : string * server_results -> bool)
    (servers : list (string * server_results))
    (best : option (string * server_results)) : Prop :=
  exists x,
    best = Some x /\ find test servers = Some x /\
    In x servers /\ test x = true /\
    forall y, In y servers -> test y = true ->
              (reliability_score (snd y) <= reliability_score (snd x))%Z.

Lemma best_of_leads (test : string * server_results -> bool) (servers : list (string * server_results)) :
  ordered by_reliability servers ->
  (exists x, In x servers /\ test x = true) ->
  leads test servers (best_of test servers).
Proof.
  intros Hord (w & Hw & Htw). unfold best_of.
  pose proof (ordered_filter by_reliability test servers Hord) as Hf.
  assert (Hin : In w (filter test servers))
    by (apply filter_In; split; assumption).
  destruct (filter test servers) as [|x rest] eqn:E; [destruct Hin|].
  rewrite (sorted_of_ordered _ _ Hf). cbn [first_of].
  assert (Hx : In x (filter test servers)) by (rewrite E; left; reflexivity).
  apply filter_In in Hx. exists x. split; [reflexivity|].
  split; [rewrite find_filter, E; reflexivity|].
  split; [apply Hx|]. split; [apply Hx|].
  intros y Hy Hty.
  assert (Hy' : In y (x :: rest))
    by (rewrite <- E; apply filter_In; split; assumption).
  destruct Hf as [Hhead _]. destruct Hy' as [<-|Hy']; [lia|].
  specialize (Hhead y Hy'). unfold by_reliability in Hhead.
  apply Z.leb_le in Hhead. exact Hhead.
Qed.

Lemma catalog_entry (report : report) (name ip : string)
    (info : server_info) :
  benchmark probe None None 2 = Py.Ok report ->
  Dict.get name DNS_SERVERS = Some info ->
  Dict.get name (servers_to_test None) = Some ip ->
  exists entry,
    In (name, entry) (servers report) /\
    privacy entry = Some (info_privacy info) /\
    category entry = Some (info_category info).
Proof.
  intros Hrun Hget Hip.
  destruct (benchmark_entry probe None None 2 name ip
              ltac:(discriminate) Hip)
    as (report' & entry & Hrun' & Hin & Hentry).
  rewrite Hrun in Hrun'. injection Hrun' as <-.
  exists entry. split; [apply get_In, Hin|].
  unfold benchmark_server, summarize in Hentry. cbv zeta in Hentry.
  destruct (Z.eqb _ _) in Hentry; [discriminate Hentry|].
  assert (He : forall a b : server_results,
             @Py.Ok server_results a = Py.Ok b -> a = b)
    by (intros a b H; injection H; auto).
  apply He in Hentry. rewrite <- Hentry.
  cbn [privacy category]. rewrite Hget. split; reflexivity.
Qed.

(** The ranking of a report is in order and begins with its best
    server. *)
Lemma ranking_head (report : report) :
  benchmark probe None None 2 = Py.Ok report ->
  ordered by_reliability (servers report) /\
  List.length (servers report) = 12%nat /\
  exists name entry rest,
    servers report = (name, entry) :: rest /\
    best_server report = Some (name, Some entry).
Proof.
  intros Hrun.
  destruct (benchmark_results _ _ _ _ _ Hrun)
    as (results & Hres & Hs & Hbest & Htotal & _).
  assert (Hkeys : Dict.keys results = Dict.keys (servers_to_test None))
    by exact (run_servers_keys _ _ _ _ [] results
                (servers_to_test_NoDup None) Hres).
  assert (Hperm : Permutation (Dict.keys (servers report))
                    (Dict.keys (servers_to_test None))).
  { rewrite Hs, <- Hkeys. unfold Dict.keys. apply Permutation_map.
    apply sorted_perm. }
  assert (Hlen : List.length (servers report) = 12%nat).
  { rewrite <- (length_map fst). fold (Dict.keys (servers report)).
    rewrite (Permutation_length Hperm). reflexivity. }
  split; [rewrite Hs; apply sorted_ordered;
          [apply by_reliability_total | apply by_reliability_trans]|].
  split; [exact Hlen|].
  destruct (servers report) as [|[name entry] rest] eqn:E;
    [discriminate Hlen|].
  exists name, entry, rest. split; [reflexivity|].
  assert (Hname : name <> EmptyString).
  { apply (server_names_nonempty None).
    apply (Permutation_in _ Hperm). left. reflexivity. }
  rewrite Hbest. simpl. rewrite String.eqb_refl.
  apply String.eqb_neq in Hname. rewrite Hname. reflexivity.
Qed.

(** [get_recommendations] runs the benchmark with two iterations and
    reads its ranking: the best server overall is the best server of the
    report, the top five are the first five of the ranking, and the best
    server for privacy, for security and for the family is each the
    first of its kind in the ranking, which exists because the catalog
    has servers of each kind.  The best server for speed has the smallest
    positive average response time, if any server has one. *)
Theorem dns_recommendations_follow_ranking :
  exists report recs name entry,
    benchmark probe None None 2 = Py.Ok report /\
    get_recommendations probe = Py.Ok recs /\
    best_server report = Some (name, Some entry) /\
    best_overall recs = Some (name, entry) /\
    top_5 recs = firstn 5 (servers report) /\
    List.length (top_5 recs) = 5%nat /\
    leads (fun x => is_value (privacy (snd x)) "high") (servers report)
      (best_for_privacy recs) /\
    leads (fun x => is_value (category (snd x)) "security") (servers report)
      (best_for_security recs) /\
    leads (fun x => is_value (category (snd x)) "family") (servers report)
      (best_for_family recs) /\
    exists fastest,
      best_for_speed recs = Some fastest /\ In fastest (servers report) /\
      forall y, In y (servers report) ->
                0 < avg_response_time (snd y) ->
                0 < avg_response_time (snd fastest)
                  <= avg_response_time (snd y).
Proof.
  destruct (dns_benchmark_runs_twice probe) as [report Hrun].
  destruct (ranking_head report Hrun)
    as (Hord & Hlen & name & entry & rest & Hservers & Hbest).
  exists report. unfold get_recommendations. rewrite Hrun. cbn [Py.bind].
  rewrite (sorted_of_ordered by_reliability _ Hord).
  eexists. exists name, entry. split; [reflexivity|].
  split; [reflexivity|]. split; [exact Hbest|].
  cbn [best_overall top_5 best_for_privacy best_for_security best_for_family
       best_for_speed].
  split; [rewrite Hservers; reflexivity|]. split; [reflexivity|].
  split; [rewrite length_firstn, Hlen; reflexivity|].
  split.
  { apply best_of_leads; [exact Hord|].
    destruct (catalog_entry report "Cloudflare" "1.1.1.1" _ Hrun
                eq_refl eq_refl) as (e & Hin & Hp & _).
    exists ("Cloudflare"%string, e). split; [exact Hin|].
    simpl. rewrite Hp. reflexivity. }
  split.
  { apply best_of_leads; [exact Hord|].
    destruct (catalog_entry report "Quad9" "9.9.9.9" _ Hrun
                eq_refl eq_refl) as (e & Hin & _ & Hc).
    exists ("Quad9"%string, e). split; [exact Hin|].
    simpl. rewrite Hc. reflexivity. }
  split.
  { apply best_of_leads; [exact Hord|].
    destruct (catalog_entry report "Cloudflare Family" "1.1.1.3" _ Hrun
                eq_refl eq_refl) as (e & Hin & _ & Hc).
    exists ("Cloudflare Family"%string, e). split; [exact Hin|].
    simpl. rewrite Hc. reflexivity. }
  assert (Htot : forall x y : string * server_results,
             DNSAdvice.by_speed x y = true \/ DNSAdvice.by_speed y x = true)
    by (intros x y; apply xle_total).
  assert (Htrans : forall x y z : string * server_results,
             DNSAdvice.by_speed x y = true -> DNSAdvice.by_speed y z = true ->
             DNSAdvice.by_speed x z = true)
    by (intros x y z; apply xle_trans).
  destruct (Py.sorted DNSAdvice.by_speed (servers report))
    as [|fastest others] eqn:E.
  { exfalso. pose proof (sorted_length DNSAdvice.by_speed (servers report))
      as Hl. rewrite E, Hlen in Hl. discriminate Hl. }
  exists fastest. split; [reflexivity|]. split.
  { apply (sorted_In DNSAdvice.by_speed). rewrite E. left. reflexivity. }
  intros y Hy Hpos.
  pose proof (sorted_head DNSAdvice.by_speed Htot Htrans _ _ _ E y Hy) as Hh.
  unfold DNSAdvice.by_speed, GlobalPingRuns.speed_key in Hh.
  assert (Hq : Py.Qltb 0 (avg_response_time (snd y)) = true).
  { unfold Py.Qltb. apply negb_true_iff.
    destruct (Qle_bool (avg_response_time (snd y)) 0) eqn:E';
      [|reflexivity].
    apply Qle_bool_iff in E'. lra. }
  rewrite Hq in Hh.
  destruct (Py.Qltb 0 (avg_response_time (snd fastest))) eqn:Hq';
    [|discriminate Hh].
  apply Qltb_true in Hq'. simpl in Hh. apply Qle_bool_iff in Hh.
  split; assumption.
Qed.

End DNSAdviceFacts.

(** * The best location for a deployment *)

Module BestLocation.

Import GlobalPingTester GlobalPingRuns.

(** [data.get("provider", "Unknown")]. *)
Definition provider_of (r : region_result) : string :=
  match r with
  | RegionTested stats => stats_provider stats
  | RegionNotFound _ => "Unknown"
  end.

(** The first loop: every region is appended to the list of its provider,
    which is made when the provider is seen for the first time. *)
Definition group (regions : Dict.t region_result)
  : Dict.t (list (string * region_result)) :=
  fold_left
    (fun by_provider '(name, data) =>
       let provider := provider_of data in
       let sofar :=
         match Dict.get provider by_provider with
         | Some l => l
         | None => []
         end in
       Dict.set provider (sofar ++ [(name, data)]) by_provider)
    regions [].

(** The second loop: the list of every provider is sorted by the average
    latency, which has to be there in each of its items. *)
Fixpoint sort_groups (groups : Dict.t (list (string * region_result)))
  : outcome (Dict.t (list (string * region_result))) :=
  match groups with
  | [] => inr []
  | (provider, l) :: rest =>
      match decorate l with
      | inl f => inl f
      | inr keyed =>
          match sort_groups rest with
          | inl f => inl f
          | inr others =>
              inr ((provider, map snd (Py.sorted by_speed keyed)) :: others)
          end
      end
  end.

(** [regions[0] if regions else None]. *)
Definition first_of (l : list (string * region_result))
  : option (string * region_result) :=
  match l with
  | [] => None
  | x :: _ => Some x
  end.

Record recommendations : Type := {
  best_overall : option (string * option region_result);
  best_by_provider : Dict.t (option (string * region_result));
  top_5 : list (string * region_result)
}.

(** [GlobalPingTester.get_best_location]. *)
Definition get_best_location (self_timeout : Q) (self_iterations : Z)
    (probes : string -> oracle) : outcome recommendations :=
  match test_all_regions self_timeout self_iterations probes (Some 2%Z) with
  | inl f => inl f
  | inr results =>
      let regions := regions results in
      match sort_groups (group regions) with
      | inl f => inl f
      | inr by_provider =>
          inr {| best_overall := fastest_region results;
                 best_by_provider :=
                   map (fun '(provider, l) => (provider, first_of l))
                     by_provider;
                 top_5 := firstn 5 regions |}
      end
  end.

End BestLocation.

(** ** The best of every provider is its first region in the ranking *)

Lemma Forall_get {V : Type} (P : string * V -> Prop) (d : Dict.t V) :
  NoDup (Dict.keys d) ->
  (forall k v, Dict.get k d = Some v -> P (k, v)) ->
  Forall P d.
Proof.
  intros Hnd H. apply Forall_forall. intros [k v] Hin.
  apply H, In_get; assumption.
Qed.

Lemma get_map_values {V W : Type} (f : V -> W) (k : string) (d : Dict.t V) :
  Dict.get k (map (fun '(k', v) => (k', f v)) d)
  = option_map f (Dict.get k d).
Proof.
  induction d as [|[k' v] rest IH]; [reflexivity|].
  simpl. destruct (String.eqb k k'); [reflexivity | exact IH].
Qed.

Lemma ordered_map_filter {A B : Type} (before : B -> B -> bool) (g : A -> B)
    (test : A -> bool) (l : list A) :
  ordered before (map g l) -> ordered before (map g (filter test l)).
Proof.
  induction l as [|x rest IH]; intros H; [exact I|].
  destruct H as [Hx Hrest]. simpl. destruct (test x).
  - split; [|apply IH, Hrest].
    intros y Hy. apply Hx. apply in_map_iff in Hy.
    destruct Hy as (a & <- & Ha). apply filter_In in Ha.
    apply in_map, Ha.
  - apply IH, Hrest.
Qed.

Section BestLocationFacts.

Import GlobalPingTester GlobalPingRuns BestLocation.

(** The regions of a provider. *)
Definition of_provider (p : string) (item : string * region_result) : bool :=
  String.eqb (provider_of (snd item)) p.

(** What the first loop has made of the regions seen so far. *)
Definition grouped (seen : list (string * region_result))
    (by_provider : Dict.t (list (string * region_result))) : Prop :=
  forall p,
    Dict.get p by_provider
    = match filter (of_provider p) seen with
      | [] => None
      | l => Some l
      end.

Lemma by_provider_fold (regions seen : list (string * region_result))
    (by_provider : Dict.t (list (string * region_result))) :
  NoDup (Dict.keys by_provider) ->
  grouped seen by_provider ->
  let result :=
    fold_left
      (fun by_provider '(name, data) =>
         let provider := provider_of data in
         let sofar :=
           match Dict.get provider by_provider with
           | Some l => l
           | None => []
           end in
         Dict.set provider (sofar ++ [(name, data)]) by_provider)
      regions by_provider in
  NoDup (Dict.keys result) /\ grouped (seen ++ regions) result.
Proof.
  revert seen by_provider.
  induction regions as [|[name data] rest IH]; intros seen acc Hnd Hg.
  - simpl. rewrite app_nil_r. split; assumption.
  - cbn [fold_left]. cbv zeta.
    replace (seen ++ (name, data) :: rest)%list
      with ((seen ++ [(name, data)]) ++ rest)%list
      by (rewrite <- app_assoc; reflexivity).
    apply IH; [apply keys_set_NoDup, Hnd|].
    intros p. rewrite filter_app. cbn [filter].
    unfold of_provider at 2. cbn [snd].
    destruct (String.eqb_spec (provider_of data) p) as [Heq|Hne].
    + subst p. rewrite get_set_same. rewrite (Hg (provider_of data)).
      destruct (filter (of_provider (provider_of data)) seen);
        reflexivity.
    + rewrite get_set_other by congruence. rewrite app_nil_r. apply Hg.
Qed.

Lemma by_provider_spec (regions : list (string * region_result)) :
  NoDup (Dict.keys (group regions)) /\ grouped regions (group regions).
Proof.
  apply (by_provider_fold regions [] []); [constructor|].
  intros p. reflexivity.
Qed.

(** Sorting lists that are tested and in order changes nothing. *)
Lemma sort_groups_in_order
    (groups : Dict.t (list (string * region_result))) :
  Forall (fun g => Forall tested (snd g) /\
                   ordered by_speed (map keyed_region (snd g))) groups ->
  sort_groups groups = inr groups.
Proof.
  induction 1 as [|[p l] rest [Ht Ho] _ IH]; [reflexivity|].
  cbn [sort_groups]. cbn [snd] in Ht, Ho.
  rewrite (decorate_tested l Ht), IH.
  rewrite (sorted_of_ordered by_speed _ Ho), map_snd_keyed. reflexivity.
Qed.

Lemma catalog_providers :
  Forall (fun e => In (provider (snd e))
                     ["AWS"; "Cloudflare"; "Google"; "Microsoft"]%string)
    GLOBAL_ENDPOINTS.
Proof.
  unfold GLOBAL_ENDPOINTS.
  repeat (apply Forall_cons; [simpl; tauto|]). apply Forall_nil.
Qed.

Variables (self_timeout : Q) (self_iterations : Z)
  (probes : string -> oracle).

(** [get_best_location] returns when the tester's own number of
    iterations is not zero (it is 3).  The best location overall is the
    fastest region of the report of a run with two iterations, and the
    top five are the first five of its ranking.  Sorting the regions of
    a provider changes nothing, because the ranking is sorted by the same
    key: the best region of a provider is the first region of that
    provider in the ranking.  The providers with a best region are the
    four of the catalog. *)
Theorem best_location_follows_ranking :
  self_iterations <> 0%Z ->
  exists report recs,
    test_all_regions self_timeout self_iterations probes (Some 2%Z)
    = inr report /\
    get_best_location self_timeout self_iterations probes = inr recs /\
    best_overall recs = fastest_region report /\
    top_5 recs = firstn 5 (regions report) /\
    List.length (top_5 recs) = 5%nat /\
    (forall p,
       Dict.get p (best_by_provider recs)
       = option_map Some (find (of_provider p) (regions report))) /\
    (forall p,
       Dict.get p (best_by_provider recs) <> None <->
       In p ["AWS"; "Cloudflare"; "Google"; "Microsoft"]%string).
Proof.
  intros Hnz.
  destruct (region_ranking_facts self_timeout self_iterations probes Hnz
              (Some 2%Z))
    as (report & Hrun & Hit & Hperm & _ & Hall & Hord & _).
  exists report. unfold get_best_location. rewrite Hrun. cbv zeta.
  destruct (by_provider_spec (regions report)) as [Hnd Hg].
  assert (Htested : Forall tested (regions report)).
  { eapply Forall_impl; [|exact Hall]. apply region_entry_tested. }
  rewrite sort_groups_in_order.
  2:{ apply Forall_get; [exact Hnd|]. intros p l Hget. cbn [snd].
      rewrite Hg in Hget.
      assert (Hl : l = filter (of_provider p) (regions report)).
      { destruct (filter (of_provider p) (regions report));
          [discriminate Hget | injection Hget as <-; reflexivity]. }
      subst l. split.
      - apply Forall_forall. intros x Hx. apply filter_In in Hx.
        rewrite Forall_forall in Htested. apply Htested, Hx.
      - apply ordered_map_filter, Hord. }
  eexists. split; [reflexivity|]. split; [reflexivity|].
  cbn [best_overall top_5 best_by_provider].
  split; [reflexivity|]. split; [reflexivity|].
  assert (Hbest : forall p,
             Dict.get p
               (map (fun '(provider, l) => (provider, first_of l))
                  (group (regions report)))
             = option_map Some (find (of_provider p) (regions report))).
  { intros p. rewrite (get_map_values first_of), Hg, find_filter.
    destruct (filter (of_provider p) (regions report)); reflexivity. }
  split.
  { rewrite length_firstn.
    rewrite <- (length_map fst (regions report)).
    fold (Dict.keys (regions report)).
    rewrite (Permutation_length Hperm). reflexivity. }
  split; [exact Hbest|].
  intros p. rewrite Hbest. split.
  - intros Hfound.
    destruct (find (of_provider p) (regions report)) as [item|] eqn:E;
      [|contradiction Hfound; reflexivity].
    apply find_some in E. destruct E as [Hin Hp].
    rewrite Forall_forall in Hall.
    destruct (Hall item Hin) as (stats & e & Hs & Hget & _ & _ & Hprov & _).
    unfold of_provider, provider_of in Hp. rewrite Hs in Hp.
    apply String.eqb_eq in Hp. rewrite <- Hp, Hprov.
    pose proof catalog_providers as Hc. rewrite Forall_forall in Hc.
    apply (Hc (fst item, e)), get_In, Hget.
  - intros Hp.
    assert (Hname : exists name e,
               Dict.get name GLOBAL_ENDPOINTS = Some e /\ provider e = p).
    { destruct Hp as [<-|[<-|[<-|[<-|[]]]]].
      - exists "US East (Virginia)"%string. eexists.
        split; reflexivity.
      - exists "Cloudflare"%string. eexists. split; reflexivity.
      - exists "Google DNS"%string. eexists. split; reflexivity.
      - exists "Microsoft Azure"%string. eexists. split; reflexivity. }
    destruct Hname as (name & e & Hget & He).
    assert (Hkey : In name (Dict.keys (regions report))).
    { apply (Permutation_in _ (Permutation_sym Hperm)).
      change name with (fst (name, e)). apply in_map, get_In, Hget. }
    apply in_map_iff in Hkey. destruct Hkey as (item & Hfst & Hin).
    rewrite Forall_forall in Hall.
    destruct (Hall item Hin)
      as (stats & e' & Hs & Hget' & _ & _ & Hprov & _).
    rewrite Hfst, Hget in Hget'. injection Hget' as <-.
    destruct (find (of_provider p) (regions report)) eqn:E;
      [discriminate|].
    exfalso. apply (find_none _ _ E) in Hin.
    unfold of_provider, provider_of in Hin. rewrite Hs, Hprov, He in Hin.
    rewrite String.eqb_refl in Hin. discriminate Hin.
Qed.

End BestLocationFacts.

Lemma best_location_follows_ranking_witness :
  exists recs,
    BestLocation.get_best_location 10 3 tokyo_is_near = inr recs /\
    List.length (BestLocation.top_5 recs) = 5%nat.
Proof.
  destruct (best_location_follows_ranking 10 3 tokyo_is_near
              ltac:(discriminate))
    as (report & recs & _ & Hrun & _ & _ & Hlen & _).
  exists recs. split; [exact Hrun | exact Hlen].
Defined.

(** * Runs and responses outside the stated cases *)

(** ** Answers that are not well formed for the parser *)

(** An answer whose A record announces four bytes of data and is cut off
    after two. *)
Definition short_address : DNSWire.bytes :=
  map octet
    [18; 52; 129; 128; 0; 1; 0; 1; 0; 0; 0; 0;
     3; 119; 119; 119; 0; 0; 1; 0; 1;
     192; 12; 0; 1; 0; 1; 0; 0; 0; 9; 0; 4; 1; 2]%N.

(** An answer whose owner name is a label followed by a compression
    pointer, the usual form of a compressed name, with an A record of
    four bytes. *)
Definition label_then_pointer : DNSWire.bytes :=
  map octet
    [18; 52; 129; 128; 0; 1; 0; 1; 0; 0; 0; 0;
     3; 119; 119; 119; 0; 0; 1; 0; 1;
     3; 119; 119; 119; 192; 12; 0; 1; 0; 1; 0; 0; 0; 9; 0; 4;
     93; 184; 216; 34]%N.

(** On the first the parser returns a value of two numbers, on the second
    the empty string although the A record is there; the probe reports
    both as a success. *)
Lemma parsed_value_of_irregular_answers :
  let r1 := DNSAnalyzer.test_dns_server
              (DNSAnalyzer.Finished (DNSAnalyzer.Received short_address) 12)
              5 in
  let r2 := DNSAnalyzer.test_dns_server
              (DNSAnalyzer.Finished (DNSAnalyzer.Received label_then_pointer)
                 12) 5 in
  DNSWire._parse_dns_response short_address = Py.Ok "1.2"%string /\
  DNSAnalyzer.success r1 = true /\
  DNSAnalyzer.resolved_ip r1 = "1.2"%string /\
  DNSWire._parse_dns_response label_then_pointer = Py.Ok EmptyString /\
  DNSAnalyzer.success r2 = true /\
  DNSAnalyzer.resolved_ip r2 = EmptyString.
Proof. cbv zeta. repeat split. Qed.

(** ** Runners whose failed runs have no aggregate of zeros *)

(** Every test of every host of the protocol benchmark fails; the TCP
    connects run into the timeout. *)
Definition all_protocols_fail : nat -> ProtocolBenchmark.host_outcome :=
  fun _ =>
    {| ProtocolBenchmark.http_get :=
         ProtocolBenchmark.Failed (Py.OSError "timed out");
       ProtocolBenchmark.https_get :=
         ProtocolBenchmark.Failed (Py.OSError "timed out");
       ProtocolBenchmark.tls12 :=
         ProtocolBenchmark.Broken (Py.OSError "timed out");
       ProtocolBenchmark.tls12_elapsed := 10000;
       ProtocolBenchmark.tls13 :=
         ProtocolBenchmark.Broken (Py.OSError "timed out");
       ProtocolBenchmark.tls13_elapsed := 10000;
       ProtocolBenchmark.tcp_connect := ProtocolBenchmark.TimedOut |}.

(** C4 does not hold of every runner.  In the protocol benchmark, when
    every test fails and every TCP connect carries [timeout * 1000] ms,
    the entries of the summary have an average and a success rate of 0
    but neither a minimum nor a maximum, and no score is derived; and
    [test_custom_endpoint], when every ping runs into the timeout,
    returns the tests and an error and no aggregate at all. *)
Lemma all_failed_run_without_zero_aggregate :
  (exists report,
     ProtocolBenchmark.benchmark 10 all_protocols_fail None = Py.Ok report /\
     Forall (fun r => ProtocolBenchmark.c_success r = false /\
                      ProtocolBenchmark.c_connection_time_ms r == 10 * 1000)
       (ProtocolBenchmark.tcp report) /\
     Dict.keys (ProtocolBenchmark.summary report)
     = ["http"; "https"; "tls_1_2"; "tls_1_3"; "tcp"]%string /\
     Forall (fun kv =>
               ProtocolBenchmark.success_rate (snd kv) == 0 /\
               ProtocolBenchmark.avg_time_ms (snd kv) == 0 /\
               ProtocolBenchmark.min_time_ms (snd kv) = None /\
               ProtocolBenchmark.max_time_ms (snd kv) = None)
       (ProtocolBenchmark.summary report)) /\
  (exists tests,
     GlobalPingRuns.test_custom_endpoint 10
       (fun _ => GlobalPingTester.TimedOut) "example.com" 3
     = Py.Ok (GlobalPingRuns.AllFailed "example.com" tests "All tests failed")
     /\
     List.length tests = 3%nat /\
     Forall (fun r => GlobalPingTester.success r = false /\
                      GlobalPingTester.latency_ms r == 10 * 1000) tests).
Proof.
  split.
  - eexists. split; [reflexivity|].
    split; [repeat constructor|].
    split; [reflexivity|]. repeat constructor.
  - eexists. split; [reflexivity|]. split; [reflexivity|].
    repeat constructor.
Qed.
